(** * Echoes of Elaria: combat engine, map generator and entity factory

    A shallow embedding of [src/js/game/combat.js] (class [Combat]),
    [src/unnamed/part_001] (class [MapGenerator]) and the [Entities] class of
    [src/js/game/persistence.js], followed by the properties of the
    specification that concern them.  Of the same file
    [src/js/game/persistence.js] the embedding also covers the version
    comparison of class [Persistence] and the run and meta-progression
    methods of class [GameEngine]; their properties come last.

    Conventions of the embedding.
    - A JavaScript number is a [num]: an exact rational or [NaN].  Binary64
      rounding and the two infinities are not represented; a division by zero
      (which JavaScript evaluates to an infinity or to NaN) reads [NaN] here,
      and every theorem that looks at the value of a quotient assumes the
      divisor is not zero.
    - A numeric property that an object does not have reads [undefined] in
      JavaScript.  Every use of such a property in the embedded code coerces
      it exactly as it would coerce NaN (arithmetic, comparison, [||]), so an
      absent numeric property is the field value [NaN].
    - [Math.random] is a stream [rnd : nat -> Q] read through a cursor kept in
      the state; the language guarantees [0 <= rnd i < 1].
    - Methods are computations in a state-and-exception monad: a [throw]
      keeps the mutations made before it, as in JavaScript.
    - Calls into the user interface, the console and the audio layer have no
      effect on the modelled state, except that [logMessage] appends to a
      log.  Presentation-only properties (icon, description, colour) are
      left out of the records.
    - [Date.now] is a stream [date : nat -> Z] read through a counter kept
      in the engine.
    - A lookup [object[key]] with a computed key is a lookup among the
      properties the object literal lists.  The names every object inherits
      from [Object.prototype] are taken not to be keys; a statement about a
      function that is handed a key, or that looks up a name it finds in
      the state, says so ([plainKey]). *)

From Stdlib Require Import ZArith QArith Qround Qpower List String Ascii Bool
  Lia Lqa.
Import ListNotations.

Set Implicit Arguments.

(* ================================================================== *)
(** ** JavaScript numbers *)

Inductive num : Type :=
| NaN
| Fin (q : Q).

Declare Scope js_scope.
Delimit Scope js_scope with js.
Bind Scope js_scope with num.
Open Scope string_scope.
Open Scope Q_scope.

Module JS.

Definition of_Z (z : Z) : num := Fin (inject_Z z).

Definition Qltb (x y : Q) : bool := negb (Qle_bool y x).

Definition add (a b : num) : num :=
    match a, b with Fin x, Fin y => Fin (x + y) | _, _ => NaN end.
Definition sub (a b : num) : num :=
    match a, b with Fin x, Fin y => Fin (x - y) | _, _ => NaN end.
Definition mul (a b : num) : num :=
    match a, b with Fin x, Fin y => Fin (x * y) | _, _ => NaN end.
Definition div (a b : num) : num :=
    match a, b with
    | Fin x, Fin y => if Qeq_bool y 0 then NaN else Fin (x / y)
    | _, _ => NaN
    end.

  (** Comparisons: any comparison with NaN is false. *)
Definition lt (a b : num) : bool :=
    match a, b with Fin x, Fin y => Qltb x y | _, _ => false end.
Definition le (a b : num) : bool :=
    match a, b with Fin x, Fin y => Qle_bool x y | _, _ => false end.
Definition gt (a b : num) : bool := lt b a.
Definition ge (a b : num) : bool := le b a.

  (** [Math.floor], [Math.max], [Math.min]: NaN is contagious. *)
Definition floor (a : num) : num :=
    match a with Fin x => of_Z (Qfloor x) | NaN => NaN end.
Definition max (a b : num) : num :=
    match a, b with
    | Fin x, Fin y => if Qle_bool x y then Fin y else Fin x
    | _, _ => NaN
    end.
Definition min (a b : num) : num :=
    match a, b with
    | Fin x, Fin y => if Qle_bool x y then Fin x else Fin y
    | _, _ => NaN
    end.

  (** Truthiness of a number and the idiom [a || d]. *)
Definition truthy (a : num) : bool :=
    match a with Fin x => negb (Qeq_bool x 0) | NaN => false end.
Definition or_else (a d : num) : num := if truthy a then a else d.

Definition is_nan (a : num) : bool :=
    match a with NaN => true | Fin _ => false end.

  (** [String.prototype.toLowerCase] on ASCII text. *)
Definition lower_ascii (c : ascii) : ascii :=
    let n := nat_of_ascii c in
    if (65 <=? n)%nat && (n <=? 90)%nat then ascii_of_nat (n + 32) else c.
Fixpoint toLowerCase (s : string) : string :=
    match s with
    | EmptyString => EmptyString
    | String c r => String (lower_ascii c) (toLowerCase r)
    end.

  (** [String.prototype.includes]. *)
Fixpoint prefix (p s : string) : bool :=
    match p, s with
    | EmptyString, _ => true
    | String a p', String b s' => Ascii.eqb a b && prefix p' s'
    | String _ _, EmptyString => false
    end.
Fixpoint includes (s p : string) : bool :=
    prefix p s ||
    match s with
    | EmptyString => false
    | String _ s' => includes s' p
    end.

End JS.

Infix "+" := JS.add : js_scope.
Infix "-" := JS.sub : js_scope.
Infix "*" := JS.mul : js_scope.
Infix "/" := JS.div : js_scope.
Infix "<?" := JS.lt : js_scope.
Infix "<=?" := JS.le : js_scope.
Infix ">?" := JS.gt : js_scope.
Infix ">=?" := JS.ge : js_scope.
Infix "||" := JS.or_else : js_scope.

(** Numeric literal of the source, as a number. *)
Definition lit (q : Q) : num := Fin q.
Coercion lit : Q >-> num.

(* ================================================================== *)
(** ** The state-and-exception monad *)

Inductive outcome (A : Type) : Type :=
| Ret (a : A)
| Throw (e : string)
| Timeout.
Arguments Ret {A} a.
Arguments Throw {A} e.
Arguments Timeout {A}.

Definition M (S A : Type) : Type := S -> outcome A * S.

Definition ret {S A} (a : A) : M S A := fun s => (Ret a, s).
Definition throw {S A} (e : string) : M S A := fun s => (Throw e, s).
Definition timeout {S A} : M S A := fun s => (Timeout, s).
Definition bind {S A B} (m : M S A) (k : A -> M S B) : M S B :=
  fun s =>
    match m s with
    | (Ret a, s') => k a s'
    | (Throw e, s') => (Throw e, s')
    | (Timeout, s') => (Timeout, s')
    end.
Definition gets {S A} (f : S -> A) : M S A := fun s => (Ret (f s), s).
Definition modify {S} (f : S -> S) : M S unit := fun s => (Ret tt, f s).

(** [try { m } catch (error) { h }]. *)
Definition try_catch {S A} (m : M S A) (h : string -> M S A) : M S A :=
  fun s =>
    match m s with
    | (Throw e, s') => h e s'
    | r => r
    end.

Declare Scope monad_scope.
Delimit Scope monad_scope with monad.
Notation "x <- c1 ;; c2" := (bind c1 (fun x => c2))
  (at level 61, c1 at next level, right associativity) : monad_scope.
Notation "c1 ;; c2" := (bind c1 (fun _ => c2))
  (at level 61, right associativity) : monad_scope.
Notation "' pat <- c1 ;; c2" := (bind c1 (fun x => match x with pat => c2 end))
  (at level 61, pat pattern, c1 at next level, right associativity) : monad_scope.

Definition when {S} (b : bool) (m : M S unit) : M S unit :=
  if b then m else ret tt.

(** [array.forEach(f)]. *)
Fixpoint forEach {S A} (l : list A) (f : A -> M S unit) : M S unit :=
  match l with
  | [] => ret tt
  | x :: r => bind (f x) (fun _ => forEach r f)
  end.

(** The message of the TypeError raised by a property access on [null] or
    [undefined]. *)
Definition TypeError : string := "TypeError".

(* ================================================================== *)
(** ** The random source *)

(** A state that carries the cursor of [Math.random]. *)
Class HasRng (S : Type) : Type := {
  rng : S -> nat;
  set_rng : nat -> S -> S
}.

Section Random.
Variable rnd : nat -> Q.
Context {S : Type} `{HasRng S}.

  (** [Math.random()]. *)
Definition random : M S Q :=
    fun s => (Ret (rnd (rng s)), set_rng (Datatypes.S (rng s)) s).

  (** [Math.floor(Math.random() * (max - min + 1)) + min]. *)
Definition randomInt (min max : Z) : M S Z :=
    bind random (fun r =>
      ret (Qfloor (r * inject_Z (max - min + 1)) + min)%Z).

  (** [Math.random() * (max - min) + min]. *)
Definition randomFloat (min max : Q) : M S Q :=
    bind random (fun r => ret (r * (max - min) + min)%Q).

  (** [array[Math.floor(Math.random() * array.length)]]; [None] is
      [undefined]. *)
Definition index_of_draw (r : Q) (len : nat) : Z :=
    Qfloor (r * inject_Z (Z.of_nat len)).
Definition at_index {A} (l : list A) (i : Z) : option A :=
    if (i <? 0)%Z then None else nth_error l (Z.to_nat i).
Definition randomChoice {A} (array : list A) : M S (option A) :=
    bind random (fun r => ret (at_index array (index_of_draw r (List.length array)))).
End Random.

#[global] Instance nat_rng : HasRng nat := {| rng := fun n => n; set_rng := fun n _ => n |}.

(** Lookup in an object literal used as a table, keys in source order. *)
Fixpoint assoc {A} (k : string) (l : list (string * A)) : option A :=
  match l with
  | [] => None
  | (k', v) :: r => if String.eqb k k' then Some v else assoc k r
  end.

(* ================================================================== *)
(** ** Skills *)

Module Effect.
(** One entry of a skill's [statusEffects] array. *)
Record spec : Type := {
  type : string;
  duration : num;
  chance : num
}.
End Effect.

Module Skill.
Record t : Type := {
  name : string;
  manaCost : num;
  cooldown : num;
  currentCooldown : num;
  damage : num;
  healing : num;
  type : string;
  scalingFactor : num;
  criticalChance : num;
  criticalMultiplier : num;
  accuracy : num;
  statusEffects : list Effect.spec;
  level : num;
  unlocked : bool;
  requiredLevel : num
}.

Definition set_currentCooldown (v : num) (s : t) : t :=
  {| name := name s; manaCost := manaCost s; cooldown := cooldown s;
     currentCooldown := v; damage := damage s; healing := healing s;
     type := type s; scalingFactor := scalingFactor s;
     criticalChance := criticalChance s;
     criticalMultiplier := criticalMultiplier s; accuracy := accuracy s;
     statusEffects := statusEffects s; level := level s;
     unlocked := unlocked s; requiredLevel := requiredLevel s |}.

Definition set_unlocked (v : bool) (s : t) : t :=
  {| name := name s; manaCost := manaCost s; cooldown := cooldown s;
     currentCooldown := currentCooldown s; damage := damage s;
     healing := healing s; type := type s; scalingFactor := scalingFactor s;
     criticalChance := criticalChance s;
     criticalMultiplier := criticalMultiplier s; accuracy := accuracy s;
     statusEffects := statusEffects s; level := level s;
     unlocked := v; requiredLevel := requiredLevel s |}.

(** A skill literal: the properties the literal does not list are absent. *)
Definition literal (name : string) (manaCost cooldown damage healing : num)
    (type : string) (scalingFactor criticalChance accuracy : num)
    (statusEffects : list Effect.spec) : t :=
  {| name := name; manaCost := manaCost; cooldown := cooldown;
     currentCooldown := NaN; damage := damage; healing := healing;
     type := type; scalingFactor := scalingFactor;
     criticalChance := criticalChance; criticalMultiplier := NaN;
     accuracy := accuracy; statusEffects := statusEffects; level := NaN;
     unlocked := false; requiredLevel := NaN |}.
End Skill.

(* ================================================================== *)
(** ** Entities (persistence.js, class [Entities]) *)

Module Entities.

Module Stats.
Record t (A : Type) : Type := {
  strength : A;
  agility : A;
  intelligence : A;
  vitality : A
}.
End Stats.

Record ClassTemplate : Type := {
  ct_name : string;
  ct_baseStats : Stats.t Z;
  ct_growthRates : Stats.t Q;
  baseHealth : Z;
  baseMana : Z;
  healthPerLevel : Z;
  manaPerLevel : Z;
  ct_skills : list string
}.

Definition stats {A} (s a i v : A) : Stats.t A :=
  {| Stats.strength := s; Stats.agility := a;
     Stats.intelligence := i; Stats.vitality := v |}.

Definition classTemplates : list (string * ClassTemplate) :=
  [ ("warrior",
     {| ct_name := "Warrior";
        ct_baseStats := stats 15%Z 8%Z 5%Z 12%Z;
        ct_growthRates := stats 2.5 1.2 0.8 2.0;
        baseHealth := 100; baseMana := 30;
        healthPerLevel := 15; manaPerLevel := 3;
        ct_skills := ["slash"; "shield_bash"; "defensive_stance"; "charge";
                      "whirlwind"; "taunt"; "berserker_rage";
                      "guardian_strike"] |});
    ("mage",
     {| ct_name := "Mage";
        ct_baseStats := stats 5%Z 7%Z 15%Z 8%Z;
        ct_growthRates := stats 0.8 1.5 2.8 1.2;
        baseHealth := 60; baseMana := 80;
        healthPerLevel := 8; manaPerLevel := 12;
        ct_skills := ["magic_missile"; "fireball"; "ice_shard";
                      "lightning_bolt"; "meteor"; "teleport"; "mana_shield";
                      "elemental_mastery"] |});
    ("rogue",
     {| ct_name := "Rogue";
        ct_baseStats := stats 10%Z 15%Z 8%Z 7%Z;
        ct_growthRates := stats 1.8 2.5 1.3 1.0;
        baseHealth := 70; baseMana := 50;
        healthPerLevel := 10; manaPerLevel := 7;
        ct_skills := ["backstab"; "poison_blade"; "stealth"; "throwing_knife";
                      "shadow_step"; "evasion"; "assassinate";
                      "smoke_bomb"] |});
    ("healer",
     {| ct_name := "Healer";
        ct_baseStats := stats 6%Z 9%Z 12%Z 13%Z;
        ct_growthRates := stats 1.0 1.5 2.2 2.3;
        baseHealth := 80; baseMana := 70;
        healthPerLevel := 12; manaPerLevel := 10;
        ct_skills := ["heal"; "greater_heal"; "blessing"; "purify";
                      "divine_shield"; "resurrection"; "holy_light";
                      "sanctuary"] |}) ].

Definition eff (type : string) (duration chance : Q) : Effect.spec :=
  {| Effect.type := type; Effect.duration := duration;
     Effect.chance := chance |}.

(** [skillTemplates]; the columns are name, manaCost, cooldown, damage,
    healing, type, scalingFactor, criticalChance, accuracy, statusEffects. *)
Definition skillTemplates : list (string * Skill.t) :=
  let s := Skill.literal in
  [ (* Warrior *)
    ("slash", s "Slash" 0 0 25 NaN "physical" 1.2 0.15 0.95 []);
    ("shield_bash", s "Shield Bash" 10 2 15 NaN "physical" 0.8 NaN 0.9
        [eff "stunned" 1 0.3]);
    ("defensive_stance", s "Defensive Stance" 15 4 0 NaN "buff" NaN NaN NaN
        [eff "defense_boost" 3 1.0]);
    ("charge", s "Charge" 20 3 40 NaN "physical" 1.5 0.25 0.85 []);
    ("whirlwind", s "Whirlwind" 25 4 30 NaN "physical" 1.0 NaN 0.9 []);
    ("taunt", s "Taunt" 5 2 0 NaN "debuff" NaN NaN NaN
        [eff "taunted" 2 0.8]);
    ("berserker_rage", s "Berserker Rage" 30 6 0 NaN "buff" NaN NaN NaN
        [eff "strength_boost" 4 1.0; eff "defense_weakness" 4 1.0]);
    ("guardian_strike", s "Guardian Strike" 35 5 35 20 "physical" 1.3 0.2 NaN
        []);
    (* Mage *)
    ("magic_missile", s "Magic Missile" 8 0 20 NaN "magic" 1.5 NaN 0.98 []);
    ("fireball", s "Fireball" 20 2 35 NaN "magic" 1.8 NaN NaN
        [eff "burning" 2 0.4]);
    ("ice_shard", s "Ice Shard" 15 1 25 NaN "magic" 1.4 NaN NaN
        [eff "slow" 2 0.5]);
    ("lightning_bolt", s "Lightning Bolt" 25 3 40 NaN "magic" 1.6 0.3 1.0 []);
    ("meteor", s "Meteor" 45 6 60 NaN "magic" 2.0 NaN 0.8 []);
    ("teleport", s "Teleport" 20 4 0 NaN "utility" NaN NaN NaN
        [eff "evasion_boost" 2 1.0]);
    ("mana_shield", s "Mana Shield" 30 5 0 NaN "buff" NaN NaN NaN
        [eff "mana_shield" 4 1.0]);
    ("elemental_mastery", s "Elemental Mastery" 40 7 0 NaN "buff" NaN NaN NaN
        [eff "elemental_boost" 5 1.0]);
    (* Rogue *)
    ("backstab", s "Backstab" 10 1 20 NaN "physical" 1.3 0.5 0.9 []);
    ("poison_blade", s "Poison Blade" 15 2 18 NaN "physical" 1.0 NaN NaN
        [eff "poison" 4 0.8]);
    ("stealth", s "Stealth" 20 4 0 NaN "buff" NaN NaN NaN
        [eff "stealth" 3 1.0]);
    ("throwing_knife", s "Throwing Knife" 12 1 22 NaN "ranged" 1.1 NaN 0.95
        [eff "bleeding" 3 0.6]);
    ("shadow_step", s "Shadow Step" 25 3 30 NaN "physical" 1.4 0.3 1.0 []);
    ("evasion", s "Evasion" 18 3 0 NaN "buff" NaN NaN NaN
        [eff "speed_boost" 3 1.0]);
    ("assassinate", s "Assassinate" 40 6 80 NaN "physical" 2.0 0.7 0.8 []);
    ("smoke_bomb", s "Smoke Bomb" 30 5 0 NaN "debuff" NaN NaN NaN
        [eff "blinded" 2 0.9; eff "stealth" 2 1.0]);
    (* Healer *)
    ("heal", s "Heal" 15 0 0 35 "magic" 1.5 NaN NaN []);
    ("greater_heal", s "Greater Heal" 30 2 0 70 "magic" 2.0 NaN NaN []);
    ("blessing", s "Blessing" 25 4 0 NaN "buff" NaN NaN NaN
        [eff "blessed" 4 1.0]);
    ("purify", s "Purify" 20 3 0 NaN "utility" NaN NaN NaN
        [eff "purified" 1 1.0]);
    ("divine_shield", s "Divine Shield" 40 6 0 NaN "buff" NaN NaN NaN
        [eff "divine_shield" 2 1.0]);
    ("resurrection", s "Resurrection" 50 10 0 NaN "utility" NaN NaN NaN
        [eff "resurrection" 10 1.0]);
    ("holy_light", s "Holy Light" 35 4 50 25 "magic" 1.8 NaN NaN []);
    ("sanctuary", s "Sanctuary" 45 7 0 15 "magic" NaN NaN NaN
        [eff "regeneration" 5 1.0]) ].

(** [factionBonuses]: of a faction's bonuses only [defenseBonus] is read. *)
Record FactionBonuses : Type := {
  fb_name : string;
  defenseBonus : num
}.

Definition factionBonuses : list (string * FactionBonuses) :=
  [ ("order", {| fb_name := "Order of Light"; defenseBonus := 1.15 |});
    ("shadow", {| fb_name := "Shadow Guild"; defenseBonus := NaN |});
    ("nature", {| fb_name := "Nature's Circle"; defenseBonus := NaN |}) ].

(** A character object.  Its numbers are integers: every site that writes
    one floors its operand or adds integers. *)
Record Character : Type := {
  name : string;
  className : string;
  faction : string;
  level : Z;
  experience : Z;
  experienceToNext : Z;
  baseStats : Stats.t Z;
  strength : Z;
  agility : Z;
  intelligence : Z;
  vitality : Z;
  maxHealth : Z;
  maxMana : Z;
  attack : Z;
  defense : Z;
  speed : Z;
  hp : Z;
  mana : Z;
  skills : list Skill.t;
  growthRates : Stats.t Q;
  charFactionBonuses : option FactionBonuses
}.

(** [Math.floor(z * q)] for an integer [z]. *)
Definition floor_mul (z : Z) (q : Q) : Z := Qfloor (inject_Z z * q).

(** [createCharacterSkills]: the class template is known to exist here. *)
Definition createCharacterSkills (classTemplate : ClassTemplate)
  : list Skill.t :=
  flat_map
    (fun skillName =>
       match assoc skillName skillTemplates with
       | Some skillTemplate =>
           [ {| Skill.name := Skill.name skillTemplate;
                Skill.manaCost := Skill.manaCost skillTemplate;
                Skill.cooldown := Skill.cooldown skillTemplate;
                Skill.currentCooldown := 0;
                Skill.damage := Skill.damage skillTemplate;
                Skill.healing := Skill.healing skillTemplate;
                Skill.type := Skill.type skillTemplate;
                Skill.scalingFactor := Skill.scalingFactor skillTemplate;
                Skill.criticalChance := Skill.criticalChance skillTemplate;
                Skill.criticalMultiplier :=
                  Skill.criticalMultiplier skillTemplate;
                Skill.accuracy := Skill.accuracy skillTemplate;
                Skill.statusEffects := Skill.statusEffects skillTemplate;
                Skill.level := 1;
                Skill.unlocked := true;
                Skill.requiredLevel := Skill.requiredLevel skillTemplate |} ]
       | None => []
       end)
    (ct_skills classTemplate).

(** [applyFactionBonuses]. *)
Definition scaled_defense (defense : Z) (bonus : num) : Z :=
  match bonus with
  | Fin q => if JS.truthy bonus then floor_mul defense q else defense
  | NaN => defense
  end.

Definition with_faction (c : Character) (fb : option FactionBonuses)
    (defense' : Z) : Character :=
  {| name := name c; className := className c; faction := faction c;
     level := level c; experience := experience c;
     experienceToNext := experienceToNext c; baseStats := baseStats c;
     strength := strength c; agility := agility c;
     intelligence := intelligence c; vitality := vitality c;
     maxHealth := maxHealth c; maxMana := maxMana c; attack := attack c;
     defense := defense'; speed := speed c; hp := hp c; mana := mana c;
     skills := skills c; growthRates := growthRates c;
     charFactionBonuses := fb |}.

Definition applyFactionBonuses (character : Character) (factionName : string)
  : Character :=
  match assoc factionName factionBonuses with
  | None => character
  | Some faction_ =>
      with_faction character (Some faction_)
        (scaled_defense (defense character) (defenseBonus faction_))
  end.

(** [createCharacter]; an unknown class throws. *)
Definition createCharacter (className factionName : string)
  : outcome Character :=
  match assoc className classTemplates with
  | None => Throw ("Unknown class: " ++ className)
  | Some classTemplate =>
      let b := ct_baseStats classTemplate in
      let maxHealth := (baseHealth classTemplate + Stats.vitality b * 5)%Z in
      let maxMana := (baseMana classTemplate + Stats.intelligence b * 3)%Z in
      Ret (applyFactionBonuses
             {| name := ct_name classTemplate;
                className := className;
                faction := factionName;
                level := 1;
                experience := 0;
                experienceToNext := 100;
                baseStats := b;
                strength := Stats.strength b;
                agility := Stats.agility b;
                intelligence := Stats.intelligence b;
                vitality := Stats.vitality b;
                maxHealth := maxHealth;
                maxMana := maxMana;
                attack := Stats.strength b;
                defense := floor_mul (Stats.vitality b) 0.8;
                speed := Stats.agility b;
                hp := maxHealth;
                mana := maxMana;
                skills := createCharacterSkills classTemplate;
                growthRates := ct_growthRates classTemplate;
                charFactionBonuses := None |}
             factionName)
  end.

(** The state of the leveling code: the character object being mutated and
    the cursor of the random source. *)
Record World : Type := {
  subject : Character;
  cursor : nat
}.

#[global] Instance World_rng : HasRng World :=
  {| rng := cursor;
     set_rng := fun n w => {| subject := subject w; cursor := n |} |}.

Definition update (f : Character -> Character) : M World unit :=
  modify (fun w => {| subject := f (subject w); cursor := cursor w |}).

(** Field updates of [levelUpCharacter], grouped as the code groups them. *)
Definition with_progress (level' experience' experienceToNext' : Z)
    (c : Character) : Character :=
  {| name := name c; className := className c; faction := faction c;
     level := level'; experience := experience';
     experienceToNext := experienceToNext'; baseStats := baseStats c;
     strength := strength c; agility := agility c;
     intelligence := intelligence c; vitality := vitality c;
     maxHealth := maxHealth c; maxMana := maxMana c; attack := attack c;
     defense := defense c; speed := speed c; hp := hp c; mana := mana c;
     skills := skills c; growthRates := growthRates c;
     charFactionBonuses := charFactionBonuses c |}.

Definition with_stats (baseStats' : Stats.t Z) (s a i v : Z)
    (c : Character) : Character :=
  {| name := name c; className := className c; faction := faction c;
     level := level c; experience := experience c;
     experienceToNext := experienceToNext c; baseStats := baseStats';
     strength := s; agility := a; intelligence := i; vitality := v;
     maxHealth := maxHealth c; maxMana := maxMana c; attack := attack c;
     defense := defense c; speed := speed c; hp := hp c; mana := mana c;
     skills := skills c; growthRates := growthRates c;
     charFactionBonuses := charFactionBonuses c |}.

Definition with_resources (maxHealth' maxMana' hp' mana' : Z)
    (c : Character) : Character :=
  {| name := name c; className := className c; faction := faction c;
     level := level c; experience := experience c;
     experienceToNext := experienceToNext c; baseStats := baseStats c;
     strength := strength c; agility := agility c;
     intelligence := intelligence c; vitality := vitality c;
     maxHealth := maxHealth'; maxMana := maxMana'; attack := attack c;
     defense := defense c; speed := speed c; hp := hp'; mana := mana';
     skills := skills c; growthRates := growthRates c;
     charFactionBonuses := charFactionBonuses c |}.

Definition with_derived (attack' defense' speed' : Z) (c : Character)
  : Character :=
  {| name := name c; className := className c; faction := faction c;
     level := level c; experience := experience c;
     experienceToNext := experienceToNext c; baseStats := baseStats c;
     strength := strength c; agility := agility c;
     intelligence := intelligence c; vitality := vitality c;
     maxHealth := maxHealth c; maxMana := maxMana c; attack := attack';
     defense := defense'; speed := speed'; hp := hp c; mana := mana c;
     skills := skills c; growthRates := growthRates c;
     charFactionBonuses := charFactionBonuses c |}.

Definition with_skills (skills' : list Skill.t) (c : Character) : Character :=
  {| name := name c; className := className c; faction := faction c;
     level := level c; experience := experience c;
     experienceToNext := experienceToNext c; baseStats := baseStats c;
     strength := strength c; agility := agility c;
     intelligence := intelligence c; vitality := vitality c;
     maxHealth := maxHealth c; maxMana := maxMana c; attack := attack c;
     defense := defense c; speed := speed c; hp := hp c; mana := mana c;
     skills := skills'; growthRates := growthRates c;
     charFactionBonuses := charFactionBonuses c |}.

(** [recalculateCharacterStats]. *)
Definition recalculateCharacterStats (c : Character) : Character :=
  let attack' := (strength c + floor_mul (level c) 0.5)%Z in
  let defense' :=
    (floor_mul (vitality c) 0.8 + floor_mul (level c) 0.3)%Z in
  let speed' := (agility c + floor_mul (level c) 0.2)%Z in
  let defense'' :=
    match charFactionBonuses c with
    | Some fb => scaled_defense defense' (defenseBonus fb)
    | None => defense'
    end in
  with_derived attack' defense'' speed' c.

(** [checkSkillUnlocks]. *)
Definition unlock_if_reached (level : Z) (skill : Skill.t) : Skill.t :=
  if negb (Skill.unlocked skill) then
    let requiredLevel := (Skill.requiredLevel skill || 1)%js in
    if (JS.of_Z level >=? requiredLevel)%js
    then Skill.set_unlocked true skill
    else skill
  else skill.

Definition checkSkillUnlocks (c : Character) : Character :=
  with_skills (map (unlock_if_reached (level c)) (skills c)) c.

(** The object [levelUpCharacter] returns. *)
Record LevelUp : Type := {
  oldLevel : Z;
  newLevel : Z;
  healthGain : Z;
  manaGain : Z
}.

Section Leveling.
Variable rnd : nat -> Q.

(** The growth of one stat: [Math.floor(growthRates[stat] + Math.random())]. *)
Definition statIncrease (rate : Q) : M World Z :=
  (r <- random rnd;; ret (Qfloor (rate + r)))%monad.

(** [levelUpCharacter].  [Object.keys(character.growthRates)] lists the
    stats in the order strength, agility, intelligence, vitality. *)
Definition levelUpCharacter : M World LevelUp :=
  (c0 <- gets subject;;
   let oldLevel := level c0 in
   update (with_progress (level c0 + 1)
             (experience c0 - experienceToNext c0)
             (floor_mul (experienceToNext c0) 1.2));;
   let g := growthRates c0 in
   let b := baseStats c0 in
   ds <- statIncrease (Stats.strength g);;
   da <- statIncrease (Stats.agility g);;
   di <- statIncrease (Stats.intelligence g);;
   dv <- statIncrease (Stats.vitality g);;
   update (with_stats
             (stats (Stats.strength b + ds) (Stats.agility b + da)
                    (Stats.intelligence b + di) (Stats.vitality b + dv))%Z
             (strength c0 + ds) (agility c0 + da)
             (intelligence c0 + di) (vitality c0 + dv))%Z;;
   c1 <- gets subject;;
   match assoc (className c1) classTemplates with
   | None => throw TypeError
   | Some classTemplate =>
       let healthIncrease :=
         (healthPerLevel classTemplate + floor_mul (vitality c1) 0.5)%Z in
       let manaIncrease :=
         (manaPerLevel classTemplate + floor_mul (intelligence c1) 0.3)%Z in
       update (with_resources
                 (maxHealth c1 + healthIncrease) (maxMana c1 + manaIncrease)
                 (hp c1 + healthIncrease) (mana c1 + manaIncrease))%Z;;
       update recalculateCharacterStats;;
       update checkSkillUnlocks;;
       c2 <- gets subject;;
       ret {| oldLevel := oldLevel; newLevel := level c2;
              healthGain := healthIncrease; manaGain := manaIncrease |}
   end)%monad.

(** The loop of [addExperienceToCharacter]; [fuel] bounds the number of
    iterations and running out of it is [Timeout]. *)
Fixpoint levelUpWhileDue (fuel : nat) : M World unit :=
  (c <- gets subject;;
   if (experience c >=? experienceToNext c)%Z then
     match fuel with
     | O => timeout
     | S fuel' => levelUpCharacter;; levelUpWhileDue fuel'
     end
   else ret tt)%monad.

Definition addExperienceToCharacter (fuel : nat) (experience_ : Z)
  : M World unit :=
  (c <- gets subject;;
   update (with_progress (level c) (experience c + experience_)
             (experienceToNext c));;
   levelUpWhileDue fuel)%monad.

End Leveling.

(** [healCharacter] and [restoreMana]. *)
Definition healCharacter (c : Character) (amount : Z) : Character * Z :=
  let hp' := Z.min (maxHealth c) (hp c + amount) in
  (with_resources (maxHealth c) (maxMana c) hp' (mana c) c, (hp' - hp c)%Z).

Definition restoreMana (c : Character) (amount : Z) : Character * Z :=
  let mana' := Z.min (maxMana c) (mana c + amount) in
  (with_resources (maxHealth c) (maxMana c) (hp c) mana' c,
   (mana' - mana c)%Z).

End Entities.

(* ================================================================== *)
(** ** Combat entities *)

(** The [effect] object of a status-effect template. *)
Module EffectData.
Record t : Type := {
  attack : num;
  defense : num;
  speed : num;
  allStats : num;
  healPerTurn : num;
  damagePerTurn : num;
  skipTurn : bool
}.
Definition none : t :=
  {| attack := NaN; defense := NaN; speed := NaN; allStats := NaN;
     healPerTurn := NaN; damagePerTurn := NaN; skipTurn := false |}.
End EffectData.

(** A value of an entity's [statusEffects] map: the template spread into a
    fresh object, with its own [duration]. *)
Module EffectInst.
Record t : Type := {
  duration : num;
  effect : option EffectData.t
}.
End EffectInst.

Module Phase.
Record t : Type := {
  hpThreshold : Q;
  abilities : list string;
  message : string
}.
End Phase.

(** [enemy.bossData]; [triggeredPhases] is a [Set], kept in insertion
    order. *)
Module BossData.
Record t : Type := {
  phases : list Phase.t;
  currentPhase : nat;
  triggeredPhases : list nat
}.
End BossData.

(** An object that takes part in a combat: a character or an enemy.  The
    record has every property the combat code reads; an object lacks the
    ones its constructor does not write. *)
Module Entity.
Record t : Type := {
  name : string;
  type : option string;
  hp : num;
  maxHp : num;
  maxHealth : num;
  mana : num;
  maxMana : num;
  strength : num;
  agility : num;
  intelligence : num;
  vitality : num;
  attack : num;
  defense : num;
  speed : num;
  level : num;
  difficulty : num;
  statusResistance : num;
  criticalResistance : num;
  isBoss : bool;
  abilities : list string;
  statusEffects : list (string * EffectInst.t);
  skills : option (list Skill.t);
  bossData : option BossData.t;
  phaseAbilities : list string
}.

(** An object with none of the properties. *)
Definition blank : t :=
  {| name := ""; type := None; hp := NaN; maxHp := NaN; maxHealth := NaN;
     mana := NaN; maxMana := NaN; strength := NaN; agility := NaN;
     intelligence := NaN; vitality := NaN; attack := NaN; defense := NaN;
     speed := NaN; level := NaN; difficulty := NaN; statusResistance := NaN;
     criticalResistance := NaN; isBoss := false; abilities := [];
     statusEffects := []; skills := None; bossData := None;
     phaseAbilities := [] |}.

Definition set_hp (v : num) (e : t) : t :=
  {| name := name e; type := type e; hp := v; maxHp := maxHp e;
     maxHealth := maxHealth e; mana := mana e; maxMana := maxMana e;
     strength := strength e; agility := agility e;
     intelligence := intelligence e; vitality := vitality e;
     attack := attack e; defense := defense e; speed := speed e;
     level := level e; difficulty := difficulty e;
     statusResistance := statusResistance e;
     criticalResistance := criticalResistance e; isBoss := isBoss e;
     abilities := abilities e; statusEffects := statusEffects e;
     skills := skills e; bossData := bossData e;
     phaseAbilities := phaseAbilities e |}.

Definition set_mana (v : num) (e : t) : t :=
  {| name := name e; type := type e; hp := hp e; maxHp := maxHp e;
     maxHealth := maxHealth e; mana := v; maxMana := maxMana e;
     strength := strength e; agility := agility e;
     intelligence := intelligence e; vitality := vitality e;
     attack := attack e; defense := defense e; speed := speed e;
     level := level e; difficulty := difficulty e;
     statusResistance := statusResistance e;
     criticalResistance := criticalResistance e; isBoss := isBoss e;
     abilities := abilities e; statusEffects := statusEffects e;
     skills := skills e; bossData := bossData e;
     phaseAbilities := phaseAbilities e |}.

Definition set_statusEffects (v : list (string * EffectInst.t)) (e : t) : t :=
  {| name := name e; type := type e; hp := hp e; maxHp := maxHp e;
     maxHealth := maxHealth e; mana := mana e; maxMana := maxMana e;
     strength := strength e; agility := agility e;
     intelligence := intelligence e; vitality := vitality e;
     attack := attack e; defense := defense e; speed := speed e;
     level := level e; difficulty := difficulty e;
     statusResistance := statusResistance e;
     criticalResistance := criticalResistance e; isBoss := isBoss e;
     abilities := abilities e; statusEffects := v;
     skills := skills e; bossData := bossData e;
     phaseAbilities := phaseAbilities e |}.

Definition set_skills (v : option (list Skill.t)) (e : t) : t :=
  {| name := name e; type := type e; hp := hp e; maxHp := maxHp e;
     maxHealth := maxHealth e; mana := mana e; maxMana := maxMana e;
     strength := strength e; agility := agility e;
     intelligence := intelligence e; vitality := vitality e;
     attack := attack e; defense := defense e; speed := speed e;
     level := level e; difficulty := difficulty e;
     statusResistance := statusResistance e;
     criticalResistance := criticalResistance e; isBoss := isBoss e;
     abilities := abilities e; statusEffects := statusEffects e;
     skills := v; bossData := bossData e;
     phaseAbilities := phaseAbilities e |}.

(** The writes of [initializeBoss]. *)
Definition set_boss (bd : option BossData.t) (sr cr : num) (e : t) : t :=
  {| name := name e; type := type e; hp := hp e; maxHp := maxHp e;
     maxHealth := maxHealth e; mana := mana e; maxMana := maxMana e;
     strength := strength e; agility := agility e;
     intelligence := intelligence e; vitality := vitality e;
     attack := attack e; defense := defense e; speed := speed e;
     level := level e; difficulty := difficulty e;
     statusResistance := sr; criticalResistance := cr; isBoss := isBoss e;
     abilities := abilities e; statusEffects := statusEffects e;
     skills := skills e; bossData := bd;
     phaseAbilities := phaseAbilities e |}.

(** The writes of a phase transition. *)
Definition set_phase (bd : option BossData.t) (pa : list string) (e : t) : t :=
  {| name := name e; type := type e; hp := hp e; maxHp := maxHp e;
     maxHealth := maxHealth e; mana := mana e; maxMana := maxMana e;
     strength := strength e; agility := agility e;
     intelligence := intelligence e; vitality := vitality e;
     attack := attack e; defense := defense e; speed := speed e;
     level := level e; difficulty := difficulty e;
     statusResistance := statusResistance e;
     criticalResistance := criticalResistance e; isBoss := isBoss e;
     abilities := abilities e; statusEffects := statusEffects e;
     skills := skills e; bossData := bd; phaseAbilities := pa |}.

(** An enemy literal of the map generator. *)
Definition enemy (name : string) (type : option string)
    (hp attack defense speed level : num) (isBoss : bool)
    (abilities : list string) : t :=
  {| name := name; type := type; hp := hp; maxHp := hp; maxHealth := NaN;
     mana := NaN; maxMana := NaN; strength := NaN; agility := NaN;
     intelligence := NaN; vitality := NaN; attack := attack;
     defense := defense; speed := speed; level := level; difficulty := NaN;
     statusResistance := NaN; criticalResistance := NaN; isBoss := isBoss;
     abilities := abilities; statusEffects := []; skills := None;
     bossData := None; phaseAbilities := [] |}.

(** The combat-relevant properties of a character object, as
    [JSON.parse(JSON.stringify(character))] copies them. *)
Definition of_character (c : Entities.Character) : t :=
  {| name := Entities.name c; type := None;
     hp := JS.of_Z (Entities.hp c); maxHp := NaN;
     maxHealth := JS.of_Z (Entities.maxHealth c);
     mana := JS.of_Z (Entities.mana c);
     maxMana := JS.of_Z (Entities.maxMana c);
     strength := JS.of_Z (Entities.strength c);
     agility := JS.of_Z (Entities.agility c);
     intelligence := JS.of_Z (Entities.intelligence c);
     vitality := JS.of_Z (Entities.vitality c);
     attack := JS.of_Z (Entities.attack c);
     defense := JS.of_Z (Entities.defense c);
     speed := JS.of_Z (Entities.speed c);
     level := JS.of_Z (Entities.level c); difficulty := NaN;
     statusResistance := NaN; criticalResistance := NaN; isBoss := false;
     abilities := []; statusEffects := [];
     skills := Some (Entities.skills c); bossData := None;
     phaseAbilities := [] |}.
End Entity.

(* ================================================================== *)
(** ** Map generation (class [MapGenerator]) *)

Module MapGenerator.

Record RegionTemplate : Type := {
  rt_name : string;
  enemyPool : list string;
  bossPool : list string;
  resourcePool : list string;
  eventPool : list string;
  rt_difficulty : Q
}.

Definition regions : list (string * RegionTemplate) :=
  [ ("forest",
     {| rt_name := "Whispering Forest";
        enemyPool := ["goblin"; "wolf"; "spider"; "treant"];
        bossPool := ["forest_guardian"; "elder_treant"];
        resourcePool := ["herbs"; "wood"];
        eventPool := ["fairy_ring"; "abandoned_camp"; "ancient_tree"];
        rt_difficulty := 1.0 |});
    ("desert",
     {| rt_name := "Scorching Wastes";
        enemyPool := ["scorpion"; "bandit"; "sand_wraith"; "mummy"];
        bossPool := ["desert_king"; "sand_dragon"];
        resourcePool := ["ore"; "gems"];
        eventPool := ["oasis"; "buried_treasure"; "sandstorm"];
        rt_difficulty := 1.2 |});
    ("ice",
     {| rt_name := "Frozen Peaks";
        enemyPool := ["ice_wolf"; "frost_giant"; "ice_elemental"; "yeti"];
        bossPool := ["ice_queen"; "frost_dragon"];
        resourcePool := ["ice_crystal"; "frost_herb"];
        eventPool := ["ice_cave"; "frozen_lake"; "avalanche"];
        rt_difficulty := 1.4 |});
    ("ruins",
     {| rt_name := "Ancient Ruins";
        enemyPool := ["skeleton"; "ghost"; "gargoyle"; "lich"];
        bossPool := ["ancient_king"; "shadow_lord"];
        resourcePool := ["essences"; "ancient_relic"];
        eventPool := ["magic_altar"; "trapped_chest"; "spirit_encounter"];
        rt_difficulty := 1.6 |}) ].

Inductive NodeType : Type :=
| Combat | Event | Resource | Merchant | Rest | Boss.

Definition NodeType_eqb (a b : NodeType) : bool :=
  match a, b with
  | Combat, Combat | Event, Event | Resource, Resource
  | Merchant, Merchant | Rest, Rest | Boss, Boss => true
  | _, _ => false
  end.

(** The [name] and [description] of a catalog entry. *)
Definition typeName (t : NodeType) : string :=
  match t with
  | Combat => "Combat" | Event => "Event" | Resource => "Resource"
  | Merchant => "Merchant" | Rest => "Rest Site" | Boss => "Boss"
  end.

Definition typeDescription (t : NodeType) : string :=
  match t with
  | Combat => "Face dangerous enemies"
  | Event => "A mysterious encounter"
  | Resource => "Gather valuable materials"
  | Merchant => "Trade with a traveling merchant"
  | Rest => "Rest and recover"
  | Boss => "Face a powerful enemy"
  end.

(** The [weight] properties of [this.nodeTypes], the only part of the
    catalog that is ever written. *)
Record NodeTypes : Type := {
  combat : Q;
  event : Q;
  resource : Q;
  merchant : Q;
  rest : Q;
  boss : Q
}.

(** The weights the constructor installs. *)
Definition nodeTypes0 : NodeTypes :=
  {| combat := 40; event := 25; resource := 20; merchant := 10; rest := 15;
     boss := 0 |}.

(** [Object.entries] of the catalog, in key order. *)
Definition entries (w : NodeTypes) : list (NodeType * Q) :=
  [ (Combat, combat w); (Event, event w); (Resource, resource w);
    (Merchant, merchant w); (Rest, rest w); (Boss, boss w) ].

(** The keys of [this.eventTemplates]. *)
Definition eventTemplates : list string :=
  [ "fairy_ring"; "abandoned_camp"; "oasis"; "ice_cave"; "magic_altar" ].

(** An event payload: a copy of a template, or the generic fallback
    ("Strange Encounter").  The choice tables are not modelled. *)
Inductive EventData : Type :=
| EventTemplate (key : string)
| StrangeEncounter.

Record ResourceData : Type := {
  res_type : option string;
  amount : Z
}.

Record Item : Type := {
  item_name : string;
  price : Z
}.

Record MerchantData : Type := {
  items : list Item;
  haggle : Q
}.

Record RestSite : Type := {
  rest_name : string;
  bonus : string
}.

Inductive Payload : Type :=
| PEnemy (enemy : Entity.t)
| PEvent (event : EventData)
| PResource (resource : ResourceData)
| PMerchant (merchant : MerchantData)
| PRest (rest : option RestSite)
| PBoss (boss : Entity.t)
| PNone.

Record Node : Type := {
  type : NodeType;
  name : string;
  description : string;
  difficulty : Q;
  visited : bool;
  completed : bool;
  payload : Payload;
  regionKey : option string;
  localIndex : Z;
  globalIndex : option nat;
  regionIndex : option nat
}.

Record Region : Type := {
  key : string;
  region_name : string;
  index : nat;
  length : Z;
  region_difficulty : Q;
  nodes : list Node
}.

Record RunData : Type := {
  id : Q;
  run_regions : list Region;
  run_nodes : list Node;
  totalNodes : nat;
  estimatedDifficulty : num
}.

(** The mutable state of a generator: the weight catalog and the cursor of
    the random source. *)
Record State : Type := {
  nodeTypes : NodeTypes;
  cursor : nat
}.

#[global] Instance State_rng : HasRng State :=
  {| rng := cursor;
     set_rng := fun n s => {| nodeTypes := nodeTypes s; cursor := n |} |}.

Definition set_nodeTypes (w : NodeTypes) (s : State) : State :=
  {| nodeTypes := w; cursor := cursor s |}.

(** The three position-dependent rescalings of [selectNodeType]. *)
Definition firstNodeWeights (w : NodeTypes) : NodeTypes :=
  {| combat := combat w * 1.5; event := event w * 1.2;
     resource := resource w; merchant := merchant w;
     rest := rest w * 0.5; boss := boss w |}.
Definition middleNodeWeights (w : NodeTypes) : NodeTypes :=
  {| combat := combat w; event := event w;
     resource := resource w * 1.3; merchant := merchant w * 1.5;
     rest := rest w; boss := boss w |}.
Definition nearEndWeights (w : NodeTypes) : NodeTypes :=
  {| combat := combat w * 1.3; event := event w;
     resource := resource w; merchant := merchant w * 0.3;
     rest := rest w; boss := boss w |}.

(** Enemy and boss stat blocks: name, hp, attack, defense, speed (and the
    abilities of a boss). *)
Definition enemyTemplates : list (string * (string * Z * Z * Z * Z)) :=
  [ ("goblin", ("Goblin Scout", 35, 8, 2, 6));
    ("wolf", ("Forest Wolf", 45, 12, 4, 8));
    ("spider", ("Giant Spider", 30, 10, 1, 7));
    ("treant", ("Young Treant", 70, 15, 8, 3));
    ("scorpion", ("Desert Scorpion", 40, 14, 6, 5));
    ("bandit", ("Desert Bandit", 50, 11, 3, 6));
    ("sand_wraith", ("Sand Wraith", 35, 16, 2, 9));
    ("mummy", ("Ancient Mummy", 60, 13, 7, 4));
    ("ice_wolf", ("Frost Wolf", 55, 14, 5, 7));
    ("frost_giant", ("Frost Giant", 90, 20, 12, 2));
    ("ice_elemental", ("Ice Elemental", 40, 18, 3, 8));
    ("yeti", ("Mountain Yeti", 75, 16, 10, 5));
    ("skeleton", ("Ancient Skeleton", 45, 12, 8, 4));
    ("ghost", ("Restless Ghost", 30, 20, 1, 10));
    ("gargoyle", ("Stone Gargoyle", 80, 18, 15, 3));
    ("lich", ("Minor Lich", 65, 22, 6, 6)) ]%Z.

Definition goblin : string * Z * Z * Z * Z := ("Goblin Scout", 35, 8, 2, 6)%Z.

Definition bossTemplates
  : list (string * (string * Z * Z * Z * Z * list string)) :=
  [ ("forest_guardian", ("Forest Guardian", 150, 25, 15, 5,
       ["nature_heal"; "root_entangle"; "forest_fury"]));
    ("elder_treant", ("Elder Treant", 200, 30, 20, 3,
       ["bark_armor"; "branch_slam"; "forest_blessing"]));
    ("desert_king", ("Desert King", 180, 28, 12, 6,
       ["sand_storm"; "mirage"; "scorching_strike"]));
    ("sand_dragon", ("Sand Dragon", 250, 35, 18, 7,
       ["sand_breath"; "dune_dive"; "desert_rage"]));
    ("ice_queen", ("Ice Queen", 220, 32, 16, 4,
       ["frost_armor"; "ice_storm"; "frozen_heart"]));
    ("frost_dragon", ("Frost Dragon", 300, 40, 22, 6,
       ["ice_breath"; "blizzard"; "absolute_zero"]));
    ("ancient_king", ("Ancient King", 280, 38, 25, 5,
       ["royal_command"; "ancient_curse"; "kingly_wrath"]));
    ("shadow_lord", ("Shadow Lord", 200, 45, 10, 9,
       ["shadow_step"; "dark_magic"; "void_strike"])) ]%Z.

Definition forest_guardian : string * Z * Z * Z * Z * list string :=
  ("Forest Guardian", 150, 25, 15, 5,
   ["nature_heal"; "root_entangle"; "forest_fury"])%Z.

Definition restTypes : list RestSite :=
  [ {| rest_name := "Campfire"; bonus := "warmth" |};
    {| rest_name := "Natural Spring"; bonus := "purity" |};
    {| rest_name := "Ancient Shrine"; bonus := "blessing" |};
    {| rest_name := "Peaceful Grove"; bonus := "nature" |} ].

(** [Math.floor(stat * difficulty)]. *)
Definition scaled (stat : Z) (difficulty : Q) : num :=
  JS.of_Z (Qfloor (inject_Z stat * difficulty)).

(** Lookup under a key that may be [undefined]. *)
Definition lookup {A} (k : option string) (l : list (string * A)) : option A :=
  match k with
  | Some k => assoc k l
  | None => None
  end.

Section Generator.
Variable rnd : nat -> Q.

(** [weightedRandomChoice]: the walk over the entries. *)
Fixpoint walk (random : Q) (es : list (NodeType * Q)) : option NodeType :=
  match es with
  | [] => None
  | (key, weight) :: es' =>
      let random' := random - weight in
      if Qle_bool random' 0 then Some key else walk random' es'
  end.

Definition totalWeight (w : NodeTypes) : Q :=
  fold_left (fun sum item => sum + snd item) (entries w) 0.

(** [weightedRandomChoice(weights)], where [weights] shares its entries with
    [this.nodeTypes]. *)
Definition weightedRandomChoice : M State NodeType :=
  (w <- gets nodeTypes;;
   r <- random rnd;;
   match walk (r * totalWeight w) (entries w) with
   | Some key => ret key
   | None => ret Combat
   end)%monad.

(** [selectNodeType].  [{ ...this.nodeTypes }] copies the catalog one level
    deep, so [weights.combat] is the very object [this.nodeTypes.combat] and
    each [*=] writes the generator's catalog. *)
Definition selectNodeType (nodeIndex regionLength : Z) : M State NodeType :=
  (when (nodeIndex =? 0)%Z
     (modify (fun s => set_nodeTypes (firstNodeWeights (nodeTypes s)) s));;
   when ((nodeIndex >? 0)%Z && (nodeIndex <? regionLength - 2)%Z)
     (modify (fun s => set_nodeTypes (middleNodeWeights (nodeTypes s)) s));;
   when (nodeIndex >=? regionLength - 2)%Z
     (modify (fun s => set_nodeTypes (nearEndWeights (nodeTypes s)) s));;
   weightedRandomChoice)%monad.

(** [generateEnemy]. *)
Definition generateEnemy (regionTemplate : RegionTemplate) (difficulty : Q)
  : M State Entity.t :=
  (enemyType <- randomChoice rnd (enemyPool regionTemplate);;
   let '(name, hp, attack, defense, speed) :=
     match lookup enemyType enemyTemplates with
     | Some template => template
     | None => goblin
     end in
   ret (Entity.enemy name enemyType
          (scaled hp difficulty) (scaled attack difficulty)
          (scaled defense difficulty) (JS.of_Z speed)
          (JS.max 1 (JS.floor (difficulty * 5)%Q)) false []))%monad.

(** [generateBoss]. *)
Definition generateBoss (bossType : option string) (difficulty : Q)
  : Entity.t :=
  let '(name, hp, attack, defense, speed, abilities) :=
    match lookup bossType bossTemplates with
    | Some template => template
    | None => forest_guardian
    end in
  Entity.enemy name bossType
    (scaled hp difficulty) (scaled attack difficulty)
    (scaled defense difficulty) (JS.of_Z speed)
    (JS.max 10 (JS.floor (difficulty * 10)%Q)) true abilities.

(** [generateEvent]. *)
Definition generateEvent (regionTemplate : RegionTemplate)
  : M State EventData :=
  (eventType <- randomChoice rnd (eventPool regionTemplate);;
   match eventType with
   | Some k =>
       if existsb (String.eqb k) eventTemplates
       then ret (EventTemplate k) else ret StrangeEncounter
   | None => ret StrangeEncounter
   end)%monad.

(** [generateResource]. *)
Definition generateResource (regionTemplate : RegionTemplate)
  : M State ResourceData :=
  (resourceType <- randomChoice rnd (resourcePool regionTemplate);;
   amount <- randomInt rnd 2 5;;
   ret {| res_type := resourceType; amount := amount |})%monad.

(** [generateMerchantItems] and [generateMerchant]. *)
Definition generateMerchantItems : M State (list Item) :=
  (itemCount <- randomInt rnd 3 6;;
   ret (repeat {| item_name := "Health Potion"; price := 25 |}
          (Z.to_nat itemCount)))%monad.

Definition generateMerchant : M State MerchantData :=
  (items <- generateMerchantItems;;
   haggle <- randomFloat rnd 0.8 1.2;;
   ret {| items := items; haggle := haggle |})%monad.

(** [generateRestSite]. *)
Definition generateRestSite : M State (option RestSite) :=
  randomChoice rnd restTypes.

(** [generateRegularNode]; [regionKey] and [localIndex] are the two
    properties [generateRegion] writes on the node it gets back. *)
Definition generateRegularNode (regionTemplate : RegionTemplate)
    (difficulty : Q) (nodeIndex regionLength : Z) (regionKey : option string)
  : M State Node :=
  (nodeType <- selectNodeType nodeIndex regionLength;;
   let nodeDifficulty := difficulty + inject_Z nodeIndex * 0.1 in
   payload <-
     match nodeType with
     | Combat =>
         e <- generateEnemy regionTemplate nodeDifficulty;; ret (PEnemy e)
     | Event => e <- generateEvent regionTemplate;; ret (PEvent e)
     | Resource => r <- generateResource regionTemplate;; ret (PResource r)
     | Merchant => m <- generateMerchant;; ret (PMerchant m)
     | Rest => r <- generateRestSite;; ret (PRest r)
     | Boss => ret PNone
     end;;
   ret {| type := nodeType; name := typeName nodeType;
          description := typeDescription nodeType;
          difficulty := nodeDifficulty; visited := false;
          completed := false; payload := payload; regionKey := regionKey;
          localIndex := nodeIndex; globalIndex := None;
          regionIndex := None |})%monad.

(** [generateBossNode]. *)
Definition generateBossNode (regionTemplate : RegionTemplate)
    (difficulty : Q) (nodeIndex : Z) (regionKey : option string)
  : M State Node :=
  (bossTemplate <- randomChoice rnd (bossPool regionTemplate);;
   ret {| type := Boss; name := "Final Challenge";
          description :=
            "Face the mighty " ++
            match bossTemplate with Some b => b | None => "undefined" end;
          difficulty := difficulty * 1.5; visited := false;
          completed := false;
          payload := PBoss (generateBoss bossTemplate (difficulty * 1.5));
          regionKey := regionKey; localIndex := nodeIndex;
          globalIndex := None; regionIndex := None |})%monad.

(** The node loop of [generateRegion]: [todo] iterations remain, the next
    index is [i]. *)
Fixpoint generateNodes (regionTemplate : RegionTemplate) (difficulty : Q)
    (regionKey : option string) (isLastRegion : bool) (regionLength : Z)
    (todo : nat) (i : Z) : M State (list Node) :=
  match todo with
  | O => ret []
  | S todo' =>
      (let isLastNode := (i =? regionLength - 1)%Z in
       let isBossNode := isLastRegion && isLastNode in
       node <-
         (if isBossNode
          then generateBossNode regionTemplate difficulty i regionKey
          else generateRegularNode regionTemplate difficulty i regionLength
                 regionKey);;
       rest <- generateNodes regionTemplate difficulty regionKey isLastRegion
                 regionLength todo' (i + 1)%Z;;
       ret (node :: rest))%monad
  end.

(** [generateRegion].  The length is drawn before the region literal reads
    [regionTemplate.name], which throws when the key is unknown. *)
Definition generateRegion (regionKey : option string) (regionIndex : nat)
    (totalRegions : Z) : M State Region :=
  (let isLastRegion := (Z.of_nat regionIndex =? totalRegions - 1)%Z in
   baseLength <- randomInt rnd 4 7;;
   let regionLength :=
     if isLastRegion then (baseLength + 1)%Z else baseLength in
   match regionKey, lookup regionKey regions with
   | Some key, Some regionTemplate =>
       let difficulty :=
         rt_difficulty regionTemplate
         + inject_Z (Z.of_nat regionIndex) * 0.2 in
       nodes <- generateNodes regionTemplate difficulty regionKey
                  isLastRegion regionLength (Z.to_nat regionLength) 0%Z;;
       ret {| key := key; region_name := rt_name regionTemplate;
              index := regionIndex; length := regionLength;
              region_difficulty := difficulty; nodes := nodes |}
   | _, _ => throw TypeError
   end)%monad.

(** The loop of [selectRegions]. *)
Definition availableRegions : list string := map fst regions.

Definition includes (selected : list (option string)) (r : string) : bool :=
  existsb (fun x => match x with Some k => String.eqb k r | None => false end)
    selected.

Fixpoint selectMore (count : nat) (selected : list (option string))
  : M State (list (option string)) :=
  match count with
  | O => ret selected
  | S count' =>
      if (List.length selected <? List.length availableRegions)%nat then
        (let remaining :=
           filter (fun r => negb (includes selected r)) availableRegions in
         randomRegion <- randomChoice rnd remaining;;
         selectMore count' (selected ++ [randomRegion]))%monad
      else ret selected
  end.

(** [selectRegions(count)] for an integer [count]. *)
Definition selectRegions (count : Z) : M State (list (option string)) :=
  selectMore (Z.to_nat (count - 1)) [Some "forest"].

(** [calculateRunDifficulty]. *)
Fixpoint sumDifficulty (regionKeys : list (option string)) (total : Q)
  : outcome Q :=
  match regionKeys with
  | [] => Ret total
  | k :: ks =>
      match lookup k regions with
      | Some t => sumDifficulty ks (total + rt_difficulty t)
      | None => Throw TypeError
      end
  end.

Definition calculateRunDifficulty (regionKeys : list (option string))
  : M State num :=
  match sumDifficulty regionKeys 0 with
  | Ret total =>
      ret (Fin total / Fin (inject_Z (Z.of_nat (List.length regionKeys))))%js
  | Throw e => throw e
  | Timeout => timeout
  end.

(** The two [forEach] loops of [generateRun]: regions are generated in
    order, and every node receives its global index and its region index.
    The node objects are shared between [region.nodes] and [runData.nodes],
    so both lists show the indices. *)
Definition indexNode (globalIndex regionIndex : nat) (n : Node) : Node :=
  {| type := type n; name := name n; description := description n;
     difficulty := difficulty n; visited := visited n;
     completed := completed n; payload := payload n;
     regionKey := regionKey n; localIndex := localIndex n;
     globalIndex := Some globalIndex; regionIndex := Some regionIndex |}.

Fixpoint indexNodes (nodeIndex regionIndex : nat) (ns : list Node)
  : list Node :=
  match ns with
  | [] => []
  | n :: ns' =>
      indexNode nodeIndex regionIndex n
      :: indexNodes (Datatypes.S nodeIndex) regionIndex ns'
  end.

Definition withNodes (r : Region) (ns : list Node) : Region :=
  {| key := key r; region_name := region_name r; index := index r;
     length := length r; region_difficulty := region_difficulty r;
     nodes := ns |}.

Fixpoint generateRegions (selected : list (option string)) (regionIndex : nat)
    (regionCount : Z) (nodeIndex : nat) : M State (list Region) :=
  match selected with
  | [] => ret []
  | regionKey :: selected' =>
      (region <- generateRegion regionKey regionIndex regionCount;;
       let region' :=
         withNodes region (indexNodes nodeIndex regionIndex (nodes region)) in
       rest <- generateRegions selected' (Datatypes.S regionIndex) regionCount
                 (nodeIndex + List.length (nodes region))%nat;;
       ret (region' :: rest))%monad
  end.

(** [generateId] draws once; the clock prefix of the identifier is not
    modelled. *)
Definition generateId : M State Q := random rnd.

(** [generateRun]. *)
Definition generateRun : M State RunData :=
  (id <- generateId;;
   regionCount <- randomInt rnd 2 4;;
   selectedRegions <- selectRegions regionCount;;
   regions <- generateRegions selectedRegions 0 regionCount 0;;
   let nodes := flat_map nodes regions in
   estimatedDifficulty <- calculateRunDifficulty selectedRegions;;
   ret {| id := id; run_regions := regions; run_nodes := nodes;
          totalNodes := List.length nodes;
          estimatedDifficulty := estimatedDifficulty |})%monad.

End Generator.

(** A generator as its constructor leaves it. *)
Definition fresh : State := {| nodeTypes := nodeTypes0; cursor := 0 |}.

End MapGenerator.

(* ================================================================== *)
(** ** Combat (class [Combat]) *)

Module Combat.

(** [currentTurn]: ['player'] or ['enemy']. *)
Inductive Turn : Type := PlayerTurn | EnemyTurn.

Definition Turn_eqb (a b : Turn) : bool :=
  match a, b with
  | PlayerTurn, PlayerTurn | EnemyTurn, EnemyTurn => true
  | _, _ => false
  end.

(** The two entity objects a session allocates in [startCombat].  The
    properties [this.player] and [this.enemy] hold a reference or [null];
    local variables such as [caster] and [target] keep a reference alive
    after [cleanup] has nulled the properties. *)
Inductive Ref : Type := PlayerObject | EnemyObject.

Definition Ref_eqb (a b : Ref) : bool :=
  match a, b with
  | PlayerObject, PlayerObject | EnemyObject, EnemyObject => true
  | _, _ => false
  end.

(** [a === b] on values that are a reference or [null]. *)
Definition same_object (a b : option Ref) : bool :=
  match a, b with
  | Some x, Some y => Ref_eqb x y
  | None, None => true
  | _, _ => false
  end.

Inductive Severity : Type := Info | Warning | Damage | Heal | Success.

(** The texts handed to [logMessage], with their interpolated values. *)
Inductive Message : Type :=
| CombatBegins (player enemy : string)
| GoesFirst (name : string) (faster : bool)
| NotEnoughMana (need have : num)
| OnCooldown (skill : string) (turns : num)
| YouAreUnableToAct
| Deals (skill : string) (damage : num) (target : string) (critical : bool)
| Misses (skill target : string)
| Heals (skill caster : string) (healing : num)
| PreparesCharge (enemy : string)
| IceStorm
| VanishesIntoShadow (caster : string)
| IsDefeated (target : string)
| Resists (target effectType : string)
| IsAffectedBy (target effectType : string)
| IsUnableToAct (enemy : string)
| DefensiveStance (enemy : string)
| HealsFor (enemy : string) (amount : num)
| YourTurn (turnCounter : Z)
| RecoversFrom (entity effectType : string)
| TakesEffectDamage (entity : string) (damage : num) (effectType : string)
| HealsFromEffect (entity : string) (healing : num) (effectType : string)
| PhaseMessage (message : string)
| CannotFlee
| FleeSucceeds
| FleeFails
| Victory (experience : num).

(** [combatOptions]; [timeLimit] is never read. *)
Record Options : Type := {
  isBoss : bool;
  allowFlee : bool
}.

(** The [options] argument of [startCombat]: a property may be missing. *)
Record OptionsArg : Type := {
  arg_isBoss : option bool;
  arg_allowFlee : option bool
}.

Definition noOptions : OptionsArg :=
  {| arg_isBoss := None; arg_allowFlee := None |}.

(** [{ ...this.combatOptions, ...options }]. *)
Definition mergeOptions (o : Options) (a : OptionsArg) : Options :=
  {| isBoss := match arg_isBoss a with Some b => b | None => isBoss o end;
     allowFlee :=
       match arg_allowFlee a with Some b => b | None => allowFlee o end |}.

Record Item : Type := {
  item_name : string;
  item_type : string
}.

Record Rewards : Type := {
  items : list Item;
  gold : num;
  essences : option Z
}.

(** The object [endCombat] hands to the resolver, without the two entity
    snapshots and the two counters that are always 0. *)
Record Results : Type := {
  victory : bool;
  reason : string;
  turnCount : Z;
  experience : option num;
  rewards : option Rewards
}.

Record State : Type := {
  isActive : bool;
  currentTurn : Turn;
  turnCounter : Z;
  player : option Ref;
  enemy : option Ref;
  playerObject : Entity.t;
  enemyObject : Entity.t;
  combatOptions : Options;
  combatResolve : bool;
  resolved : list Results;
  enemyTurnTimers : nat;
  log : list (Message * Severity);
  cursor : nat
}.

Definition set_isActive (v : bool) (s : State) : State :=
  {| isActive := v; currentTurn := currentTurn s;
     turnCounter := turnCounter s; player := player s; enemy := enemy s;
     playerObject := playerObject s; enemyObject := enemyObject s;
     combatOptions := combatOptions s; combatResolve := combatResolve s;
     resolved := resolved s; enemyTurnTimers := enemyTurnTimers s;
     log := log s; cursor := cursor s |}.

Definition set_turn (v : Turn) (n : Z) (s : State) : State :=
  {| isActive := isActive s; currentTurn := v; turnCounter := n;
     player := player s; enemy := enemy s;
     playerObject := playerObject s; enemyObject := enemyObject s;
     combatOptions := combatOptions s; combatResolve := combatResolve s;
     resolved := resolved s; enemyTurnTimers := enemyTurnTimers s;
     log := log s; cursor := cursor s |}.

Definition set_refs (p e : option Ref) (s : State) : State :=
  {| isActive := isActive s; currentTurn := currentTurn s;
     turnCounter := turnCounter s; player := p; enemy := e;
     playerObject := playerObject s; enemyObject := enemyObject s;
     combatOptions := combatOptions s; combatResolve := combatResolve s;
     resolved := resolved s; enemyTurnTimers := enemyTurnTimers s;
     log := log s; cursor := cursor s |}.

Definition set_objects (p e : Entity.t) (s : State) : State :=
  {| isActive := isActive s; currentTurn := currentTurn s;
     turnCounter := turnCounter s; player := player s; enemy := enemy s;
     playerObject := p; enemyObject := e;
     combatOptions := combatOptions s; combatResolve := combatResolve s;
     resolved := resolved s; enemyTurnTimers := enemyTurnTimers s;
     log := log s; cursor := cursor s |}.

Definition set_combatOptions (v : Options) (s : State) : State :=
  {| isActive := isActive s; currentTurn := currentTurn s;
     turnCounter := turnCounter s; player := player s; enemy := enemy s;
     playerObject := playerObject s; enemyObject := enemyObject s;
     combatOptions := v; combatResolve := combatResolve s;
     resolved := resolved s; enemyTurnTimers := enemyTurnTimers s;
     log := log s; cursor := cursor s |}.

Definition set_resolution (pending : bool) (delivered : list Results)
    (s : State) : State :=
  {| isActive := isActive s; currentTurn := currentTurn s;
     turnCounter := turnCounter s; player := player s; enemy := enemy s;
     playerObject := playerObject s; enemyObject := enemyObject s;
     combatOptions := combatOptions s; combatResolve := pending;
     resolved := delivered; enemyTurnTimers := enemyTurnTimers s;
     log := log s; cursor := cursor s |}.

Definition set_enemyTurnTimers (v : nat) (s : State) : State :=
  {| isActive := isActive s; currentTurn := currentTurn s;
     turnCounter := turnCounter s; player := player s; enemy := enemy s;
     playerObject := playerObject s; enemyObject := enemyObject s;
     combatOptions := combatOptions s; combatResolve := combatResolve s;
     resolved := resolved s; enemyTurnTimers := v;
     log := log s; cursor := cursor s |}.

Definition set_log (v : list (Message * Severity)) (s : State) : State :=
  {| isActive := isActive s; currentTurn := currentTurn s;
     turnCounter := turnCounter s; player := player s; enemy := enemy s;
     playerObject := playerObject s; enemyObject := enemyObject s;
     combatOptions := combatOptions s; combatResolve := combatResolve s;
     resolved := resolved s; enemyTurnTimers := enemyTurnTimers s;
     log := v; cursor := cursor s |}.

Definition set_cursor (v : nat) (s : State) : State :=
  {| isActive := isActive s; currentTurn := currentTurn s;
     turnCounter := turnCounter s; player := player s; enemy := enemy s;
     playerObject := playerObject s; enemyObject := enemyObject s;
     combatOptions := combatOptions s; combatResolve := combatResolve s;
     resolved := resolved s; enemyTurnTimers := enemyTurnTimers s;
     log := log s; cursor := v |}.

#[global] Instance State_rng : HasRng State :=
  {| rng := cursor; set_rng := set_cursor |}.

(** An instance as the constructor leaves it. *)
Definition fresh : State :=
  {| isActive := false; currentTurn := PlayerTurn; turnCounter := 0;
     player := None; enemy := None;
     playerObject := Entity.blank; enemyObject := Entity.blank;
     combatOptions := {| isBoss := false; allowFlee := true |};
     combatResolve := false; resolved := []; enemyTurnTimers := 0;
     log := []; cursor := 0 |}.

(** The object behind a reference. *)
Definition object (r : Ref) (s : State) : Entity.t :=
  match r with
  | PlayerObject => playerObject s
  | EnemyObject => enemyObject s
  end.

Definition set_object (r : Ref) (v : Entity.t) (s : State) : State :=
  match r with
  | PlayerObject => set_objects v (enemyObject s) s
  | EnemyObject => set_objects (playerObject s) v s
  end.

(** Reading and writing through a value that may be [null]: a property
    access on [null] throws. *)
Definition read (r : option Ref) : M State Entity.t :=
  match r with
  | Some r => gets (object r)
  | None => throw TypeError
  end.

Definition write (r : option Ref) (f : Entity.t -> Entity.t) : M State unit :=
  match r with
  | Some r => modify (fun s => set_object r (f (object r s)) s)
  | None => throw TypeError
  end.

(** [logMessage]. *)
Definition logMessage (m : Message) (type : Severity) : M State unit :=
  modify (fun s => set_log (log s ++ [(m, type)]) s).

(** [this.statusEffects]: the catalog of status-effect templates. *)
Definition effectData (attack defense speed allStats healPerTurn
    damagePerTurn : num) (skipTurn : bool) : EffectData.t :=
  {| EffectData.attack := attack; EffectData.defense := defense;
     EffectData.speed := speed; EffectData.allStats := allStats;
     EffectData.healPerTurn := healPerTurn;
     EffectData.damagePerTurn := damagePerTurn;
     EffectData.skipTurn := skipTurn |}.

Definition statusEffects : list (string * EffectInst.t) :=
  let t (duration : Q) e :=
    {| EffectInst.duration := duration; EffectInst.effect := Some e |} in
  [ ("strength_boost", t 3 (effectData 1.2 NaN NaN NaN NaN NaN false));
    ("defense_boost", t 3 (effectData NaN 1.3 NaN NaN NaN NaN false));
    ("speed_boost", t 2 (effectData NaN NaN 1.5 NaN NaN NaN false));
    ("regeneration", t 5 (effectData NaN NaN NaN NaN 0.1 NaN false));
    ("poison", t 4 (effectData NaN NaN NaN NaN NaN 0.08 false));
    ("weakness", t 3 (effectData 0.7 NaN NaN NaN NaN NaN false));
    ("slow", t 2 (effectData NaN NaN 0.6 NaN NaN NaN false));
    ("curse", t 4 (effectData NaN NaN NaN 0.8 NaN NaN false));
    ("stunned", t 1 (effectData NaN NaN NaN NaN NaN NaN true));
    ("bleeding", t 3 (effectData NaN NaN NaN NaN NaN 0.05 false));
    ("burning", t 2 (effectData NaN NaN NaN NaN NaN 0.12 false));
    ("frozen", t 1 (effectData NaN 0.5 NaN NaN NaN NaN true)) ].

(** [this.bossPhases]. *)
Definition phase (hpThreshold : Q) (ability message : string) : Phase.t :=
  {| Phase.hpThreshold := hpThreshold; Phase.abilities := [ability];
     Phase.message := message |}.

Definition bossPhases : list (string * list Phase.t) :=
  [ ("forest_guardian",
     [ phase 0.75 "nature_heal" "The Forest Guardian calls upon nature!";
       phase 0.5 "root_entangle" "Roots burst from the ground!";
       phase 0.25 "forest_fury" "The Guardian enters a primal rage!" ]);
    ("sand_dragon",
     [ phase 0.66 "sand_breath" "The dragon inhales deeply...";
       phase 0.33 "dune_dive" "The dragon burrows into the sand!";
       phase 0.1 "desert_rage" "The dragon unleashes its final fury!" ]);
    ("ice_queen",
     [ phase 0.8 "frost_armor" "Ice crystals form around the Queen!";
       phase 0.6 "ice_storm" "The Queen summons a freezing storm!";
       phase 0.4 "frozen_heart" "The Queen's heart turns to ice!";
       phase 0.2 "absolute_zero"
         "The temperature drops to absolute zero!" ]) ].

(** [this.aiPatterns]. *)
Definition aiPatterns : list (string * list (string * Q)) :=
  [ ("aggressive", [("attack", 0.6); ("special", 0.3); ("buff", 0.1)]);
    ("defensive", [("defend", 0.4); ("attack", 0.4); ("heal", 0.2)]);
    ("tactical", [("debuff", 0.3); ("attack", 0.4); ("special", 0.3)]);
    ("berserker", [("attack", 0.5); ("attack", 0.3); ("special", 0.2)]) ].

(** A [Map] in insertion order: [has], [set], [delete]. *)
Definition has {A} (k : string) (m : list (string * A)) : bool :=
  existsb (fun kv => String.eqb (fst kv) k) m.

Fixpoint mapSet {A} (k : string) (v : A) (m : list (string * A))
  : list (string * A) :=
  match m with
  | [] => [(k, v)]
  | (k', v') :: m' =>
      if String.eqb k' k then (k, v) :: m' else (k', v') :: mapSet k v m'
  end.

Definition mapDelete {A} (k : string) (m : list (string * A))
  : list (string * A) :=
  filter (fun kv => negb (String.eqb (fst kv) k)) m.

(** The skill object a resolution works on: an element of an entity's
    [skills] array, or an object literal made for the occasion (the enemy's
    basic attack, a boss skill), whose mutation nobody observes. *)
Inductive SkillRef : Type :=
| OwnSkill (owner : Ref) (index : nat)
| Detached.

(** The [result] object of [executeSkill]. *)
Module Result.
Record t : Type := {
  skill : Skill.t;
  skillRef : SkillRef;
  caster : option Ref;
  target : option Ref;
  damage : num;
  healing : num;
  statusEffects : list Effect.spec;
  critical : bool;
  hit : bool;
  message : string
}.
End Result.

Inductive Action : Type :=
| SkillAction (type : string) (skill : Skill.t)
| Defend
| HealAction.

(** [Set.prototype.add]. *)
Definition setAdd (i : nat) (l : list nat) : list nat :=
  if existsb (Nat.eqb i) l then l else l ++ [i].

(** The scan of [checkBossPhaseTransition]: the first phase, from index [i]
    on, whose threshold the hp fraction has reached and that has not fired. *)
Fixpoint scanPhases (currentHpPercent : num) (triggered : list nat) (i : nat)
    (ps : list Phase.t) : option (nat * Phase.t) :=
  match ps with
  | [] => None
  | p :: ps' =>
      if (currentHpPercent <=? Fin (Phase.hpThreshold p))%js
         && negb (existsb (Nat.eqb i) triggered)
      then Some (i, p)
      else scanPhases currentHpPercent triggered (S i) ps'
  end.

(** The boss data after a scan at the given hp fraction, and the phase that
    fired, if any. *)
Definition phaseTransition (currentHpPercent : num) (bd : BossData.t)
  : BossData.t * option (nat * Phase.t) :=
  match scanPhases currentHpPercent (BossData.triggeredPhases bd)
          (BossData.currentPhase bd)
          (skipn (BossData.currentPhase bd) (BossData.phases bd)) with
  | Some (i, p) =>
      ({| BossData.phases := BossData.phases bd;
          BossData.currentPhase := S i;
          BossData.triggeredPhases := setAdd i (BossData.triggeredPhases bd) |},
       Some (i, p))
  | None => (bd, None)
  end.

(** [getRelevantAttackStat]. *)
Definition getRelevantAttackStat (entity : Entity.t) (skill : Skill.t) : num :=
  if String.eqb (Skill.type skill) "physical" then Entity.strength entity
  else if String.eqb (Skill.type skill) "magic"
  then Entity.intelligence entity
  else if String.eqb (Skill.type skill) "ranged" then Entity.agility entity
  else (Entity.attack entity || Entity.strength entity)%js.

(** The arithmetic of [calculateDamage] for a given draw. *)
Definition damageFormula (attacker defender : Entity.t) (skill : Skill.t)
    (r : Q) : num :=
  let baseDamage := Skill.damage skill in
  let attackStat := getRelevantAttackStat attacker skill in
  let defenseStat := Entity.defense defender in
  let damage := (baseDamage + attackStat * Skill.scalingFactor skill)%js in
  let damageReduction := (defenseStat / (defenseStat + 100))%js in
  let damage := (damage * (1 - damageReduction))%js in
  let variance := (0.85 + Fin r * 0.3)%js in
  let damage := (damage * variance)%js in
  let damage :=
    if has "strength_boost" (Entity.statusEffects attacker)
    then (damage * 1.2)%js else damage in
  let damage :=
    if has "weakness" (Entity.statusEffects attacker)
    then (damage * 0.7)%js else damage in
  let damage :=
    if has "defense_boost" (Entity.statusEffects defender)
    then (damage * 0.7)%js else damage in
  JS.max 1 (JS.floor damage).

(** The arithmetic of [calculateHealing]. *)
Definition healingFormula (caster : Entity.t) (skill : Skill.t) : num :=
  let baseHealing := Skill.healing skill in
  let relevantStat :=
    if String.eqb (Skill.type skill) "magic"
    then Entity.intelligence caster else Entity.vitality caster in
  let healing := (baseHealing + relevantStat * Skill.scalingFactor skill)%js in
  let healing :=
    if has "blessed" (Entity.statusEffects caster)
    then (healing * 1.3)%js else healing in
  let healing :=
    if has "curse" (Entity.statusEffects caster)
    then (healing * 0.7)%js else healing in
  JS.floor healing.

(** The chances of [checkCritical] and [checkHit]. *)
Definition critChance (attacker : Entity.t) (skill : Skill.t) : num :=
  let c := (Skill.criticalChance skill || 0.1)%js in
  let c := (c + Entity.agility attacker * 0.001)%js in
  if has "focused" (Entity.statusEffects attacker) then (c * 1.5)%js else c.

Definition hitChance (attacker defender : Entity.t) (skill : Skill.t) : num :=
  let h := (Skill.accuracy skill || 0.9)%js in
  let speedDiff := (Entity.speed attacker - Entity.speed defender)%js in
  let h := (h + speedDiff * 0.01)%js in
  let h :=
    if has "blinded" (Entity.statusEffects defender)
    then (h * 1.3)%js else h in
  let h :=
    if has "speed_boost" (Entity.statusEffects defender)
    then (h * 0.8)%js else h in
  JS.max 0.1 (JS.min 0.95 h).

(** [getBossSkill]. *)
Definition bossSkills : list (string * Skill.t) :=
  let s n mc cd d h ty sf effs :=
    Skill.set_currentCooldown 0 (Skill.literal n mc cd d h ty sf NaN NaN effs)
  in
  [ ("nature_heal", s "Nature's Blessing" 0 3 NaN 50 "magic" 0.5 []);
    ("root_entangle", s "Root Entangle" 0 4 25 NaN "nature" NaN
        [Entities.eff "stunned" 1 0.8]);
    ("ice_storm", s "Ice Storm" 0 5 40 NaN "magic" NaN
        [Entities.eff "frozen" 1 0.4]) ].

Definition getBossSkill (skillName : option string) : option Skill.t :=
  match skillName with
  | Some k => assoc k bossSkills
  | None => None
  end.

(** [String.prototype.replace('_', ' ')]: the first underscore only. *)
Fixpoint replaceUnderscore (s : string) : string :=
  match s with
  | EmptyString => EmptyString
  | String c r =>
      if Ascii.eqb c "_"%char then String " "%char r
      else String c (replaceUnderscore r)
  end.

(** [updateCooldowns] on one skill. *)
Definition coolDown (skill : Skill.t) : Skill.t :=
  if (Skill.currentCooldown skill >? 0)%js
  then Skill.set_currentCooldown (Skill.currentCooldown skill - 1)%js skill
  else skill.

(** Replacing the element at an index of an array. *)
Fixpoint setNth {A} (i : nat) (f : A -> A) (l : list A) : list A :=
  match l, i with
  | [], _ => []
  | x :: l', O => f x :: l'
  | x :: l', S i' => x :: setNth i' f l'
  end.

(** The walk of [chooseEnemyAction] over the cumulative weights. *)
Fixpoint pickPriority (random cumulativeWeight : Q) (pattern : list (string * Q))
  : option string :=
  match pattern with
  | [] => None
  | (priority, weight) :: pattern' =>
      let cumulativeWeight := cumulativeWeight + weight in
      if JS.Qltb random cumulativeWeight then Some priority
      else pickPriority random cumulativeWeight pattern'
  end.

Definition pattern (name : string) : list (string * Q) :=
  match assoc name aiPatterns with
  | Some p => p
  | None => []
  end.

Section Engine.
Variable rnd : nat -> Q.

(** [healEntity]; the amount healed is returned. *)
Definition healEntity (target : option Ref) (healing : num) : M State num :=
  (t <- read target;;
   let actualHealing :=
     JS.min healing (Entity.maxHp t - Entity.hp t)%js in
   write target (Entity.set_hp (Entity.hp t + actualHealing)%js);;
   ret actualHealing)%monad.

(** [applyStatusEffect]. *)
Definition applyStatusEffect (target : option Ref) (effectType : string)
    (duration : num) : M State unit :=
  (t <- read target;;
   let resistance := (Entity.statusResistance t || 0)%js in
   r <- random rnd;;
   if (Fin r <? resistance)%js then
     logMessage (Resists (Entity.name t) effectType) Info
   else
     let inst :=
       {| EffectInst.duration := duration;
          EffectInst.effect :=
            match assoc effectType statusEffects with
            | Some template => EffectInst.effect template
            | None => None
            end |} in
     write target
       (fun t => Entity.set_statusEffects
                   (mapSet effectType inst (Entity.statusEffects t)) t);;
     logMessage (IsAffectedBy (Entity.name t) effectType) Warning)%monad.

(** [calculateExperienceGain]. *)
Definition calculateExperienceGain : M State num :=
  (e <- bind (gets enemy) read;;
   let baseExp := (Entity.level e * 10)%js in
   let difficultyBonus :=
     JS.floor (baseExp * (Entity.difficulty e || 1.0))%js in
   let bossBonus := if Entity.isBoss e then baseExp else Fin 0 in
   ret (baseExp + difficultyBonus + bossBonus)%js)%monad.

(** [generateRandomItem] and [generateBossItem]. *)
Definition generateRandomItem : M State Item :=
  (randomType <- randomChoice rnd
                   ["health_potion"; "mana_potion"; "strength_elixir"];;
   match randomType with
   | Some k =>
       ret {| item_name := replaceUnderscore k; item_type := "consumable" |}
   | None => throw TypeError
   end)%monad.

Definition generateBossItem : M State Item :=
  (e <- bind (gets enemy) read;;
   ret {| item_name := Entity.name e ++ "'s Trophy";
          item_type := "trophy" |})%monad.

(** [calculateCombatRewards]. *)
Definition calculateCombatRewards : M State Rewards :=
  (g <- randomInt rnd 5 15;;
   e <- bind (gets enemy) read;;
   let goldAmount := (JS.of_Z g + Entity.level e)%js in
   let dropChance : Q := if Entity.isBoss e then 0.8 else 0.3 in
   r <- random rnd;;
   dropped <- (if JS.Qltb r dropChance
               then i <- generateRandomItem;; ret [i]
               else ret []);;
   e <- bind (gets enemy) read;;
   if Entity.isBoss e then
     trophy <- generateBossItem;;
     n <- randomInt rnd 2 5;;
     ret {| items := dropped ++ [trophy]; gold := goldAmount;
            essences := Some n |}
   else
     ret {| items := dropped; gold := goldAmount; essences := None |})%monad.

(** [cleanup]. *)
Definition cleanup : M State unit :=
  modify (fun s => set_turn PlayerTurn 0 (set_refs None None s)).

(** [endCombat]. *)
Definition endCombat (victory : bool) (reason : string) : M State unit :=
  (modify (set_isActive false);;
   turnCount <- gets turnCounter;;
   gained <-
     (if victory then
        experience <- calculateExperienceGain;;
        rewards <- calculateCombatRewards;;
        logMessage (Victory experience) Success;;
        ret (Some experience, Some rewards)
      else ret (None, None));;
   let results :=
     {| Combat.victory := victory; Combat.reason := reason;
        Combat.turnCount := turnCount; experience := fst gained;
        rewards := snd gained |} in
   cleanup;;
   pending <- gets combatResolve;;
   when pending
     (modify (fun s => set_resolution false (resolved s ++ [results]) s)))%monad.

(** [checkBossPhaseTransition]. *)
Definition checkBossPhaseTransition (boss : option Ref) : M State unit :=
  (b <- read boss;;
   match Entity.bossData b with
   | None => ret tt
   | Some bd =>
       let currentHpPercent := (Entity.hp b / Entity.maxHp b)%js in
       match phaseTransition currentHpPercent bd with
       | (bd', Some (_, p)) =>
           write boss
             (fun b => Entity.set_phase (Some bd')
                         (Entity.phaseAbilities b ++ Phase.abilities p) b);;
           logMessage (PhaseMessage (Phase.message p)) Warning
       | (_, None) => ret tt
       end
   end)%monad.

(** [dealDamage]. *)
Definition dealDamage (target : option Ref) (damage : num) : M State unit :=
  (write target
     (fun t => Entity.set_hp (JS.max 0 (Entity.hp t - damage)%js) t);;
   t <- read target;;
   when (Entity.hp t <=? 0)%js
     (logMessage (IsDefeated (Entity.name t)) Info;;
      p <- gets player;;
      if same_object target p
      then endCombat false "Player defeated"
      else endCombat true "Enemy defeated");;
   t <- read target;;
   when (Entity.isBoss t
         && match Entity.bossData t with Some _ => true | None => false end)
     (checkBossPhaseTransition target))%monad.

(** [applyStatusEffectTick]. *)
Definition applyStatusEffectTick (entity : option Ref) (effectType : string)
  : M State unit :=
  match assoc effectType statusEffects with
  | None => ret tt
  | Some template =>
      match EffectInst.effect template with
      | None => ret tt
      | Some effectData =>
          (when (JS.truthy (EffectData.damagePerTurn effectData))
             (e <- read entity;;
              let damage :=
                JS.floor (Entity.maxHp e
                          * EffectData.damagePerTurn effectData)%js in
              dealDamage entity damage;;
              logMessage (TakesEffectDamage (Entity.name e) damage effectType)
                Damage);;
           when (JS.truthy (EffectData.healPerTurn effectData))
             (e <- read entity;;
              let healing :=
                JS.floor (Entity.maxHp e
                          * EffectData.healPerTurn effectData)%js in
              healEntity entity healing;;
              logMessage (HealsFromEffect (Entity.name e) healing effectType)
                Heal))%monad
      end
  end.

(** One step of the [forEach] of [processStatusEffects]: tick the effect,
    decrement the duration stored in the map, report whether it expired. *)
Definition decrementDuration (type : string) (m : list (string * EffectInst.t))
  : list (string * EffectInst.t) :=
  map (fun kv =>
         if String.eqb (fst kv) type
         then (fst kv,
               {| EffectInst.duration :=
                    (EffectInst.duration (snd kv) - 1)%js;
                  EffectInst.effect := EffectInst.effect (snd kv) |})
         else kv) m.

Definition expired (type : string) (m : list (string * EffectInst.t)) : bool :=
  match assoc type m with
  | Some effect => (EffectInst.duration effect <=? 0)%js
  | None => false
  end.

Fixpoint tickEffects (entity : option Ref) (types : list string)
  : M State (list string) :=
  match types with
  | [] => ret []
  | type :: types' =>
      (applyStatusEffectTick entity type;;
       write entity
         (fun e => Entity.set_statusEffects
                     (decrementDuration type (Entity.statusEffects e)) e);;
       e <- read entity;;
       expiredEffects <- tickEffects entity types';;
       ret (if expired type (Entity.statusEffects e)
            then type :: expiredEffects else expiredEffects))%monad
  end.

(** [processStatusEffects]. *)
Definition processStatusEffects (entity : option Ref) : M State unit :=
  (e <- read entity;;
   expiredEffects <- tickEffects entity (map fst (Entity.statusEffects e));;
   forEach expiredEffects
     (fun type =>
        write entity
          (fun e => Entity.set_statusEffects
                      (mapDelete type (Entity.statusEffects e)) e);;
        e <- read entity;;
        logMessage (RecoversFrom (Entity.name e) type) Info))%monad.

(** [updateCooldowns]. *)
Definition updateCooldowns (entity : option Ref) : M State unit :=
  (e <- read entity;;
   match Entity.skills e with
   | Some skills => write entity (Entity.set_skills (Some (map coolDown skills)))
   | None => ret tt
   end)%monad.

(** [endPlayerTurn]; the timer it sets runs [executeEnemyTurn] later. *)
Definition endPlayerTurn : M State unit :=
  (bind (gets player) processStatusEffects;;
   bind (gets player) updateCooldowns;;
   modify (fun s => set_turn EnemyTurn (turnCounter s) s);;
   modify (fun s => set_enemyTurnTimers (S (enemyTurnTimers s)) s))%monad.

(** [endEnemyTurn]. *)
Definition endEnemyTurn : M State unit :=
  (bind (gets enemy) processStatusEffects;;
   bind (gets enemy) updateCooldowns;;
   modify (fun s => set_turn PlayerTurn (turnCounter s + 1) s);;
   n <- gets turnCounter;;
   logMessage (YourTurn n) Info)%monad.

(** [calculateDamage], [checkCritical], [checkHit], [calculateHealing]. *)
Definition calculateDamage (attacker defender : option Ref) (skill : Skill.t)
  : M State num :=
  (a <- read attacker;;
   d <- read defender;;
   r <- random rnd;;
   ret (damageFormula a d skill r))%monad.

Definition checkCritical (attacker : option Ref) (skill : Skill.t)
  : M State bool :=
  (a <- read attacker;;
   r <- random rnd;;
   ret (Fin r <? critChance a skill)%js)%monad.

Definition checkHit (attacker defender : option Ref) (skill : Skill.t)
  : M State bool :=
  (a <- read attacker;;
   d <- read defender;;
   r <- random rnd;;
   ret (Fin r <? hitChance a d skill)%js)%monad.

Definition calculateHealing (caster : option Ref) (skill : Skill.t)
  : M State num :=
  (c <- read caster;; ret (healingFormula c skill))%monad.

(** The status-effect rolls of [executeSkill]. *)
Fixpoint rollEffects (effects : list Effect.spec) : M State (list Effect.spec) :=
  match effects with
  | [] => ret []
  | effect :: effects' =>
      (r <- random rnd;;
       rest <- rollEffects effects';;
       ret (if (Fin r <? Effect.chance effect)%js
            then effect :: rest else rest))%monad
  end.

Definition set_hit (v : bool) (r : Result.t) : Result.t :=
  {| Result.skill := Result.skill r; Result.skillRef := Result.skillRef r;
     Result.caster := Result.caster r; Result.target := Result.target r;
     Result.damage := Result.damage r; Result.healing := Result.healing r;
     Result.statusEffects := Result.statusEffects r;
     Result.critical := Result.critical r; Result.hit := v;
     Result.message := Result.message r |}.

Definition push_effect (e : Effect.spec) (r : Result.t) : Result.t :=
  {| Result.skill := Result.skill r; Result.skillRef := Result.skillRef r;
     Result.caster := Result.caster r; Result.target := Result.target r;
     Result.damage := Result.damage r; Result.healing := Result.healing r;
     Result.statusEffects := Result.statusEffects r ++ [e];
     Result.critical := Result.critical r; Result.hit := Result.hit r;
     Result.message := Result.message r |}.

(** [applySpecialSkillEffects]; the telegraph and its delay only pass
    time. *)
Definition applySpecialSkillEffects (skill : Skill.t) (result : Result.t)
  : M State Result.t :=
  (let name := JS.toLowerCase (Skill.name skill) in
   if String.eqb name "charge" then
     e <- gets enemy;;
     (if same_object (Result.caster result) e then
        en <- read e;;
        logMessage (PreparesCharge (Entity.name en)) Warning
      else ret tt);;
     ret result
   else if String.eqb name "fireball" then
     let result := set_hit true result in
     r <- random rnd;;
     ret (if JS.Qltb r 0.3
          then push_effect {| Effect.type := "burning"; Effect.duration := 2;
                              Effect.chance := NaN |} result
          else result)
   else if String.eqb name "ice_storm" then
     e <- gets enemy;;
     if same_object (Result.caster result) e then
       en <- read e;;
       if Entity.isBoss en then
         logMessage IceStorm Warning;;
         r <- random rnd;;
         ret (if JS.Qltb r 0.4
              then push_effect {| Effect.type := "frozen";
                                  Effect.duration := 1;
                                  Effect.chance := NaN |} result
              else result)
       else ret result
     else ret result
   else if String.eqb name "shadow_step" then
     let result := set_hit true result in
     c <- read (Result.caster result);;
     logMessage (VanishesIntoShadow (Entity.name c)) Info;;
     ret result
   else ret result)%monad.

(** [executeSkill]. *)
Definition executeSkill (caster target : option Ref) (skill : Skill.t)
    (skillRef : SkillRef) : M State Result.t :=
  ('(damage, critical, hit, message) <-
     (if (Skill.damage skill >? 0)%js then
        damage <- calculateDamage caster target skill;;
        critical <- checkCritical caster skill;;
        hit <- checkHit caster target skill;;
        let damage :=
          if critical
          then (damage * (Skill.criticalMultiplier skill || 2.0))%js
          else damage in
        let message := if critical then " Critical hit!" else "" in
        ret (if hit then (damage, critical, hit, message)
             else (Fin 0, critical, hit, "Miss!"))
      else ret (Fin 0, false, true, ""));;
   healing <-
     (if (Skill.healing skill >? 0)%js
      then calculateHealing caster skill else ret (Fin 0));;
   statusEffects <- rollEffects (Skill.statusEffects skill);;
   applySpecialSkillEffects skill
     {| Result.skill := skill; Result.skillRef := skillRef;
        Result.caster := caster; Result.target := target;
        Result.damage := damage; Result.healing := healing;
        Result.statusEffects := statusEffects;
        Result.critical := critical; Result.hit := hit;
        Result.message := message |})%monad.

(** [skill.currentCooldown = skill.cooldown] through a skill reference. *)
Definition resetCooldown (skillRef : SkillRef) : M State unit :=
  match skillRef with
  | OwnSkill owner i =>
      modify (fun s =>
        let o := object owner s in
        set_object owner
          (Entity.set_skills
             (option_map
                (setNth i (fun k => Skill.set_currentCooldown
                                      (Skill.cooldown k) k))
                (Entity.skills o)) o) s)
  | Detached => ret tt
  end.

(** [applySkillResult]. *)
Definition applySkillResult (result : Result.t) : M State unit :=
  (let skill := Result.skill result in
   let caster := Result.caster result in
   let target := Result.target result in
   let damage := Result.damage result in
   let healing := Result.healing result in
   (if (damage >? 0)%js && Result.hit result then
      dealDamage target damage;;
      t <- read target;;
      logMessage (Deals (Skill.name skill) damage (Entity.name t)
                    (Result.critical result)) Damage
    else if negb (Result.hit result) then
      t <- read target;;
      logMessage (Misses (Skill.name skill) (Entity.name t)) Info
    else ret tt);;
   when (healing >? 0)%js
     (healEntity caster healing;;
      c <- read caster;;
      logMessage (Heals (Skill.name skill) (Entity.name c) healing) Heal);;
   forEach (Result.statusEffects result)
     (fun effect =>
        applyStatusEffect target (Effect.type effect)
          (Effect.duration effect));;
   write caster
     (fun c => Entity.set_mana (Entity.mana c - Skill.manaCost skill)%js c);;
   resetCooldown (Result.skillRef result))%monad.

(** [canUseSkill]. *)
Definition canUseSkill (skill : Skill.t) : M State bool :=
  (p <- bind (gets player) read;;
   if (Entity.mana p <? Skill.manaCost skill)%js then
     logMessage (NotEnoughMana (Skill.manaCost skill) (Entity.mana p)) Warning;;
     ret false
   else if (Skill.currentCooldown skill >? 0)%js then
     logMessage (OnCooldown (Skill.name skill) (Skill.currentCooldown skill))
       Warning;;
     ret false
   else if has "stunned" (Entity.statusEffects p)
           || has "frozen" (Entity.statusEffects p) then
     logMessage YouAreUnableToAct Warning;;
     ret false
   else ret true)%monad.

(** [useSkill]. *)
Definition useSkill (skillIndex : Z) : M State bool :=
  (active <- gets isActive;;
   turn <- gets currentTurn;;
   if negb active || negb (Turn_eqb turn PlayerTurn) then ret false
   else
     pr <- gets player;;
     p <- read pr;;
     match pr, Entity.skills p with
     | Some owner, Some skills =>
         match at_index skills skillIndex with
         | None => ret false
         | Some skill =>
             ok <- canUseSkill skill;;
             if negb ok then ret false
             else
               try_catch
                 (er <- gets enemy;;
                  result <- executeSkill pr er skill
                              (OwnSkill owner (Z.to_nat skillIndex));;
                  applySkillResult result;;
                  endPlayerTurn;;
                  ret true)
                 (fun _ => ret false)
         end
     | _, _ => throw TypeError
     end)%monad.

(** [getEnemyBasicAttack]. *)
Definition getEnemyBasicAttack : M State Skill.t :=
  (e <- bind (gets enemy) read;;
   ret (Skill.set_currentCooldown 0
          (Skill.literal "Attack" 0 0 (Entity.attack e || 10)%js NaN
             "physical" 0.1 0.1 0.9 [])))%monad.

(** The four stubs of the enemy AI. *)
Definition getEnemySpecialSkill : option Skill.t := None.
Definition getEnemyBuffSkill : option Skill.t := None.
Definition getEnemyDebuffSkill : option Skill.t := None.
Definition enemyCanHeal : bool := false.

Definition attackAction : M State Action :=
  (skill <- getEnemyBasicAttack;; ret (SkillAction "attack" skill))%monad.

(** [getEnemyActionOfType]. *)
Definition getEnemyActionOfType (actionType : string) : M State Action :=
  (if String.eqb actionType "attack" then attackAction
   else if String.eqb actionType "special" then
     match getEnemySpecialSkill with
     | Some k => ret (SkillAction "special" k)
     | None => attackAction
     end
   else if String.eqb actionType "defend" then ret Defend
   else if String.eqb actionType "heal" then
     e <- bind (gets enemy) read;;
     if (Entity.hp e <? Entity.maxHp e * 0.5)%js && enemyCanHeal
     then ret HealAction else attackAction
   else if String.eqb actionType "buff" then
     match getEnemyBuffSkill with
     | Some k => ret (SkillAction "buff" k)
     | None => attackAction
     end
   else if String.eqb actionType "debuff" then
     match getEnemyDebuffSkill with
     | Some k => ret (SkillAction "debuff" k)
     | None => attackAction
     end
   else attackAction)%monad.

(** [checkBossPhaseAction]. *)
Definition checkBossPhaseAction : M State (option Action) :=
  (e <- bind (gets enemy) read;;
   match Entity.phaseAbilities e with
   | [] => ret None
   | _ =>
       r <- random rnd;;
       if JS.Qltb r 0.3 then
         abilityName <- randomChoice rnd (Entity.phaseAbilities e);;
         match getBossSkill abilityName with
         | Some skill => ret (Some (SkillAction "special" skill))
         | None => ret None
         end
       else ret None
   end)%monad.

(** [chooseEnemyAction]. *)
Definition chooseEnemyAction : M State Action :=
  (e <- bind (gets enemy) read;;
   phaseAction <-
     (if Entity.isBoss e
         && match Entity.bossData e with Some _ => true | None => false end
      then checkBossPhaseAction else ret None);;
   match phaseAction with
   | Some a => ret a
   | None =>
       match Entity.type e with
       | None => throw TypeError
       | Some type =>
           let aiPattern :=
             if JS.includes type "giant" || JS.includes type "tank"
             then pattern "defensive"
             else if JS.includes type "mage" || JS.includes type "lich"
             then pattern "tactical"
             else if JS.includes type "berserker"
                     || (Entity.hp e <? Entity.maxHp e * 0.3)%js
             then pattern "berserker"
             else pattern "aggressive" in
           r <- random rnd;;
           match pickPriority r 0 aiPattern with
           | Some priority => getEnemyActionOfType priority
           | None => attackAction
           end
       end
   end)%monad.

(** [executeEnemyAction]. *)
Definition executeEnemyAction (action : Action) : M State unit :=
  match action with
  | SkillAction _ skill =>
      (er <- gets enemy;;
       pr <- gets player;;
       result <- executeSkill er pr skill Detached;;
       applySkillResult result)%monad
  | Defend =>
      (er <- gets enemy;;
       applyStatusEffect er "defense_boost" 1;;
       e <- bind (gets enemy) read;;
       logMessage (DefensiveStance (Entity.name e)) Info)%monad
  | HealAction =>
      (er <- gets enemy;;
       e <- read er;;
       let healAmount := JS.floor (Entity.maxHp e * 0.2)%js in
       healEntity er healAmount;;
       e <- bind (gets enemy) read;;
       logMessage (HealsFor (Entity.name e) healAmount) Heal)%monad
  end.

(** [executeEnemyTurn]. *)
Definition executeEnemyTurn : M State unit :=
  (active <- gets isActive;;
   turn <- gets currentTurn;;
   if negb active || negb (Turn_eqb turn EnemyTurn) then ret tt
   else
     try_catch
       (e <- bind (gets enemy) read;;
        if has "stunned" (Entity.statusEffects e)
           || has "frozen" (Entity.statusEffects e) then
          logMessage (IsUnableToAct (Entity.name e)) Info;;
          endEnemyTurn
        else
          action <- chooseEnemyAction;;
          executeEnemyAction action;;
          endEnemyTurn)
       (fun _ => endEnemyTurn))%monad.

(** [attemptFlee]. *)
Definition attemptFlee : M State bool :=
  (options <- gets combatOptions;;
   if negb (allowFlee options) then
     logMessage CannotFlee Warning;;
     ret false
   else
     let fleeChance : Q := 0.7 in
     r <- random rnd;;
     if JS.Qltb r fleeChance then
       logMessage FleeSucceeds Info;;
       endCombat false "Player fled";;
       ret true
     else
       logMessage FleeFails Warning;;
       endPlayerTurn;;
       ret false)%monad.

(** [initializeBoss]. *)
Definition initializeBoss : M State unit :=
  (er <- gets enemy;;
   e <- read er;;
   let bossData :=
     match MapGenerator.lookup (Entity.type e) bossPhases with
     | Some phases =>
         Some {| BossData.phases := phases; BossData.currentPhase := 0;
                 BossData.triggeredPhases := [] |}
     | None => Entity.bossData e
     end in
   write er (Entity.set_boss bossData 0.5 0.3))%monad.

(** [startCombat].  [cloneEntity] copies the two arguments; the promise it
    returns is the stored resolver. *)
Definition startCombat (player enemy : Entity.t) (options : OptionsArg)
  : M State unit :=
  (modify (fun s =>
     set_refs (Some PlayerObject) (Some EnemyObject)
       (set_objects player enemy s));;
   modify (fun s =>
     set_combatOptions (mergeOptions (combatOptions s) options) s);;
   modify (set_isActive true);;
   modify (set_turn PlayerTurn 1);;
   write (Some PlayerObject) (Entity.set_statusEffects []);;
   write (Some EnemyObject) (Entity.set_statusEffects []);;
   options <- gets combatOptions;;
   when (isBoss options) initializeBoss;;
   p <- read (Some PlayerObject);;
   e <- read (Some EnemyObject);;
   logMessage (CombatBegins (Entity.name p) (Entity.name e)) Info;;
   (if (Entity.speed e >? Entity.speed p)%js then
      modify (fun s => set_turn EnemyTurn (turnCounter s) s);;
      logMessage (GoesFirst (Entity.name e) true) Info;;
      modify (fun s => set_enemyTurnTimers (S (enemyTurnTimers s)) s)
    else logMessage (GoesFirst (Entity.name p) false) Info);;
   modify (fun s => set_resolution true (resolved s) s))%monad.

End Engine.

End Combat.

(* ================================================================== *)
(** ** Inherited property names *)

(** A lookup [object[key]] with a computed key finds, besides the
    properties the object literal lists, the ones every object inherits
    from [Object.prototype].  The embedding looks a key up among the listed
    properties only; a statement about a function that is handed the key
    assumes that it is none of these names. *)
Definition inheritedNames : list string :=
  [ "constructor"; "__proto__"; "hasOwnProperty"; "isPrototypeOf";
    "propertyIsEnumerable"; "toLocaleString"; "toString"; "valueOf";
    "__defineGetter__"; "__defineSetter__"; "__lookupGetter__";
    "__lookupSetter__" ].

Definition plainKey (k : string) : Prop := ~ In k inheritedNames.

(* ================================================================== *)
(** ** Boss scaling ([scaleBoss] of class [Entities]) *)

(** [scaleBoss(boss, difficulty)]: a shallow copy of the boss with its hp,
    attack, defense, level and, above difficulty 1.5, abilities replaced. *)
Definition scaleBoss (boss : Entity.t) (difficulty : num) : Entity.t :=
  let hp' := JS.floor (Entity.hp boss * difficulty)%js in
  {| Entity.name := Entity.name boss;
     Entity.type := Entity.type boss;
     Entity.hp := hp';
     Entity.maxHp := hp';
     Entity.maxHealth := Entity.maxHealth boss;
     Entity.mana := Entity.mana boss;
     Entity.maxMana := Entity.maxMana boss;
     Entity.strength := Entity.strength boss;
     Entity.agility := Entity.agility boss;
     Entity.intelligence := Entity.intelligence boss;
     Entity.vitality := Entity.vitality boss;
     Entity.attack := JS.floor (Entity.attack boss * difficulty)%js;
     Entity.defense := JS.floor (Entity.defense boss * difficulty)%js;
     Entity.speed := Entity.speed boss;
     Entity.level :=
       JS.max (Entity.level boss) (JS.floor (difficulty * 5)%js);
     Entity.difficulty := Entity.difficulty boss;
     Entity.statusResistance := Entity.statusResistance boss;
     Entity.criticalResistance := Entity.criticalResistance boss;
     Entity.isBoss := Entity.isBoss boss;
     Entity.abilities :=
       if (difficulty >? 1.5)%js
       then Entity.abilities boss ++ ["enraged"]
       else Entity.abilities boss;
     Entity.statusEffects := Entity.statusEffects boss;
     Entity.skills := Entity.skills boss;
     Entity.bossData := Entity.bossData boss;
     Entity.phaseAbilities := Entity.phaseAbilities boss |}.

(* ================================================================== *)
(** ** Version comparison (class [Persistence]) *)

Module Persistence.

(** [parts[i] || 0]: an index past the end reads [undefined]. *)
Definition part (parts : list num) (i : nat) : num :=
  (match nth_error parts i with Some x => x | None => NaN end || 0)%js.

(** The loop of [compareVersions], from index [i] with [todo] iterations
    left. *)
Fixpoint compareFrom (v1parts v2parts : list num) (i todo : nat) : Z :=
  match todo with
  | O => 0
  | S todo' =>
      let v1part := part v1parts i in
      let v2part := part v2parts i in
      if (v1part <? v2part)%js then (-1)%Z
      else if (v1part >? v2part)%js then 1%Z
      else compareFrom v1parts v2parts (S i) todo'
  end.

(** [compareVersions(version1, version2)], from the two arrays
    [version.split('.').map(Number)] on: a part that is not a number is
    NaN. *)
Definition compareVersions (v1parts v2parts : list num) : Z :=
  compareFrom v1parts v2parts 0
    (Nat.max (List.length v1parts) (List.length v2parts)).

End Persistence.

(* ================================================================== *)
(** ** Runs and meta-progression (class [GameEngine]) *)

Module GameEngine.

(** The numbers of the meta-progression are integers: the constructor
    writes integers and every later write adds or subtracts an integer or
    a floor.  The multipliers are rationals. *)
Record Building : Type := {
  level : Z;
  experience : Z
}.

Record Reputation : Type := {
  reputation : Z;
  reputationLevel : Z
}.

Record GlobalBonuses : Type := {
  xpMultiplier : Q;
  goldMultiplier : Q;
  craftingSpeed : Q;
  startingStats : Z
}.

(** [this.metaProgression], without the two sets of unlocked recipes and
    classes, which the code below does not read. *)
Record MetaProgression : Type := {
  echoes : Z;
  totalRuns : Z;
  totalVictories : Z;
  buildings : list (string * Building);
  factionReputations : list (string * Reputation);
  globalBonuses : GlobalBonuses
}.

Record RunStats : Type := {
  enemiesDefeated : Z;
  damageDealt : Z;
  damageTaken : Z;
  itemsFound : Z;
  startTime : Z
}.

(** [this.activeRun], without its set of flags. *)
Record ActiveRun : Type := {
  id : Q;
  character : Entities.Character;
  faction : string;
  map : MapGenerator.RunData;
  currentNodeIndex : Z;
  inventory : list Combat.Item;
  resources : list (string * Z);
  runStats : RunStats;
  difficulty : Q
}.

(** The engine: its meta-progression, its run, its map generator (which
    carries the cursor of [Math.random]) and the number of times
    [Date.now] has been read. *)
Record t : Type := {
  metaProgression : MetaProgression;
  activeRun : option ActiveRun;
  isInRun : bool;
  mapGenerator : MapGenerator.State;
  clock : nat
}.

Definition set_metaProgression (v : MetaProgression) (s : t) : t :=
  {| metaProgression := v; activeRun := activeRun s; isInRun := isInRun s;
     mapGenerator := mapGenerator s; clock := clock s |}.

Definition set_activeRun (v : option ActiveRun) (s : t) : t :=
  {| metaProgression := metaProgression s; activeRun := v;
     isInRun := isInRun s; mapGenerator := mapGenerator s;
     clock := clock s |}.

Definition set_isInRun (v : bool) (s : t) : t :=
  {| metaProgression := metaProgression s; activeRun := activeRun s;
     isInRun := v; mapGenerator := mapGenerator s; clock := clock s |}.

Definition set_mapGenerator (v : MapGenerator.State) (s : t) : t :=
  {| metaProgression := metaProgression s; activeRun := activeRun s;
     isInRun := isInRun s; mapGenerator := v; clock := clock s |}.

Definition set_clock (v : nat) (s : t) : t :=
  {| metaProgression := metaProgression s; activeRun := activeRun s;
     isInRun := isInRun s; mapGenerator := mapGenerator s; clock := v |}.

#[global] Instance t_rng : HasRng t :=
  {| rng := fun s => MapGenerator.cursor (mapGenerator s);
     set_rng := fun n s => set_mapGenerator (set_rng n (mapGenerator s)) s |}.

Definition set_echoes (v : Z) (m : MetaProgression) : MetaProgression :=
  {| echoes := v; totalRuns := totalRuns m;
     totalVictories := totalVictories m; buildings := buildings m;
     factionReputations := factionReputations m;
     globalBonuses := globalBonuses m |}.

Definition set_totalRuns (v : Z) (m : MetaProgression) : MetaProgression :=
  {| echoes := echoes m; totalRuns := v;
     totalVictories := totalVictories m; buildings := buildings m;
     factionReputations := factionReputations m;
     globalBonuses := globalBonuses m |}.

Definition set_totalVictories (v : Z) (m : MetaProgression)
  : MetaProgression :=
  {| echoes := echoes m; totalRuns := totalRuns m; totalVictories := v;
     buildings := buildings m; factionReputations := factionReputations m;
     globalBonuses := globalBonuses m |}.

Definition set_buildings (v : list (string * Building)) (m : MetaProgression)
  : MetaProgression :=
  {| echoes := echoes m; totalRuns := totalRuns m;
     totalVictories := totalVictories m; buildings := v;
     factionReputations := factionReputations m;
     globalBonuses := globalBonuses m |}.

Definition set_factionReputations (v : list (string * Reputation))
    (m : MetaProgression) : MetaProgression :=
  {| echoes := echoes m; totalRuns := totalRuns m;
     totalVictories := totalVictories m; buildings := buildings m;
     factionReputations := v; globalBonuses := globalBonuses m |}.

Definition set_globalBonuses (v : GlobalBonuses) (m : MetaProgression)
  : MetaProgression :=
  {| echoes := echoes m; totalRuns := totalRuns m;
     totalVictories := totalVictories m; buildings := buildings m;
     factionReputations := factionReputations m; globalBonuses := v |}.

Definition set_resources (v : list (string * Z)) (r : ActiveRun) : ActiveRun :=
  {| id := id r; character := character r; faction := faction r;
     map := map r; currentNodeIndex := currentNodeIndex r;
     inventory := inventory r; resources := v; runStats := runStats r;
     difficulty := difficulty r |}.

(** A write to the meta-progression object.  A write to a property of one
    of its objects is [Combat.mapSet]: like [Map.set], it keeps the place
    of a key the object has and appends a new one. *)
Definition update (f : MetaProgression -> MetaProgression) : M t unit :=
  modify (fun s => set_metaProgression (f (metaProgression s)) s).

(** The engine as its constructor leaves it. *)
Definition fresh : t :=
  let building := {| level := 1; experience := 0 |} in
  let standing := {| reputation := 0; reputationLevel := 1 |} in
  {| metaProgression :=
       {| echoes := 0; totalRuns := 0; totalVictories := 0;
          buildings :=
            [ ("forge", building); ("library", building);
              ("altar", building); ("faction", building) ];
          factionReputations :=
            [ ("order", standing); ("shadow", standing);
              ("nature", standing) ];
          globalBonuses :=
            {| xpMultiplier := 1.0; goldMultiplier := 1.0;
               craftingSpeed := 1.0; startingStats := 0 |} |};
     activeRun := None;
     isInRun := false;
     mapGenerator := MapGenerator.fresh;
     clock := 0 |}.

(** [Math.max] of two rationals. *)
Definition maxQ (x y : Q) : Q := if Qle_bool x y then y else x.

(** [calculateRunDifficulty]; [Object.values(...).reduce] runs over the
    buildings in the order of their keys. *)
Definition calculateRunDifficulty : M t Q :=
  gets (fun s =>
    let baseModifier := 1.0 in
    let runsModifier := inject_Z (totalRuns (metaProgression s)) * 0.05 in
    let buildingModifier :=
      fold_left
        (fun sum building => sum + (inject_Z (level building) - 1) * 0.1)
        (List.map snd (buildings (metaProgression s))) 0 in
    maxQ 0.5 (baseModifier + runsModifier + buildingModifier)).

(** [updateGlobalBonuses]: each of the three buildings is read just before
    its bonus is written; a missing one is a TypeError. *)
Definition buildingLevel (buildingType : string) : M t Z :=
  (b <- gets (fun s => assoc buildingType (buildings (metaProgression s)));;
   match b with
   | Some building => ret (level building)
   | None => throw TypeError
   end)%monad.

Definition set_xpMultiplier (v : Q) (b : GlobalBonuses) : GlobalBonuses :=
  {| xpMultiplier := v; goldMultiplier := goldMultiplier b;
     craftingSpeed := craftingSpeed b; startingStats := startingStats b |}.

Definition set_goldMultiplier (v : Q) (b : GlobalBonuses) : GlobalBonuses :=
  {| xpMultiplier := xpMultiplier b; goldMultiplier := v;
     craftingSpeed := craftingSpeed b; startingStats := startingStats b |}.

Definition set_startingStats (v : Z) (b : GlobalBonuses) : GlobalBonuses :=
  {| xpMultiplier := xpMultiplier b; goldMultiplier := goldMultiplier b;
     craftingSpeed := craftingSpeed b; startingStats := v |}.

Definition updateBonuses (f : GlobalBonuses -> GlobalBonuses) : M t unit :=
  update (fun m => set_globalBonuses (f (globalBonuses m)) m).

Definition updateGlobalBonuses : M t unit :=
  (libraryLevel <- buildingLevel "library";;
   updateBonuses (set_xpMultiplier (1.0 + inject_Z (libraryLevel - 1) * 0.1));;
   forgeLevel <- buildingLevel "forge";;
   updateBonuses (set_goldMultiplier (1.0 + inject_Z (forgeLevel - 1) * 0.15));;
   altarLevel <- buildingLevel "altar";;
   updateBonuses (set_startingStats ((altarLevel - 1) * 2)%Z))%monad.

(** [getBuildingUpgradeCost]: the cost of a building the engine does not
    have is [Infinity]. *)
Inductive Cost : Type :=
| Infinity
| Finite (c : Z).

Definition baseCosts : list (string * Z) :=
  [ ("forge", 100%Z); ("library", 150%Z); ("altar", 200%Z);
    ("faction", 250%Z) ].

Definition getBuildingUpgradeCost (buildingType : string) : M t Cost :=
  gets (fun s =>
    match assoc buildingType (buildings (metaProgression s)) with
    | None => Infinity
    | Some building =>
        let baseCost :=
          match assoc buildingType baseCosts with
          | Some c => c
          | None => 100%Z
          end in
        Finite (Qfloor (inject_Z baseCost * (1.5 ^ (level building - 1))))
    end).

(** [echoes >= cost]. *)
Definition covers (echoes_ : Z) (cost : Cost) : bool :=
  match cost with
  | Infinity => false
  | Finite c => (echoes_ >=? c)%Z
  end.

(** [canAffordUpgrade]. *)
Definition canAffordUpgrade (buildingType : string) : M t bool :=
  (cost <- getBuildingUpgradeCost buildingType;;
   e <- gets (fun s => echoes (metaProgression s));;
   ret (covers e cost))%monad.

(** [upgradeBuilding]. *)
Definition upgradeBuilding (buildingType : string) : M t bool :=
  (building <-
     gets (fun s => assoc buildingType (buildings (metaProgression s)));;
   match building with
   | None => ret false
   | Some building =>
       cost <- getBuildingUpgradeCost buildingType;;
       e <- gets (fun s => echoes (metaProgression s));;
       match cost with
       | Finite c =>
           if (e >=? c)%Z then
             update (fun m => set_echoes (echoes m - c) m);;
             update (fun m =>
               set_buildings
                 (Combat.mapSet buildingType
                    {| level := level building + 1; experience := 0 |}
                    (buildings m)) m);;
             updateGlobalBonuses;;
             ret true
           else ret false
       | Infinity => ret false
       end
   end)%monad.

(** The object [calculateRunRewards] returns; [rewardResources] is absent
    from the one it returns without a run. *)
Record RunRewards : Type := {
  rewardEchoes : Z;
  rewardItems : list Combat.Item;
  rewardResources : option (list (string * Z))
}.

Section Engine.
Variable rnd : nat -> Q.
Variable date : nat -> Z.

(** [Date.now()]. *)
Definition now : M t Z :=
  fun s => (Ret (date (clock s)), set_clock (S (clock s)) s).

(** [calculateTimeBonus]. *)
Definition calculateTimeBonus : M t Z :=
  (run <- gets activeRun;;
   match run with
   | None => ret 0%Z
   | Some run =>
       n <- now;;
       let runTime := (n - startTime (runStats run))%Z in
       let targetTime := (30 * 60 * 1000)%Z in
       if (runTime <? targetTime)%Z
       then ret (Qfloor (inject_Z (targetTime - runTime) / 1000 / 60))
       else ret 0%Z
   end)%monad.

(** [generateRewardItems]. *)
Definition generateRewardItems (victory : bool) : list Combat.Item := [].

(** [calculateRunRewards]. *)
Definition calculateRunRewards (victory : bool) : M t RunRewards :=
  (run <- gets activeRun;;
   match run with
   | None =>
       ret {| rewardEchoes := 0; rewardItems := [];
              rewardResources := None |}
   | Some run =>
       let baseEchoes := if victory then 50%Z else 20%Z in
       let difficultyBonus :=
         Qfloor (inject_Z baseEchoes * difficulty run) in
       let enemyBonus := (enemiesDefeated (runStats run) * 5)%Z in
       timeBonus <- calculateTimeBonus;;
       let totalEchoes :=
         (baseEchoes + difficultyBonus + enemyBonus + timeBonus)%Z in
       multiplier <-
         gets (fun s => goldMultiplier (globalBonuses (metaProgression s)));;
       ret {| rewardEchoes := Qfloor (inject_Z totalEchoes * multiplier);
              rewardItems := generateRewardItems victory;
              rewardResources := Some (resources run) |}
   end)%monad.

(** [applyRunRewards]. *)
Definition gainExperience (expGain : Z) (buildingType : string) : M t unit :=
  (b <- gets (fun s => assoc buildingType (buildings (metaProgression s)));;
   match b with
   | None => throw TypeError
   | Some building =>
       update (fun m =>
         set_buildings
           (Combat.mapSet buildingType
              {| level := level building;
                 experience := experience building + expGain |}
              (buildings m)) m)
   end)%monad.

Definition applyRunRewards (rewards : RunRewards) (victory : bool)
  : M t unit :=
  (update (fun m => set_echoes (echoes m + rewardEchoes rewards) m);;
   buildingTypes <-
     gets (fun s => List.map fst (buildings (metaProgression s)));;
   forEach buildingTypes (gainExperience (if victory then 10 else 5)%Z);;
   run <- gets activeRun;;
   match run with
   | None => ret tt
   | Some run =>
       let repGain := if victory then 25%Z else 10%Z in
       standing <-
         gets (fun s =>
                 assoc (faction run)
                   (factionReputations (metaProgression s)));;
       match standing with
       | None => throw TypeError
       | Some standing =>
           update (fun m =>
             set_factionReputations
               (Combat.mapSet (faction run)
                  {| reputation := reputation standing + repGain;
                     reputationLevel := reputationLevel standing |}
                  (factionReputations m)) m)
       end
   end)%monad.

(** [updateRunStatistics]. *)
Definition updateRunStatistics (victory : bool) : M t unit :=
  (when victory
     (update (fun m => set_totalVictories (totalVictories m + 1) m));;
   updateGlobalBonuses)%monad.

(** [addResources]. *)
Definition addResource (resourceType : string) (amount : Z) : M t unit :=
  (run <- gets activeRun;;
   match run with
   | None => throw TypeError
   | Some run =>
       let held :=
         match assoc resourceType (resources run) with
         | Some held => held
         | None => 0%Z
         end in
       modify (set_activeRun
                 (Some (set_resources
                          (Combat.mapSet resourceType (held + amount)%Z
                             (resources run)) run)))
   end)%monad.

Definition addResources (resources_ : list (string * Z)) : M t unit :=
  (run <- gets activeRun;;
   match run with
   | None => ret tt
   | Some _ =>
       forEach (List.map fst resources_)
         (fun resourceType =>
            match assoc resourceType resources_ with
            | Some amount => addResource resourceType amount
            | None => ret tt
            end)
   end)%monad.


(** Running a method that mutates a character object it is handed. *)
Definition onCharacter {A} (character_ : Entities.Character)
    (m : M (t * Entities.Character) A) : M t (A * Entities.Character) :=
  fun s =>
    match m (s, character_) with
    | (Ret a, (s', c')) => (Ret (a, c'), s')
    | (Throw e, (s', _)) => (Throw e, s')
    | (Timeout, (s', _)) => (Timeout, s')
    end.

(** [applyMetaProgressionBonuses]: a character object is a plain object, so
    the call of its [recalculateStats] is a TypeError. *)
Definition applyMetaProgressionBonuses : M (t * Entities.Character) unit :=
  (bonuses <- gets (fun sc => globalBonuses (metaProgression (fst sc)));;
   modify (fun sc =>
     let c := snd sc in
     let b := Entities.baseStats c in
     let k := startingStats bonuses in
     (fst sc,
      Entities.with_stats
        (Entities.stats (Entities.Stats.strength b + k)
           (Entities.Stats.agility b + k)
           (Entities.Stats.intelligence b + k)
           (Entities.Stats.vitality b + k))%Z
        (Entities.strength c) (Entities.agility c)
        (Entities.intelligence c) (Entities.vitality c) c));;
   throw TypeError)%monad.

(** A call into the map generator. *)
Definition onGenerator {A} (m : M MapGenerator.State A) : M t A :=
  fun s =>
    let (o, g) := m (mapGenerator s) in (o, set_mapGenerator g s).

(** The result of a method of another class. *)
Definition lift {A} (o : outcome A) : M t A := fun s => (o, s).

(** [startNewRun]. *)
Definition startNewRun (className factionName : string) : M t unit :=
  try_catch
    (character_ <- lift (Entities.createCharacter className factionName);;
     r <- onCharacter character_ applyMetaProgressionBonuses;;
     let character_ := snd r in
     runMap <- onGenerator (MapGenerator.generateRun rnd);;
     stamp <- now;;
     draw <- random rnd;;
     startTime_ <- now;;
     difficulty_ <- calculateRunDifficulty;;
     modify (set_activeRun
               (Some {| id := inject_Z stamp + draw;
                        character := character_;
                        faction := factionName;
                        map := runMap;
                        currentNodeIndex := 0;
                        inventory := [];
                        resources :=
                          [ ("gold", 0%Z); ("ore", 0%Z); ("herbs", 0%Z);
                            ("essences", 0%Z) ];
                        runStats :=
                          {| enemiesDefeated := 0; damageDealt := 0;
                             damageTaken := 0; itemsFound := 0;
                             startTime := startTime_ |};
                        difficulty := difficulty_ |}));;
     modify (set_isInRun true);;
     update (fun m => set_totalRuns (totalRuns m + 1) m))%monad
    (fun error => throw error).

(** [startBossCombat], up to the call of the combat system: the boss it
    hands over.  Without a run the read of its difficulty is a
    TypeError. *)
Definition scaledForRun (boss : Entity.t) : M t Entity.t :=
  (run <- gets activeRun;;
   match run with
   | None => throw TypeError
   | Some run => ret (scaleBoss boss (Fin (difficulty run)))
   end)%monad.

End Engine.

End GameEngine.

(* ================================================================== *)
(** * Notions used by the statements *)

(** The goblin [generateEnemy] builds in the forest at difficulty 1. *)
Definition goblinScout : Entity.t :=
  Entity.enemy "Goblin Scout" (Some "goblin") 35 8 2 6 5 false [].

(** A source whose every draw is one half: the variance factor is then
    exactly 1. *)
Definition half : nat -> Q := fun _ => 1 # 2.

(** [0 <= hp <= maxHealth] and [0 <= mana <= maxMana], as comparisons of
    JavaScript numbers (false as soon as one side is NaN). *)
Definition resourcesInRange (e : Entity.t) : bool :=
  (0 <=? Entity.hp e)%js && (Entity.hp e <=? Entity.maxHealth e)%js
  && (0 <=? Entity.mana e)%js && (Entity.mana e <=? Entity.maxMana e)%js.

(** The validation of [useSkill] as the specification words it. *)
Definition passesValidation (s : Combat.State) (skillIndex : Z) : Prop :=
  Combat.isActive s = true /\
  Combat.currentTurn s = Combat.PlayerTurn /\
  exists skills skill,
    Entity.skills (Combat.playerObject s) = Some skills /\
    at_index skills skillIndex = Some skill /\
    Skill.unlocked skill = true /\
    Combat.has "stunned" (Entity.statusEffects (Combat.playerObject s)) = false /\
    Combat.has "frozen" (Entity.statusEffects (Combat.playerObject s)) = false /\
    (Entity.mana (Combat.playerObject s) >=? Skill.manaCost skill)%js = true /\
    (Skill.currentCooldown skill <=? 0)%js = true /\
    (0 <=? Skill.currentCooldown skill)%js = true.

(** The damage the specification describes, for numeric inputs: raw damage,
    defense mitigation, variance, status multipliers, floor, minimum 1. *)
Definition specDamage (base attackStat scalingFactor defense variance : Q)
    (strength_boost weakness defense_boost : bool) : Z :=
  let raw := base + attackStat * scalingFactor in
  let mitigated := raw * (1 - defense / (defense + 100)) in
  let varied := mitigated * variance in
  let d := if strength_boost then varied * 1.2 else varied in
  let d := if weakness then d * 0.7 else d in
  let d := if defense_boost then d * 0.7 else d in
  Z.max 1 (Qfloor d).

(** The same generator handed the same draws again: the cursor is put back
    at the start of the stream, nothing else is touched. *)
Definition rewind (s : MapGenerator.State) : MapGenerator.State :=
  set_rng 0%nat s.

(** A computation that returns normally from [s], with a result and a final
    state that satisfy [P]. *)
Definition runs {S A} (m : M S A) (s : S) (P : A -> S -> Prop) : Prop :=
  exists a s', m s = (Ret a, s') /\ P a s'.

(** The catalog invariant the generator relies on: the boss entry weighs
    nothing.  No method writes that weight. *)
Definition drawable (w : MapGenerator.NodeTypes) : Prop :=
  MapGenerator.boss w == 0.

Definition isBossNode (n : MapGenerator.Node) : bool :=
  MapGenerator.NodeType_eqb (MapGenerator.type n) MapGenerator.Boss.

(** A node list whose last node is a boss node and whose other nodes are
    not. *)
Definition bossLast (ns : list MapGenerator.Node) (b : MapGenerator.Node)
  : Prop :=
  exists front,
    ns = (front ++ [b])%list /\
    Forall (fun n => isBossNode n = false) front /\
    isBossNode b = true.

Definition validKey (k : option string) : Prop :=
  exists key t, k = Some key /\ assoc key MapGenerator.regions = Some t.

(** The keys of a selection that are not [undefined]. *)
Fixpoint definedKeys (l : list (option string)) : list string :=
  match l with
  | [] => []
  | Some k :: l' => k :: definedKeys l'
  | None :: l' => definedKeys l'
  end.

(** The test a phase must pass to fire: its threshold is met and its index
    has not been triggered. *)
Definition phaseDue (currentHpPercent : num) (triggered : list nat) (i : nat)
    (p : Phase.t) : bool :=
  (currentHpPercent <=? Fin (Phase.hpThreshold p))%js
  && negb (existsb (Nat.eqb i) triggered).



(** The calls [useSkill] turns down: combat is not active, it is not the
    player's turn, the index names no skill, or [canUseSkill] refuses the
    skill (not enough mana, on cooldown, stunned or frozen). *)
Definition refusedSkill (p : Entity.t) (skill : Skill.t) : Prop :=
  (Entity.mana p <? Skill.manaCost skill)%js = true \/
  (Skill.currentCooldown skill >? 0)%js = true \/
  Combat.has "stunned" (Entity.statusEffects p) = true \/
  Combat.has "frozen" (Entity.statusEffects p) = true.

Definition failsValidation (s : Combat.State) (skillIndex : Z) : Prop :=
  Combat.isActive s = false \/
  Combat.currentTurn s = Combat.EnemyTurn \/
  exists r skills,
    Combat.player s = Some r /\
    Entity.skills (Combat.object r s) = Some skills /\
    match at_index skills skillIndex with
    | None => True
    | Some skill => refusedSkill (Combat.object r s) skill
    end.

(** A computation that, however it ends, leaves an observation of the
    session as it found it. *)
Definition preserves {A B} (f : Combat.State -> B) (m : M Combat.State A)
  : Prop :=
  forall s o s', m s = (o, s') -> f s' = f s.

(** A computation whose every normal return satisfies [P]. *)
Definition ensures {S A} (P : A -> Prop) (m : M S A) : Prop :=
  forall s a s', m s = (Ret a, s') -> P a.

(** The status effects an object of the session carries. *)
Definition effectsOf (r : Combat.Ref) (s : Combat.State)
  : list (string * EffectInst.t) :=
  Entity.statusEffects (Combat.object r s).

(** The session right after [startCombat] of an Order warrior against the
    forest goblin. *)
Definition warriorVsGoblin : Combat.State :=
  match Entities.createCharacter "warrior" "order" with
  | Ret c =>
      snd (Combat.startCombat (Entity.of_character c) goblinScout
             Combat.noOptions Combat.fresh)
  | _ => Combat.fresh
  end.

(** The warrior's third skill, Defensive Stance. *)
Definition defensiveStance : Skill.t :=
  match assoc "defensive_stance" Entities.skillTemplates with
  | Some t =>
      Skill.set_unlocked true (Skill.set_currentCooldown 0 t)
  | None => Skill.literal "" NaN NaN NaN NaN "" NaN NaN NaN []
  end.



(** The result of a combat the player fled. *)
Definition fledResults (turnCount : Z) : Combat.Results :=
  {| Combat.victory := false; Combat.reason := "Player fled";
     Combat.turnCount := turnCount; Combat.experience := None;
     Combat.rewards := None |}.


(** ** Notions of the further properties *)

(** The payload a node of each type carries, for a node generated from the
    region template [rt]: the property [handleNodeEncounter] reads for the
    type is there, and what it holds comes from the template's pools. *)
Definition payloadFits (rt : MapGenerator.RegionTemplate)
    (n : MapGenerator.Node) : Prop :=
  match MapGenerator.type n, MapGenerator.payload n with
  | MapGenerator.Combat, MapGenerator.PEnemy e =>
      Entity.isBoss e = false /\
      Entity.hp e = Entity.maxHp e /\
      Entity.level e
      = JS.max 1 (JS.floor (Fin (MapGenerator.difficulty n * 5))) /\
      exists k, Entity.type e = Some k /\ In k (MapGenerator.enemyPool rt)
  | MapGenerator.Event, MapGenerator.PEvent ev =>
      match ev with
      | MapGenerator.EventTemplate k =>
          In k (MapGenerator.eventPool rt) /\ In k MapGenerator.eventTemplates
      | MapGenerator.StrangeEncounter => True
      end
  | MapGenerator.Resource, MapGenerator.PResource r =>
      (2 <= MapGenerator.amount r <= 5)%Z /\
      exists k, MapGenerator.res_type r = Some k /\
                In k (MapGenerator.resourcePool rt)
  | MapGenerator.Merchant, MapGenerator.PMerchant m =>
      (3 <= List.length (MapGenerator.items m) <= 6)%nat /\
      0.8 <= MapGenerator.haggle m /\ MapGenerator.haggle m < 1.2
  | MapGenerator.Rest, MapGenerator.PRest r =>
      exists site, r = Some site /\ In site MapGenerator.restTypes
  | MapGenerator.Boss, MapGenerator.PBoss b =>
      Entity.isBoss b = true /\
      Entity.hp b = Entity.maxHp b /\
      Entity.level b
      = JS.max 10 (JS.floor (Fin (MapGenerator.difficulty n * 10))) /\
      exists k, Entity.type b = Some k /\ In k (MapGenerator.bossPool rt)
  | _, _ => False
  end.

(** What [generateRegion] leaves on a node of a region of difficulty [d]:
    the region key, the two flags, a fitting payload, and the difficulty of
    its position (a boss node has one and a half times the region's). *)
Definition nodeFits (rt : MapGenerator.RegionTemplate) (d : Q)
    (key : option string) (n : MapGenerator.Node) : Prop :=
  MapGenerator.regionKey n = key /\
  MapGenerator.visited n = false /\
  MapGenerator.completed n = false /\
  payloadFits rt n /\
  MapGenerator.difficulty n
  = if isBossNode n then d * 1.5
    else d + inject_Z (MapGenerator.localIndex n) * 0.1.

(** The pools [generateEnemy], [generateResource] and [generateBossNode]
    draw from are not empty. *)
Definition poolsFilled (rt : MapGenerator.RegionTemplate) : Prop :=
  MapGenerator.enemyPool rt <> [] /\
  MapGenerator.resourcePool rt <> [] /\
  MapGenerator.bossPool rt <> [].

(** A region as [generateRun] returns it; [isLast] tells whether it is the
    region that ends with the boss node. *)
Definition regionFits (isLast : bool) (r : MapGenerator.Region) : Prop :=
  exists rt,
    assoc (MapGenerator.key r) MapGenerator.regions = Some rt /\
    MapGenerator.region_name r = MapGenerator.rt_name rt /\
    MapGenerator.region_difficulty r
    = MapGenerator.rt_difficulty rt
      + inject_Z (Z.of_nat (MapGenerator.index r)) * 0.2 /\
    (4 <= MapGenerator.length r - (if isLast then 1 else 0) <= 7)%Z /\
    Z.of_nat (List.length (MapGenerator.nodes r)) = MapGenerator.length r /\
    map MapGenerator.localIndex (MapGenerator.nodes r)
    = map Z.of_nat (seq 0 (List.length (MapGenerator.nodes r))) /\
    Forall (fun n =>
              MapGenerator.regionIndex n = Some (MapGenerator.index r) /\
              nodeFits rt (MapGenerator.region_difficulty r)
                (Some (MapGenerator.key r)) n)
      (MapGenerator.nodes r).


(** The session without its log and without the cursor of its random
    source: two sessions with the same core differ in those two at most. *)
Definition core (s : Combat.State) : Combat.State :=
  Combat.set_log [] (Combat.set_cursor 0 s).

(** An outcome that is not a normal return. *)
Definition failed {A} (o : outcome A) : Prop :=
  match o with
  | Ret _ => False
  | _ => True
  end.

(** The rewards [calculateCombatRewards] may hand out for an enemy. *)
Definition rewardsFit (e : Entity.t) (r : Combat.Rewards) : Prop :=
  (exists g, (5 <= g <= 15)%Z /\
             Combat.gold r = (JS.of_Z g + Entity.level e)%js) /\
  exists dropped,
    (List.length dropped <= 1)%nat /\
    Forall (fun i =>
              Combat.item_type i = "consumable" /\
              In (Combat.item_name i)
                ["health potion"; "mana potion"; "strength elixir"])
      dropped /\
    if Entity.isBoss e
    then Combat.items r
         = (dropped ++ [{| Combat.item_name := Entity.name e ++ "'s Trophy";
                           Combat.item_type := "trophy" |}])%list /\
         exists n, (2 <= n <= 5)%Z /\ Combat.essences r = Some n
    else Combat.items r = dropped /\ Combat.essences r = None.

(** The experience [calculateExperienceGain] computes for an enemy. *)
Definition experienceFor (e : Entity.t) : num :=
  let baseExp := (Entity.level e * 10)%js in
  (baseExp + JS.floor (baseExp * (Entity.difficulty e || 1.0))
   + (if Entity.isBoss e then baseExp else Fin 0))%js.

(** The session [endCombat(victory, reason)] leaves behind when it returns
    from the session [s]: inactive, references nulled, turn bookkeeping
    reset, the two objects and the options as they were, the resolver
    consumed, and, if a resolver was pending, one more result delivered. *)
Definition endedWith (victory : bool) (reason : string)
    (s s' : Combat.State) : Prop :=
  Combat.isActive s' = false /\
  Combat.player s' = None /\ Combat.enemy s' = None /\
  Combat.currentTurn s' = Combat.PlayerTurn /\
  Combat.turnCounter s' = 0%Z /\
  Combat.playerObject s' = Combat.playerObject s /\
  Combat.enemyObject s' = Combat.enemyObject s /\
  Combat.combatOptions s' = Combat.combatOptions s /\
  Combat.combatResolve s' = false /\
  if Combat.combatResolve s then
    exists res,
      Combat.resolved s' = (Combat.resolved s ++ [res])%list /\
      Combat.victory res = victory /\
      Combat.reason res = reason /\
      Combat.turnCount res = Combat.turnCounter s /\
      if victory then
        exists r rw,
          Combat.enemy s = Some r /\
          Combat.experience res = Some (experienceFor (Combat.object r s)) /\
          Combat.rewards res = Some rw /\
          rewardsFit (Combat.object r s) rw
      else Combat.experience res = None /\ Combat.rewards res = None
  else Combat.resolved s' = Combat.resolved s.

(** One turn off the duration of an entry of a status-effect map. *)
Definition tickDown (kv : string * EffectInst.t) : string * EffectInst.t :=
  (fst kv,
   {| EffectInst.duration := (EffectInst.duration (snd kv) - 1)%js;
      EffectInst.effect := EffectInst.effect (snd kv) |}).

(** An entry whose duration has not run out. *)
Definition lasting (kv : string * EffectInst.t) : bool :=
  negb (EffectInst.duration (snd kv) <=? 0)%js.

(** The goblin of [warriorVsGoblin] after a poisoning for four turns and a
    stun for one. *)
Definition poisonedGoblin : Combat.State :=
  snd (Combat.applyStatusEffect half (Some Combat.EnemyObject) "stunned" 1
         (snd (Combat.applyStatusEffect half (Some Combat.EnemyObject)
                 "poison" 4 warriorVsGoblin))).

(** A computation run [k] times in a row. *)
Fixpoint times {S} (k : nat) (m : M S unit) : M S unit :=
  match k with
  | O => ret tt
  | Datatypes.S k' => bind m (fun _ => times k' m)
  end.



(** A skill that cannot hurt when an attacker without [strength] uses it:
    its damage is computed from [strength], or it has no scaling factor, or
    it has no damage component. *)
Definition tame (skill : Skill.t) : Prop :=
  Skill.type skill = "physical" \/
  Skill.scalingFactor skill = NaN \/
  (Skill.damage skill >? 0)%js = false.

(** A session whose enemy reference, if any, is the enemy object, and whose
    enemy object has no [strength] property (no enemy the map generator
    builds has one). *)
Definition strengthless (s : Combat.State) : Prop :=
  Combat.enemy s <> Some Combat.PlayerObject /\
  Entity.strength (Combat.enemyObject s) = NaN.

(** The player object without its status effects. *)
Definition playerSheet (s : Combat.State) : Entity.t :=
  Entity.set_statusEffects [] (Combat.playerObject s).

(** A computation that keeps a session strengthless and, however it ends,
    leaves the player object alone but for its status effects. *)
Definition spares (A : Type) (m : M Combat.State A) : Prop :=
  forall s o s',
    strengthless s -> m s = (o, s') ->
    strengthless s' /\ playerSheet s' = playerSheet s.

(** What [spares] follows from when a computation never writes the
    references. *)
Definition sparingView (s : Combat.State)
  : option Combat.Ref * num * Entity.t :=
  (Combat.enemy s, Entity.strength (Combat.enemyObject s), playerSheet s).

(** An action whose skill, if it has one, is tame. *)
Definition tameAction (a : Combat.Action) : Prop :=
  match a with
  | Combat.SkillAction _ skill => tame skill
  | _ => True
  end.

(** An enemy whose phase abilities, unlocked or still to come, are plain
    names: [getBossSkill] looks them up in an object literal. *)
Definition plainAbilities (e : Entity.t) : Prop :=
  Forall plainKey (Entity.phaseAbilities e) /\
  forall bossData phase,
    Entity.bossData e = Some bossData ->
    In phase (BossData.phases bossData) ->
    Forall plainKey (Phase.abilities phase).

(** The engine. *)

(** The bonuses are the ones [updateGlobalBonuses] derives from the levels
    of the library, the forge and the altar. *)
Definition settled (m : GameEngine.MetaProgression) : Prop :=
  exists library forge altar,
    assoc "library" (GameEngine.buildings m) = Some library /\
    assoc "forge" (GameEngine.buildings m) = Some forge /\
    assoc "altar" (GameEngine.buildings m) = Some altar /\
    GameEngine.xpMultiplier (GameEngine.globalBonuses m)
    == 1 + inject_Z (GameEngine.level library - 1) * 0.1 /\
    GameEngine.goldMultiplier (GameEngine.globalBonuses m)
    == 1 + inject_Z (GameEngine.level forge - 1) * 0.15 /\
    GameEngine.startingStats (GameEngine.globalBonuses m)
    = ((GameEngine.level altar - 1) * 2)%Z.

(** The three buildings [updateGlobalBonuses] reads are there. *)
Definition hasCoreBuildings (m : GameEngine.MetaProgression) : Prop :=
  forall k, In k ["library"; "forge"; "altar"] ->
            assoc k (GameEngine.buildings m) <> None.

(** A building with [gain] more experience. *)
Definition credited (gain : Z) (entry : string * GameEngine.Building)
  : string * GameEngine.Building :=
  (fst entry,
   {| GameEngine.level := GameEngine.level (snd entry);
      GameEngine.experience := GameEngine.experience (snd entry) + gain |}).

(** The engine but for its meta-progression. *)
Definition besidesMeta (s : GameEngine.t)
  : option GameEngine.ActiveRun * bool * MapGenerator.State * nat :=
  (GameEngine.activeRun s, GameEngine.isInRun s, GameEngine.mapGenerator s,
   GameEngine.clock s).

(** The cost [getBuildingUpgradeCost] computes for a building it finds. *)
Definition upgradeCost (buildingType : string)
    (building : GameEngine.Building) : Z :=
  Qfloor
    (inject_Z
       match assoc buildingType GameEngine.baseCosts with
       | Some c => c
       | None => 100%Z
       end
     * 1.5 ^ (GameEngine.level building - 1)).

(** What the buildings add to the difficulty of a run: a tenth per level
    above the first. *)
Definition buildingModifier (l : list GameEngine.Building) : Q :=
  fold_right
    (fun building acc => (inject_Z (GameEngine.level building) - 1) * 0.1 + acc)
    0 l.

(** What a call of [upgradeBuilding] that went through has done before it
    recomputes the bonuses. *)
Definition upgraded (buildingType : string) (building : GameEngine.Building)
    (c : Z) (s : GameEngine.t) : GameEngine.t :=
  GameEngine.set_metaProgression
    (GameEngine.set_buildings
       (Combat.mapSet buildingType
          {| GameEngine.level := GameEngine.level building + 1;
             GameEngine.experience := 0 |}
          (GameEngine.buildings (GameEngine.metaProgression s)))
       (GameEngine.set_echoes
          (GameEngine.echoes (GameEngine.metaProgression s) - c)
          (GameEngine.metaProgression s))) s.

(* ================================================================== *)
(** * Properties *)

Unset Implicit Arguments.

Lemma generateEnemy_goblinScout :
  exists forest s,
    assoc "forest" MapGenerator.regions = Some forest /\
    MapGenerator.generateEnemy (fun _ => 0) forest 1.0 MapGenerator.fresh
    = (Ret goblinScout, s).
Proof. do 2 eexists. split; reflexivity. Qed.

(** ** C1: the resource invariant *)

(** C1 (the code departs from the claim).  A healer built by
    [createCharacter] enters combat with hp and mana in range and uses her
    first skill, Heal.  [healEntity] reads [target.maxHp], a property a
    character does not have (it has [maxHealth]), so the amount healed is
    NaN and so is the hp it is added to: the invariant
    [0 <= hp <= maxHealth] is lost, whatever the random source. *)
Theorem heal_makes_player_hp_NaN :
  forall rnd : nat -> Q,
  exists c s1 s2,
    Entities.createCharacter "healer" "order" = Ret c /\
    Combat.startCombat (Entity.of_character c) goblinScout Combat.noOptions
      Combat.fresh = (Ret tt, s1) /\
    resourcesInRange (Combat.playerObject s1) = true /\
    Combat.useSkill rnd 0 s1 = (Ret true, s2) /\
    Entity.hp (Combat.playerObject s2) = NaN /\
    resourcesInRange (Combat.playerObject s2) = false.
Proof.
  intros rnd. eexists. eexists. eexists.
  split; [reflexivity|].
  split; [vm_compute; reflexivity|].
  split; [reflexivity|].
  split; [vm_compute; reflexivity|].
  split; reflexivity.
Qed.

(** [healEntity] on its own: a target without [maxHp] ends with NaN hp. *)
Lemma healEntity_without_maxHp :
  forall (s : Combat.State) (r : Combat.Ref) (healing : num),
    Entity.maxHp (Combat.object r s) = NaN ->
    exists s',
      Combat.healEntity (Some r) healing s = (Ret NaN, s') /\
      Entity.hp (Combat.object r s') = NaN.
Proof.
  intros s r healing H.
  unfold Combat.healEntity, bind, Combat.read, Combat.write, gets, modify, ret.
  rewrite H. cbn.
  assert (E : JS.min healing NaN = NaN) by (destruct healing; reflexivity).
  rewrite E.
  eexists. split; [reflexivity|].
  destruct r; cbn; destruct (Entity.hp _); reflexivity.
Qed.

(** ** C3: the value [useSkill] returns *)

(** C3 (the code departs from the claim).  A warrior's Slash passes every
    check and kills the goblin.  [dealDamage] then runs [endCombat], whose
    [cleanup] nulls [this.player]; back in [useSkill], [endPlayerTurn]
    dereferences it, the TypeError lands in the [catch], and the call
    answers [false] although the skill resolved and combat ended in
    victory. *)
Theorem useSkill_false_on_killing_blow :
  exists c s1 s2 r,
    Entities.createCharacter "warrior" "order" = Ret c /\
    Combat.startCombat (Entity.of_character c) goblinScout Combat.noOptions
      Combat.fresh = (Ret tt, s1) /\
    passesValidation s1 0 /\
    Combat.useSkill half 0 s1 = (Ret false, s2) /\
    Entity.hp (Combat.enemyObject s2) = Fin 0 /\
    Combat.resolved s2 = [r] /\
    Combat.victory r = true /\
    Combat.player s2 = None.
Proof.
  do 4 eexists.
  split; [reflexivity|].
  split; [vm_compute; reflexivity|].
  split.
  { split; [reflexivity|]. split; [reflexivity|].
    do 2 eexists. split; [reflexivity|]. split; [reflexivity|].
    repeat split; reflexivity. }
  split; [vm_compute; reflexivity|].
  repeat split; reflexivity.
Qed.

(** The step that fails: [endPlayerTurn] once [this.player] is [null]. *)
Lemma endPlayerTurn_throws_without_player :
  forall rnd s, Combat.player s = None ->
    Combat.endPlayerTurn rnd s = (Throw TypeError, s).
Proof.
  intros rnd s H.
  unfold Combat.endPlayerTurn, Combat.processStatusEffects, bind, gets.
  rewrite H. reflexivity.
Qed.

(** ** C7: [calculateDamage] *)

(** C7 (the code departs from the claim).  The enemy's basic attack has a
    positive damage component and type ['physical'], so
    [getRelevantAttackStat] reads [entity.strength]; an enemy built by the
    map generator has no such property, the product with the scaling factor
    is NaN, and [Math.max(1, Math.floor(NaN))] is NaN: [calculateDamage]
    does not return an integer [>= 1], whatever the draw. *)
Theorem enemy_basic_attack_damage_is_NaN :
  forall rnd : nat -> Q,
  exists c s1 attack s2,
    Entities.createCharacter "warrior" "order" = Ret c /\
    Combat.startCombat (Entity.of_character c) goblinScout Combat.noOptions
      Combat.fresh = (Ret tt, s1) /\
    Combat.getEnemyBasicAttack s1 = (Ret attack, s1) /\
    (Skill.damage attack >? 0)%js = true /\
    Combat.calculateDamage rnd (Combat.enemy s1) (Combat.player s1) attack s1
    = (Ret NaN, s2).
Proof.
  intros rnd. do 4 eexists.
  split; [reflexivity|].
  split; [vm_compute; reflexivity|].
  split; [vm_compute; reflexivity|].
  split; [reflexivity|].
  vm_compute. reflexivity.
Qed.

(** The same happens to a skill without [scalingFactor], such as the boss
    skill Root Entangle. *)
Lemma damage_without_scalingFactor_is_NaN :
  forall attacker defender skill r,
    Skill.scalingFactor skill = NaN ->
    Combat.damageFormula attacker defender skill r = NaN.
Proof.
  intros attacker defender skill r H.
  unfold Combat.damageFormula. rewrite H.
  assert (E : forall a, JS.mul a NaN = NaN) by (destruct a; reflexivity).
  rewrite E.
  assert (E' : forall a, JS.add a NaN = NaN) by (destruct a; reflexivity).
  rewrite E'. cbn.
  repeat match goal with |- context [if ?b then _ else _] => destruct b end;
    reflexivity.
Qed.

Lemma Qfloor_of_Z_max : forall z : Z,
  JS.max 1 (JS.of_Z z) = JS.of_Z (Z.max 1 z).
Proof.
  intros z. unfold JS.max, JS.of_Z, lit.
  destruct (Qle_bool 1 (inject_Z z)) eqn:E.
  - apply Qle_bool_iff in E. change 1 with (inject_Z 1) in E.
    rewrite <- Zle_Qle in E. rewrite Z.max_r by lia. reflexivity.
  - assert (~ 1 <= inject_Z z) as N.
    { intro H. apply Qle_bool_iff in H. congruence. }
    change 1 with (inject_Z 1) in N. rewrite <- Zle_Qle in N.
    rewrite Z.max_l by lia. reflexivity.
Qed.

(** Where every operand is a number and the defense is not negative, the
    code computes the damage of the specification, an integer [>= 1]. *)
Lemma damageFormula_numeric :
  forall attacker defender skill r base stat sf def,
    Skill.damage skill = Fin base ->
    Combat.getRelevantAttackStat attacker skill = Fin stat ->
    Skill.scalingFactor skill = Fin sf ->
    Entity.defense defender = Fin def ->
    0 <= def ->
    Combat.damageFormula attacker defender skill r
    = JS.of_Z (specDamage base stat sf def (0.85 + r * 0.3)
                 (Combat.has "strength_boost" (Entity.statusEffects attacker))
                 (Combat.has "weakness" (Entity.statusEffects attacker))
                 (Combat.has "defense_boost" (Entity.statusEffects defender)))
    /\ (1 <= specDamage base stat sf def (0.85 + r * 0.3)
                 (Combat.has "strength_boost" (Entity.statusEffects attacker))
                 (Combat.has "weakness" (Entity.statusEffects attacker))
                 (Combat.has "defense_boost" (Entity.statusEffects defender)))%Z.
Proof.
  intros attacker defender skill r base stat sf def Hb Hs Hf Hd Hpos.
  split; [|unfold specDamage; lia].
  unfold Combat.damageFormula, specDamage.
  rewrite Hb, Hs, Hf, Hd. unfold lit. cbn [JS.add JS.mul JS.sub JS.div].
  assert (E : Qeq_bool (def + 100) 0 = false).
  { destruct (Qeq_bool (def + 100) 0) eqn:E; [|reflexivity].
    apply Qeq_bool_eq in E. lra. }
  rewrite E. cbn [JS.add JS.mul JS.sub JS.div].
  destruct (Combat.has "strength_boost" _), (Combat.has "weakness" _),
    (Combat.has "defense_boost" _);
    cbn [JS.mul JS.floor]; apply Qfloor_of_Z_max.
Qed.

(** The scenario of the specification: base 20, attack stat 10, scaling 1,
    defense 0, no status effect, variance 1. *)
Example specDamage_scenario :
  specDamage 20 10 1 0 (0.85 + (1 # 2) * 0.3) false false false = 30%Z.
Proof. reflexivity. Qed.

(** ** C2: the weight catalog across runs *)

(** C2 (the code departs from the claim).  [selectNodeType] rescales the
    weights through a one-level copy of the catalog, that is, in the
    catalog itself.  After one [generateRun] on a new generator the combat
    weight is no longer 40, and a second run fed the very same draws
    produces a different sequence of node types. *)
Theorem generateRun_changes_the_weight_catalog :
  exists run1 s1 run2 s2,
    MapGenerator.generateRun half MapGenerator.fresh = (Ret run1, s1) /\
    ~ MapGenerator.combat (MapGenerator.nodeTypes s1) == 40 /\
    MapGenerator.generateRun half (rewind s1) = (Ret run2, s2) /\
    map MapGenerator.type (MapGenerator.run_nodes run1)
    <> map MapGenerator.type (MapGenerator.run_nodes run2).
Proof.
  do 4 eexists.
  split; [vm_compute; reflexivity|].
  split; [vm_compute; discriminate|].
  split; [vm_compute; reflexivity|].
  vm_compute. discriminate.
Qed.

(** ** Reasoning about computations that return *)

Lemma runs_ret : forall {S A} (a : A) (s : S) (P : A -> S -> Prop),
  P a s -> runs (ret a) s P.
Proof. intros. exists a, s. split; [reflexivity|assumption]. Qed.

Lemma runs_seq :
  forall {S A B} (m : M S A) (k : A -> M S B) (s : S)
         (Q : A -> S -> Prop) (P : B -> S -> Prop),
    runs m s Q ->
    (forall a s', Q a s' -> runs (k a) s' P) ->
    runs (bind m k) s P.
Proof.
  intros S A B m k s Q P (a & s' & E & HQ) H.
  destruct (H a s' HQ) as (b & s'' & E' & HP).
  exists b, s''. split; [|assumption].
  unfold bind. rewrite E. exact E'.
Qed.

Lemma runs_weaken :
  forall {S A} (m : M S A) (s : S) (P Q : A -> S -> Prop),
    runs m s P -> (forall a s', P a s' -> Q a s') -> runs m s Q.
Proof.
  intros S A m s P Q (a & s' & E & HP) H.
  exists a, s'. split; [assumption|auto].
Qed.

Lemma runs_gets : forall {S A} (f : S -> A) (s : S) (P : A -> S -> Prop),
  P (f s) s -> runs (gets f) s P.
Proof. intros. exists (f s), s. split; [reflexivity|assumption]. Qed.

Lemma runs_modify : forall {S} (f : S -> S) (s : S) (P : unit -> S -> Prop),
  P tt (f s) -> runs (modify f) s P.
Proof. intros. exists tt, (f s). split; [reflexivity|assumption]. Qed.

Lemma runs_inv :
  forall {S A} (m : M S A) (s : S) (P : A -> S -> Prop) a s',
    runs m s P -> m s = (Ret a, s') -> P a s'.
Proof.
  intros S A m s P a s' (a0 & s0 & E & HP) E'.
  rewrite E in E'. inversion E'. subst. assumption.
Qed.

(** ** The random source *)

Section Draws.
Variable rnd : nat -> Q.
Hypothesis rnd_range : forall i, 0 <= rnd i /\ rnd i < 1.

Lemma floor_of_draw : forall (r : Q) (n : Z),
  0 <= r -> r < 1 -> (0 < n)%Z ->
  (0 <= Qfloor (r * inject_Z n) < n)%Z.
Proof.
  intros r n H0 H1 Hn.
  assert (Hn' : 0 < inject_Z n) by (change 0 with (inject_Z 0); rewrite <- Zlt_Qlt; lia).
  split.
  - change 0%Z with (Qfloor (inject_Z 0)). apply Qfloor_resp_le.
    change (inject_Z 0) with 0. nra.
  - rewrite Zlt_Qlt.
    apply Qle_lt_trans with (r * inject_Z n); [apply Qfloor_le|]. nra.
Qed.

Lemma random_runs : forall (s : MapGenerator.State),
  runs (random rnd) s
    (fun r s' => 0 <= r /\ r < 1 /\
                 MapGenerator.nodeTypes s' = MapGenerator.nodeTypes s).
Proof.
  intros s. eexists _, _. split; [reflexivity|].
  destruct (rnd_range (rng s)). auto.
Qed.

Lemma randomInt_runs : forall (lo hi : Z) (s : MapGenerator.State),
  (lo <= hi)%Z ->
  runs (randomInt rnd lo hi) s
    (fun z s' => (lo <= z <= hi)%Z /\
                 z = (Qfloor (rnd (MapGenerator.cursor s)
                              * inject_Z (hi - lo + 1)) + lo)%Z /\
                 MapGenerator.nodeTypes s' = MapGenerator.nodeTypes s).
Proof.
  intros lo hi s H. eexists _, _. split; [reflexivity|].
  destruct (rnd_range (rng s)) as [H0 H1].
  pose proof (floor_of_draw (rnd (rng s)) (hi - lo + 1) H0 H1 ltac:(lia)).
  cbn in *. repeat split; lia.
Qed.

Lemma randomChoice_runs : forall {A} (l : list A) (s : MapGenerator.State),
  l <> [] ->
  runs (randomChoice rnd l) s
    (fun o s' => (exists x, o = Some x /\ In x l) /\
                 MapGenerator.nodeTypes s' = MapGenerator.nodeTypes s).
Proof.
  intros A l s H. eexists _, _. split; [reflexivity|].
  split; [|reflexivity].
  destruct (rnd_range (rng s)) as [H0 H1].
  assert (Hl : (0 < Z.of_nat (List.length l))%Z) by (destruct l; [congruence|cbn; lia]).
  pose proof (floor_of_draw (rnd (rng s)) _ H0 H1 Hl) as Hi.
  unfold at_index, index_of_draw.
  destruct (Z.ltb_spec (Qfloor (rnd (rng s) * inject_Z (Z.of_nat (List.length l)))) 0);
    [lia|].
  destruct (nth_error l (Z.to_nat (Qfloor (rnd (rng s) * inject_Z (Z.of_nat (List.length l)))))) eqn:E.
  - exists a. split; [reflexivity|]. eapply nth_error_In; eassumption.
  - apply nth_error_None in E. lia.
Qed.

(** A choice from any array returns, whatever it picks. *)
Lemma randomChoice_returns : forall {A} (l : list A) (s : MapGenerator.State),
  runs (randomChoice rnd l) s
    (fun _ s' => MapGenerator.nodeTypes s' = MapGenerator.nodeTypes s).
Proof. intros. eexists _, _. split; reflexivity. Qed.

End Draws.

(** ** C6: the shape of a generated run *)

Lemma Qle_bool_false : forall x y, Qle_bool x y = false -> y < x.
Proof.
  intros x y H. apply Qnot_le_lt. intro L.
  apply Qle_bool_iff in L. congruence.
Qed.

Lemma drawable_nodeTypes0 : drawable MapGenerator.nodeTypes0.
Proof. reflexivity. Qed.

Lemma drawable_firstNodeWeights : forall w,
  drawable w -> drawable (MapGenerator.firstNodeWeights w).
Proof. intros w H. exact H. Qed.

Lemma drawable_middleNodeWeights : forall w,
  drawable w -> drawable (MapGenerator.middleNodeWeights w).
Proof. intros w H. exact H. Qed.

Lemma drawable_nearEndWeights : forall w,
  drawable w -> drawable (MapGenerator.nearEndWeights w).
Proof. intros w H. exact H. Qed.

(** The walk never stops at the boss entry: it gets there only with a
    positive remainder, and subtracting a zero weight leaves it positive.
    This holds for every starting value, so it does not depend on how the
    draw was scaled. *)
Lemma walk_never_boss : forall w x,
  drawable w ->
  MapGenerator.walk x (MapGenerator.entries w) <> Some MapGenerator.Boss.
Proof.
  intros w x Hb. unfold drawable in Hb.
  unfold MapGenerator.entries. cbn [MapGenerator.walk].
  set (c := MapGenerator.combat w) in *.
  set (e := MapGenerator.event w) in *.
  set (o := MapGenerator.resource w) in *.
  set (m := MapGenerator.merchant w) in *.
  set (t := MapGenerator.rest w) in *.
  set (b := MapGenerator.boss w) in *.
  destruct (Qle_bool (x - c) 0) eqn:E1; [discriminate|].
  destruct (Qle_bool (x - c - e) 0) eqn:E2; [discriminate|].
  destruct (Qle_bool (x - c - e - o) 0) eqn:E3; [discriminate|].
  destruct (Qle_bool (x - c - e - o - m) 0) eqn:E4; [discriminate|].
  destruct (Qle_bool (x - c - e - o - m - t) 0) eqn:E5; [discriminate|].
  destruct (Qle_bool (x - c - e - o - m - t - b) 0) eqn:E6; [|discriminate].
  apply Qle_bool_false in E5. apply Qle_bool_iff in E6. lra.
Qed.

Section MapProperties.
Variable rnd : nat -> Q.
Hypothesis rnd_range : forall i, 0 <= rnd i /\ rnd i < 1.

Lemma weightedRandomChoice_runs : forall s,
  drawable (MapGenerator.nodeTypes s) ->
  runs (MapGenerator.weightedRandomChoice rnd) s
    (fun t s' => t <> MapGenerator.Boss /\
                 MapGenerator.nodeTypes s' = MapGenerator.nodeTypes s).
Proof.
  intros s H. unfold MapGenerator.weightedRandomChoice.
  apply runs_seq with (Q := fun w s' => w = MapGenerator.nodeTypes s /\ s' = s).
  { apply runs_gets. auto. }
  intros w s0 [-> ->].
  eapply runs_seq; [apply (random_runs rnd rnd_range)|].
  intros r s1 (H0 & H1 & Hw). cbn beta.
  pose proof (walk_never_boss (MapGenerator.nodeTypes s)
                (r * MapGenerator.totalWeight (MapGenerator.nodeTypes s)) H)
    as N.
  destruct (MapGenerator.walk _ _) as [k|]; apply runs_ret;
    (split; [congruence|assumption]).
Qed.

Lemma selectNodeType_runs : forall nodeIndex regionLength s,
  drawable (MapGenerator.nodeTypes s) ->
  runs (MapGenerator.selectNodeType rnd nodeIndex regionLength) s
    (fun t s' => t <> MapGenerator.Boss /\ drawable (MapGenerator.nodeTypes s')).
Proof.
  intros nodeIndex regionLength s H. unfold MapGenerator.selectNodeType.
  apply runs_seq with (Q := fun _ s' => drawable (MapGenerator.nodeTypes s')).
  { unfold when. destruct (nodeIndex =? 0)%Z.
    - apply runs_modify. cbn. apply drawable_firstNodeWeights, H.
    - apply runs_ret, H. }
  intros _ s1 H1.
  apply runs_seq with (Q := fun _ s' => drawable (MapGenerator.nodeTypes s')).
  { unfold when. destruct ((nodeIndex >? 0)%Z && (nodeIndex <? regionLength - 2)%Z).
    - apply runs_modify. cbn. apply drawable_middleNodeWeights, H1.
    - apply runs_ret, H1. }
  intros _ s2 H2.
  apply runs_seq with (Q := fun _ s' => drawable (MapGenerator.nodeTypes s')).
  { unfold when. destruct (nodeIndex >=? regionLength - 2)%Z.
    - apply runs_modify. cbn. apply drawable_nearEndWeights, H2.
    - apply runs_ret, H2. }
  intros _ s3 H3.
  eapply runs_weaken; [apply weightedRandomChoice_runs, H3|].
  intros t s4 [Ht Hw]. split; [assumption|]. rewrite Hw. assumption.
Qed.

(** The payload generators return and leave the catalog alone. *)
Lemma generateEnemy_runs : forall regionTemplate difficulty s,
  runs (MapGenerator.generateEnemy rnd regionTemplate difficulty) s
    (fun _ s' => MapGenerator.nodeTypes s' = MapGenerator.nodeTypes s).
Proof.
  intros. unfold MapGenerator.generateEnemy.
  eapply runs_seq; [apply randomChoice_returns|].
  intros o s' Hw. cbn beta.
  destruct (match MapGenerator.lookup o MapGenerator.enemyTemplates with
            | Some template => template
            | None => MapGenerator.goblin
            end) as [[[[n h] a] d] sp].
  apply runs_ret. assumption.
Qed.

Lemma generateEvent_runs : forall regionTemplate s,
  runs (MapGenerator.generateEvent rnd regionTemplate) s
    (fun _ s' => MapGenerator.nodeTypes s' = MapGenerator.nodeTypes s).
Proof.
  intros. unfold MapGenerator.generateEvent.
  eapply runs_seq; [apply randomChoice_returns|].
  intros o s' Hw. cbn beta.
  destruct o as [k|]; [destruct (existsb _ _)|]; apply runs_ret; assumption.
Qed.

Lemma generateResource_runs : forall regionTemplate s,
  runs (MapGenerator.generateResource rnd regionTemplate) s
    (fun _ s' => MapGenerator.nodeTypes s' = MapGenerator.nodeTypes s).
Proof.
  intros. unfold MapGenerator.generateResource.
  eapply runs_seq; [apply randomChoice_returns|].
  intros o s' Hw. cbn beta.
  eapply runs_seq; [apply (randomInt_runs rnd rnd_range 2 5)%Z; lia|].
  intros z s'' (_ & _ & Hw'). apply runs_ret. congruence.
Qed.

Lemma generateMerchant_runs : forall s,
  runs (MapGenerator.generateMerchant rnd) s
    (fun _ s' => MapGenerator.nodeTypes s' = MapGenerator.nodeTypes s).
Proof.
  intros. unfold MapGenerator.generateMerchant, MapGenerator.generateMerchantItems.
  apply runs_seq
    with (Q := fun _ s' => MapGenerator.nodeTypes s' = MapGenerator.nodeTypes s).
  { eapply runs_seq; [apply (randomInt_runs rnd rnd_range 3 6)%Z; lia|].
    intros z s' (_ & _ & Hw). apply runs_ret. exact Hw. }
  intros items s' Hw. cbn beta.
  apply runs_seq
    with (Q := fun _ s' => MapGenerator.nodeTypes s' = MapGenerator.nodeTypes s).
  { unfold randomFloat. eapply runs_seq; [apply (random_runs rnd rnd_range)|].
    intros r s'' (_ & _ & Hw'). apply runs_ret. congruence. }
  intros h s'' Hw'. apply runs_ret. assumption.
Qed.

Lemma generateRegularNode_runs :
  forall regionTemplate difficulty nodeIndex regionLength regionKey s,
    drawable (MapGenerator.nodeTypes s) ->
    runs (MapGenerator.generateRegularNode rnd regionTemplate difficulty
            nodeIndex regionLength regionKey) s
      (fun n s' => isBossNode n = false /\ drawable (MapGenerator.nodeTypes s')).
Proof.
  intros regionTemplate difficulty nodeIndex regionLength regionKey s H.
  unfold MapGenerator.generateRegularNode.
  eapply runs_seq; [apply selectNodeType_runs, H|].
  intros t s1 [Ht H1]. cbn beta.
  apply runs_seq with (Q := fun _ s' => drawable (MapGenerator.nodeTypes s')).
  { destruct t.
    - eapply runs_seq; [apply generateEnemy_runs|].
      intros e s2 Hw. apply runs_ret. rewrite Hw. assumption.
    - eapply runs_seq; [apply generateEvent_runs|].
      intros e s2 Hw. apply runs_ret. rewrite Hw. assumption.
    - eapply runs_seq; [apply generateResource_runs|].
      intros e s2 Hw. apply runs_ret. rewrite Hw. assumption.
    - eapply runs_seq; [apply generateMerchant_runs|].
      intros e s2 Hw. apply runs_ret. rewrite Hw. assumption.
    - eapply runs_seq; [apply randomChoice_returns|].
      intros e s2 Hw. apply runs_ret. rewrite Hw. assumption.
    - apply runs_ret. assumption. }
  intros p s2 H2. apply runs_ret. split; [|assumption].
  unfold isBossNode. cbn. destruct t; try reflexivity. congruence.
Qed.

Lemma generateBossNode_runs :
  forall regionTemplate difficulty nodeIndex regionKey s,
    runs (MapGenerator.generateBossNode rnd regionTemplate difficulty
            nodeIndex regionKey) s
      (fun n s' => isBossNode n = true /\ MapGenerator.nodeTypes s' = MapGenerator.nodeTypes s).
Proof.
  intros. unfold MapGenerator.generateBossNode.
  eapply runs_seq; [apply randomChoice_returns|].
  intros o s' Hw. apply runs_ret. split; [reflexivity|assumption].
Qed.

Lemma bossLast_cons : forall n ns b,
  isBossNode n = false -> bossLast ns b -> bossLast (n :: ns) b.
Proof.
  intros n ns b Hn (front & -> & Hf & Hb).
  exists (n :: front). repeat split; auto.
Qed.

Lemma generateNodes_runs :
  forall regionTemplate difficulty regionKey isLastRegion regionLength todo i s,
    drawable (MapGenerator.nodeTypes s) ->
    (i + Z.of_nat todo = regionLength)%Z ->
    runs (MapGenerator.generateNodes rnd regionTemplate difficulty regionKey
            isLastRegion regionLength todo i) s
      (fun ns s' =>
         drawable (MapGenerator.nodeTypes s') /\
         List.length ns = todo /\
         (isLastRegion = false -> Forall (fun n => isBossNode n = false) ns) /\
         (isLastRegion = true -> (0 < todo)%nat -> exists b, bossLast ns b)).
Proof.
  intros regionTemplate difficulty regionKey isLastRegion regionLength todo.
  induction todo as [|todo IH]; intros i s H Hi.
  - apply runs_ret. split; [assumption|]. split; [reflexivity|].
    split; [constructor|lia].
  - cbn [MapGenerator.generateNodes].
    destruct isLastRegion.
    + destruct (Z.eqb_spec i (regionLength - 1)) as [E|E]; cbn [andb].
      * (* the boss position *)
        eapply runs_seq; [apply generateBossNode_runs|].
        intros b s1 [Hb Hw]. cbn beta.
        eapply runs_seq.
        { apply IH; [rewrite Hw; assumption|lia]. }
        intros ns s2 (H2 & Hlen & _ & _).
        assert (todo = 0)%nat by lia. subst todo.
        destruct ns; [|discriminate].
        apply runs_ret. split; [assumption|]. split; [reflexivity|].
        split; [discriminate|].
        intros _ _. exists b, []. repeat split; auto.
      * eapply runs_seq; [apply generateRegularNode_runs, H|].
        intros n s1 [Hn H1]. cbn beta.
        eapply runs_seq.
        { apply IH; [assumption|lia]. }
        intros ns s2 (H2 & Hlen & _ & HL).
        apply runs_ret. split; [assumption|].
        split; [cbn; congruence|]. split; [discriminate|].
        intros _ _. destruct HL as [b Hb]; [reflexivity|lia|].
        exists b. apply bossLast_cons; assumption.
    + cbn [andb].
      eapply runs_seq; [apply generateRegularNode_runs, H|].
      intros n s1 [Hn H1]. cbn beta.
      eapply runs_seq.
      { apply IH; [assumption|lia]. }
      intros ns s2 (H2 & Hlen & HF & _).
      apply runs_ret. split; [assumption|].
      split; [cbn; congruence|]. split; [|discriminate].
      intros _. constructor; auto.
Qed.

Lemma generateRegion_runs : forall key t regionIndex totalRegions s,
  assoc key MapGenerator.regions = Some t ->
  drawable (MapGenerator.nodeTypes s) ->
  runs (MapGenerator.generateRegion rnd (Some key) regionIndex totalRegions) s
    (fun r s' =>
       drawable (MapGenerator.nodeTypes s') /\
       MapGenerator.key r = key /\
       if (Z.of_nat regionIndex =? totalRegions - 1)%Z
       then exists b, bossLast (MapGenerator.nodes r) b
       else Forall (fun n => isBossNode n = false) (MapGenerator.nodes r)).
Proof.
  intros key t regionIndex totalRegions s Ht H.
  unfold MapGenerator.generateRegion.
  eapply runs_seq; [apply (randomInt_runs rnd rnd_range 4 7)%Z; lia|].
  intros baseLength s1 (Hb & _ & Hw). cbn beta.
  unfold MapGenerator.lookup. rewrite Ht.
  eapply runs_seq.
  { apply generateNodes_runs with (i := 0%Z); [rewrite Hw; assumption|].
    destruct (Z.of_nat regionIndex =? totalRegions - 1)%Z; lia. }
  intros ns s2 (H2 & Hlen & HF & HL).
  apply runs_ret. split; [assumption|]. split; [reflexivity|].
  cbn [MapGenerator.nodes].
  destruct (Z.of_nat regionIndex =? totalRegions - 1)%Z.
  - apply HL; [reflexivity|lia].
  - apply HF. reflexivity.
Qed.

(** [selectRegions]: the pool never runs dry before the count is met. *)
Lemma definedKeys_length : forall l,
  (List.length (definedKeys l) <= List.length l)%nat.
Proof. induction l as [|[k|] l IH]; cbn; lia. Qed.

Lemma includes_definedKeys : forall selected r,
  MapGenerator.includes selected r = true -> In r (definedKeys selected).
Proof.
  induction selected as [|[k|] l IH]; cbn; intros r H; try discriminate.
  - apply orb_true_iff in H. destruct H as [H|H].
    + left. apply String.eqb_eq. assumption.
    + right. apply IH. assumption.
  - apply IH. assumption.
Qed.

Lemma remaining_nonempty : forall selected,
  (List.length selected < List.length MapGenerator.availableRegions)%nat ->
  filter (fun r => negb (MapGenerator.includes selected r))
    MapGenerator.availableRegions <> [].
Proof.
  intros selected Hlen E.
  assert (Hincl : incl MapGenerator.availableRegions (definedKeys selected)).
  { intros r Hr. apply includes_definedKeys.
    destruct (MapGenerator.includes selected r) eqn:Ei; [reflexivity|].
    assert (In r (filter (fun r => negb (MapGenerator.includes selected r))
                    MapGenerator.availableRegions)) as Hin.
    { apply filter_In. split; [assumption|]. rewrite Ei. reflexivity. }
    rewrite E in Hin. destruct Hin. }
  assert (Hnd : NoDup MapGenerator.availableRegions).
  { cbn. repeat constructor; cbn; intuition discriminate. }
  pose proof (NoDup_incl_length Hnd Hincl).
  pose proof (definedKeys_length selected). lia.
Qed.

Lemma available_validKey : forall r,
  In r MapGenerator.availableRegions -> validKey (Some r).
Proof.
  intros r H. cbn in H.
  destruct H as [<-|[<-|[<-|[<-|[]]]]]; eexists _, _; split; reflexivity.
Qed.

Lemma selectMore_runs : forall count selected s,
  Forall validKey selected ->
  (List.length selected + count <= 4)%nat ->
  runs (MapGenerator.selectMore rnd count selected) s
    (fun sel s' =>
       Forall validKey sel /\
       List.length sel = (List.length selected + count)%nat /\
       (exists tl, sel = (selected ++ tl)%list) /\
       MapGenerator.nodeTypes s' = MapGenerator.nodeTypes s).
Proof.
  induction count as [|count IH]; intros selected s Hv Hlen.
  - apply runs_ret. split; [assumption|]. split; [lia|].
    split; [exists []; rewrite app_nil_r; reflexivity|reflexivity].
  - cbn [MapGenerator.selectMore].
    assert (Hl : (List.length selected
                  < List.length MapGenerator.availableRegions)%nat)
      by (cbn; lia).
    apply Nat.ltb_lt in Hl. rewrite Hl. apply Nat.ltb_lt in Hl.
    eapply runs_seq.
    { apply (randomChoice_runs rnd rnd_range), remaining_nonempty, Hl. }
    intros o s1 [(x & -> & Hx) Hw]. cbn beta.
    apply filter_In in Hx. destruct Hx as [Hx _].
    eapply runs_weaken.
    { apply IH.
      - apply Forall_app. split; [assumption|].
        constructor; [apply available_validKey, Hx|constructor].
      - rewrite length_app. cbn. lia. }
    intros sel s2 (Hv' & Hlen' & (tl & ->) & Hw').
    split; [assumption|]. split; [rewrite Hlen', length_app; cbn; lia|].
    split; [exists (Some x :: tl); rewrite <- app_assoc; reflexivity|congruence].
Qed.

Lemma isBossNode_indexNode : forall g r n,
  isBossNode (MapGenerator.indexNode g r n) = isBossNode n.
Proof. reflexivity. Qed.

Lemma indexNodes_nonBoss : forall ns g r,
  Forall (fun n => isBossNode n = false) ns ->
  Forall (fun n => isBossNode n = false) (MapGenerator.indexNodes g r ns).
Proof.
  induction ns as [|n ns IH]; intros g r H; cbn; [constructor|].
  inversion H; subst. constructor; [assumption|apply IH; assumption].
Qed.

Lemma indexNodes_bossLast : forall ns b g r,
  bossLast ns b ->
  exists b', bossLast (MapGenerator.indexNodes g r ns) b'.
Proof.
  intros ns b g r (front & -> & Hf & Hb).
  revert g. induction front as [|n front IH]; intros g.
  - cbn. eexists. exists []. repeat split; [constructor|].
    rewrite isBossNode_indexNode. assumption.
  - inversion Hf; subst. destruct (IH H2 (S g)) as [b' Hb'].
    exists b'. cbn. apply bossLast_cons; [assumption|exact Hb'].
Qed.

Lemma generateRegions_runs :
  forall selected regionIndex regionCount nodeIndex s,
    Forall validKey selected ->
    drawable (MapGenerator.nodeTypes s) ->
    (Z.of_nat regionIndex + Z.of_nat (List.length selected) = regionCount)%Z ->
    runs (MapGenerator.generateRegions rnd selected regionIndex regionCount
            nodeIndex) s
      (fun rs s' =>
         drawable (MapGenerator.nodeTypes s') /\
         map (fun r => Some (MapGenerator.key r)) rs = selected /\
         (selected <> [] ->
          exists init lastR b,
            rs = (init ++ [lastR])%list /\
            Forall (fun r => Forall (fun n => isBossNode n = false)
                               (MapGenerator.nodes r)) init /\
            bossLast (MapGenerator.nodes lastR) b)).
Proof.
  induction selected as [|k selected IH];
    intros regionIndex regionCount nodeIndex s Hv H Hc.
  - apply runs_ret. split; [assumption|]. split; [reflexivity|]. congruence.
  - cbn [MapGenerator.generateRegions].
    apply Forall_cons_iff in Hv. destruct Hv as [(key & t & -> & Ht) Hv'].
    eapply runs_seq; [eapply generateRegion_runs; eassumption|].
    intros region s1 (H1 & Hk & Hshape). cbn beta.
    eapply runs_seq.
    { apply IH; [assumption|assumption|cbn [List.length] in Hc; lia]. }
    intros rs s2 (H2 & Hkeys & Hrest).
    apply runs_ret. split; [assumption|].
    split; [cbn; rewrite Hk, Hkeys; reflexivity|].
    intros _. cbn [List.length] in Hc.
    destruct selected as [|k' selected'].
    + (* the last region *)
      destruct rs; [|discriminate].
      replace (Z.of_nat regionIndex =? regionCount - 1)%Z with true in Hshape
        by (symmetry; apply Z.eqb_eq; cbn in Hc; lia).
      destruct Hshape as [b Hb].
      destruct (indexNodes_bossLast _ _ nodeIndex regionIndex Hb) as [b' Hb'].
      eexists [], _, b'. split; [reflexivity|]. split; [constructor|exact Hb'].
    + replace (Z.of_nat regionIndex =? regionCount - 1)%Z with false in Hshape
        by (symmetry; apply Z.eqb_neq; cbn [List.length] in Hc; lia).
      destruct Hrest as (init & lastR & b & -> & Hinit & Hb); [discriminate|].
      eexists (_ :: init), lastR, b. split; [reflexivity|].
      split; [|assumption].
      constructor; [|assumption]. cbn. apply indexNodes_nonBoss, Hshape.
Qed.

Lemma sumDifficulty_valid : forall keys total,
  Forall validKey keys ->
  exists total', MapGenerator.sumDifficulty keys total = Ret total'.
Proof.
  induction keys as [|k keys IH]; intros total H.
  - eexists. reflexivity.
  - apply Forall_cons_iff in H. destruct H as [(key & t & -> & Ht) H'].
    cbn [MapGenerator.sumDifficulty MapGenerator.lookup]. rewrite Ht.
    apply IH, H'.
Qed.

Lemma calculateRunDifficulty_runs : forall keys s,
  Forall validKey keys ->
  runs (MapGenerator.calculateRunDifficulty keys) s (fun _ s' => s' = s).
Proof.
  intros keys s H. unfold MapGenerator.calculateRunDifficulty.
  destruct (sumDifficulty_valid keys 0 H) as [total ->].
  apply runs_ret. reflexivity.
Qed.

Lemma flat_map_nonBoss : forall rs,
  Forall (fun r => Forall (fun n => isBossNode n = false)
                     (MapGenerator.nodes r)) rs ->
  Forall (fun n => isBossNode n = false) (flat_map MapGenerator.nodes rs).
Proof.
  induction rs as [|r rs IH]; intros H; cbn; [constructor|].
  inversion H; subst. apply Forall_app. split; [assumption|apply IH; assumption].
Qed.

Lemma filter_nonBoss : forall ns,
  Forall (fun n => isBossNode n = false) ns -> filter isBossNode ns = [].
Proof.
  induction ns as [|n ns IH]; intros H; cbn; [reflexivity|].
  inversion H; subst. rewrite H2. apply IH. assumption.
Qed.

Lemma bossLast_one_boss : forall ns b,
  bossLast ns b -> filter isBossNode ns = [b].
Proof.
  intros ns b (front & -> & Hf & Hb).
  rewrite filter_app, (filter_nonBoss _ Hf). cbn. rewrite Hb. reflexivity.
Qed.

(** C6.  Whatever the draws and whatever weights earlier runs left in the
    catalog, [generateRun] returns a map whose number of regions is
    the count it drew, between 2 and 4; whose first region is the forest;
    and in which exactly one node is a boss node: the last node of the last
    region, which is also the last node of the flattened list. *)
Theorem generateRun_regions_and_single_final_boss :
  forall s,
    drawable (MapGenerator.nodeTypes s) ->
    runs (MapGenerator.generateRun rnd) s
      (fun run s' =>
         let requested :=
           (Qfloor (rnd (S (MapGenerator.cursor s)) * inject_Z 3) + 2)%Z in
         (2 <= requested <= 4)%Z /\
         Z.of_nat (List.length (MapGenerator.run_regions run)) = requested /\
         (exists r rs,
            MapGenerator.run_regions run = r :: rs /\
            MapGenerator.key r = "forest") /\
         (exists init lastR b,
            MapGenerator.run_regions run = (init ++ [lastR])%list /\
            bossLast (MapGenerator.nodes lastR) b /\
            bossLast (MapGenerator.run_nodes run) b /\
            filter isBossNode (MapGenerator.run_nodes run) = [b]) /\
         drawable (MapGenerator.nodeTypes s')).
Proof.
  intros s H. unfold MapGenerator.generateRun.
  apply runs_seq
    with (Q := fun _ s1 =>
                 MapGenerator.nodeTypes s1 = MapGenerator.nodeTypes s /\
                 MapGenerator.cursor s1 = S (MapGenerator.cursor s)).
  { eexists _, _. split; [reflexivity|]. split; reflexivity. }
  intros id s1 [Hw1 Hc1]. cbn beta.
  eapply runs_seq; [apply (randomInt_runs rnd rnd_range 2 4)%Z; lia|].
  intros regionCount s2 (Hrange & Hcount & Hw2). cbn beta.
  rewrite Hc1 in Hcount. change (4 - 2 + 1)%Z with 3%Z in Hcount.
  eapply runs_seq.
  { unfold MapGenerator.selectRegions.
    apply selectMore_runs with (selected := [Some "forest"]).
    - constructor; [|constructor]. eexists _, _. split; reflexivity.
    - cbn [List.length]. lia. }
  intros sel s3 (Hv & Hlen & (tl & ->) & Hw3). cbn beta.
  eapply runs_seq.
  { apply generateRegions_runs; [assumption| |].
    - rewrite Hw3, Hw2, Hw1. assumption.
    - rewrite Hlen. cbn [List.length]. lia. }
  intros rs s4 (H4 & Hkeys & Hshape). cbn beta.
  eapply runs_seq; [apply calculateRunDifficulty_runs, Hv|].
  intros d s5 ->.
  apply runs_ret. cbn zeta.
  cbn [MapGenerator.run_regions MapGenerator.run_nodes].
  rewrite <- Hcount.
  split; [assumption|].
  split.
  { rewrite <- (length_map (fun r => Some (MapGenerator.key r))), Hkeys, Hlen.
    cbn [List.length]. lia. }
  split.
  { destruct rs as [|r rs']; [discriminate|].
    exists r, rs'. split; [reflexivity|]. cbn in Hkeys. congruence. }
  destruct Hshape as (init & lastR & b & -> & Hinit & Hb); [discriminate|].
  split; [|assumption].
  exists init, lastR, b. split; [reflexivity|]. split; [assumption|].
  assert (Hall : bossLast (flat_map MapGenerator.nodes (init ++ [lastR])) b).
  { rewrite flat_map_app. cbn [flat_map]. rewrite app_nil_r.
    destruct Hb as (front & -> & Hf & Hbb).
    exists (flat_map MapGenerator.nodes init ++ front)%list.
    split; [rewrite app_assoc; reflexivity|]. split; [|assumption].
    apply Forall_app. split; [apply flat_map_nonBoss, Hinit|assumption]. }
  split; [assumption|apply bossLast_one_boss, Hall].
Qed.

End MapProperties.

Lemma half_in_range : forall i : nat, 0 <= half i /\ half i < 1.
Proof. intros i. unfold half. split; [discriminate|reflexivity]. Qed.

Lemma generateRun_regions_and_single_final_boss_witness :
  runs (MapGenerator.generateRun half) MapGenerator.fresh
    (fun run s' =>
       let requested :=
         (Qfloor (half (S (MapGenerator.cursor MapGenerator.fresh))
                  * inject_Z 3) + 2)%Z in
       (2 <= requested <= 4)%Z /\
       Z.of_nat (List.length (MapGenerator.run_regions run)) = requested /\
       (exists r rs,
          MapGenerator.run_regions run = r :: rs /\
          MapGenerator.key r = "forest") /\
       (exists init lastR b,
          MapGenerator.run_regions run = (init ++ [lastR])%list /\
          bossLast (MapGenerator.nodes lastR) b /\
          bossLast (MapGenerator.run_nodes run) b /\
          filter isBossNode (MapGenerator.run_nodes run) = [b]) /\
       drawable (MapGenerator.nodeTypes s')).
Proof.
  apply (generateRun_regions_and_single_final_boss half half_in_range
           MapGenerator.fresh).
  exact drawable_nodeTypes0.
Defined.

(** ** C4: boss phases *)

Lemma scanPhases_first : forall pct triggered ps i j p,
  Combat.scanPhases pct triggered i ps = Some (j, p) ->
  (i <= j)%nat /\
  nth_error ps (j - i) = Some p /\
  phaseDue pct triggered j p = true /\
  forall k q, (i <= k < j)%nat -> nth_error ps (k - i) = Some q ->
              phaseDue pct triggered k q = false.
Proof.
  intros pct triggered ps. induction ps as [|a ps IH]; intros i j p H.
  - discriminate.
  - cbn [Combat.scanPhases] in H.
    fold (phaseDue pct triggered i a) in H.
    destruct (phaseDue pct triggered i a) eqn:E.
    + inversion H; subst. rewrite Nat.sub_diag.
      repeat split; [lia|assumption|]. intros k q Hk. lia.
    + apply IH in H. destruct H as (Hij & Hn & Hd & Hfirst).
      split; [lia|]. split.
      { replace (j - i)%nat with (S (j - S i)) by lia. exact Hn. }
      split; [assumption|].
      intros k q Hk Hq.
      destruct (Nat.eq_dec k i) as [->|Hne].
      * rewrite Nat.sub_diag in Hq. inversion Hq; subst. assumption.
      * apply Hfirst; [lia|].
        replace (k - i)%nat with (S (k - S i)) in Hq by lia. exact Hq.
Qed.

Lemma scanPhases_none : forall pct triggered ps i,
  Combat.scanPhases pct triggered i ps = None ->
  forall k q, (i <= k)%nat -> nth_error ps (k - i) = Some q ->
              phaseDue pct triggered k q = false.
Proof.
  intros pct triggered ps. induction ps as [|a ps IH]; intros i H k q Hk Hq.
  - destruct (k - i)%nat; discriminate.
  - cbn [Combat.scanPhases] in H.
    fold (phaseDue pct triggered i a) in H.
    destruct (phaseDue pct triggered i a) eqn:E; [discriminate|].
    destruct (Nat.eq_dec k i) as [->|Hne].
    + rewrite Nat.sub_diag in Hq. inversion Hq; subst. assumption.
    + apply (IH (S i) H k q); [lia|].
      replace (k - i)%nat with (S (k - S i)) in Hq by lia. exact Hq.
Qed.


(** What one scan does. *)
Lemma phaseTransition_spec : forall pct bd,
  match Combat.phaseTransition pct bd with
  | (bd', None) =>
      bd' = bd /\
      forall k q, (BossData.currentPhase bd <= k)%nat ->
                  nth_error (BossData.phases bd) k = Some q ->
                  phaseDue pct (BossData.triggeredPhases bd) k q = false
  | (bd', Some (i, p)) =>
      (BossData.currentPhase bd <= i)%nat /\
      nth_error (BossData.phases bd) i = Some p /\
      phaseDue pct (BossData.triggeredPhases bd) i p = true /\
      (forall k q, (BossData.currentPhase bd <= k < i)%nat ->
                   nth_error (BossData.phases bd) k = Some q ->
                   phaseDue pct (BossData.triggeredPhases bd) k q = false) /\
      BossData.phases bd' = BossData.phases bd /\
      BossData.currentPhase bd' = S i /\
      BossData.triggeredPhases bd'
      = (BossData.triggeredPhases bd ++ [i])%list
  end.
Proof.
  intros pct bd. unfold Combat.phaseTransition.
  destruct (Combat.scanPhases pct (BossData.triggeredPhases bd)
              (BossData.currentPhase bd)
              (skipn (BossData.currentPhase bd) (BossData.phases bd)))
    as [[i p]|] eqn:E.
  - apply scanPhases_first in E. destruct E as (Hi & Hn & Hd & Hfirst).
    rewrite nth_error_skipn in Hn.
    replace (BossData.currentPhase bd + (i - BossData.currentPhase bd))%nat
      with i in Hn by lia.
    split; [assumption|]. split; [assumption|]. split; [assumption|].
    split.
    { intros k q Hk Hq. apply Hfirst; [assumption|].
      rewrite nth_error_skipn.
      replace (BossData.currentPhase bd + (k - BossData.currentPhase bd))%nat
        with k by lia. assumption. }
    cbn. split; [reflexivity|]. split; [reflexivity|].
    unfold Combat.setAdd. unfold phaseDue in Hd.
    apply andb_true_iff in Hd. destruct Hd as [_ Hd].
    apply negb_true_iff in Hd. rewrite Hd. reflexivity.
  - split; [reflexivity|].
    intros k q Hk Hq.
    apply (scanPhases_none _ _ _ _ E k q Hk).
    rewrite nth_error_skipn.
    replace (BossData.currentPhase bd + (k - BossData.currentPhase bd))%nat
      with k by lia. assumption.
Qed.




(** The engine's method is that scan, applied to the boss object. *)
Lemma checkBossPhaseTransition_scans_once : forall r s bd,
  Entity.bossData (Combat.object r s) = Some bd ->
  exists s',
    Combat.checkBossPhaseTransition (Some r) s = (Ret tt, s') /\
    Entity.bossData (Combat.object r s')
    = Some (fst (Combat.phaseTransition
                   (Entity.hp (Combat.object r s)
                    / Entity.maxHp (Combat.object r s))%js bd)).
Proof.
  intros r s bd H.
  unfold Combat.checkBossPhaseTransition, bind, Combat.read, gets.
  rewrite H.
  pose proof (phaseTransition_spec
                (Entity.hp (Combat.object r s)
                 / Entity.maxHp (Combat.object r s))%js bd) as Hs.
  destruct (Combat.phaseTransition _ bd) as [bd' [[i p]|]]; cbn [fst].
  - unfold Combat.write, Combat.logMessage, modify. eexists.
    split; [reflexivity|]. destruct r; reflexivity.
  - destruct Hs as [-> _]. eexists. split; [reflexivity|assumption].
Qed.

(** ** C5: a rejected [useSkill] *)

(** Running the plumbing of the monad. *)
Ltac mred :=
  cbv beta iota delta
    [bind gets modify ret throw when Combat.read Combat.write
     Combat.logMessage].

Lemma set_log_same : forall s, Combat.set_log (Combat.log s) s = s.
Proof. destruct s; reflexivity. Qed.

Lemma canUseSkill_refuses : forall s r skill,
  Combat.player s = Some r ->
  refusedSkill (Combat.object r s) skill ->
  exists m,
    Combat.canUseSkill skill s
    = (Ret false, Combat.set_log (Combat.log s ++ [m]) s).
Proof.
  intros s r skill Hp H.
  unfold Combat.canUseSkill. mred. rewrite Hp. mred.
  destruct (Entity.mana (Combat.object r s) <? Skill.manaCost skill)%js eqn:E1.
  { eexists. reflexivity. }
  destruct (Skill.currentCooldown skill >? 0)%js eqn:E2.
  { eexists. reflexivity. }
  destruct H as [H|[H|[H|H]]]; try congruence.
  - rewrite H. eexists. reflexivity.
  - rewrite H, orb_true_r. eexists. reflexivity.
Qed.

(** C5.  When the call is turned down (combat inactive, enemy's turn,
    no skill at the index, too little mana, skill on cooldown, player
    stunned or frozen), [useSkill] returns [false] and the session is what
    it was: the two entities with their hp, mana, effects and cooldowns,
    [currentTurn], [turnCounter], the references, the options, the random
    cursor.  Only warnings may have been appended to the log. *)
Theorem useSkill_rejected_changes_nothing :
  forall (rnd : nat -> Q) (s : Combat.State) (skillIndex : Z),
    failsValidation s skillIndex ->
    exists warnings,
      Combat.useSkill rnd skillIndex s
      = (Ret false, Combat.set_log (Combat.log s ++ warnings) s).
Proof.
  intros rnd s skillIndex H.
  assert (Hsame : (Ret false, s)
                  = (Ret false, Combat.set_log (Combat.log s ++ []) s)).
  { rewrite app_nil_r, set_log_same. reflexivity. }
  unfold Combat.useSkill. mred.
  destruct (Combat.isActive s) eqn:Ea; cbn [negb orb];
    [|exists []; exact Hsame].
  destruct (Combat.currentTurn s) eqn:Et; cbn [Combat.Turn_eqb negb];
    [|exists []; exact Hsame].
  destruct H as [H|[H|(r & skills & Hp & Hs & H)]]; try congruence.
  rewrite Hp. mred. rewrite Hs.
  destruct (at_index skills skillIndex) as [skill|].
  - destruct (canUseSkill_refuses s r skill Hp H) as [m ->].
    cbn [negb]. exists [m]. reflexivity.
  - exists []. exact Hsame.
Qed.

Lemma useSkill_rejected_changes_nothing_witness :
  exists warnings,
    Combat.useSkill half 99 Combat.fresh
    = (Ret false,
       Combat.set_log (Combat.log Combat.fresh ++ warnings) Combat.fresh).
Proof.
  apply (useSkill_rejected_changes_nothing half Combat.fresh 99).
  left. reflexivity.
Defined.

(** The same on a running combat: a warrior has eight skills, so neither
    index 8 nor index -1 names one. *)
Example useSkill_invalid_index :
  exists c s1,
    Entities.createCharacter "warrior" "order" = Ret c /\
    Combat.startCombat (Entity.of_character c) goblinScout Combat.noOptions
      Combat.fresh = (Ret tt, s1) /\
    Combat.useSkill half 8 s1 = (Ret false, s1) /\
    Combat.useSkill half (-1) s1 = (Ret false, s1).
Proof.
  do 2 eexists. split; [reflexivity|]. split; [vm_compute; reflexivity|].
  split; vm_compute; reflexivity.
Qed.

(** ** Frame rules: what the engine's methods leave alone *)

Lemma preserves_ret : forall {A B} (f : Combat.State -> B) (a : A),
  preserves f (ret a).
Proof. intros A B f a s o s' E. inversion E. reflexivity. Qed.

Lemma preserves_throw : forall {A B} (f : Combat.State -> B) e,
  preserves f (@throw Combat.State A e).
Proof. intros A B f e s o s' E. inversion E. reflexivity. Qed.

Lemma preserves_gets : forall {A B} (f : Combat.State -> B)
    (g : Combat.State -> A),
  preserves f (gets g).
Proof. intros A B f g s o s' E. inversion E. reflexivity. Qed.

Lemma preserves_modify : forall {B} (f : Combat.State -> B) g,
  (forall s, f (g s) = f s) -> preserves f (modify g).
Proof. intros B f g H s o s' E. inversion E. apply H. Qed.

Lemma preserves_bind : forall {A C B} (f : Combat.State -> B)
    (m : M Combat.State A) (k : A -> M Combat.State C),
  preserves f m -> (forall a, preserves f (k a)) -> preserves f (bind m k).
Proof.
  intros A C B f m k Hm Hk s o s' E. unfold bind in E.
  destruct (m s) as [[a|e|] s1] eqn:Em.
  - rewrite (Hk a s1 o s' E). eapply Hm. eassumption.
  - inversion E; subst. eapply Hm. eassumption.
  - inversion E; subst. eapply Hm. eassumption.
Qed.

Lemma preserves_try_catch : forall {A B} (f : Combat.State -> B)
    (m : M Combat.State A) h,
  preserves f m -> (forall e, preserves f (h e)) ->
  preserves f (try_catch m h).
Proof.
  intros A B f m h Hm Hh s o s' E. unfold try_catch in E.
  destruct (m s) as [[a|e|] s1] eqn:Em.
  - inversion E; subst. eapply Hm. eassumption.
  - rewrite (Hh e s1 o s' E). eapply Hm. eassumption.
  - inversion E; subst. eapply Hm. eassumption.
Qed.

Lemma preserves_when : forall {B} (f : Combat.State -> B) b m,
  preserves f m -> preserves f (when b m).
Proof. intros B f [] m H; [exact H|apply preserves_ret]. Qed.

Lemma preserves_forEach : forall {A B} (f : Combat.State -> B) (l : list A) k,
  (forall a, preserves f (k a)) -> preserves f (forEach l k).
Proof.
  intros A B f l k H. induction l as [|a l IH]; cbn [forEach].
  - apply preserves_ret.
  - apply preserves_bind; [apply H|intro; exact IH].
Qed.

Lemma bind_returns : forall {S A C} (m : M S A) (k : A -> M S C) s c s',
  bind m k s = (Ret c, s') ->
  exists a s1, m s = (Ret a, s1) /\ k a s1 = (Ret c, s').
Proof.
  intros S A C m k s c s' E. unfold bind in E.
  destruct (m s) as [[a|e|] s1]; try discriminate.
  exists a, s1. split; [reflexivity|assumption].
Qed.

Lemma ensures_bind : forall {S A C} (P : C -> Prop) (m : M S A)
    (k : A -> M S C),
  (forall a, ensures P (k a)) -> ensures P (bind m k).
Proof.
  intros S A C P m k H s c s' E.
  apply bind_returns in E. destruct E as (a & s1 & _ & E).
  eapply H. eassumption.
Qed.

Lemma ensures_ret : forall {S A} (P : A -> Prop) (a : A),
  P a -> ensures P (@ret S A a).
Proof. intros S A P a H s a' s' E. inversion E; subst. assumption. Qed.

Lemma ensures_throw : forall {S A} (P : A -> Prop) e,
  ensures P (@throw S A e).
Proof. intros S A P e s a s' E. discriminate. Qed.

Section Frame.
Variable rnd : nat -> Q.
Variable B : Type.
Variable f : Combat.State -> B.

(** The observation does not depend on the bookkeeping of the session nor
    on the hp, mana, skills and boss data of the two objects. *)
Hypothesis f_log : forall v s, f (Combat.set_log v s) = f s.
Hypothesis f_cursor : forall v s, f (Combat.set_cursor v s) = f s.
Hypothesis f_isActive : forall v s, f (Combat.set_isActive v s) = f s.
Hypothesis f_turn : forall v n s, f (Combat.set_turn v n s) = f s.
Hypothesis f_refs : forall p e s, f (Combat.set_refs p e s) = f s.
Hypothesis f_resolution :
  forall p d s, f (Combat.set_resolution p d s) = f s.
Hypothesis f_hp : forall r v s,
  f (Combat.set_object r (Entity.set_hp v (Combat.object r s)) s) = f s.
Hypothesis f_mana : forall r v s,
  f (Combat.set_object r (Entity.set_mana v (Combat.object r s)) s) = f s.
Hypothesis f_skills : forall r v s,
  f (Combat.set_object r (Entity.set_skills v (Combat.object r s)) s) = f s.
Hypothesis f_phase : forall r bd pa s,
  f (Combat.set_object r (Entity.set_phase bd pa (Combat.object r s)) s) = f s.

Lemma preserves_logMessage : forall m t, preserves f (Combat.logMessage m t).
Proof. intros. apply preserves_modify. intros. apply f_log. Qed.

Lemma preserves_random : preserves f (random rnd).
Proof. intros s o s' E. inversion E. apply f_cursor. Qed.

Lemma preserves_randomInt : forall lo hi, preserves f (randomInt rnd lo hi).
Proof.
  intros. apply preserves_bind; [apply preserves_random|].
  intro. apply preserves_ret.
Qed.

Lemma preserves_randomChoice : forall {A} (l : list A),
  preserves f (randomChoice rnd l).
Proof.
  intros. apply preserves_bind; [apply preserves_random|].
  intro. apply preserves_ret.
Qed.

Lemma preserves_read : forall r, preserves f (Combat.read r).
Proof. intros [r|]; [apply preserves_gets|apply preserves_throw]. Qed.

Lemma preserves_write : forall r g,
  (forall x s, f (Combat.set_object x (g (Combat.object x s)) s) = f s) ->
  preserves f (Combat.write r g).
Proof.
  intros [r|] g H; [|apply preserves_throw].
  apply preserves_modify. intros. apply H.
Qed.

Ltac frame_step :=
    match goal with
    | |- forall _, _ => intro
    | |- preserves _ (bind _ _) => apply preserves_bind
    | |- preserves _ (ret _) => apply preserves_ret
    | |- preserves _ (throw _) => apply preserves_throw
    | |- preserves _ (gets _) => apply preserves_gets
    | |- preserves _ (when _ _) => apply preserves_when
    | |- preserves _ (forEach _ _) => apply preserves_forEach
    | |- preserves _ (Combat.logMessage _ _) => apply preserves_logMessage
    | |- preserves _ (random _) => apply preserves_random
    | |- preserves _ (randomInt _ _ _) => apply preserves_randomInt
    | |- preserves _ (randomChoice _ _) => apply preserves_randomChoice
    | |- preserves _ (Combat.read _) => apply preserves_read
    | |- preserves _ (Combat.write _ _) => apply preserves_write
    | |- preserves _ (modify _) => apply preserves_modify
    | |- preserves _ (if ?b then _ else _) => destruct b
    | |- preserves _ (match ?x with _ => _ end) => destruct x
    | |- f _ = f _ =>
        first [ apply f_log | apply f_cursor | apply f_isActive | apply f_turn
              | apply f_refs | apply f_resolution | apply f_hp | apply f_mana
              | apply f_skills | apply f_phase ]
    end.

Ltac frame := repeat frame_step.

Lemma preserves_healEntity : forall t h, preserves f (Combat.healEntity t h).
Proof. intros. unfold Combat.healEntity. frame. Qed.

Lemma preserves_endCombat : forall v r, preserves f (Combat.endCombat rnd v r).
Proof.
  intros. unfold Combat.endCombat, Combat.calculateExperienceGain,
    Combat.calculateCombatRewards, Combat.generateRandomItem,
    Combat.generateBossItem, Combat.cleanup.
  frame. rewrite f_turn. apply f_refs.
Qed.

Lemma preserves_checkBossPhaseTransition : forall b,
  preserves f (Combat.checkBossPhaseTransition b).
Proof. intros. unfold Combat.checkBossPhaseTransition. frame. Qed.

Lemma preserves_dealDamage : forall t d,
  preserves f (Combat.dealDamage rnd t d).
Proof.
  intros. unfold Combat.dealDamage. frame;
    try apply preserves_endCombat; apply preserves_checkBossPhaseTransition.
Qed.

Lemma preserves_rollEffects : forall effects,
  preserves f (Combat.rollEffects rnd effects).
Proof.
  induction effects as [|e effects IH]; cbn [Combat.rollEffects].
  - apply preserves_ret.
  - apply preserves_bind; [apply preserves_random|]. intro.
    apply preserves_bind; [exact IH|]. intro. apply preserves_ret.
Qed.

Lemma preserves_executeSkill : forall c t skill ref,
  preserves f (Combat.executeSkill rnd c t skill ref).
Proof.
  intros. unfold Combat.executeSkill, Combat.calculateDamage,
    Combat.checkCritical, Combat.checkHit, Combat.calculateHealing,
    Combat.applySpecialSkillEffects.
  frame; apply preserves_rollEffects.
Qed.

Lemma preserves_resetCooldown : forall ref,
  preserves f (Combat.resetCooldown ref).
Proof. intros [owner i|]; cbn [Combat.resetCooldown]; frame. Qed.

Lemma preserves_updateCooldowns : forall r,
  preserves f (Combat.updateCooldowns r).
Proof. intros. unfold Combat.updateCooldowns. frame. Qed.

(** Nor, for one of the two objects, on its status effects. *)
Variable t : Combat.Ref.
Hypothesis f_effects : forall v s,
  f (Combat.set_object t (Entity.set_statusEffects v (Combat.object t s)) s)
  = f s.

Lemma preserves_write_effects : forall g,
  preserves f
    (Combat.write (Some t) (fun e => Entity.set_statusEffects (g e) e)).
Proof.
  intros. unfold Combat.write. apply preserves_modify. intros. apply f_effects.
Qed.

Ltac frame_effects :=
  repeat first [ apply preserves_write_effects | frame_step ].

Lemma preserves_applyStatusEffect : forall effectType duration,
  preserves f (Combat.applyStatusEffect rnd (Some t) effectType duration).
Proof. intros. unfold Combat.applyStatusEffect. frame_effects. Qed.

Lemma preserves_applySkillResult : forall result,
  Combat.Result.target result = Some t ->
  preserves f (Combat.applySkillResult rnd result).
Proof.
  intros result Ht. unfold Combat.applySkillResult. rewrite Ht.
  repeat first [ apply preserves_dealDamage | apply preserves_healEntity
               | apply preserves_applyStatusEffect
               | apply preserves_resetCooldown | frame_step ].
Qed.

(** The three stages of [applySkillResult] when it returns: damage and
    healing, which leave [f] alone; the status effects; mana and cooldown,
    which leave alone any observation [g] blind to mana and skills. *)
Variable B' : Type.
Variable g : Combat.State -> B'.
Hypothesis g_mana : forall r v s,
  g (Combat.set_object r (Entity.set_mana v (Combat.object r s)) s) = g s.
Hypothesis g_skills : forall r v s,
  g (Combat.set_object r (Entity.set_skills v (Combat.object r s)) s) = g s.

Lemma applySkillResult_stages : forall result s1 s2,
  Combat.applySkillResult rnd result s1 = (Ret tt, s2) ->
  exists sb sc,
    f sb = f s1 /\
    forEach (Combat.Result.statusEffects result)
      (fun effect =>
         Combat.applyStatusEffect rnd (Combat.Result.target result)
           (Effect.type effect) (Effect.duration effect)) sb
    = (Ret tt, sc) /\
    g s2 = g sc.
Proof.
  intros result s1 s2 E. unfold Combat.applySkillResult in E.
  apply bind_returns in E. destruct E as (u1 & sa & Ea & E).
  apply bind_returns in E. destruct E as (u2 & sb & Eb & E).
  apply bind_returns in E. destruct E as ([] & sc & Ec & E).
  apply bind_returns in E. destruct E as (u4 & sd & Ed & Ee).
  exists sb, sc. split; [|split; [exact Ec|]].
  - transitivity (f sa).
    + match type of Eb with
      | ?m _ = _ => assert (Hm : preserves f m)
      end.
      { repeat first [ apply preserves_healEntity | frame_step ]. }
      exact (Hm _ _ _ Eb).
    + match type of Ea with
      | ?m _ = _ => assert (Hm : preserves f m)
      end.
      { repeat first [ apply preserves_dealDamage | frame_step ]. }
      exact (Hm _ _ _ Ea).
  - transitivity (g sd).
    + destruct (Combat.Result.skillRef result) as [owner i|];
        cbn [Combat.resetCooldown] in Ee; inversion Ee; [apply g_skills|].
      reflexivity.
    + destruct (Combat.Result.caster result) as [c|];
        cbn [Combat.write] in Ed; inversion Ed. apply g_mana.
Qed.

End Frame.

(** ** C10: the target of a skill's status effects *)

(** [executeSkill] returns a result about the caster and the target it was
    given. *)
Lemma applySpecialSkillEffects_refs : forall rnd skill result,
  ensures (fun r => Combat.Result.caster r = Combat.Result.caster result /\
                    Combat.Result.target r = Combat.Result.target result)
    (Combat.applySpecialSkillEffects rnd skill result).
Proof.
  intros rnd skill result. unfold Combat.applySpecialSkillEffects.
  repeat
    match goal with
    | |- forall _, _ => intro
    | |- ensures _ (bind _ _) => apply ensures_bind
    | |- ensures _ (ret _) => apply ensures_ret
    | |- ensures _ (throw _) => apply ensures_throw
    | |- ensures _ (if ?b then _ else _) => destruct b
    end;
    try match goal with |- context [if ?b then _ else _] => destruct b end;
    split; reflexivity.
Qed.

Lemma executeSkill_refs : forall rnd caster target skill ref,
  ensures (fun r => Combat.Result.caster r = caster /\
                    Combat.Result.target r = target)
    (Combat.executeSkill rnd caster target skill ref).
Proof.
  intros rnd caster target skill ref. unfold Combat.executeSkill.
  apply ensures_bind. intros [[[damage critical] hit] message].
  apply ensures_bind. intros healing.
  apply ensures_bind. intros effects.
  intros s r s' E. apply applySpecialSkillEffects_refs in E. exact E.
Qed.

Lemma has_mapSet : forall {A} k k' (v : A) m,
  Combat.has k (Combat.mapSet k' v m)
  = Combat.has k m || String.eqb k' k.
Proof.
  intros A k k' v m. unfold Combat.has.
  induction m as [|[k0 v0] m IH]; cbn [Combat.mapSet existsb fst].
  - rewrite orb_false_r. reflexivity.
  - destruct (String.eqb k0 k') eqn:E; cbn [existsb fst].
    + apply String.eqb_eq in E. subst k0.
      destruct (String.eqb k' k); cbn;
        rewrite ?orb_true_r, ?orb_false_r; reflexivity.
    + rewrite IH. rewrite orb_assoc. reflexivity.
Qed.

(** An unresisted [applyStatusEffect] puts the effect in the target's map. *)
Lemma applyStatusEffect_sets : forall rnd t effectType duration s,
  (forall i, 0 <= rnd i) ->
  JS.truthy (Entity.statusResistance (Combat.object t s)) = false ->
  exists s',
    Combat.applyStatusEffect rnd (Some t) effectType duration s = (Ret tt, s') /\
    Entity.statusResistance (Combat.object t s')
    = Entity.statusResistance (Combat.object t s) /\
    forall k, Combat.has k (effectsOf t s')
              = Combat.has k (effectsOf t s) || String.eqb effectType k.
Proof.
  intros rnd t effectType duration s Hrnd Hres.
  unfold Combat.applyStatusEffect. mred.
  unfold random, JS.or_else. rewrite Hres. cbn beta iota.
  change (rng s) with (Combat.cursor s).
  assert (E : (Fin (rnd (Combat.cursor s)) <? lit 0)%js = false).
  { unfold JS.lt, lit, JS.Qltb. apply negb_false_iff, Qle_bool_iff, Hrnd. }
  rewrite E. mred.
  eexists. split; [reflexivity|].
  split; [destruct t; reflexivity|].
  intros k. unfold effectsOf. destruct t; cbn; apply has_mapSet.
Qed.

Lemma forEach_applyStatusEffect : forall rnd t effects s,
  (forall i, 0 <= rnd i) ->
  JS.truthy (Entity.statusResistance (Combat.object t s)) = false ->
  exists s',
    forEach effects
      (fun effect =>
         Combat.applyStatusEffect rnd (Some t) (Effect.type effect)
           (Effect.duration effect)) s = (Ret tt, s') /\
    forall k,
      Combat.has k (effectsOf t s) = true \/
      In k (map Effect.type effects) ->
      Combat.has k (effectsOf t s') = true.
Proof.
  intros rnd t effects. induction effects as [|e effects IH]; intros s Hrnd Hres.
  - eexists. split; [reflexivity|]. intros k [H|[]]. assumption.
  - cbn [forEach].
    destruct (applyStatusEffect_sets rnd t (Effect.type e) (Effect.duration e)
                s Hrnd Hres) as (s1 & E1 & Hres1 & Hhas).
    destruct (IH s1 Hrnd) as (s2 & E2 & Hall); [congruence|].
    exists s2. split.
    { unfold bind. rewrite E1. exact E2. }
    intros k Hk. apply Hall. rewrite Hhas.
    destruct Hk as [Hk|[Hk|Hk]].
    + left. rewrite Hk. reflexivity.
    + left. subst k. rewrite String.eqb_refl. apply orb_true_r.
    + right. assumption.
Qed.

(** C10.  A skill resolved by [executeSkill] for a caster against a target
    (the player against the enemy in [useSkill], the enemy against the
    player in [executeEnemyAction]) yields a result about that caster and
    that target, and applying the result never touches the caster's status
    effects: every effect the result carries goes through
    [applyStatusEffect] on the target, where, unless the target has a
    status resistance, it is set.  A buff such as Defensive Stance thus
    lands on the opponent. *)
Theorem status_effects_land_on_the_opponent :
  forall (rnd : nat -> Q) (caster target : Combat.Ref) (skill : Skill.t)
         (ref : Combat.SkillRef) (s : Combat.State)
         (result : Combat.Result.t) (s1 : Combat.State)
         (o : outcome unit) (s2 : Combat.State),
    (forall i, 0 <= rnd i) ->
    caster <> target ->
    Combat.executeSkill rnd (Some caster) (Some target) skill ref s
    = (Ret result, s1) ->
    Combat.applySkillResult rnd result s1 = (o, s2) ->
    Combat.Result.caster result = Some caster /\
    Combat.Result.target result = Some target /\
    effectsOf caster s2 = effectsOf caster s /\
    (o = Ret tt ->
     JS.truthy (Entity.statusResistance (Combat.object target s)) = false ->
     forall effect,
       In effect (Combat.Result.statusEffects result) ->
       Combat.has (Effect.type effect) (effectsOf target s2) = true).
Proof.
  intros rnd caster target skill ref s result s1 o s2 Hrnd Hneq E1 E2.
  destruct (executeSkill_refs rnd (Some caster) (Some target) skill ref
              s result s1 E1) as [Hc Ht].
  split; [assumption|]. split; [assumption|].
  split.
  - (* the caster's effects are framed out of both steps *)
    transitivity (effectsOf caster s1).
    + apply (preserves_applySkillResult rnd _ (effectsOf caster)) with
        (t := target) (result := result) (s := s1) (o := o); try assumption;
        intros; unfold effectsOf;
        repeat match goal with r : Combat.Ref |- _ => destruct r end;
        try reflexivity; congruence.
    + apply (preserves_executeSkill rnd _ (effectsOf caster)) with
        (c := Some caster) (t := Some target) (skill := skill) (ref := ref)
        (s := s) (o := Ret result); try assumption;
        intros; unfold effectsOf;
        repeat match goal with r : Combat.Ref |- _ => destruct r end;
        reflexivity.
  - intros -> Hres effect Hin.
    destruct (applySkillResult_stages rnd _
                (fun s => Entity.statusResistance (Combat.object target s)))
      with (g := effectsOf target) (result := result) (s1 := s1) (s2 := s2)
      as (sb & sc & Hres_b & Ec & Hkeep); try assumption;
      try (intros; unfold effectsOf;
           repeat match goal with r : Combat.Ref |- _ => destruct r end;
           reflexivity).
    rewrite Ht in Ec.
    assert (Hres_1 : Entity.statusResistance (Combat.object target s1)
                     = Entity.statusResistance (Combat.object target s)).
    { apply (preserves_executeSkill rnd _
               (fun s => Entity.statusResistance (Combat.object target s)))
        with (c := Some caster) (t := Some target) (skill := skill)
             (ref := ref) (s := s) (o := Ret result); try assumption;
        intros;
        repeat match goal with r : Combat.Ref |- _ => destruct r end;
        reflexivity. }
    destruct (forEach_applyStatusEffect rnd target
                (Combat.Result.statusEffects result) sb Hrnd)
      as (sc' & Ec' & Hall); [congruence|].
    rewrite Ec in Ec'. inversion Ec'; subst sc'.
    rewrite Hkeep. apply Hall. right. apply in_map. assumption.
Qed.

Lemma status_effects_land_on_the_opponent_witness :
  exists result s1 o s2,
    Combat.executeSkill half (Some Combat.PlayerObject)
      (Some Combat.EnemyObject) defensiveStance
      (Combat.OwnSkill Combat.PlayerObject 2) warriorVsGoblin
    = (Ret result, s1) /\
    Combat.applySkillResult half result s1 = (o, s2) /\
    effectsOf Combat.PlayerObject s2
    = effectsOf Combat.PlayerObject warriorVsGoblin /\
    Combat.has "defense_boost" (effectsOf Combat.EnemyObject s2) = true.
Proof.
  destruct (Combat.executeSkill half (Some Combat.PlayerObject)
              (Some Combat.EnemyObject) defensiveStance
              (Combat.OwnSkill Combat.PlayerObject 2) warriorVsGoblin)
    as [[result| |] s1] eqn:E1; try (vm_compute in E1; discriminate).
  destruct (Combat.applySkillResult half result s1) as [o s2] eqn:E2.
  exists result, s1, o, s2.
  split; [reflexivity|]. split; [exact E2|].
  assert (Hrnd : forall i, 0 <= half i) by (intros; discriminate).
  assert (Hneq : Combat.PlayerObject <> Combat.EnemyObject) by discriminate.
  destruct (status_effects_land_on_the_opponent half Combat.PlayerObject
              Combat.EnemyObject defensiveStance
              (Combat.OwnSkill Combat.PlayerObject 2) warriorVsGoblin
              result s1 o s2 Hrnd Hneq E1 E2) as (_ & _ & Hc & Ht).
  split; [exact Hc|].
  vm_compute in E1. injection E1 as <- <-.
  vm_compute in E2. injection E2 as <- <-.
  apply (Ht eq_refl eq_refl
           {| Effect.type := "defense_boost"; Effect.duration := 3;
              Effect.chance := 1.0 |}).
  left. reflexivity.
Defined.

(** Defensive Stance, end to end: the warrior spends the mana, the goblin
    receives [defense_boost] for three turns, the warrior carries no
    effect. *)
Example defensive_stance_buffs_the_enemy :
  exists s',
    Combat.useSkill half 2 warriorVsGoblin = (Ret true, s') /\
    effectsOf Combat.PlayerObject s' = [] /\
    map fst (effectsOf Combat.EnemyObject s') = ["defense_boost"] /\
    Entity.mana (Combat.playerObject s') = Fin 30.
Proof. eexists. split; [vm_compute; reflexivity|]. repeat split. Qed.

(** The enemy side resolves its skills against the player. *)
Lemma executeEnemyAction_targets_player : forall rnd type skill s,
  Combat.executeEnemyAction rnd (Combat.SkillAction type skill) s
  = bind (Combat.executeSkill rnd (Combat.enemy s) (Combat.player s) skill
            Combat.Detached)
      (Combat.applySkillResult rnd) s.
Proof. reflexivity. Qed.

(** ** C8: fleeing *)

Lemma Qltb_lt : forall x y, JS.Qltb x y = true <-> x < y.
Proof.
  intros x y. unfold JS.Qltb. rewrite negb_true_iff. split.
  - apply Qle_bool_false.
  - intros H. destruct (Qle_bool y x) eqn:E; [|reflexivity].
    apply Qle_bool_iff in E. lra.
Qed.









(** A draw below 0.7 resolves the combat as fled. *)
Lemma attemptFlee_success : forall rnd s,
  Combat.allowFlee (Combat.combatOptions s) = true ->
  rnd (Combat.cursor s) < 0.7 ->
  exists s',
    Combat.attemptFlee rnd s = (Ret true, s') /\
    Combat.isActive s' = false /\
    Combat.player s' = None /\ Combat.enemy s' = None /\
    Combat.playerObject s' = Combat.playerObject s /\
    Combat.enemyObject s' = Combat.enemyObject s /\
    (Combat.combatResolve s = true ->
     Combat.resolved s'
     = (Combat.resolved s ++ [fledResults (Combat.turnCounter s)])%list).
Proof.
  intros rnd s H Hr. apply Qltb_lt in Hr.
  unfold Combat.attemptFlee. mred. rewrite H. cbn [negb].
  unfold random. change (rng s) with (Combat.cursor s). rewrite Hr.
  unfold Combat.endCombat, Combat.cleanup. mred. cbn -[app].
  destruct (Combat.combatResolve s) eqn:Ep.
  - eexists. split; [reflexivity|]. repeat split.
  - eexists. split; [reflexivity|]. repeat split. discriminate.
Qed.



(** The scenario of the specification: a source that always yields 0.69
    makes every attempt succeed, in any session that allows fleeing. *)
Lemma attemptFlee_at_069_succeeds : forall s,
  Combat.allowFlee (Combat.combatOptions s) = true ->
  exists s', Combat.attemptFlee (fun _ => 0.69) s = (Ret true, s').
Proof.
  intros s H.
  destruct (attemptFlee_success (fun _ => 0.69) s H) as (s' & E & _);
    [reflexivity|].
  exists s'. exact E.
Qed.

(** And a failed attempt on a running combat. *)
Example attemptFlee_fails_at_07 :
  exists s',
    Combat.attemptFlee (fun _ => 0.7) warriorVsGoblin = (Ret false, s') /\
    Combat.currentTurn s' = Combat.EnemyTurn /\
    Combat.isActive s' = true.
Proof. eexists. split; [vm_compute; reflexivity|]. split; reflexivity. Qed.

(** ** C9: leveling *)


(** One level, field by field. *)
Lemma levelUpCharacter_spec : forall rnd w t,
  assoc (Entities.className (Entities.subject w)) Entities.classTemplates
  = Some t ->
  exists res w',
    Entities.levelUpCharacter rnd w = (Ret res, w') /\
    Entities.cursor w' = (Entities.cursor w + 4)%nat /\
    let c := Entities.subject w in
    let c' := Entities.subject w' in
    let n := Entities.cursor w in
    let g := Entities.growthRates c in
    let grow rate k := Qfloor (rate + rnd (n + k)%nat) in
    Entities.className c' = Entities.className c /\
    Entities.growthRates c' = g /\
    Entities.level c' = (Entities.level c + 1)%Z /\
    Entities.experience c'
    = (Entities.experience c - Entities.experienceToNext c)%Z /\
    Entities.experienceToNext c'
    = Qfloor (inject_Z (Entities.experienceToNext c) * 1.2) /\
    Entities.strength c'
    = (Entities.strength c + grow (Entities.Stats.strength g) 0%nat)%Z /\
    Entities.agility c'
    = (Entities.agility c + grow (Entities.Stats.agility g) 1%nat)%Z /\
    Entities.intelligence c'
    = (Entities.intelligence c
       + grow (Entities.Stats.intelligence g) 2%nat)%Z /\
    Entities.vitality c'
    = (Entities.vitality c + grow (Entities.Stats.vitality g) 3%nat)%Z /\
    Entities.baseStats c'
    = Entities.stats
        (Entities.Stats.strength (Entities.baseStats c)
         + grow (Entities.Stats.strength g) 0%nat)%Z
        (Entities.Stats.agility (Entities.baseStats c)
         + grow (Entities.Stats.agility g) 1%nat)%Z
        (Entities.Stats.intelligence (Entities.baseStats c)
         + grow (Entities.Stats.intelligence g) 2%nat)%Z
        (Entities.Stats.vitality (Entities.baseStats c)
         + grow (Entities.Stats.vitality g) 3%nat)%Z /\
    Entities.maxHealth c'
    = (Entities.maxHealth c
       + (Entities.healthPerLevel t
          + Qfloor (inject_Z (Entities.vitality c') * 0.5)))%Z /\
    Entities.maxMana c'
    = (Entities.maxMana c
       + (Entities.manaPerLevel t
          + Qfloor (inject_Z (Entities.intelligence c') * 0.3)))%Z /\
    (Entities.hp c' - Entities.hp c
     = Entities.maxHealth c' - Entities.maxHealth c)%Z /\
    (Entities.mana c' - Entities.mana c
     = Entities.maxMana c' - Entities.maxMana c)%Z /\
    Entities.attack c'
    = (Entities.strength c' + Qfloor (inject_Z (Entities.level c') * 0.5))%Z /\
    Entities.speed c'
    = (Entities.agility c' + Qfloor (inject_Z (Entities.level c') * 0.2))%Z /\
    Entities.defense c'
    = (let d := (Qfloor (inject_Z (Entities.vitality c') * 0.8)
                 + Qfloor (inject_Z (Entities.level c') * 0.3))%Z in
       match Entities.charFactionBonuses c with
       | Some fb => Entities.scaled_defense d (Entities.defenseBonus fb)
       | None => d
       end) /\
    Entities.skills c'
    = map (Entities.unlock_if_reached (Entities.level c')) (Entities.skills c) /\
    res = {| Entities.oldLevel := Entities.level c;
             Entities.newLevel := Entities.level c';
             Entities.healthGain :=
               (Entities.maxHealth c' - Entities.maxHealth c)%Z;
             Entities.manaGain :=
               (Entities.maxMana c' - Entities.maxMana c)%Z |}.
Proof.
  intros rnd w t Ht. destruct w as [c n]. cbn [Entities.subject] in Ht.
  unfold Entities.levelUpCharacter, Entities.statIncrease, Entities.update,
    random.
  cbv beta iota delta [bind gets modify ret throw].
  cbn [Entities.subject Entities.cursor rng set_rng Entities.World_rng
       Entities.with_progress Entities.with_stats Entities.className].
  rewrite Ht.
  eexists _, _. split; [reflexivity|].
  cbn [Entities.subject Entities.cursor].
  split; [lia|].
  rewrite !Nat.add_0_r.
  replace (n + 1)%nat with (S n) by lia.
  replace (n + 2)%nat with (S (S n)) by lia.
  replace (n + 3)%nat with (S (S (S n))) by lia.
  cbn. unfold Entities.floor_mul.
  repeat split; try reflexivity; try (f_equal; lia); lia.
Qed.

Lemma levelUpWhileDue_unfold : forall rnd fuel w,
  Entities.levelUpWhileDue rnd fuel w
  = if (Entities.experience (Entities.subject w)
        >=? Entities.experienceToNext (Entities.subject w))%Z
    then match fuel with
         | O => (Timeout, w)
         | S fuel' =>
             bind (Entities.levelUpCharacter rnd)
               (fun _ => Entities.levelUpWhileDue rnd fuel') w
         end
    else (Ret tt, w).
Proof.
  intros rnd [|fuel] w; cbn [Entities.levelUpWhileDue];
    cbv beta iota delta [bind gets];
    destruct (Entities.experience (Entities.subject w)
              >=? Entities.experienceToNext (Entities.subject w))%Z;
    reflexivity.
Qed.




(** A character fresh from [createCharacter] has threshold 100, so the
    loop always returns for it. *)
Lemma createCharacter_can_level : forall className factionName c,
  Entities.createCharacter className factionName = Ret c ->
  Entities.experienceToNext c = 100%Z /\
  Entities.className c = className /\
  exists t, assoc className Entities.classTemplates = Some t.
Proof.
  intros className factionName c H. unfold Entities.createCharacter in H.
  destruct (assoc className Entities.classTemplates) as [t|] eqn:E;
    [|discriminate].
  injection H as <-. unfold Entities.applyFactionBonuses.
  destruct (assoc factionName Entities.factionBonuses);
    (split; [reflexivity|]; split; [reflexivity|]; exists t; reflexivity).
Qed.

(** ** Companions of the theorems above *)

(** C1, the sibling path: [Entities.healCharacter] caps at [maxHealth]. *)
Lemma healCharacter_caps : forall c amount,
  (0 <= Entities.hp c <= Entities.maxHealth c)%Z ->
  (0 <= amount)%Z ->
  (0 <= Entities.hp (fst (Entities.healCharacter c amount))
   <= Entities.maxHealth (fst (Entities.healCharacter c amount)))%Z.
Proof. intros c amount H Ha. cbn. lia. Qed.

(** C1, enemies: an object that has a numeric [maxHp] keeps
    [0 <= hp <= maxHp] through [healEntity]. *)
Lemma healEntity_with_maxHp : forall r healing s h m a,
  Entity.hp (Combat.object r s) = Fin h ->
  Entity.maxHp (Combat.object r s) = Fin m ->
  healing = Fin a ->
  0 <= h -> h <= m -> 0 <= a ->
  exists actual s' h',
    Combat.healEntity (Some r) healing s = (Ret actual, s') /\
    Entity.hp (Combat.object r s') = Fin h' /\
    0 <= h' /\ h' <= m.
Proof.
  intros r healing s h m a Hh Hm -> H0 H1 Ha.
  unfold Combat.healEntity. mred. rewrite Hh, Hm. cbn [JS.sub JS.min].
  destruct (Qle_bool a (m - h)) eqn:E.
  - apply Qle_bool_iff in E.
    eexists _, _, (h + a). split; [reflexivity|].
    split; [destruct r; reflexivity|]. split; lra.
  - apply Qle_bool_false in E.
    eexists _, _, (h + (m - h)). split; [reflexivity|].
    split; [destruct r; reflexivity|]. split; lra.
Qed.

(** C2, the write itself: [weightedRandomChoice] only reads the catalog,
    and on the first node of a region [selectNodeType] leaves the catalog
    rescaled. *)
Lemma weightedRandomChoice_reads : forall rnd s,
  MapGenerator.nodeTypes (snd (MapGenerator.weightedRandomChoice rnd s))
  = MapGenerator.nodeTypes s.
Proof.
  intros rnd s. unfold MapGenerator.weightedRandomChoice, random.
  cbv beta iota delta [bind gets ret].
  match goal with
  | |- context [MapGenerator.walk ?x ?es] => destruct (MapGenerator.walk x es)
  end; reflexivity.
Qed.

Lemma selectNodeType_rescales_catalog : forall rnd regionLength s,
  (2 < regionLength)%Z ->
  MapGenerator.nodeTypes
    (snd (MapGenerator.selectNodeType rnd 0 regionLength s))
  = MapGenerator.firstNodeWeights (MapGenerator.nodeTypes s).
Proof.
  intros rnd regionLength s H. unfold MapGenerator.selectNodeType.
  replace (0 >? 0)%Z with false by reflexivity.
  replace (0 >=? regionLength - 2)%Z with false
    by (symmetry; rewrite Z.geb_leb; apply Z.leb_gt; lia).
  cbn [Z.eqb andb when].
  cbv beta iota delta [bind modify ret].
  rewrite weightedRandomChoice_reads. reflexivity.
Qed.

(** The initiative scenario of the specification: the faster enemy acts
    first, a tie goes to the player. *)
Lemma startCombat_initiative : forall player enemy options s,
  let s' := snd (Combat.startCombat player enemy options s) in
  Combat.currentTurn s'
  = if (Entity.speed enemy >? Entity.speed player)%js
    then Combat.EnemyTurn else Combat.PlayerTurn.
Proof.
  intros player enemy options s. unfold Combat.startCombat.
  cbv beta iota delta
    [bind gets modify ret when Combat.read Combat.write Combat.logMessage
     Combat.initializeBoss].
  cbn [Combat.combatOptions Combat.set_combatOptions Combat.set_isActive
       Combat.set_turn Combat.set_object Combat.set_objects Combat.set_refs
       Combat.object Combat.enemy Combat.playerObject Combat.enemyObject].
  destruct (Combat.isBoss (Combat.mergeOptions (Combat.combatOptions s) options));
    cbn;
    destruct (Entity.speed enemy >? Entity.speed player)%js; reflexivity.
Qed.

(* ================================================================== *)
(** * Further properties of the embedded code *)

(** ** The shape of a generated run, node by node *)

Lemma runs_ensures : forall {S A} (m : M S A) (s : S) (P : A -> S -> Prop)
    (Q : A -> Prop),
  runs m s P -> ensures Q m -> runs m s (fun a s' => P a s' /\ Q a).
Proof.
  intros S A m s P Q (a & s' & E & HP) HQ.
  exists a, s'. split; [exact E|]. split; [exact HP|]. eapply HQ, E.
Qed.

Lemma runs_conj : forall {S A} (m : M S A) (s : S) (P Q : A -> S -> Prop),
  runs m s P -> runs m s Q -> runs m s (fun a s' => P a s' /\ Q a s').
Proof.
  intros S A m s P Q (a & s' & E & HP) (a' & s'' & E' & HQ).
  rewrite E in E'. inversion E'; subst.
  exists a', s''. split; [exact E|]. split; assumption.
Qed.

Lemma ensures_seq : forall {S A C} (Q : A -> Prop) (P : C -> Prop)
    (m : M S A) (k : A -> M S C),
  ensures Q m -> (forall a, Q a -> ensures P (k a)) -> ensures P (bind m k).
Proof.
  intros S A C Q P m k Hm Hk s c s' E.
  apply bind_returns in E. destruct E as (a & s1 & E1 & E2).
  eapply Hk; [eapply Hm, E1|exact E2].
Qed.

Lemma regions_poolsFilled : forall key rt,
  assoc key MapGenerator.regions = Some rt -> poolsFilled rt.
Proof.
  intros key rt H. unfold MapGenerator.regions in H. cbn [assoc] in H.
  repeat match type of H with
         | (if ?b then _ else _) = _ => destruct b
         end;
    try discriminate; injection H as <-;
    repeat split; discriminate.
Qed.

Lemma nth_error_map_seq : forall {A B} (f : A -> B) (g : nat -> B) l a i x,
  map f l = map g (seq a (List.length l)) ->
  nth_error l i = Some x -> f x = g (a + i)%nat.
Proof.
  intros A B f g l a i x H Hx.
  assert (Hi : (i < List.length l)%nat) by (apply nth_error_Some; congruence).
  pose proof (map_nth_error f _ _ Hx) as E. rewrite H in E.
  assert (Es : nth_error (seq a (List.length l)) i = Some (a + i)%nat).
  { rewrite nth_error_nth' with (d := 0%nat) by (rewrite length_seq; exact Hi).
    rewrite seq_nth by exact Hi. reflexivity. }
  rewrite (map_nth_error g _ _ Es) in E. congruence.
Qed.

Lemma nth_error_seq : forall {A} (f : A -> nat) l a i x,
  map f l = seq a (List.length l) ->
  nth_error l i = Some x -> f x = (a + i)%nat.
Proof.
  intros A f l a i x H Hx.
  apply (nth_error_map_seq f (fun k => k) l a i x); [|exact Hx].
  rewrite map_id. exact H.
Qed.

Lemma regions_node_count : forall last rs a,
  map MapGenerator.index rs = seq a (List.length rs) ->
  Forall (fun r => regionFits (MapGenerator.index r =? last)%nat r) rs ->
  let n := List.length rs in
  let c := if (a <=? last)%nat && (last <? a + n)%nat then 1%nat else 0%nat in
  (4 * n + c <= List.length (flat_map MapGenerator.nodes rs) <= 7 * n + c)%nat.
Proof.
  intros last rs. induction rs as [|r rs IH]; intros a Hidx Hall.
  - cbn [List.length flat_map]. cbn zeta.
    destruct (Nat.leb_spec a last), (Nat.ltb_spec last (a + 0)); cbn; lia.
  - cbn [map List.length seq] in Hidx. injection Hidx as Hr Hidx.
    apply Forall_cons_iff in Hall. destruct Hall as [Hfit Hall].
    specialize (IH (S a) Hidx Hall). cbn zeta in IH |- *.
    cbn [flat_map List.length]. rewrite length_app.
    destruct Hfit as (rt & _ & _ & _ & Hlen & Hcount & _).
    rewrite Hr in Hlen.
    destruct (Nat.eqb_spec a last) as [->|Hne].
    + replace ((last <=? last)%nat && (last <? last + S (List.length rs))%nat)
        with true
        by (symmetry; apply andb_true_iff; split;
            [apply Nat.leb_le|apply Nat.ltb_lt]; lia).
      replace ((S last <=? last)%nat && (last <? S last + List.length rs)%nat)
        with false in IH
        by (symmetry; apply andb_false_iff; left; apply Nat.leb_gt; lia).
      lia.
    + replace ((a <=? last)%nat && (last <? a + S (List.length rs))%nat)
        with ((S a <=? last)%nat && (last <? S a + List.length rs)%nat).
      * lia.
      * destruct (Nat.leb_spec (S a) last), (Nat.leb_spec a last),
          (Nat.ltb_spec last (S a + List.length rs)),
          (Nat.ltb_spec last (a + S (List.length rs)));
          try reflexivity; lia.
Qed.

Section MapShape.
Variable rnd : nat -> Q.
Hypothesis rnd_range : forall i, 0 <= rnd i /\ rnd i < 1.

Lemma randomInt_ensures : forall lo hi : Z,
  (lo <= hi)%Z ->
  ensures (S := MapGenerator.State) (fun z => (lo <= z <= hi)%Z)
    (randomInt rnd lo hi).
Proof.
  intros lo hi H s z s' E.
  pose proof (runs_inv _ _ _ _ _ (randomInt_runs rnd rnd_range lo hi s H) E)
    as (Hz & _). exact Hz.
Qed.

Lemma randomChoice_ensures : forall {A} (l : list A),
  l <> [] ->
  ensures (S := MapGenerator.State) (fun o => exists x, o = Some x /\ In x l)
    (randomChoice rnd l).
Proof.
  intros A l H s o s' E.
  pose proof (runs_inv _ _ _ _ _ (randomChoice_runs rnd rnd_range l s H) E)
    as (Ho & _). exact Ho.
Qed.

Lemma generateEnemy_ensures : forall rt d,
  MapGenerator.enemyPool rt <> [] ->
  ensures (fun e =>
             Entity.isBoss e = false /\
             Entity.hp e = Entity.maxHp e /\
             Entity.level e = JS.max 1 (JS.floor (Fin (d * 5))) /\
             exists k, Entity.type e = Some k /\
                       In k (MapGenerator.enemyPool rt))
    (MapGenerator.generateEnemy rnd rt d).
Proof.
  intros rt d H. unfold MapGenerator.generateEnemy.
  eapply ensures_seq; [apply randomChoice_ensures, H|].
  intros o (k & -> & Hk).
  destruct (match MapGenerator.lookup (Some k) MapGenerator.enemyTemplates with
            | Some template => template
            | None => MapGenerator.goblin
            end) as [[[[n h] a] df] sp].
  apply ensures_ret. repeat split. exists k. split; [reflexivity|exact Hk].
Qed.

Lemma generateEvent_ensures : forall rt,
  ensures (fun ev =>
             match ev with
             | MapGenerator.EventTemplate k =>
                 In k (MapGenerator.eventPool rt) /\
                 In k MapGenerator.eventTemplates
             | MapGenerator.StrangeEncounter => True
             end)
    (MapGenerator.generateEvent rnd rt).
Proof.
  intros rt. unfold MapGenerator.generateEvent.
  apply ensures_seq
    with (Q := fun o => forall k, o = Some k -> In k (MapGenerator.eventPool rt)).
  { intros s o s' E k ->. unfold randomChoice, bind, random, ret in E.
    inversion E as [[Ho Hs]]. unfold at_index in Ho.
    destruct (_ <? 0)%Z; [discriminate|].
    eapply nth_error_In. eassumption. }
  intros [k|] Hk; [|apply ensures_ret; exact I].
  destruct (existsb (String.eqb k) MapGenerator.eventTemplates) eqn:E;
    apply ensures_ret; [|exact I].
  split; [apply Hk; reflexivity|].
  apply existsb_exists in E. destruct E as (x & Hx & Ex).
  apply String.eqb_eq in Ex. subst x. exact Hx.
Qed.

Lemma generateResource_ensures : forall rt,
  MapGenerator.resourcePool rt <> [] ->
  ensures (fun r =>
             (2 <= MapGenerator.amount r <= 5)%Z /\
             exists k, MapGenerator.res_type r = Some k /\
                       In k (MapGenerator.resourcePool rt))
    (MapGenerator.generateResource rnd rt).
Proof.
  intros rt H. unfold MapGenerator.generateResource.
  eapply ensures_seq; [apply randomChoice_ensures, H|].
  intros o (k & -> & Hk).
  eapply ensures_seq; [apply (randomInt_ensures 2 5); lia|].
  intros z Hz. apply ensures_ret. split; [exact Hz|].
  exists k. split; [reflexivity|exact Hk].
Qed.

Lemma generateMerchant_ensures :
  ensures (fun m =>
             (3 <= List.length (MapGenerator.items m) <= 6)%nat /\
             0.8 <= MapGenerator.haggle m /\ MapGenerator.haggle m < 1.2)
    (MapGenerator.generateMerchant rnd).
Proof.
  unfold MapGenerator.generateMerchant, MapGenerator.generateMerchantItems.
  apply ensures_seq
    with (Q := fun items : list MapGenerator.Item =>
                 (3 <= List.length items <= 6)%nat).
  { eapply ensures_seq; [apply (randomInt_ensures 3 6); lia|].
    intros z Hz. cbn beta in Hz. apply ensures_ret. rewrite repeat_length.
    lia. }
  intros items Hi.
  apply ensures_seq with (Q := fun h : Q => 0.8 <= h /\ h < 1.2).
  { intros s h s' E. unfold randomFloat, bind, random, ret in E.
    inversion E as [[Hh Hs]]. clear E Hs. subst h.
    destruct (rnd_range (MapGenerator.cursor s)) as [H0 H1]. split; lra. }
  intros h Hh. apply ensures_ret. split; [exact Hi|exact Hh].
Qed.

Lemma generateRegularNode_fits : forall rt d i len key s,
  drawable (MapGenerator.nodeTypes s) ->
  poolsFilled rt ->
  runs (MapGenerator.generateRegularNode rnd rt d i len key) s
    (fun n s' =>
       drawable (MapGenerator.nodeTypes s') /\
       isBossNode n = false /\
       MapGenerator.localIndex n = i /\
       MapGenerator.globalIndex n = None /\
       nodeFits rt d key n).
Proof.
  intros rt d i len key s H (He & Hr & _).
  unfold MapGenerator.generateRegularNode.
  eapply runs_seq; [apply (selectNodeType_runs rnd rnd_range), H|].
  intros t s1 [Ht H1]. cbn beta.
  apply runs_seq
    with (Q := fun p s' =>
                 drawable (MapGenerator.nodeTypes s') /\
                 forall n, MapGenerator.type n = t ->
                           MapGenerator.payload n = p ->
                           MapGenerator.difficulty n = d + inject_Z i * 0.1 ->
                           payloadFits rt n).
  { destruct t.
    - eapply runs_seq.
      { apply runs_ensures;
          [apply (generateEnemy_runs rnd)|apply generateEnemy_ensures, He]. }
      intros e s2 [Hw He']. apply runs_ret. split; [rewrite Hw; assumption|].
      intros n Hn Hp Hd. unfold payloadFits. rewrite Hn, Hp, Hd. exact He'.
    - eapply runs_seq.
      { apply runs_ensures;
          [apply (generateEvent_runs rnd)|apply generateEvent_ensures]. }
      intros e s2 [Hw He']. apply runs_ret. split; [rewrite Hw; assumption|].
      intros n Hn Hp Hd. unfold payloadFits. rewrite Hn, Hp. exact He'.
    - eapply runs_seq.
      { apply runs_ensures;
          [apply (generateResource_runs rnd rnd_range)
          |apply generateResource_ensures, Hr]. }
      intros e s2 [Hw He']. apply runs_ret. split; [rewrite Hw; assumption|].
      intros n Hn Hp Hd. unfold payloadFits. rewrite Hn, Hp. exact He'.
    - eapply runs_seq.
      { apply runs_ensures;
          [apply (generateMerchant_runs rnd rnd_range)
          |apply generateMerchant_ensures]. }
      intros e s2 [Hw He']. apply runs_ret. split; [rewrite Hw; assumption|].
      intros n Hn Hp Hd. unfold payloadFits. rewrite Hn, Hp. exact He'.
    - eapply runs_seq.
      { unfold MapGenerator.generateRestSite.
        apply (randomChoice_runs rnd rnd_range). discriminate. }
      intros e s2 [He' Hw]. apply runs_ret. split; [rewrite Hw; assumption|].
      intros n Hn Hp Hd. unfold payloadFits. rewrite Hn, Hp. exact He'.
    - congruence. }
  intros p s2 [H2 Hp]. apply runs_ret.
  split; [assumption|].
  assert (Hb : MapGenerator.NodeType_eqb t MapGenerator.Boss = false)
    by (destruct t; try reflexivity; congruence).
  split; [exact Hb|]. split; [reflexivity|]. split; [reflexivity|].
  unfold nodeFits, isBossNode. cbn [MapGenerator.type MapGenerator.regionKey
    MapGenerator.visited MapGenerator.completed MapGenerator.difficulty
    MapGenerator.localIndex].
  rewrite Hb. repeat split. apply Hp; reflexivity.
Qed.

Lemma generateBossNode_fits : forall rt d i key s,
  poolsFilled rt ->
  runs (MapGenerator.generateBossNode rnd rt d i key) s
    (fun n s' =>
       MapGenerator.nodeTypes s' = MapGenerator.nodeTypes s /\
       isBossNode n = true /\
       MapGenerator.localIndex n = i /\
       MapGenerator.globalIndex n = None /\
       nodeFits rt d key n).
Proof.
  intros rt d i key s (_ & _ & Hb). unfold MapGenerator.generateBossNode.
  eapply runs_seq; [apply (randomChoice_runs rnd rnd_range), Hb|].
  intros o s1 [(k & -> & Hk) Hw]. apply runs_ret.
  split; [assumption|]. split; [reflexivity|]. split; [reflexivity|].
  split; [reflexivity|].
  unfold nodeFits, isBossNode, payloadFits. cbn. repeat split.
  - unfold MapGenerator.generateBoss.
    destruct (match MapGenerator.lookup (Some k) MapGenerator.bossTemplates with
              | Some template => template
              | None => MapGenerator.forest_guardian
              end) as [[[[[n h] a] df] sp] ab]. reflexivity.
  - unfold MapGenerator.generateBoss.
    destruct (match MapGenerator.lookup (Some k) MapGenerator.bossTemplates with
              | Some template => template
              | None => MapGenerator.forest_guardian
              end) as [[[[[n h] a] df] sp] ab]. reflexivity.
  - unfold MapGenerator.generateBoss.
    destruct (match MapGenerator.lookup (Some k) MapGenerator.bossTemplates with
              | Some template => template
              | None => MapGenerator.forest_guardian
              end) as [[[[[n h] a] df] sp] ab]. reflexivity.
  - exists k. split; [|exact Hk].
    unfold MapGenerator.generateBoss.
    destruct (match MapGenerator.lookup (Some k) MapGenerator.bossTemplates with
              | Some template => template
              | None => MapGenerator.forest_guardian
              end) as [[[[[n h] a] df] sp] ab]. reflexivity.
Qed.

Lemma generateNodes_fits : forall rt d key isLast len todo i s,
  drawable (MapGenerator.nodeTypes s) ->
  poolsFilled rt ->
  runs (MapGenerator.generateNodes rnd rt d key isLast len todo i) s
    (fun ns s' =>
       drawable (MapGenerator.nodeTypes s') /\
       List.length ns = todo /\
       map MapGenerator.localIndex ns
       = map (fun k => (i + Z.of_nat k)%Z) (seq 0 todo) /\
       Forall (fun n => MapGenerator.globalIndex n = None /\
                        nodeFits rt d key n) ns).
Proof.
  intros rt d key isLast len todo.
  induction todo as [|todo IH]; intros i s H Hp.
  - apply runs_ret. repeat split; [assumption|constructor].
  - cbn [MapGenerator.generateNodes].
    apply runs_seq
      with (Q := fun n s' =>
                   drawable (MapGenerator.nodeTypes s') /\
                   MapGenerator.localIndex n = i /\
                   MapGenerator.globalIndex n = None /\
                   nodeFits rt d key n).
    { destruct (isLast && (i =? len - 1)%Z).
      - eapply runs_weaken; [apply generateBossNode_fits, Hp|].
        intros n s1 (Hw & _ & Hi & Hg & Hf). rewrite Hw. auto.
      - eapply runs_weaken; [apply generateRegularNode_fits; assumption|].
        intros n s1 (H1 & _ & Hi & Hg & Hf). auto. }
    intros n s1 (H1 & Hi & Hg & Hf). cbn beta.
    eapply runs_seq; [apply (IH (i + 1)%Z s1 H1 Hp)|].
    intros ns s2 (H2 & Hlen & Hidx & Hall). apply runs_ret.
    split; [assumption|]. split; [cbn; congruence|].
    split.
    + cbn [map seq]. rewrite Hi, Hidx, <- seq_shift, map_map.
      f_equal; [f_equal; lia|]. apply map_ext. intros k. lia.
    + constructor; auto.
Qed.

Lemma indexNodes_length : forall ns g r,
  List.length (MapGenerator.indexNodes g r ns) = List.length ns.
Proof. induction ns as [|n ns IH]; intros; cbn; [|rewrite IH]; reflexivity. Qed.

Lemma indexNodes_localIndex : forall ns g r,
  map MapGenerator.localIndex (MapGenerator.indexNodes g r ns)
  = map MapGenerator.localIndex ns.
Proof. induction ns as [|n ns IH]; intros; cbn; [|rewrite IH]; reflexivity. Qed.

Lemma indexNodes_globalIndex : forall ns g r,
  map MapGenerator.globalIndex (MapGenerator.indexNodes g r ns)
  = map Some (seq g (List.length ns)).
Proof. induction ns as [|n ns IH]; intros; cbn; [|rewrite IH]; reflexivity. Qed.

Lemma indexNodes_fits : forall rt d key ns g r,
  Forall (fun n => MapGenerator.globalIndex n = None /\ nodeFits rt d key n)
    ns ->
  Forall (fun n => MapGenerator.regionIndex n = Some r /\ nodeFits rt d key n)
    (MapGenerator.indexNodes g r ns).
Proof.
  intros rt d key ns. induction ns as [|n ns IH]; intros g r H; cbn.
  - constructor.
  - apply Forall_cons_iff in H. destruct H as [[_ Hn] H].
    constructor; [|apply IH, H]. split; [reflexivity|exact Hn].
Qed.

Lemma generateRegion_fits : forall key rt regionIndex totalRegions g s,
  assoc key MapGenerator.regions = Some rt ->
  drawable (MapGenerator.nodeTypes s) ->
  runs (MapGenerator.generateRegion rnd (Some key) regionIndex totalRegions) s
    (fun r s' =>
       drawable (MapGenerator.nodeTypes s') /\
       MapGenerator.index r = regionIndex /\
       regionFits (Z.of_nat regionIndex =? totalRegions - 1)%Z
         (MapGenerator.withNodes r
            (MapGenerator.indexNodes g regionIndex (MapGenerator.nodes r)))).
Proof.
  intros key rt regionIndex totalRegions g s Ht H.
  unfold MapGenerator.generateRegion.
  eapply runs_seq; [apply (randomInt_runs rnd rnd_range 4 7)%Z; lia|].
  intros baseLength s1 (Hb & _ & Hw). cbn beta.
  unfold MapGenerator.lookup. rewrite Ht.
  eapply runs_seq.
  { apply generateNodes_fits with (i := 0%Z);
      [rewrite Hw; assumption|eapply regions_poolsFilled, Ht]. }
  intros ns s2 (H2 & Hlen & Hidx & Hall).
  apply runs_ret. split; [assumption|]. split; [reflexivity|].
  exists rt. cbn. rewrite indexNodes_length, indexNodes_localIndex.
  split; [assumption|]. split; [reflexivity|]. split; [reflexivity|].
  split; [destruct (Z.of_nat regionIndex =? totalRegions - 1)%Z; lia|].
  split; [rewrite Hlen; destruct (Z.of_nat regionIndex =? totalRegions - 1)%Z; lia|].
  split; [rewrite Hidx, Hlen; apply map_ext; intros; lia|].
  apply indexNodes_fits, Hall.
Qed.

Lemma generateRegions_fits : forall selected regionIndex regionCount nodeIndex s,
  Forall validKey selected ->
  drawable (MapGenerator.nodeTypes s) ->
  runs (MapGenerator.generateRegions rnd selected regionIndex regionCount
          nodeIndex) s
    (fun rs s' =>
       drawable (MapGenerator.nodeTypes s') /\
       map MapGenerator.index rs = seq regionIndex (List.length selected) /\
       map MapGenerator.globalIndex (flat_map MapGenerator.nodes rs)
       = map Some (seq nodeIndex
                     (List.length (flat_map MapGenerator.nodes rs))) /\
       Forall (fun r => regionFits
                          (Z.of_nat (MapGenerator.index r) =? regionCount - 1)%Z
                          r) rs).
Proof.
  induction selected as [|k selected IH];
    intros regionIndex regionCount nodeIndex s Hv H.
  - apply runs_ret. repeat split; [assumption|constructor].
  - cbn [MapGenerator.generateRegions].
    apply Forall_cons_iff in Hv. destruct Hv as [(key & t & -> & Ht) Hv'].
    eapply runs_seq;
      [apply (generateRegion_fits key t regionIndex regionCount nodeIndex s Ht H)|].
    intros region s1 (H1 & Hi & Hfit). cbn beta.
    eapply runs_seq; [apply IH; assumption|].
    intros rs s2 (H2 & Hidx & Hglob & Hall).
    apply runs_ret. split; [assumption|].
    split; [cbn; rewrite Hi, Hidx; reflexivity|].
    split.
    + cbn [flat_map MapGenerator.nodes MapGenerator.withNodes].
      rewrite map_app, length_app, seq_app, map_app, Hglob,
        indexNodes_globalIndex, indexNodes_length.
      reflexivity.
    + constructor; [|assumption]. cbn [MapGenerator.index MapGenerator.withNodes].
      rewrite Hi. exact Hfit.
Qed.

(** The run [generateRun] returns, with everything the properties below
    read from it. *)
Lemma generateRun_fits : forall s,
  drawable (MapGenerator.nodeTypes s) ->
  runs (MapGenerator.generateRun rnd) s
    (fun run _ =>
       let regions := MapGenerator.run_regions run in
       (2 <= List.length regions <= 4)%nat /\
       MapGenerator.run_nodes run = flat_map MapGenerator.nodes regions /\
       MapGenerator.totalNodes run = List.length (MapGenerator.run_nodes run) /\
       map MapGenerator.index regions = seq 0 (List.length regions) /\
       map MapGenerator.globalIndex (MapGenerator.run_nodes run)
       = map Some (seq 0 (MapGenerator.totalNodes run)) /\
       Forall (fun r => regionFits
                          (MapGenerator.index r =? List.length regions - 1)%nat
                          r) regions).
Proof.
  intros s H. unfold MapGenerator.generateRun.
  apply runs_seq
    with (Q := fun _ s1 =>
                 MapGenerator.nodeTypes s1 = MapGenerator.nodeTypes s).
  { eexists _, _. split; reflexivity. }
  intros id s1 Hw1. cbn beta.
  eapply runs_seq; [apply (randomInt_runs rnd rnd_range 2 4)%Z; lia|].
  intros regionCount s2 (Hrange & _ & Hw2). cbn beta.
  eapply runs_seq.
  { unfold MapGenerator.selectRegions.
    apply (selectMore_runs rnd rnd_range) with (selected := [Some "forest"]).
    - constructor; [|constructor]. eexists _, _. split; reflexivity.
    - cbn [List.length]. lia. }
  intros sel s3 (Hv & Hlen & _ & Hw3). cbn beta.
  cbn [List.length] in Hlen.
  eapply runs_seq.
  { apply generateRegions_fits; [assumption|].
    rewrite Hw3, Hw2, Hw1. assumption. }
  intros rs s4 (H4 & Hidx & Hglob & Hall). cbn beta.
  eapply runs_seq; [apply calculateRunDifficulty_runs, Hv|].
  intros df s5 ->.
  apply runs_ret. cbn zeta.
  cbn [MapGenerator.run_regions MapGenerator.run_nodes MapGenerator.totalNodes].
  assert (Hn : List.length rs = List.length sel).
  { rewrite <- (length_map MapGenerator.index), Hidx, length_seq. reflexivity. }
  split; [lia|]. split; [reflexivity|]. split; [reflexivity|].
  split; [rewrite Hn; exact Hidx|]. split; [exact Hglob|].
  eapply Forall_impl; [|exact Hall].
  intros r Hr. cbn beta in Hr.
  replace (MapGenerator.index r =? List.length rs - 1)%nat
    with (Z.of_nat (MapGenerator.index r) =? regionCount - 1)%Z; [exact Hr|].
  destruct (Z.eqb_spec (Z.of_nat (MapGenerator.index r)) (regionCount - 1));
    destruct (Nat.eqb_spec (MapGenerator.index r) (List.length rs - 1));
    try reflexivity; lia.
Qed.

(** X1.  In the run [generateRun] returns, the flat node list is the
    concatenation of the regions' node lists and [totalNodes] is its
    length; the node at position [i] of the flat list carries
    [globalIndex = i]; the region at position [j] carries [index = j], and
    its node at position [i] carries [localIndex = i], [regionIndex = j]
    and the region's key. *)
Theorem generateRun_numbers_every_node : forall s,
  drawable (MapGenerator.nodeTypes s) ->
  runs (MapGenerator.generateRun rnd) s
    (fun run _ =>
       MapGenerator.run_nodes run
       = flat_map MapGenerator.nodes (MapGenerator.run_regions run) /\
       MapGenerator.totalNodes run = List.length (MapGenerator.run_nodes run) /\
       (forall i n,
          nth_error (MapGenerator.run_nodes run) i = Some n ->
          MapGenerator.globalIndex n = Some i) /\
       (forall j r,
          nth_error (MapGenerator.run_regions run) j = Some r ->
          MapGenerator.index r = j /\
          forall i n,
            nth_error (MapGenerator.nodes r) i = Some n ->
            MapGenerator.localIndex n = Z.of_nat i /\
            MapGenerator.regionIndex n = Some j /\
            MapGenerator.regionKey n = Some (MapGenerator.key r))).
Proof.
  intros s H. eapply runs_weaken; [apply generateRun_fits, H|].
  intros run _ (_ & Hnodes & Htotal & Hidx & Hglob & Hall). cbn zeta in *.
  split; [assumption|]. split; [assumption|]. split.
  - intros i n Hn. rewrite Htotal in Hglob.
    apply (nth_error_map_seq _ _ _ _ _ _ Hglob Hn).
  - intros j r Hr.
    assert (Hj : MapGenerator.index r = j)
      by apply (nth_error_seq _ _ _ _ _ Hidx Hr).
    split; [exact Hj|].
    intros i n Hn.
    apply nth_error_In in Hr. rewrite Forall_forall in Hall.
    destruct (Hall r Hr) as (rt & _ & _ & _ & _ & _ & Hloc & Hfit).
    split; [apply (nth_error_map_seq _ _ _ _ _ _ Hloc Hn)|].
    rewrite Forall_forall in Hfit.
    destruct (Hfit n (nth_error_In _ _ Hn)) as (Hri & Hk & _).
    rewrite <- Hj. split; assumption.
Qed.

(** X2.  A generated run has two to four regions.  Every region holds as
    many nodes as its [length] says: four to seven, and one more for the
    last region, whose extra node is the boss.  The run therefore has
    between [4k + 1] and [7k + 1] nodes for [k] regions, that is, between 9
    and 29. *)
Theorem generateRun_region_sizes : forall s,
  drawable (MapGenerator.nodeTypes s) ->
  runs (MapGenerator.generateRun rnd) s
    (fun run _ =>
       let k := List.length (MapGenerator.run_regions run) in
       (2 <= k <= 4)%nat /\
       (forall j r,
          nth_error (MapGenerator.run_regions run) j = Some r ->
          Z.of_nat (List.length (MapGenerator.nodes r)) = MapGenerator.length r /\
          if (j =? k - 1)%nat
          then (5 <= MapGenerator.length r <= 8)%Z
          else (4 <= MapGenerator.length r <= 7)%Z) /\
       (4 * k + 1 <= MapGenerator.totalNodes run <= 7 * k + 1)%nat /\
       (9 <= MapGenerator.totalNodes run <= 29)%nat).
Proof.
  intros s H. eapply runs_weaken; [apply generateRun_fits, H|].
  intros run _ (Hk & Hnodes & Htotal & Hidx & _ & Hall). cbn zeta in *.
  split; [assumption|]. split.
  - intros j r Hr.
    assert (Hj : MapGenerator.index r = j)
      by apply (nth_error_seq _ _ _ _ _ Hidx Hr).
    apply nth_error_In in Hr. rewrite Forall_forall in Hall.
    destruct (Hall r Hr) as (rt & _ & _ & _ & Hlen & Hcount & _).
    split; [exact Hcount|]. rewrite Hj in Hlen.
    destruct (j =? List.length (MapGenerator.run_regions run) - 1)%nat; lia.
  - pose proof (regions_node_count _ _ 0%nat Hidx Hall) as Hb.
    cbn zeta in Hb. rewrite <- Hnodes, <- Htotal in Hb.
    replace ((0 <=? List.length (MapGenerator.run_regions run) - 1)%nat
             && (List.length (MapGenerator.run_regions run) - 1
                 <? 0 + List.length (MapGenerator.run_regions run))%nat)
      with true in Hb
      by (symmetry; apply andb_true_iff; split;
          [apply Nat.leb_le|apply Nat.ltb_lt]; lia).
    lia.
Qed.



End MapShape.

Lemma generateRun_numbers_every_node_witness :
  runs (MapGenerator.generateRun half) MapGenerator.fresh
    (fun run _ =>
       MapGenerator.run_nodes run
       = flat_map MapGenerator.nodes (MapGenerator.run_regions run) /\
       MapGenerator.totalNodes run = List.length (MapGenerator.run_nodes run) /\
       (forall i n,
          nth_error (MapGenerator.run_nodes run) i = Some n ->
          MapGenerator.globalIndex n = Some i) /\
       (forall j r,
          nth_error (MapGenerator.run_regions run) j = Some r ->
          MapGenerator.index r = j /\
          forall i n,
            nth_error (MapGenerator.nodes r) i = Some n ->
            MapGenerator.localIndex n = Z.of_nat i /\
            MapGenerator.regionIndex n = Some j /\
            MapGenerator.regionKey n = Some (MapGenerator.key r))).
Proof.
  apply (generateRun_numbers_every_node half half_in_range MapGenerator.fresh).
  exact drawable_nodeTypes0.
Defined.

Lemma generateRun_region_sizes_witness :
  runs (MapGenerator.generateRun half) MapGenerator.fresh
    (fun run _ =>
       let k := List.length (MapGenerator.run_regions run) in
       (2 <= k <= 4)%nat /\
       (forall j r,
          nth_error (MapGenerator.run_regions run) j = Some r ->
          Z.of_nat (List.length (MapGenerator.nodes r)) = MapGenerator.length r /\
          if (j =? k - 1)%nat
          then (5 <= MapGenerator.length r <= 8)%Z
          else (4 <= MapGenerator.length r <= 7)%Z) /\
       (4 * k + 1 <= MapGenerator.totalNodes run <= 7 * k + 1)%nat /\
       (9 <= MapGenerator.totalNodes run <= 29)%nat).
Proof.
  apply (generateRun_region_sizes half half_in_range MapGenerator.fresh).
  exact drawable_nodeTypes0.
Defined.



(** ** Region selection and the weighted choice *)

Lemma includes_false_not_In : forall selected r,
  MapGenerator.includes selected r = false -> ~ In (Some r) selected.
Proof.
  induction selected as [|[k|] l IH]; cbn; intros r H Hin.
  - exact Hin.
  - apply orb_false_iff in H. destruct H as [Hk Hl].
    destruct Hin as [E|Hin]; [|exact (IH r Hl Hin)].
    injection E as ->. rewrite String.eqb_refl in Hk. discriminate.
  - destruct Hin as [E|Hin]; [discriminate|exact (IH r H Hin)].
Qed.

Section Selection.
Variable rnd : nat -> Q.
Hypothesis rnd_range : forall i, 0 <= rnd i /\ rnd i < 1.

Lemma selectMore_distinct : forall count selected s,
  Forall validKey selected ->
  NoDup selected ->
  (List.length selected <= 4)%nat ->
  runs (MapGenerator.selectMore rnd count selected) s
    (fun sel s' =>
       Forall validKey sel /\
       NoDup sel /\
       List.length sel = Nat.min (List.length selected + count) 4 /\
       (exists tl, sel = (selected ++ tl)%list) /\
       MapGenerator.nodeTypes s' = MapGenerator.nodeTypes s).
Proof.
  induction count as [|count IH]; intros selected s Hv Hnd Hlen.
  - apply runs_ret. split; [assumption|]. split; [assumption|].
    split; [lia|].
    split; [exists []; rewrite app_nil_r; reflexivity|reflexivity].
  - cbn [MapGenerator.selectMore].
    change (List.length MapGenerator.availableRegions) with 4%nat.
    destruct (Nat.ltb_spec (List.length selected) 4) as [Hl|Hl].
    + eapply runs_seq.
      { apply (randomChoice_runs rnd rnd_range), remaining_nonempty.
        exact Hl. }
      intros o s1 [(x & -> & Hx) Hw]. cbn beta.
      apply filter_In in Hx. destruct Hx as [Hx Hnew].
      apply negb_true_iff, includes_false_not_In in Hnew.
      eapply runs_weaken.
      { apply IH.
        - apply Forall_app. split; [assumption|].
          constructor; [apply available_validKey, Hx|constructor].
        - apply NoDup_app; [assumption|repeat constructor; intros []|].
          intros y Hy [<-|[]]. contradiction.
        - rewrite length_app. cbn. lia. }
      intros sel s2 (Hv' & Hnd' & Hlen' & (tl & ->) & Hw').
      split; [assumption|]. split; [assumption|].
      split; [rewrite Hlen', length_app; cbn; lia|].
      split; [exists (Some x :: tl); rewrite <- app_assoc; reflexivity
             |congruence].
    + apply runs_ret. split; [assumption|]. split; [assumption|].
      split; [lia|].
      split; [exists []; rewrite app_nil_r; reflexivity|reflexivity].
Qed.

(** X5.  [selectRegions(count)] returns, for any integer [count], a
    selection that starts with the forest, holds only keys of the region
    table, holds no key twice, and has [count] entries, but at least one
    and at most the four regions there are; the weight catalog is not
    touched. *)
Theorem selectRegions_distinct_and_capped : forall (count : Z) s,
  runs (MapGenerator.selectRegions rnd count) s
    (fun sel s' =>
       (exists tl, sel = Some "forest" :: tl) /\
       Forall validKey sel /\
       NoDup sel /\
       Z.of_nat (List.length sel) = Z.min (Z.max count 1) 4 /\
       MapGenerator.nodeTypes s' = MapGenerator.nodeTypes s).
Proof.
  intros count s. unfold MapGenerator.selectRegions.
  eapply runs_weaken.
  { apply selectMore_distinct with (selected := [Some "forest"]).
    - constructor; [|constructor]. eexists _, _. split; reflexivity.
    - repeat constructor. intros [].
    - cbn. lia. }
  intros sel s' (Hv & Hnd & Hlen & (tl & ->) & Hw).
  split; [exists tl; reflexivity|]. split; [assumption|].
  split; [assumption|]. split; [|assumption].
  rewrite Hlen. cbn [List.length]. lia.
Qed.

End Selection.

Lemma selectRegions_distinct_and_capped_witness :
  runs (MapGenerator.selectRegions half 10) MapGenerator.fresh
    (fun sel s' =>
       (exists tl, sel = Some "forest" :: tl) /\
       Forall validKey sel /\
       NoDup sel /\
       Z.of_nat (List.length sel) = Z.min (Z.max 10 1) 4 /\
       MapGenerator.nodeTypes s' = MapGenerator.nodeTypes MapGenerator.fresh).
Proof.
  exact (selectRegions_distinct_and_capped half half_in_range 10
           MapGenerator.fresh).
Defined.






(** ** Damage, death and the end of a combat *)

Lemma bind_cases : forall {S A C} (m : M S A) (k : A -> M S C) s o s',
  bind m k s = (o, s') ->
  (exists a s1, m s = (Ret a, s1) /\ k a s1 = (o, s')) \/
  (failed o /\ exists o1 : outcome A, failed o1 /\ m s = (o1, s')).
Proof.
  intros S A C m k s o s' E. unfold bind in E.
  destruct (m s) as [[a|e|] s1] eqn:Em.
  - left. exists a, s1. split; [reflexivity|assumption].
  - right. inversion E; subst. split; [exact I|].
    exists (Throw e). split; [exact I|reflexivity].
  - right. inversion E; subst. split; [exact I|].
    exists Timeout. split; [exact I|reflexivity].
Qed.

Lemma bind_write : forall {A} r g (k : unit -> M Combat.State A) s,
  bind (Combat.write (Some r) g) k s
  = k tt (Combat.set_object r (g (Combat.object r s)) s).
Proof. reflexivity. Qed.

Lemma core_fields : forall s s',
  core s' = core s ->
  Combat.isActive s' = Combat.isActive s /\
  Combat.currentTurn s' = Combat.currentTurn s /\
  Combat.turnCounter s' = Combat.turnCounter s /\
  Combat.player s' = Combat.player s /\
  Combat.enemy s' = Combat.enemy s /\
  Combat.playerObject s' = Combat.playerObject s /\
  Combat.enemyObject s' = Combat.enemyObject s /\
  Combat.combatOptions s' = Combat.combatOptions s /\
  Combat.combatResolve s' = Combat.combatResolve s /\
  Combat.resolved s' = Combat.resolved s /\
  Combat.enemyTurnTimers s' = Combat.enemyTurnTimers s.
Proof.
  intros s s' H. unfold core in H.
  repeat split;
    [ apply (f_equal Combat.isActive) in H
    | apply (f_equal Combat.currentTurn) in H
    | apply (f_equal Combat.turnCounter) in H
    | apply (f_equal Combat.player) in H
    | apply (f_equal Combat.enemy) in H
    | apply (f_equal Combat.playerObject) in H
    | apply (f_equal Combat.enemyObject) in H
    | apply (f_equal Combat.combatOptions) in H
    | apply (f_equal Combat.combatResolve) in H
    | apply (f_equal Combat.resolved) in H
    | apply (f_equal Combat.enemyTurnTimers) in H ];
    exact H.
Qed.

Lemma core_object : forall r s s',
  core s' = core s -> Combat.object r s' = Combat.object r s.
Proof.
  intros r s s' H. apply core_fields in H.
  destruct r; cbn; intuition congruence.
Qed.

(** Side conditions of the frame rules, for an observation given in closed
    form. *)
Ltac pres_side :=
  intros;
  repeat match goal with r : Combat.Ref |- _ => destruct r end;
  reflexivity.

Ltac pres_step :=
  match goal with
  | |- forall _, _ => intro
  | |- preserves _ (bind _ _) => apply preserves_bind
  | |- preserves _ (ret _) => apply preserves_ret
  | |- preserves _ (throw _) => apply preserves_throw
  | |- preserves _ (gets _) => apply preserves_gets
  | |- preserves _ (when _ _) => apply preserves_when
  | |- preserves _ (forEach _ _) => apply preserves_forEach
  | |- preserves _ (Combat.logMessage _ _) =>
      apply preserves_logMessage; pres_side
  | |- preserves _ (random _) => apply preserves_random; pres_side
  | |- preserves _ (randomInt _ _ _) => apply preserves_randomInt; pres_side
  | |- preserves _ (randomChoice _ _) =>
      apply preserves_randomChoice; pres_side
  | |- preserves _ (Combat.read _) => apply preserves_read
  | |- preserves _ (Combat.endCombat _ _ _) =>
      apply preserves_endCombat; pres_side
  | |- preserves _ (Combat.checkBossPhaseTransition _) =>
      apply preserves_checkBossPhaseTransition; pres_side
  | |- preserves _ (Combat.dealDamage _ _ _) =>
      apply preserves_dealDamage; pres_side
  | |- preserves _ (Combat.healEntity _ _) =>
      apply preserves_healEntity; pres_side
  | |- preserves _ (modify _) => apply preserves_modify; pres_side
  | |- preserves _ (if ?b then _ else _) => destruct b
  | |- preserves _ (match ?x with _ => _ end) => destruct x
  end.

Ltac pres := repeat pres_step.

(** X7.  [dealDamage] never leaves a negative hp: for a numeric hp [h] and
    a numeric damage [d] the target ends with [h - d] if that is not
    negative and with 0 otherwise, however the call ends (it may end the
    combat, or throw while doing so), and the hp of the other object is not
    touched. *)
Theorem dealDamage_floors_hp :
  forall (rnd : nat -> Q) (r : Combat.Ref) (damage : num) (s : Combat.State)
         (o : outcome unit) (s' : Combat.State) (h d : Q),
    Entity.hp (Combat.object r s) = Fin h ->
    damage = Fin d ->
    Combat.dealDamage rnd (Some r) damage s = (o, s') ->
    exists h',
      Entity.hp (Combat.object r s') = Fin h' /\
      0 <= h' /\
      (0 <= h - d -> h' = h - d) /\
      (h - d < 0 -> h' = 0) /\
      forall r', r' <> r ->
                 Entity.hp (Combat.object r' s')
                 = Entity.hp (Combat.object r' s).
Proof.
  intros rnd r damage s o s' h d Hh -> E.
  unfold Combat.dealDamage in E. rewrite bind_write in E.
  match type of E with
  | ?m ?s1 = _ =>
      assert (Hp : preserves
                     (fun s => (Entity.hp (Combat.playerObject s),
                                Entity.hp (Combat.enemyObject s))) m)
        by pres;
      apply Hp in E; clear Hp
  end.
  injection E as Ep Ee. rewrite Hh in Ep, Ee.
  cbn [JS.sub JS.max] in Ep, Ee.
  destruct (Qle_bool 0 (h - d)) eqn:Ec.
  - apply Qle_bool_iff in Ec. exists (h - d). split.
    { destruct r; cbn in *; assumption. }
    split; [assumption|]. split; [reflexivity|]. split; [lra|].
    intros r' Hr'. destruct r, r'; cbn in *; congruence.
  - apply Qle_bool_false in Ec. exists 0. split.
    { destruct r; cbn in *; assumption. }
    split; [lra|]. split; [lra|]. split; [reflexivity|].
    intros r' Hr'. destruct r, r'; cbn in *; congruence.
Qed.

Lemma dealDamage_floors_hp_witness :
  exists h',
    Entity.hp (Combat.object Combat.EnemyObject
                 (snd (Combat.dealDamage half (Some Combat.EnemyObject) 50
                         warriorVsGoblin)))
    = Fin h' /\ h' = 0.
Proof.
  destruct (dealDamage_floors_hp half Combat.EnemyObject 50 warriorVsGoblin
              (fst (Combat.dealDamage half (Some Combat.EnemyObject) 50
                      warriorVsGoblin))
              (snd (Combat.dealDamage half (Some Combat.EnemyObject) 50
                      warriorVsGoblin))
              35 50)
    as (h' & Hh & _ & _ & Hz & _).
  - reflexivity.
  - reflexivity.
  - apply surjective_pairing.
  - exists h'. split; [exact Hh|]. apply Hz. reflexivity.
Defined.

Lemma calculateExperienceGain_runs : forall s r,
  Combat.enemy s = Some r ->
  Combat.calculateExperienceGain s
  = (Ret (experienceFor (Combat.object r s)), s).
Proof.
  intros s r H. unfold Combat.calculateExperienceGain. mred. rewrite H.
  reflexivity.
Qed.

Section CombatDraws.
Variable rnd : nat -> Q.
Hypothesis rnd_range : forall i, 0 <= rnd i /\ rnd i < 1.

Lemma combat_random_runs : forall s : Combat.State,
  runs (random rnd) s
    (fun r s' => r = rnd (Combat.cursor s) /\
                 s' = Combat.set_cursor (S (Combat.cursor s)) s).
Proof. intros s. eexists _, _. split; [reflexivity|]. split; reflexivity. Qed.

Lemma combat_randomInt_runs : forall (lo hi : Z) (s : Combat.State),
  (lo <= hi)%Z ->
  runs (randomInt rnd lo hi) s
    (fun z s' => (lo <= z <= hi)%Z /\
                 s' = Combat.set_cursor (S (Combat.cursor s)) s).
Proof.
  intros lo hi s H. eexists _, _. split; [reflexivity|].
  split; [|reflexivity].
  destruct (rnd_range (rng s)) as [H0 H1].
  pose proof (floor_of_draw (rnd (rng s)) (hi - lo + 1) H0 H1 ltac:(lia)).
  lia.
Qed.

Lemma combat_randomChoice_runs : forall {A} (l : list A) (s : Combat.State),
  l <> [] ->
  runs (randomChoice rnd l) s
    (fun o s' => (exists x, o = Some x /\ In x l) /\
                 s' = Combat.set_cursor (S (Combat.cursor s)) s).
Proof.
  intros A l s H. eexists _, _. split; [reflexivity|].
  split; [|reflexivity].
  destruct (rnd_range (rng s)) as [H0 H1].
  assert (Hl : (0 < Z.of_nat (List.length l))%Z)
    by (destruct l; [congruence|cbn; lia]).
  pose proof (floor_of_draw (rnd (rng s)) _ H0 H1 Hl) as Hi.
  unfold at_index, index_of_draw.
  destruct (Z.ltb_spec
              (Qfloor (rnd (rng s) * inject_Z (Z.of_nat (List.length l)))) 0);
    [lia|].
  destruct (nth_error l
              (Z.to_nat
                 (Qfloor (rnd (rng s) * inject_Z (Z.of_nat (List.length l))))))
    eqn:E.
  - exists a. split; [reflexivity|]. eapply nth_error_In; eassumption.
  - apply nth_error_None in E. lia.
Qed.

Lemma generateRandomItem_runs : forall s,
  runs (Combat.generateRandomItem rnd) s
    (fun i s' =>
       (Combat.item_type i = "consumable" /\
        In (Combat.item_name i)
          ["health potion"; "mana potion"; "strength elixir"]) /\
       core s' = core s /\ Combat.log s' = Combat.log s).
Proof.
  intros s. unfold Combat.generateRandomItem.
  eapply runs_seq; [apply combat_randomChoice_runs; discriminate|].
  intros o s1 [(k & -> & Hk) ->]. apply runs_ret.
  split; [|split; reflexivity]. split; [reflexivity|].
  cbn in Hk. cbn [Combat.item_name].
  destruct Hk as [<-|[<-|[<-|[]]]]; cbn; auto.
Qed.

Lemma calculateCombatRewards_runs : forall s r,
  Combat.enemy s = Some r ->
  runs (Combat.calculateCombatRewards rnd) s
    (fun rw s' =>
       rewardsFit (Combat.object r s) rw /\
       core s' = core s /\ Combat.log s' = Combat.log s).
Proof.
  intros s r He. unfold Combat.calculateCombatRewards.
  eapply runs_seq; [apply (combat_randomInt_runs 5 15); lia|].
  intros g s1 [Hg ->]. cbn beta.
  apply runs_seq
    with (Q := fun e s' => e = Combat.object r s /\
                           s' = Combat.set_cursor (S (Combat.cursor s)) s).
  { unfold runs, bind, gets. cbn [Combat.enemy Combat.set_cursor]. rewrite He.
    eexists _, _. split; [reflexivity|]. split; [destruct r|]; reflexivity. }
  intros e s1 [-> ->]. cbn beta.
  eapply runs_seq; [apply combat_random_runs|].
  intros x s2 [_ ->]. cbn beta.
  apply runs_seq
    with (Q := fun dropped s' =>
                 ((List.length dropped <= 1)%nat /\
                  Forall (fun i =>
                            Combat.item_type i = "consumable" /\
                            In (Combat.item_name i)
                              ["health potion"; "mana potion";
                               "strength elixir"]) dropped) /\
                 core s' = core s /\ Combat.log s' = Combat.log s).
  { destruct (JS.Qltb x _).
    - eapply runs_seq; [apply generateRandomItem_runs|].
      intros i s3 (Hi & Hc & Hl). apply runs_ret.
      split; [split; [cbn; lia|constructor; [exact Hi|constructor]]|].
      split; [rewrite Hc|rewrite Hl]; reflexivity.
    - apply runs_ret. split; [split; [cbn; lia|constructor]|].
      split; reflexivity. }
  intros dropped s3 ((Hlen & Hall) & Hc & Hl). cbn beta.
  assert (Hobj : Combat.object r s3 = Combat.object r s)
    by (apply core_object, Hc).
  assert (Hen : Combat.enemy s3 = Some r)
    by (apply core_fields in Hc; intuition congruence).
  apply runs_seq with (Q := fun e s' => e = Combat.object r s /\ s' = s3).
  { unfold runs, bind, gets. rewrite Hen. eexists _, _.
    split; [reflexivity|]. split; [exact Hobj|reflexivity]. }
  intros e s4 [-> ->].
  destruct (Entity.isBoss (Combat.object r s)) eqn:Eb.
  - apply runs_seq
      with (Q := fun i s' =>
                   i = {| Combat.item_name :=
                            Entity.name (Combat.object r s) ++ "'s Trophy";
                          Combat.item_type := "trophy" |} /\ s' = s3).
    { unfold runs, Combat.generateBossItem, bind, gets. rewrite Hen.
      eexists _, _. split; [reflexivity|]. rewrite <- Hobj.
      split; reflexivity. }
    intros i s4 [-> ->].
    eapply runs_seq; [apply (combat_randomInt_runs 2 5); lia|].
    intros n s4 [Hn ->]. apply runs_ret.
    split; [|split; [rewrite <- Hc|rewrite <- Hl]; reflexivity].
    split; [exists g; split; [exact Hg|reflexivity]|].
    exists dropped. split; [exact Hlen|]. split; [exact Hall|].
    rewrite Eb. split; [reflexivity|]. exists n. split; [exact Hn|reflexivity].
  - apply runs_ret.
    split; [|split; assumption].
    split; [exists g; split; [exact Hg|reflexivity]|].
    exists dropped. split; [exact Hlen|]. split; [exact Hall|].
    rewrite Eb. split; reflexivity.
Qed.

Lemma endCombat_runs : forall victory reason s,
  (victory = true -> exists r, Combat.enemy s = Some r) ->
  runs (Combat.endCombat rnd victory reason) s
    (fun _ s' => endedWith victory reason s s').
Proof.
  intros victory reason s Hv. unfold Combat.endCombat.
  apply runs_seq with (Q := fun _ s' => s' = Combat.set_isActive false s).
  { apply runs_modify. reflexivity. }
  intros ? s1 ->.
  apply runs_seq
    with (Q := fun tc s' => tc = Combat.turnCounter s /\
                            s' = Combat.set_isActive false s).
  { apply runs_gets. split; reflexivity. }
  intros tc s1 [-> ->]. cbn beta.
  apply runs_seq
    with (Q := fun gained s' =>
                 core s' = core (Combat.set_isActive false s) /\
                 if victory then
                   exists r rw,
                     Combat.enemy s = Some r /\
                     fst gained = Some (experienceFor (Combat.object r s)) /\
                     snd gained = Some rw /\
                     rewardsFit (Combat.object r s) rw
                 else gained = (None, None)).
  { destruct victory.
    - destruct (Hv eq_refl) as [r Hr].
      apply runs_seq
        with (Q := fun x s' => x = experienceFor (Combat.object r s) /\
                               s' = Combat.set_isActive false s).
      { eexists _, _. split; [apply calculateExperienceGain_runs; exact Hr|].
        split; [destruct r|]; reflexivity. }
      intros x s1 [-> ->].
      eapply runs_seq; [apply (calculateCombatRewards_runs _ r); exact Hr|].
      intros rw s1 (Hrw & Hc & Hl). cbn beta.
      apply runs_seq with (Q := fun _ s' => core s' = core s1).
      { unfold Combat.logMessage. apply runs_modify. reflexivity. }
      intros ? s2 Hc2. apply runs_ret.
      split; [rewrite Hc2; exact Hc|]. exists r, rw. split; [exact Hr|].
      split; [reflexivity|]. split; [reflexivity|].
      replace (Combat.object r s)
        with (Combat.object r (Combat.set_isActive false s))
        by (destruct r; reflexivity).
      exact Hrw.
    - apply runs_ret. split; reflexivity. }
  intros gained s1 [Hc Hg]. cbn beta.
  apply core_fields in Hc. cbn in Hc.
  destruct Hc as (Ha & Ht & Hn & Hp & He & Hpo & Heo & Hco & Hcr & Hr & Htm).
  unfold Combat.cleanup.
  apply runs_seq
    with (Q := fun _ s' =>
                 s' = Combat.set_turn Combat.PlayerTurn 0
                        (Combat.set_refs None None s1)).
  { apply runs_modify. reflexivity. }
  intros ? s2 ->.
  apply runs_seq
    with (Q := fun pending s' =>
                 pending = Combat.combatResolve s1 /\
                 s' = Combat.set_turn Combat.PlayerTurn 0
                        (Combat.set_refs None None s1)).
  { apply runs_gets. split; reflexivity. }
  intros pending s2 [-> ->].
  unfold endedWith. rewrite <- Hcr.
  destruct (Combat.combatResolve s1) eqn:Ecr; cbn [when].
  - apply runs_modify. cbn.
    repeat (split; [first [assumption|reflexivity]|]).
    eexists. split; [rewrite Hr; reflexivity|]. cbn.
    split; [reflexivity|]. split; [reflexivity|]. split; [reflexivity|].
    destruct victory; [|rewrite Hg; split; reflexivity].
    exact Hg.
  - apply runs_ret. cbn.
    repeat (split; [first [assumption|reflexivity]|]). assumption.
Qed.

End CombatDraws.

Lemma bind_modify : forall {S A} (g : S -> S) (k : unit -> M S A) s,
  bind (modify g) k s = k tt (g s).
Proof. reflexivity. Qed.

Lemma bind_gets : forall {S A C} (g : S -> A) (k : A -> M S C) s,
  bind (gets g) k s = k (g s) s.
Proof. reflexivity. Qed.

Lemma bind_gets_read : forall {A} r (k : Entity.t -> M Combat.State A) s,
  bind (Combat.read (Some r)) k s = k (Combat.object r s) s.
Proof. reflexivity. Qed.

(** The part of [endCombat] that computes experience and rewards only
    draws and logs. *)
Lemma gained_preserves_core : forall rnd (victory : bool),
  preserves core
    (if victory
     then bind (Combat.calculateExperienceGain)
            (fun experience =>
               bind (Combat.calculateCombatRewards rnd)
                 (fun rewards =>
                    bind (Combat.logMessage (Combat.Victory experience)
                            Combat.Success)
                      (fun _ => ret (Some experience, Some rewards))))
     else ret (None, None)).
Proof.
  intros rnd victory.
  unfold Combat.calculateExperienceGain, Combat.calculateCombatRewards,
    Combat.generateRandomItem, Combat.generateBossItem.
  pres.
Qed.

(** X8.  [endCombat] closes the session.  However the call ends, the
    session is inactive afterwards, the two objects and the options are
    untouched, and at most one result has been handed to the resolver (none
    if the call threw).  The call returns whenever it reports a defeat, and
    also when it reports a victory with the enemy still referenced and
    draws in [[0, 1)]; it then leaves the references nulled, the turn
    bookkeeping reset and the resolver consumed, and the result it
    delivered, if a resolver was pending, carries the verdict, the reason,
    the turn count and, for a victory, the experience and the rewards. *)
Theorem endCombat_closes_the_session :
  forall (rnd : nat -> Q) (victory : bool) (reason : string)
         (s : Combat.State),
    (forall o s',
       Combat.endCombat rnd victory reason s = (o, s') ->
       Combat.isActive s' = false /\
       Combat.playerObject s' = Combat.playerObject s /\
       Combat.enemyObject s' = Combat.enemyObject s /\
       Combat.combatOptions s' = Combat.combatOptions s /\
       (Combat.resolved s' = Combat.resolved s \/
        exists res,
          o = Ret tt /\ Combat.combatResolve s = true /\
          Combat.resolved s' = (Combat.resolved s ++ [res])%list)) /\
    ((forall i, 0 <= rnd i /\ rnd i < 1) ->
     (victory = true -> exists r, Combat.enemy s = Some r) ->
     exists s',
       Combat.endCombat rnd victory reason s = (Ret tt, s') /\
       endedWith victory reason s s').
Proof.
  intros rnd victory reason s. split.
  - intros o s' E. unfold Combat.endCombat in E.
    rewrite bind_modify, bind_gets in E.
    apply bind_cases in E.
    destruct E as [(gained & s1 & Eg & E)|(_ & o1 & _ & Eg)];
      apply (gained_preserves_core rnd victory) in Eg;
      apply core_fields in Eg; cbn in Eg;
      destruct Eg as (Ha & _ & _ & _ & _ & Hpo & Heo & Hco & Hcr & Hr & _).
    + unfold Combat.cleanup in E. rewrite bind_modify, bind_gets in E.
      cbn [Combat.combatResolve Combat.set_turn Combat.set_refs] in E.
      destruct (Combat.combatResolve s1) eqn:Ep; cbn [when] in E;
        inversion E; subst; cbn.
      * repeat (split; [assumption|]). right. eexists.
        split; [reflexivity|]. split; [congruence|].
        rewrite Hr. reflexivity.
      * repeat (split; [assumption|]). left. assumption.
    + repeat (split; [assumption|]). left. assumption.
  - intros Hrnd Hv.
    destruct (endCombat_runs rnd Hrnd victory reason s Hv) as ([] & s' & E & H).
    exists s'. split; assumption.
Qed.

Lemma endCombat_closes_the_session_witness :
  exists s',
    Combat.endCombat half true "Enemy defeated" warriorVsGoblin = (Ret tt, s') /\
    endedWith true "Enemy defeated" warriorVsGoblin s'.
Proof.
  destruct (endCombat_closes_the_session half true "Enemy defeated"
              warriorVsGoblin) as [_ H].
  apply H.
  - exact half_in_range.
  - intros _. exists Combat.EnemyObject. reflexivity.
Defined.

(** X9.  [calculateCombatRewards], with the enemy referenced and draws in
    [[0, 1)], returns after drawing only: the gold is the enemy's level
    plus an integer from 5 to 15; at most one consumable is dropped, a
    health potion, a mana potion or a strength elixir; a boss adds its
    trophy as the last item and two to five essences, any other enemy
    adds neither. *)
Theorem calculateCombatRewards_bounds :
  forall (rnd : nat -> Q) (s : Combat.State) (r : Combat.Ref),
    (forall i, 0 <= rnd i /\ rnd i < 1) ->
    Combat.enemy s = Some r ->
    exists rw s',
      Combat.calculateCombatRewards rnd s = (Ret rw, s') /\
      rewardsFit (Combat.object r s) rw /\
      core s' = core s /\ Combat.log s' = Combat.log s.
Proof.
  intros rnd s r Hrnd He.
  destruct (calculateCombatRewards_runs rnd Hrnd s r He)
    as (rw & s' & E & H).
  exists rw, s'. split; assumption.
Qed.

Lemma calculateCombatRewards_bounds_witness :
  exists rw s',
    Combat.calculateCombatRewards half warriorVsGoblin = (Ret rw, s') /\
    rewardsFit goblinScout rw /\
    Combat.gold rw = Fin 15.
Proof.
  destruct (calculateCombatRewards_bounds half warriorVsGoblin
              Combat.EnemyObject half_in_range eq_refl)
    as (rw & s' & E & Hfit & _).
  exists rw, s'. split; [exact E|]. split; [exact Hfit|].
  vm_compute in E. injection E as <- _. reflexivity.
Defined.

Lemma checkBossPhaseTransition_returns : forall r s,
  exists s', Combat.checkBossPhaseTransition (Some r) s = (Ret tt, s').
Proof.
  intros r s. unfold Combat.checkBossPhaseTransition. mred.
  destruct (Entity.bossData (Combat.object r s)) as [bd|];
    [|eexists; reflexivity].
  destruct (Combat.phaseTransition _ bd) as [bd' [[i p]|]];
    eexists; reflexivity.
Qed.

(** X10.  The death check of [dealDamage].  In a session that references
    both objects, damage that brings the hp of one of them to 0 ends the
    combat within the call: [dealDamage] returns (for the enemy, given
    draws in [[0, 1)]) with the target's hp at 0, the session inactive, the
    references nulled and the resolver consumed; a pending resolver has
    received exactly one result, a defeat without rewards when the target
    is the player, a victory with experience and rewards otherwise. *)
Theorem dealDamage_lethal_ends_combat :
  forall (rnd : nat -> Q) (r : Combat.Ref) (s : Combat.State) (h d : Q),
    (forall i, 0 <= rnd i /\ rnd i < 1) ->
    Combat.player s = Some Combat.PlayerObject ->
    Combat.enemy s = Some Combat.EnemyObject ->
    Entity.hp (Combat.object r s) = Fin h ->
    h <= d ->
    exists s' h',
      Combat.dealDamage rnd (Some r) (Fin d) s = (Ret tt, s') /\
      Entity.hp (Combat.object r s') = Fin h' /\ h' == 0 /\
      Combat.isActive s' = false /\
      Combat.player s' = None /\ Combat.enemy s' = None /\
      Combat.combatResolve s' = false /\
      if Combat.combatResolve s then
        exists res,
          Combat.resolved s' = (Combat.resolved s ++ [res])%list /\
          Combat.turnCount res = Combat.turnCounter s /\
          match r with
          | Combat.PlayerObject =>
              Combat.victory res = false /\
              Combat.reason res = "Player defeated" /\
              Combat.experience res = None /\ Combat.rewards res = None
          | Combat.EnemyObject =>
              Combat.victory res = true /\
              Combat.reason res = "Enemy defeated" /\
              exists x rw,
                Combat.experience res = Some x /\
                Combat.rewards res = Some rw
          end
      else Combat.resolved s' = Combat.resolved s.
Proof.
  intros rnd r s h d Hrnd Hp He Hh Hle.
  unfold Combat.dealDamage. rewrite bind_write.
  set (h' := if Qle_bool 0 (h - d) then h - d else 0).
  assert (Hh' : h' == 0).
  { unfold h'. destruct (Qle_bool 0 (h - d)) eqn:E; [|reflexivity].
    apply Qle_bool_iff in E. lra. }
  set (s1 := Combat.set_object r _ s).
  assert (H1 : Entity.hp (Combat.object r s1) = Fin h').
  { unfold s1, h'. rewrite Hh. cbn [JS.sub JS.max].
    destruct r; cbn; destruct (Qle_bool 0 (h - d)); reflexivity. }
  assert (Hdead : (Entity.hp (Combat.object r s1) <=? 0)%js = true).
  { rewrite H1. cbn. apply Qle_bool_iff. lra. }
  rewrite bind_gets_read. rewrite Hdead. cbn [when].
  set (victory := negb (Combat.same_object (Some r) (Some Combat.PlayerObject))).
  set (reason := if victory then "Enemy defeated" else "Player defeated").
  set (s2 := Combat.set_log
               (Combat.log s1
                ++ [(Combat.IsDefeated (Entity.name (Combat.object r s1)),
                     Combat.Info)]) s1).
  destruct (endCombat_runs rnd Hrnd victory reason s2) as ([] & s3 & E3 & H3).
  { intros _. exists Combat.EnemyObject. unfold s2, s1.
    destruct r; cbn; exact He. }
  assert (E : bind
                (bind (Combat.logMessage
                         (Combat.IsDefeated (Entity.name (Combat.object r s1)))
                         Combat.Info)
                   (fun _ =>
                      bind (gets Combat.player)
                        (fun p =>
                           if Combat.same_object (Some r) p
                           then Combat.endCombat rnd false "Player defeated"
                           else Combat.endCombat rnd true "Enemy defeated")))
                (fun _ =>
                   bind (Combat.read (Some r))
                     (fun t =>
                        when (Entity.isBoss t
                              && match Entity.bossData t with
                                 | Some _ => true
                                 | None => false
                                 end)
                          (Combat.checkBossPhaseTransition (Some r)))) s1
              = bind (Combat.read (Some r))
                  (fun t =>
                     when (Entity.isBoss t
                           && match Entity.bossData t with
                              | Some _ => true
                              | None => false
                              end)
                       (Combat.checkBossPhaseTransition (Some r))) s3).
  { unfold bind at 1. unfold bind at 1. unfold Combat.logMessage at 1.
    unfold modify at 1. fold s2. rewrite bind_gets.
    replace (Combat.player s2) with (Some Combat.PlayerObject)
      by (unfold s2, s1; destruct r; cbn; symmetry; exact Hp).
    replace (if Combat.same_object (Some r) (Some Combat.PlayerObject)
             then Combat.endCombat rnd false "Player defeated"
             else Combat.endCombat rnd true "Enemy defeated")
      with (Combat.endCombat rnd victory reason)
      by (unfold victory, reason; destruct r; reflexivity).
    rewrite E3. reflexivity. }
  rewrite E. clear E.
  assert (Etail : exists s',
             bind (Combat.read (Some r))
               (fun t =>
                  when (Entity.isBoss t
                        && match Entity.bossData t with
                           | Some _ => true
                           | None => false
                           end)
                    (Combat.checkBossPhaseTransition (Some r))) s3
             = (Ret tt, s') /\
             (Combat.isActive s', Combat.player s', Combat.enemy s',
              Combat.combatResolve s', Combat.resolved s',
              Entity.hp (Combat.object r s'))
             = (Combat.isActive s3, Combat.player s3, Combat.enemy s3,
                Combat.combatResolve s3, Combat.resolved s3,
                Entity.hp (Combat.object r s3))).
  { rewrite bind_gets_read.
    destruct (Entity.isBoss (Combat.object r s3)
              && match Entity.bossData (Combat.object r s3) with
                 | Some _ => true
                 | None => false
                 end); cbn [when].
    - destruct (checkBossPhaseTransition_returns r s3) as [s' E'].
      exists s'. split; [exact E'|].
      apply (preserves_checkBossPhaseTransition _
               (fun s => (Combat.isActive s, Combat.player s, Combat.enemy s,
                          Combat.combatResolve s, Combat.resolved s,
                          Entity.hp (Combat.object r s))))
        with (b := Some r) (o := Ret tt); [pres_side|pres_side|exact E'].
    - exists s3. split; reflexivity. }
  destruct Etail as (s' & E' & Hobs). injection Hobs as Ha Hpl Hen Hcr Hres Hhp.
  exists s', h'. split; [exact E'|].
  destruct H3 as (Ha3 & Hp3 & He3 & _ & _ & Hpo3 & Heo3 & _ & Hcr3 & Hres3).
  split.
  { rewrite Hhp, <- H1.
    destruct r; cbn [Combat.object]; [rewrite Hpo3|rewrite Heo3];
      reflexivity. }
  split; [exact Hh'|]. split; [congruence|]. split; [congruence|].
  split; [congruence|]. split; [congruence|].
  replace (Combat.combatResolve s2) with (Combat.combatResolve s) in Hres3
    by (unfold s2, s1; destruct r; reflexivity).
  replace (Combat.resolved s2) with (Combat.resolved s) in Hres3
    by (unfold s2, s1; destruct r; reflexivity).
  replace (Combat.turnCounter s2) with (Combat.turnCounter s) in Hres3
    by (unfold s2, s1; destruct r; reflexivity).
  destruct (Combat.combatResolve s); [|congruence].
  destruct Hres3 as (res & Hr & Hv & Hreason & Htc & Hgain).
  exists res. split; [congruence|]. split; [exact Htc|].
  unfold victory, reason in *. destruct r; cbn in *.
  - destruct Hgain as [Hx Hrw]. auto.
  - destruct Hgain as (r0 & rw & _ & Hx & Hrw & _).
    split; [assumption|]. split; [assumption|]. eauto.
Qed.

Lemma dealDamage_lethal_ends_combat_witness :
  exists s' res,
    Combat.dealDamage half (Some Combat.PlayerObject) 500 warriorVsGoblin
    = (Ret tt, s') /\
    Combat.isActive s' = false /\
    Combat.resolved s' = [res] /\
    Combat.victory res = false /\
    Combat.reason res = "Player defeated".
Proof.
  destruct (dealDamage_lethal_ends_combat half Combat.PlayerObject
              warriorVsGoblin 160 500 half_in_range eq_refl eq_refl eq_refl)
    as (s' & h' & E & _ & _ & Ha & _ & _ & _ & Hres).
  { discriminate. }
  destruct Hres as (res & Hr & _ & Hv & Hreason & _).
  exists s', res. auto.
Defined.

(** ** The status effects at the end of a turn *)

Lemma assoc_In_NoDup : forall {A} (m : list (string * A)) k v,
  NoDup (map fst m) -> In (k, v) m -> assoc k m = Some v.
Proof.
  induction m as [|[k0 v0] m IH]; intros k v Hnd Hin; [destruct Hin|].
  cbn [map fst] in Hnd. apply NoDup_cons_iff in Hnd. destruct Hnd as [Hk Hnd].
  cbn [assoc]. destruct Hin as [E|Hin].
  - injection E as -> ->. rewrite String.eqb_refl. reflexivity.
  - destruct (String.eqb_spec k k0) as [->|Hne].
    + exfalso. apply Hk. apply (in_map fst) in Hin. exact Hin.
    + apply IH; assumption.
Qed.

Lemma decrementDuration_keys : forall type m,
  map fst (Combat.decrementDuration type m) = map fst m.
Proof.
  intros type m. unfold Combat.decrementDuration. rewrite map_map.
  apply map_ext. intros [k v]. cbn. destruct (String.eqb k type); reflexivity.
Qed.

(** Decrementing every key of a list once each. *)
Lemma decrement_each : forall types m,
  NoDup types ->
  fold_left (fun m t => Combat.decrementDuration t m) types m
  = map (fun kv => if existsb (String.eqb (fst kv)) types
                   then tickDown kv else kv) m.
Proof.
  induction types as [|t types IH]; intros m Hnd.
  - cbn. symmetry. apply map_id.
  - apply NoDup_cons_iff in Hnd. destruct Hnd as [Ht Hnd].
    cbn [fold_left]. rewrite (IH _ Hnd).
    unfold Combat.decrementDuration. rewrite map_map.
    apply map_ext. intros [k v]. cbn [fst snd existsb].
    destruct (String.eqb_spec k t) as [->|Hne]; cbn [fst orb].
    + replace (existsb (String.eqb t) types) with false; [reflexivity|].
      symmetry. apply not_true_is_false. intro E.
      apply existsb_exists in E. destruct E as (x & Hx & E).
      apply String.eqb_eq in E. subst x. contradiction.
    + reflexivity.
Qed.

Lemma filter_twice : forall {A} (f g : A -> bool) l,
  filter f (filter g l) = filter (fun x => g x && f x) l.
Proof.
  intros A f g l. induction l as [|x l IH]; [reflexivity|].
  cbn [filter]. destruct (g x); cbn [filter andb]; [|exact IH].
  destruct (f x); rewrite IH; reflexivity.
Qed.

Lemma delete_each : forall {A} types (m : list (string * A)),
  fold_left (fun m t => Combat.mapDelete t m) types m
  = filter (fun kv => negb (existsb (String.eqb (fst kv)) types)) m.
Proof.
  intros A types. induction types as [|t types IH]; intros m.
  - cbn. symmetry. apply filter_true.
  - cbn [fold_left]. rewrite IH. unfold Combat.mapDelete.
    rewrite filter_twice. apply filter_ext. intros [k v]. cbn [fst existsb].
    rewrite negb_orb. reflexivity.
Qed.

Lemma applyStatusEffectTick_keeps_effects : forall rnd r entity type,
  preserves (effectsOf r) (Combat.applyStatusEffectTick rnd entity type).
Proof.
  intros rnd r entity type. unfold Combat.applyStatusEffectTick.
  destruct (assoc type Combat.statusEffects) as [template|];
    [|apply preserves_ret].
  destruct (EffectInst.effect template) as [d|]; [|apply preserves_ret].
  unfold effectsOf. pres.
Qed.

Lemma tickEffects_spec : forall rnd r types s expiredEffects s',
  Combat.tickEffects rnd (Some r) types s = (Ret expiredEffects, s') ->
  effectsOf r s'
  = fold_left (fun m t => Combat.decrementDuration t m) types (effectsOf r s)
  /\ (NoDup types ->
      expiredEffects
      = filter (fun t => Combat.expired t (effectsOf r s')) types).
Proof.
  intros rnd r types. induction types as [|t types IH];
    intros s expiredEffects s' E.
  - inversion E; subst. split; reflexivity.
  - cbn [Combat.tickEffects] in E.
    apply bind_returns in E. destruct E as ([] & s1 & E1 & E).
    apply (applyStatusEffectTick_keeps_effects rnd r) in E1.
    rewrite bind_write, bind_gets_read in E.
    apply bind_returns in E. destruct E as (rest & s3 & E3 & E).
    inversion E; subst. clear E.
    apply IH in E3. destruct E3 as [Hm Hexp].
    set (s2 := Combat.set_object r _ s1) in *.
    assert (H2 : effectsOf r s2
                 = Combat.decrementDuration t (effectsOf r s)).
    { rewrite <- E1. unfold s2, effectsOf. destruct r; reflexivity. }
    split.
    + cbn [fold_left]. rewrite Hm, H2. reflexivity.
    + intros Hnd. apply NoDup_cons_iff in Hnd. destruct Hnd as [Ht Hnd].
      cbn [filter]. rewrite (Hexp Hnd).
      replace (Combat.expired t (effectsOf r s'))
        with (Combat.expired t (Entity.statusEffects (Combat.object r s2)));
        [reflexivity|].
      fold (effectsOf r s2). rewrite Hm.
      clear -Ht. generalize (effectsOf r s2). 
      induction types as [|t' types IH]; intros m; [reflexivity|].
      cbn [fold_left]. rewrite <- IH by (intro; apply Ht; right; assumption).
      unfold Combat.expired.
      replace (assoc t (Combat.decrementDuration t' m)) with (assoc t m);
        [reflexivity|].
      assert (Hne : t <> t') by (intro; apply Ht; left; congruence).
      clear -Hne. induction m as [|[k v] m IHm]; [reflexivity|].
      cbn [Combat.decrementDuration map fst snd assoc].
      destruct (String.eqb_spec k t') as [->|Hk]; cbn [fst assoc].
      * destruct (String.eqb_spec t t'); [contradiction|]. exact IHm.
      * destruct (String.eqb t k); [reflexivity|exact IHm].
Qed.

Lemma forEach_delete : forall r types s,
  exists s',
    forEach types
      (fun type =>
         bind (Combat.write (Some r)
                 (fun e => Entity.set_statusEffects
                             (Combat.mapDelete type (Entity.statusEffects e))
                             e))
           (fun _ =>
              bind (Combat.read (Some r))
                (fun e =>
                   Combat.logMessage
                     (Combat.RecoversFrom (Entity.name e) type) Combat.Info)))
      s = (Ret tt, s') /\
    effectsOf r s'
    = fold_left (fun m t => Combat.mapDelete t m) types (effectsOf r s).
Proof.
  intros r types. induction types as [|t types IH]; intros s.
  - exists s. split; reflexivity.
  - cbn [forEach fold_left].
    match goal with
    | |- exists s', bind ?m _ s = _ /\ _ =>
        assert (E : exists s1, m s = (Ret tt, s1) /\
                               effectsOf r s1
                               = Combat.mapDelete t (effectsOf r s))
    end.
    { eexists. split; [reflexivity|]. unfold effectsOf.
      destruct r; reflexivity. }
    destruct E as (s1 & E1 & H1).
    destruct (IH s1) as (s' & E' & H').
    exists s'. split; [unfold bind at 1; rewrite E1; exact E'|].
    rewrite H', H1. reflexivity.
Qed.

(** X11.  What [processStatusEffects] does to the map of an entity whose
    keys are distinct (as the keys of a [Map] are): when it returns, every
    duration has gone down by one and exactly the entries whose duration
    is then [<= 0] have been removed; the others are left in their
    order. *)
Theorem processStatusEffects_ticks_down_and_expires :
  forall (rnd : nat -> Q) (r : Combat.Ref) (s s' : Combat.State),
    NoDup (map fst (effectsOf r s)) ->
    Combat.processStatusEffects rnd (Some r) s = (Ret tt, s') ->
    effectsOf r s' = filter lasting (map tickDown (effectsOf r s)).
Proof.
  intros rnd r s s' Hnd E. unfold Combat.processStatusEffects in E.
  rewrite bind_gets_read in E. fold (effectsOf r s) in E.
  apply bind_returns in E. destruct E as (expiredEffects & s1 & E1 & E).
  apply tickEffects_spec in E1. destruct E1 as [Hm Hexp].
  specialize (Hexp Hnd).
  destruct (forEach_delete r expiredEffects s1) as (s2 & E2 & H2).
  rewrite E2 in E. inversion E; subst s2. clear E E2.
  rewrite H2, delete_each, Hm, (decrement_each _ _ Hnd).
  assert (Hall : map (fun kv => if existsb (String.eqb (fst kv))
                                     (map fst (effectsOf r s))
                                then tickDown kv else kv) (effectsOf r s)
                 = map tickDown (effectsOf r s)).
  { apply map_ext_in. intros kv Hin.
    replace (existsb (String.eqb (fst kv)) (map fst (effectsOf r s)))
      with true; [reflexivity|].
    symmetry. apply existsb_exists. exists (fst kv).
    split; [apply in_map, Hin|apply String.eqb_refl]. }
  rewrite Hm, (decrement_each _ _ Hnd), Hall in Hexp. rewrite Hall.
  assert (Hnd' : NoDup (map fst (map tickDown (effectsOf r s)))).
  { rewrite map_map. cbn [tickDown fst]. exact Hnd. }
  apply filter_ext_in. intros [k v] Hin. unfold lasting. cbn [fst snd].
  f_equal. rewrite Hexp.
  destruct (EffectInst.duration v <=? 0)%js eqn:Ed.
  - apply existsb_exists. exists k. split; [|apply String.eqb_refl].
    apply filter_In. split.
    + apply in_map_iff in Hin. destruct Hin as ([k0 v0] & E0 & Hin0).
      injection E0 as <- _. apply (in_map fst) in Hin0. exact Hin0.
    + unfold Combat.expired.
      rewrite (assoc_In_NoDup _ _ _ Hnd' Hin). exact Ed.
  - apply not_true_is_false. intro Ex.
    apply existsb_exists in Ex. destruct Ex as (x & Hx & Ex).
    apply String.eqb_eq in Ex. subst x.
    apply filter_In in Hx. destruct Hx as [_ Hx].
    unfold Combat.expired in Hx.
    rewrite (assoc_In_NoDup _ _ _ Hnd' Hin) in Hx. congruence.
Qed.

Lemma processStatusEffects_ticks_down_and_expires_witness :
  exists s',
    Combat.processStatusEffects half (Some Combat.EnemyObject) poisonedGoblin
    = (Ret tt, s') /\
    map (fun kv => (fst kv, EffectInst.duration (snd kv)))
      (effectsOf Combat.EnemyObject s')
    = [("poison", Fin 3)] /\
    Entity.hp (Combat.enemyObject s') = Fin 33.
Proof.
  destruct (Combat.processStatusEffects half (Some Combat.EnemyObject)
              poisonedGoblin) as [[[]| |] s'] eqn:E;
    try (vm_compute in E; discriminate).
  exists s'. split; [reflexivity|]. split.
  - rewrite (processStatusEffects_ticks_down_and_expires half
               Combat.EnemyObject poisonedGoblin s').
    + vm_compute. reflexivity.
    + vm_compute. repeat constructor; cbn; intuition discriminate.
    + exact E.
  - vm_compute in E. injection E as <-. reflexivity.
Defined.

(** ** Cooldowns *)

Lemma coolDown_integer : forall skill q n,
  Skill.currentCooldown skill = Fin q ->
  q == inject_Z n -> (0 <= n)%Z ->
  exists q',
    Skill.currentCooldown (Combat.coolDown skill) = Fin q' /\
    q' == inject_Z (Z.max 0 (n - 1)) /\
    Skill.cooldown (Combat.coolDown skill) = Skill.cooldown skill /\
    Skill.name (Combat.coolDown skill) = Skill.name skill.
Proof.
  intros skill q n Hc Hq Hn. unfold Combat.coolDown. rewrite Hc.
  cbn [JS.gt JS.lt lit]. unfold JS.Qltb.
  destruct (Qle_bool q 0) eqn:E; cbn [negb].
  - apply Qle_bool_iff in E. exists q. split; [exact Hc|].
    assert (n = 0)%Z.
    { rewrite Hq in E. change 0 with (inject_Z 0) in E.
      rewrite <- Zle_Qle in E. lia. }
    subst n. split; [rewrite Hq; reflexivity|]. split; reflexivity.
  - apply Qle_bool_false in E. exists (q - 1). split; [reflexivity|].
    assert (0 < n)%Z.
    { rewrite Hq in E. change 0 with (inject_Z 0) in E.
      rewrite <- Zlt_Qlt in E. exact E. }
    split; [|split; reflexivity].
    rewrite Z.max_r by lia. rewrite Hq.
    unfold Z.sub. rewrite inject_Z_plus. reflexivity.
Qed.

Lemma bind_gets_read_bind :
  forall {A C} r (k : Entity.t -> M Combat.State A) (k' : A -> M Combat.State C) s,
    bind (bind (Combat.read (Some r)) k) k' s
    = bind (k (Combat.object r s)) k' s.
Proof. reflexivity. Qed.

Lemma nth_error_setNth : forall {A} (f : A -> A) l i x,
  nth_error l i = Some x -> nth_error (Combat.setNth i f l) i = Some (f x).
Proof.
  intros A f l. induction l as [|y l IH]; intros [|i] x H;
    try discriminate; cbn in *.
  - congruence.
  - apply IH, H.
Qed.

(** X12.  A skill whose cooldown is the integer [c >= 0] and that has just
    been put on cooldown (as [applySkillResult] does) counts down by one at
    each [updateCooldowns], never below 0: after [k] of them its
    [currentCooldown] is [max(0, c - k)], so [canUseSkill] finds it on
    cooldown exactly while [k < c]. *)
Theorem cooldown_counts_down_to_zero :
  forall (r : Combat.Ref) (i : nat) (s : Combat.State)
         (skills : list Skill.t) (skill : Skill.t) (c : Z) (k : nat),
    Entity.skills (Combat.object r s) = Some skills ->
    nth_error skills i = Some skill ->
    Skill.cooldown skill = JS.of_Z c ->
    (0 <= c)%Z ->
    exists s' skills' skill' q,
      bind (Combat.resetCooldown (Combat.OwnSkill r i))
        (fun _ => times k (Combat.updateCooldowns (Some r))) s
      = (Ret tt, s') /\
      Entity.skills (Combat.object r s') = Some skills' /\
      nth_error skills' i = Some skill' /\
      Skill.name skill' = Skill.name skill /\
      Skill.currentCooldown skill' = Fin q /\
      q == inject_Z (Z.max 0 (c - Z.of_nat k)) /\
      ((Skill.currentCooldown skill' >? 0)%js = true <-> (Z.of_nat k < c)%Z).
Proof.
  intros r i s skills skill c k Hs Hn Hc Hpos.
  unfold Combat.resetCooldown. rewrite bind_modify. rewrite Hs.
  cbn [option_map].
  set (s0 := Combat.set_object r _ s).
  set (skills0 := Combat.setNth i
                    (fun k => Skill.set_currentCooldown (Skill.cooldown k) k)
                    skills).
  assert (H0 : Entity.skills (Combat.object r s0) = Some skills0)
    by (unfold s0; destruct r; reflexivity).
  assert (Hn0 : exists skill0 q0,
             nth_error skills0 i = Some skill0 /\
             Skill.name skill0 = Skill.name skill /\
             Skill.currentCooldown skill0 = Fin q0 /\
             q0 == inject_Z (Z.max 0 (c - 0))).
  { eexists _, _. split; [apply nth_error_setNth, Hn|].
    split; [reflexivity|]. cbn. rewrite Hc. split; [reflexivity|].
    rewrite Z.max_r by lia. rewrite Z.sub_0_r. reflexivity. }
  clearbody s0 skills0. clear Hs Hn Hc skills s.
  assert (Hgen : forall k j s0 skills0,
             Entity.skills (Combat.object r s0) = Some skills0 ->
             (exists skill0 q0,
                nth_error skills0 i = Some skill0 /\
                Skill.name skill0 = Skill.name skill /\
                Skill.currentCooldown skill0 = Fin q0 /\
                q0 == inject_Z (Z.max 0 (c - Z.of_nat j))) ->
             exists s' skills' skill' q,
               times k (Combat.updateCooldowns (Some r)) s0 = (Ret tt, s') /\
               Entity.skills (Combat.object r s') = Some skills' /\
               nth_error skills' i = Some skill' /\
               Skill.name skill' = Skill.name skill /\
               Skill.currentCooldown skill' = Fin q /\
               q == inject_Z (Z.max 0 (c - Z.of_nat (j + k)))).
  { clear k s0 skills0 H0 Hn0.
    induction k as [|k IH]; intros j s0 skills0 H0 (skill0 & q0 & Hn & Hnm & Hq & Hv).
    - exists s0, skills0, skill0, q0. rewrite Nat.add_0_r.
      repeat split; assumption.
    - cbn [times]. unfold Combat.updateCooldowns at 1.
      rewrite bind_gets_read_bind.
      rewrite H0. rewrite bind_write.
      set (s1 := Combat.set_object r _ s0).
      destruct (coolDown_integer skill0 q0 (Z.max 0 (c - Z.of_nat j)) Hq Hv
                  ltac:(lia)) as (q' & Hq' & Hv' & _ & Hnm').
      destruct (IH (S j) s1 (map Combat.coolDown skills0)) as
        (s' & skills' & skill' & q & E & Hs' & Hn' & Hnm'' & Hq'' & Hv'').
      + unfold s1. destruct r; reflexivity.
      + exists (Combat.coolDown skill0), q'.
        split; [apply map_nth_error, Hn|]. split; [congruence|].
        split; [exact Hq'|]. rewrite Hv'.
        replace (Z.max 0 (Z.max 0 (c - Z.of_nat j) - 1))
          with (Z.max 0 (c - Z.of_nat (S j))) by lia.
        reflexivity.
      + exists s', skills', skill', q. split; [exact E|].
        repeat (split; [assumption|]).
        rewrite Hv''. replace (S j + k)%nat with (j + S k)%nat by lia.
        reflexivity. }
  destruct (Hgen k 0%nat s0 skills0 H0 Hn0)
    as (s' & skills' & skill' & q & E & Hs' & Hn' & Hnm & Hq & Hv).
  cbn [Nat.add] in Hv.
  exists s', skills', skill', q. split; [exact E|].
  repeat (split; [assumption|]).
  rewrite Hq. cbn [JS.gt JS.lt lit]. unfold JS.Qltb.
  rewrite negb_true_iff. split.
  - intros Hf. apply Qle_bool_false in Hf. rewrite Hv in Hf.
    change 0 with (inject_Z 0) in Hf. rewrite <- Zlt_Qlt in Hf. lia.
  - intros Hlt. destruct (Qle_bool q 0) eqn:E0; [|reflexivity].
    apply Qle_bool_iff in E0. rewrite Hv in E0.
    change 0 with (inject_Z 0) in E0. rewrite <- Zle_Qle in E0. lia.
Qed.

Lemma cooldown_counts_down_to_zero_witness :
  exists s' skills' skill' q,
    bind (Combat.resetCooldown (Combat.OwnSkill Combat.PlayerObject 3))
      (fun _ => times 2 (Combat.updateCooldowns (Some Combat.PlayerObject)))
      warriorVsGoblin
    = (Ret tt, s') /\
    Entity.skills (Combat.object Combat.PlayerObject s') = Some skills' /\
    nth_error skills' 3 = Some skill' /\
    Skill.name skill' = "Charge" /\
    Skill.currentCooldown skill' = Fin q /\
    q == inject_Z 1.
Proof.
  destruct (cooldown_counts_down_to_zero Combat.PlayerObject 3
              warriorVsGoblin _ _ 3 2 eq_refl eq_refl eq_refl)
    as (s' & skills' & skill' & q & E & Hs & Hn & Hnm & Hq & Hv & _).
  - lia.
  - exists s', skills', skill', q. repeat (split; [assumption|]). exact Hv.
Defined.

(** ** Applying a status effect *)

Lemma assoc_mapSet_same : forall {A} k (v : A) m,
  assoc k (Combat.mapSet k v m) = Some v.
Proof.
  intros A k v m. induction m as [|[k0 v0] m IH]; cbn [Combat.mapSet assoc].
  - rewrite String.eqb_refl. reflexivity.
  - destruct (String.eqb_spec k0 k) as [->|Hne]; cbn [assoc].
    + rewrite String.eqb_refl. reflexivity.
    + destruct (String.eqb_spec k k0); [congruence|exact IH].
Qed.

Lemma assoc_mapSet_other : forall {A} k k' (v : A) m,
  k' <> k -> assoc k' (Combat.mapSet k v m) = assoc k' m.
Proof.
  intros A k k' v m Hne.
  induction m as [|[k0 v0] m IH]; cbn [Combat.mapSet assoc].
  - destruct (String.eqb_spec k' k); [contradiction|reflexivity].
  - destruct (String.eqb_spec k0 k) as [->|Hk]; cbn [assoc].
    + destruct (String.eqb_spec k' k); [contradiction|reflexivity].
    + rewrite IH. reflexivity.
Qed.

Lemma mapSet_keys : forall {A} k (v : A) m,
  map fst (Combat.mapSet k v m)
  = if Combat.has k m then map fst m else (map fst m ++ [k])%list.
Proof.
  intros A k v m. unfold Combat.has.
  induction m as [|[k0 v0] m IH]; cbn [Combat.mapSet existsb map fst app].
  - reflexivity.
  - destruct (String.eqb_spec k0 k) as [->|Hk]; cbn [map fst orb].
    + reflexivity.
    + rewrite IH. destruct (existsb _ m); reflexivity.
Qed.

Lemma has_In : forall {A} k (m : list (string * A)),
  Combat.has k m = true <-> In k (map fst m).
Proof.
  intros A k m. unfold Combat.has. rewrite existsb_exists. split.
  - intros ([k0 v0] & Hin & E). apply String.eqb_eq in E. cbn in E. subst k0.
    apply (in_map fst) in Hin. exact Hin.
  - intros Hin. apply in_map_iff in Hin. destruct Hin as ([k0 v0] & E & Hin).
    cbn in E. subst k0. exists (k, v0). split; [exact Hin|].
    apply String.eqb_refl.
Qed.

(** X13.  [applyStatusEffect] on an object of the session always returns,
    after exactly one draw.  If the draw is below the target's status
    resistance (0 when it has none) the target's effects are left as they
    were.  Otherwise the target's map holds, under the effect's type, the
    template's data with the given duration: an effect that was already
    there is replaced where it stood, not stacked, a new one is appended,
    the other entries are untouched, and the keys stay distinct. *)
Theorem applyStatusEffect_sets_or_resists :
  forall (rnd : nat -> Q) (t : Combat.Ref) (effectType : string)
         (duration : num) (s : Combat.State),
    let before := effectsOf t s in
    let resistance :=
      (Entity.statusResistance (Combat.object t s) || 0)%js in
    exists s',
      Combat.applyStatusEffect rnd (Some t) effectType duration s
      = (Ret tt, s') /\
      Combat.cursor s' = S (Combat.cursor s) /\
      if (Fin (rnd (Combat.cursor s)) <? resistance)%js
      then effectsOf t s' = before
      else
        assoc effectType (effectsOf t s')
        = Some {| EffectInst.duration := duration;
                  EffectInst.effect :=
                    match assoc effectType Combat.statusEffects with
                    | Some template => EffectInst.effect template
                    | None => None
                    end |} /\
        (forall k, k <> effectType ->
                   assoc k (effectsOf t s') = assoc k before) /\
        map fst (effectsOf t s')
        = (if Combat.has effectType before
           then map fst before
           else (map fst before ++ [effectType])%list) /\
        (NoDup (map fst before) -> NoDup (map fst (effectsOf t s'))).
Proof.
  intros rnd t effectType duration s before resistance.
  set (inst := {| EffectInst.duration := duration;
                  EffectInst.effect :=
                    match assoc effectType Combat.statusEffects with
                    | Some template => EffectInst.effect template
                    | None => None
                    end |}).
  destruct (Fin (rnd (Combat.cursor s)) <? resistance)%js eqn:Er.
  - exists (Combat.set_log
              (Combat.log s
               ++ [(Combat.Resists (Entity.name (Combat.object t s))
                      effectType, Combat.Info)])
              (Combat.set_cursor (S (Combat.cursor s)) s)).
    split.
    { unfold Combat.applyStatusEffect. rewrite bind_gets_read.
      fold resistance. unfold bind at 1. unfold random at 1.
      change (rng s) with (Combat.cursor s). rewrite Er. reflexivity. }
    split; [reflexivity|]. unfold before, effectsOf. destruct t; reflexivity.
  - exists (Combat.set_log
              (Combat.log s
               ++ [(Combat.IsAffectedBy (Entity.name (Combat.object t s))
                      effectType, Combat.Warning)])
              (Combat.set_object t
                 (Entity.set_statusEffects
                    (Combat.mapSet effectType inst before)
                    (Combat.object t s))
                 (Combat.set_cursor (S (Combat.cursor s)) s))).
    split.
    { unfold Combat.applyStatusEffect. rewrite bind_gets_read.
      fold resistance. unfold bind at 1. unfold random at 1.
      change (rng s) with (Combat.cursor s). rewrite Er.
      unfold before, effectsOf. destruct t; reflexivity. }
    split; [destruct t; reflexivity|].
    replace (effectsOf t _) with (Combat.mapSet effectType inst before)
      by (unfold effectsOf; destruct t; reflexivity).
    split; [apply assoc_mapSet_same|].
    split; [intros k Hk; apply assoc_mapSet_other, Hk|].
    split; [apply mapSet_keys|].
    intros Hnd. rewrite mapSet_keys.
    destruct (Combat.has effectType before) eqn:Eh; [exact Hnd|].
    apply NoDup_app; [exact Hnd|repeat constructor; intros []|].
    intros k Hk [<-|[]].
    apply has_In in Hk. congruence.
Qed.

Lemma applyStatusEffect_sets_or_resists_witness :
  exists s',
    Combat.applyStatusEffect half (Some Combat.EnemyObject) "poison" 2
      poisonedGoblin = (Ret tt, s') /\
    map fst (effectsOf Combat.EnemyObject s') = ["poison"; "stunned"] /\
    NoDup (map fst (effectsOf Combat.EnemyObject s')).
Proof.
  destruct (applyStatusEffect_sets_or_resists half Combat.EnemyObject
              "poison" 2 poisonedGoblin) as (s' & E & _ & H).
  exists s'. split; [exact E|].
  change ((Fin (half (Combat.cursor poisonedGoblin))
           <? (Entity.statusResistance
                 (Combat.object Combat.EnemyObject poisonedGoblin) || 0))%js)
    with false in H.
  destruct H as (_ & _ & Hk & Hnd).
  split; [rewrite Hk; reflexivity|].
  apply Hnd. vm_compute. repeat constructor; cbn; intuition discriminate.
Defined.

(** ** The options of a combat *)

Lemma startCombat_returns : forall player enemy options s,
  exists s',
    Combat.startCombat player enemy options s = (Ret tt, s') /\
    Combat.combatOptions s'
    = Combat.mergeOptions (Combat.combatOptions s) options /\
    Entity.statusResistance (Combat.enemyObject s')
    = if Combat.isBoss (Combat.mergeOptions (Combat.combatOptions s) options)
      then lit 0.5 else Entity.statusResistance enemy.
Proof.
  intros player enemy options s. unfold Combat.startCombat.
  cbv beta iota delta
    [bind gets modify ret when Combat.read Combat.write Combat.logMessage
     Combat.initializeBoss].
  cbn [Combat.combatOptions Combat.set_combatOptions Combat.set_isActive
       Combat.set_turn Combat.set_object Combat.set_objects Combat.set_refs
       Combat.object Combat.enemy Combat.playerObject Combat.enemyObject].
  destruct (Combat.isBoss
              (Combat.mergeOptions (Combat.combatOptions s) options));
    cbn;
    destruct (Entity.speed enemy >? Entity.speed player)%js;
    eexists; split; try reflexivity; split; reflexivity.
Qed.

Lemma mergeOptions_noOptions : forall o,
  Combat.mergeOptions o Combat.noOptions = o.
Proof. intros [b f]. reflexivity. Qed.

(** X14.  The options of a combat outlive it.  [startCombat] always returns
    and merges the options it is given into the ones the instance holds;
    [endCombat] does not reset them, however it ends; so a combat started
    afterwards without options (as [GameEngine.startCombat] starts every
    regular combat) runs under the options of the combat before it.  After
    a boss combat, in particular, the next enemy is initialised as a boss
    and resists status effects with probability one half. *)
Theorem combat_options_outlive_the_combat :
  forall (rnd : nat -> Q) (player enemy : Entity.t)
         (options : Combat.OptionsArg) (victory : bool) (reason : string)
         (player' enemy' : Entity.t) (s : Combat.State),
    let merged := Combat.mergeOptions (Combat.combatOptions s) options in
    exists s1,
      Combat.startCombat player enemy options s = (Ret tt, s1) /\
      Combat.combatOptions s1 = merged /\
      forall o s2,
        Combat.endCombat rnd victory reason s1 = (o, s2) ->
        exists s3,
          Combat.startCombat player' enemy' Combat.noOptions s2
          = (Ret tt, s3) /\
          Combat.combatOptions s3 = merged /\
          (Combat.isBoss merged = true ->
           Entity.statusResistance (Combat.enemyObject s3) = Fin 0.5).
Proof.
  intros rnd player enemy options victory reason player' enemy' s merged.
  destruct (startCombat_returns player enemy options s) as (s1 & E1 & H1 & _).
  exists s1. split; [exact E1|]. split; [exact H1|].
  intros o s2 E2.
  assert (H2 : Combat.combatOptions s2 = merged).
  { unfold merged. rewrite <- H1.
    apply (preserves_endCombat rnd _ Combat.combatOptions)
      with (v := victory) (r := reason) (o := o); try pres_side.
    exact E2. }
  destruct (startCombat_returns player' enemy' Combat.noOptions s2)
    as (s3 & E3 & H3 & Hres).
  rewrite H2, mergeOptions_noOptions in H3, Hres.
  exists s3. split; [exact E3|]. split; [exact H3|].
  intros Hb. rewrite Hb in Hres. exact Hres.
Qed.

Lemma combat_options_outlive_the_combat_witness :
  exists s1 s2 s3,
    Combat.startCombat (Combat.playerObject warriorVsGoblin) goblinScout
      {| Combat.arg_isBoss := Some true; Combat.arg_allowFlee := None |}
      Combat.fresh = (Ret tt, s1) /\
    Combat.endCombat half false "Player fled" s1 = (Ret tt, s2) /\
    Combat.startCombat (Combat.playerObject warriorVsGoblin) goblinScout
      Combat.noOptions s2 = (Ret tt, s3) /\
    Entity.statusResistance (Combat.enemyObject s3) = Fin 0.5.
Proof.
  destruct (combat_options_outlive_the_combat half
              (Combat.playerObject warriorVsGoblin) goblinScout
              {| Combat.arg_isBoss := Some true; Combat.arg_allowFlee := None |}
              false "Player fled"
              (Combat.playerObject warriorVsGoblin) goblinScout Combat.fresh)
    as (s1 & E1 & _ & H).
  destruct (Combat.endCombat half false "Player fled" s1) as [o s2] eqn:E2.
  destruct (H o s2 eq_refl) as (s3 & E3 & _ & Hb).
  exists s1, s2, s3. split; [exact E1|].
  split.
  { vm_compute in E1. injection E1 as <-.
    vm_compute in E2. injection E2 as <- <-. reflexivity. }
  split; [exact E3|]. apply Hb. reflexivity.
Defined.

(** ** The enemy's turn *)

Lemma getBossSkill_tame : forall o skill,
  Combat.getBossSkill o = Some skill -> tame skill.
Proof.
  intros [k|] skill H; [|discriminate]. unfold Combat.getBossSkill in H.
  unfold Combat.bossSkills in H. cbn [assoc] in H.
  repeat match type of H with
         | (if ?b then _ else _) = _ => destruct b
         end;
    try discriminate; injection H as <-; unfold tame; cbn; auto.
Qed.






(** *** What the enemy's turn cannot do *)

Lemma spares_of_preserves : forall {A} (m : M Combat.State A),
  preserves sparingView m -> spares m.
Proof.
  intros A m H s o s' [Hr Hs] E. apply H in E. unfold sparingView in E.
  pose proof (f_equal (fun x => fst (fst x)) E) as E1.
  pose proof (f_equal (fun x => snd (fst x)) E) as E2.
  pose proof (f_equal snd E) as E3. cbn [fst snd] in E1, E2, E3.
  split; [split; congruence|exact E3].
Qed.

Lemma spares_bind : forall {A C} (m : M Combat.State A)
    (k : A -> M Combat.State C),
  spares m -> (forall a, spares (k a)) -> spares (bind m k).
Proof.
  intros A C m k Hm Hk s o s' Hs E. unfold bind in E.
  destruct (m s) as [[a|e|] s1] eqn:Em.
  - destruct (Hm _ _ _ Hs Em) as [H1 E1].
    destruct (Hk a _ _ _ H1 E) as [H2 E2]. split; [exact H2|congruence].
  - inversion E; subst. exact (Hm _ _ _ Hs Em).
  - inversion E; subst. exact (Hm _ _ _ Hs Em).
Qed.

(** The same, when the continuation needs to know something about the
    value the first computation returns from a strengthless session. *)
Lemma spares_bind_post : forall {A C} (Q : A -> Prop) (m : M Combat.State A)
    (k : A -> M Combat.State C),
  (forall s a s', strengthless s -> m s = (Ret a, s') -> Q a) ->
  spares m -> (forall a, Q a -> spares (k a)) -> spares (bind m k).
Proof.
  intros A C Q m k HQ Hm Hk s o s' Hs E. unfold bind in E.
  destruct (m s) as [[a|e|] s1] eqn:Em.
  - destruct (Hm _ _ _ Hs Em) as [H1 E1].
    destruct (Hk a (HQ _ _ _ Hs Em) _ _ _ H1 E) as [H2 E2].
    split; [exact H2|congruence].
  - inversion E; subst. exact (Hm _ _ _ Hs Em).
  - inversion E; subst. exact (Hm _ _ _ Hs Em).
Qed.

Lemma spares_try_catch : forall {A} (m : M Combat.State A) h,
  spares m -> (forall e, spares (h e)) -> spares (try_catch m h).
Proof.
  intros A m h Hm Hh s o s' Hs E. unfold try_catch in E.
  destruct (m s) as [[a|e|] s1] eqn:Em.
  - inversion E; subst. exact (Hm _ _ _ Hs Em).
  - destruct (Hm _ _ _ Hs Em) as [H1 E1].
    destruct (Hh e _ _ _ H1 E) as [H2 E2]. split; [exact H2|congruence].
  - inversion E; subst. exact (Hm _ _ _ Hs Em).
Qed.

Lemma spares_when : forall b m, spares m -> spares (when b m).
Proof.
  intros [] m H; [exact H|apply spares_of_preserves, preserves_ret].
Qed.

Lemma spares_forEach : forall {A} (l : list A) k,
  (forall a, spares (k a)) -> spares (forEach l k).
Proof.
  intros A l k H. induction l as [|a l IH]; cbn [forEach].
  - apply spares_of_preserves, preserves_ret.
  - apply spares_bind; [apply H|intro; exact IH].
Qed.

(** A reference read from [this.enemy] in a strengthless session is null
    or the enemy object. *)
Lemma spares_with_enemy : forall {A} (k : option Combat.Ref -> M Combat.State A),
  spares (k None) -> spares (k (Some Combat.EnemyObject)) ->
  spares (bind (gets Combat.enemy) k).
Proof.
  intros A k Hn He s o s' Hs E. rewrite bind_gets in E.
  destruct Hs as [Hr Hst].
  destruct (Combat.enemy s) as [[|]|] eqn:Er.
  - congruence.
  - apply (He s o s'); [split; [congruence|exact Hst]|exact E].
  - apply (Hn s o s'); [split; [congruence|exact Hst]|exact E].
Qed.

Lemma spares_cleanup : spares Combat.cleanup.
Proof.
  intros s o s' [Hr Hs] E. unfold Combat.cleanup, modify in E.
  inversion E; subst. split; [split; [discriminate|exact Hs]|reflexivity].
Qed.

Ltac spare_step :=
  match goal with
  | |- forall _, _ => intro
  | |- spares (bind (gets Combat.enemy) _) => apply spares_with_enemy
  | |- spares (bind _ _) => apply spares_bind
  | |- spares (ret _) => apply spares_of_preserves, preserves_ret
  | |- spares (throw _) => apply spares_of_preserves, preserves_throw
  | |- spares (gets _) => apply spares_of_preserves, preserves_gets
  | |- spares (when _ _) => apply spares_when
  | |- spares (forEach _ _) => apply spares_forEach
  | |- spares (Combat.logMessage _ _) =>
      apply spares_of_preserves, preserves_logMessage; pres_side
  | |- spares (random _) =>
      apply spares_of_preserves, preserves_random; pres_side
  | |- spares (randomInt _ _ _) =>
      apply spares_of_preserves, preserves_randomInt; pres_side
  | |- spares (randomChoice _ _) =>
      apply spares_of_preserves, preserves_randomChoice; pres_side
  | |- spares (Combat.read _) => apply spares_of_preserves, preserves_read
  | |- spares (Combat.write None _) =>
      apply spares_of_preserves, preserves_throw
  | |- spares (Combat.write (Some Combat.EnemyObject) _) =>
      apply spares_of_preserves, preserves_modify; intros; reflexivity
  | |- spares Combat.cleanup => apply spares_cleanup
  | |- spares (modify _) =>
      apply spares_of_preserves, preserves_modify; pres_side
  | |- spares (if ?b then _ else _) => destruct b
  | |- spares (match ?x with _ => _ end) => destruct x
  end.

Ltac spare := repeat spare_step.

Lemma spares_endCombat : forall rnd victory reason,
  spares (Combat.endCombat rnd victory reason).
Proof.
  intros rnd victory reason. unfold Combat.endCombat.
  apply spares_bind; [spare|]. intros _.
  apply spares_bind; [spare|]. intros turnCount.
  apply spares_bind.
  { apply spares_of_preserves.
    unfold Combat.calculateExperienceGain, Combat.calculateCombatRewards,
      Combat.generateRandomItem, Combat.generateBossItem.
    pres. }
  intros gained. spare.
Qed.

Lemma spares_checkBossPhaseTransition : forall er,
  er <> Some Combat.PlayerObject ->
  spares (Combat.checkBossPhaseTransition er).
Proof.
  intros [[|]|] H; [congruence| |]; unfold Combat.checkBossPhaseTransition;
    spare.
Qed.

Lemma spares_dealDamage : forall rnd er d,
  er <> Some Combat.PlayerObject ->
  spares (Combat.dealDamage rnd er d).
Proof.
  intros rnd er d H. unfold Combat.dealDamage.
  destruct er as [[|]|]; [congruence| |];
    repeat first [ apply spares_endCombat
                 | apply spares_checkBossPhaseTransition; discriminate
                 | spare_step ].
Qed.

Lemma spares_healEntity : forall er h,
  er <> Some Combat.PlayerObject ->
  spares (Combat.healEntity er h).
Proof.
  intros [[|]|] h H; [congruence| |]; unfold Combat.healEntity; spare.
Qed.

Lemma spares_applyStatusEffect : forall rnd t effectType duration,
  spares (Combat.applyStatusEffect rnd t effectType duration).
Proof.
  intros rnd [t|] effectType duration; apply spares_of_preserves.
  - apply preserves_applyStatusEffect; pres_side.
  - unfold Combat.applyStatusEffect. cbn [Combat.read Combat.write]. pres.
Qed.

Lemma spares_applyStatusEffectTick : forall rnd er type,
  er <> Some Combat.PlayerObject ->
  spares (Combat.applyStatusEffectTick rnd er type).
Proof.
  intros rnd er type H. unfold Combat.applyStatusEffectTick.
  repeat first [ apply spares_dealDamage; exact H
               | apply spares_healEntity; exact H
               | spare_step ].
Qed.

Lemma spares_tickEffects : forall rnd er types,
  er <> Some Combat.PlayerObject ->
  spares (Combat.tickEffects rnd er types).
Proof.
  intros rnd er types H. induction types as [|t types IH];
    cbn [Combat.tickEffects]; [spare|].
  apply spares_bind; [apply spares_applyStatusEffectTick, H|]. intros _.
  apply spares_bind; [destruct er as [[|]|]; [congruence| |]; spare|].
  intros _. apply spares_bind; [spare|]. intros e.
  apply spares_bind; [exact IH|]. intros rest. spare.
Qed.

Lemma spares_processStatusEffects : forall rnd er,
  er <> Some Combat.PlayerObject ->
  spares (Combat.processStatusEffects rnd er).
Proof.
  intros rnd er H. unfold Combat.processStatusEffects.
  apply spares_bind; [spare|]. intros e.
  apply spares_bind; [apply spares_tickEffects, H|]. intros expired.
  destruct er as [[|]|]; [congruence| |]; spare.
Qed.

Lemma spares_updateCooldowns : forall er,
  er <> Some Combat.PlayerObject ->
  spares (Combat.updateCooldowns er).
Proof.
  intros [[|]|] H; [congruence| |]; unfold Combat.updateCooldowns; spare.
Qed.

Lemma spares_endEnemyTurn : forall rnd, spares (Combat.endEnemyTurn rnd).
Proof.
  intros rnd. unfold Combat.endEnemyTurn.
  repeat first [ apply spares_processStatusEffects; discriminate
               | apply spares_updateCooldowns; discriminate
               | spare_step ].
Qed.

Lemma damageFormula_NaN : forall attacker defender skill r,
  Combat.getRelevantAttackStat attacker skill = NaN
  \/ Skill.scalingFactor skill = NaN ->
  Combat.damageFormula attacker defender skill r = NaN.
Proof.
  intros attacker defender skill r H. unfold Combat.damageFormula.
  assert (E : (Skill.damage skill
               + Combat.getRelevantAttackStat attacker skill
                 * Skill.scalingFactor skill)%js = NaN).
  { destruct H as [-> | ->].
    - destruct (Skill.damage skill); reflexivity.
    - destruct (Skill.damage skill),
        (Combat.getRelevantAttackStat attacker skill); reflexivity. }
  rewrite E. cbn.
  repeat match goal with |- context [if ?b then _ else _] => destruct b end;
    reflexivity.
Qed.

Lemma applySpecialSkillEffects_fields : forall rnd skill result,
  ensures (fun r => Combat.Result.damage r = Combat.Result.damage result /\
                    Combat.Result.caster r = Combat.Result.caster result /\
                    Combat.Result.skillRef r = Combat.Result.skillRef result)
    (Combat.applySpecialSkillEffects rnd skill result).
Proof.
  intros rnd skill result. unfold Combat.applySpecialSkillEffects.
  repeat
    match goal with
    | |- forall _, _ => intro
    | |- ensures _ (bind _ _) => apply ensures_bind
    | |- ensures _ (ret _) => apply ensures_ret
    | |- ensures _ (throw _) => apply ensures_throw
    | |- ensures _ (if ?b then _ else _) => destruct b
    end;
    try match goal with |- context [if ?b then _ else _] => destruct b end;
    repeat split; reflexivity.
Qed.

(** A tame skill used from a strengthless session by the enemy resolves
    without damage. *)
Lemma executeSkill_tame : forall rnd er pr skill ref s result s',
  strengthless s ->
  er <> Some Combat.PlayerObject ->
  tame skill ->
  Combat.executeSkill rnd er pr skill ref s = (Ret result, s') ->
  (Combat.Result.damage result >? 0)%js = false /\
  Combat.Result.caster result = er /\
  Combat.Result.skillRef result = ref.
Proof.
  intros rnd er pr skill ref s result s' [_ Hst] Her Ht E.
  unfold Combat.executeSkill in E.
  apply bind_returns in E. destruct E as ([[[dmg crit] hit] msg] & s1 & E1 & E).
  apply bind_returns in E. destruct E as (healing & s2 & _ & E).
  apply bind_returns in E. destruct E as (effects & s3 & _ & E).
  apply applySpecialSkillEffects_fields in E. cbn in E.
  destruct E as (-> & -> & ->). split; [|split; reflexivity].
  destruct (Skill.damage skill >? 0)%js eqn:Ed.
  - apply bind_returns in E1. destruct E1 as (d0 & sa & Ea & E1).
    apply bind_returns in E1. destruct E1 as (c0 & sb & _ & E1).
    apply bind_returns in E1. destruct E1 as (h0 & sc & _ & E1).
    inversion E1; subst. clear E1.
    assert (Hd : d0 = NaN).
    { unfold Combat.calculateDamage in Ea.
      destruct er as [[|]|]; [congruence| |discriminate].
      rewrite bind_gets_read in Ea.
      apply bind_returns in Ea. destruct Ea as (d & sd & _ & Ea).
      apply bind_returns in Ea. destruct Ea as (x & se & _ & Ea).
      inversion Ea; subst. apply damageFormula_NaN.
      destruct Ht as [Hty|[Hsf|Hno]]; [left|right; exact Hsf|congruence].
      unfold Combat.getRelevantAttackStat. rewrite Hty. cbn. exact Hst. }
    subst d0.
    destruct h0, c0; cbn in H0; inversion H0; reflexivity.
  - inversion E1; subst. reflexivity.
Qed.

Lemma spares_applySkillResult : forall rnd result,
  (Combat.Result.damage result >? 0)%js = false ->
  Combat.Result.caster result <> Some Combat.PlayerObject ->
  Combat.Result.skillRef result = Combat.Detached ->
  spares (Combat.applySkillResult rnd result).
Proof.
  intros rnd result Hd Hc Hr. unfold Combat.applySkillResult. cbv zeta.
  rewrite Hd, Hr. cbn [andb Combat.resetCooldown].
  destruct (Combat.Result.caster result) as [[|]|]; [congruence| |];
    repeat first [ apply spares_healEntity; discriminate
                 | apply spares_applyStatusEffect
                 | spare_step ].
Qed.

Lemma chooseEnemyAction_tame : forall rnd,
  ensures tameAction (Combat.chooseEnemyAction rnd).
Proof.
  intros rnd. unfold Combat.chooseEnemyAction.
  apply ensures_bind. intros e.
  apply ensures_seq
    with (Q := fun oa => match oa with
                         | Some a => tameAction a
                         | None => True
                         end).
  { destruct (Entity.isBoss e
              && match Entity.bossData e with
                 | Some _ => true
                 | None => false
                 end); [|apply ensures_ret; exact I].
    unfold Combat.checkBossPhaseAction.
    apply ensures_bind. intros e'.
    destruct (Entity.phaseAbilities e'); [apply ensures_ret; exact I|].
    apply ensures_bind. intros x.
    destruct (JS.Qltb x 0.3); [|apply ensures_ret; exact I].
    apply ensures_bind. intros abilityName.
    destruct (Combat.getBossSkill abilityName) as [skill|] eqn:Es;
      apply ensures_ret; [|exact I].
    cbn. eapply getBossSkill_tame, Es. }
  assert (Hattack : ensures tameAction Combat.attackAction).
  { unfold Combat.attackAction.
    apply ensures_seq
      with (Q := fun skill : Skill.t => Skill.type skill = "physical").
    - unfold Combat.getEnemyBasicAttack.
      apply ensures_bind. intros e'. apply ensures_ret. reflexivity.
    - intros skill Hs. apply ensures_ret. cbn. left. exact Hs. }
  intros [a|] Ha; [apply ensures_ret; exact Ha|].
  destruct (Entity.type e); [|apply ensures_throw].
  apply ensures_bind. intros x.
  match goal with
  | |- context [Combat.pickPriority ?x ?c ?p] =>
      destruct (Combat.pickPriority x c p) as [priority|]
  end; [|exact Hattack].
  unfold Combat.getEnemyActionOfType, Combat.getEnemySpecialSkill,
    Combat.getEnemyBuffSkill, Combat.getEnemyDebuffSkill.
  repeat match goal with
         | |- ensures _ (if ?b then _ else _) => destruct b
         end;
    try exact Hattack.
  - apply ensures_ret. exact I.
  - apply ensures_bind. intros e'.
    destruct (_ && _); [apply ensures_ret; exact I|exact Hattack].
Qed.

Lemma spares_chooseEnemyAction : forall rnd,
  spares (Combat.chooseEnemyAction rnd).
Proof.
  intros rnd. apply spares_of_preserves.
  unfold Combat.chooseEnemyAction, Combat.checkBossPhaseAction,
    Combat.getEnemyActionOfType, Combat.attackAction,
    Combat.getEnemyBasicAttack, Combat.getEnemySpecialSkill,
    Combat.getEnemyBuffSkill, Combat.getEnemyDebuffSkill.
  pres.
Qed.

Lemma spares_executeSkill : forall rnd er pr skill ref,
  spares (Combat.executeSkill rnd er pr skill ref).
Proof.
  intros. apply spares_of_preserves. apply preserves_executeSkill; pres_side.
Qed.

Lemma spares_executeEnemyAction : forall rnd a,
  tameAction a -> spares (Combat.executeEnemyAction rnd a).
Proof.
  intros rnd [kind skill| |] Ha; cbn [Combat.executeEnemyAction].
  - cbn in Ha.
    assert (H : forall er, er <> Some Combat.PlayerObject ->
                spares (bind (gets Combat.player)
                          (fun pr =>
                             bind (Combat.executeSkill rnd er pr skill
                                     Combat.Detached)
                               (Combat.applySkillResult rnd)))).
    { intros er Her. apply spares_bind; [spare|]. intros pr.
      apply spares_bind_post
        with (Q := fun result =>
                     (Combat.Result.damage result >? 0)%js = false /\
                     Combat.Result.caster result = er /\
                     Combat.Result.skillRef result = Combat.Detached).
      - intros s result s' Hs E.
        exact (executeSkill_tame rnd er pr skill Combat.Detached s result s'
                 Hs Her Ha E).
      - apply spares_executeSkill.
      - intros result (Hd & Hc & Hr).
        apply spares_applySkillResult; [exact Hd|congruence|exact Hr]. }
    apply spares_with_enemy; apply H; discriminate.
  - repeat first [ apply spares_applyStatusEffect | spare_step ].
  - repeat first [ apply spares_healEntity; discriminate | spare_step ].
Qed.

Lemma spares_executeEnemyTurn : forall rnd,
  spares (Combat.executeEnemyTurn rnd).
Proof.
  intros rnd. unfold Combat.executeEnemyTurn.
  apply spares_bind; [spare|]. intros active.
  apply spares_bind; [spare|]. intros turn.
  destruct (negb active || negb (Combat.Turn_eqb turn Combat.EnemyTurn));
    [spare|].
  apply spares_try_catch; [|intros _; apply spares_endEnemyTurn].
  apply spares_bind; [spare|]. intros e.
  destruct (Combat.has "stunned" (Entity.statusEffects e)
            || Combat.has "frozen" (Entity.statusEffects e)).
  - apply spares_bind; [spare|]. intros _. apply spares_endEnemyTurn.
  - apply spares_bind_post with (Q := tameAction).
    + intros s a s' _ E. exact (chooseEnemyAction_tame rnd s a s' E).
    + apply spares_chooseEnemyAction.
    + intros a Ha. apply spares_bind; [apply spares_executeEnemyAction, Ha|].
      intros _. apply spares_endEnemyTurn.
Qed.

(** X16.  No enemy hurts the player.  In a session whose enemy object has
    no [strength] property (no enemy or boss of the map generator has one)
    and plain names for its phase abilities, an enemy turn changes nothing of the player object but its status
    effects, however the turn ends: hp, mana and skills are what they
    were.  The basic attack computes its damage from [strength], the boss
    skills that have a damage component lack a scaling factor, the damage
    is NaN in both cases and [applySkillResult] deals damage only if it is
    [> 0]; ticks, heals and the defensive stance of the enemy's turn act on
    the enemy. *)
Theorem enemy_turn_spares_the_player :
  forall (rnd : nat -> Q) (s : Combat.State) (o : outcome unit)
         (s' : Combat.State),
    Combat.enemy s <> Some Combat.PlayerObject ->
    Entity.strength (Combat.enemyObject s) = NaN ->
    plainAbilities (Combat.enemyObject s) ->
    Combat.executeEnemyTurn rnd s = (o, s') ->
    Combat.playerObject s'
    = Entity.set_statusEffects
        (Entity.statusEffects (Combat.playerObject s'))
        (Combat.playerObject s) /\
    Entity.hp (Combat.playerObject s') = Entity.hp (Combat.playerObject s) /\
    Entity.mana (Combat.playerObject s')
    = Entity.mana (Combat.playerObject s) /\
    Entity.skills (Combat.playerObject s')
    = Entity.skills (Combat.playerObject s).
Proof.
  intros rnd s o s' Hr Hs _ E.
  destruct (spares_executeEnemyTurn rnd s o s' (conj Hr Hs) E) as [_ H].
  unfold playerSheet in H.
  assert (Hobj : Combat.playerObject s'
                 = Entity.set_statusEffects
                     (Entity.statusEffects (Combat.playerObject s'))
                     (Combat.playerObject s)).
  { destruct (Combat.playerObject s'), (Combat.playerObject s).
    cbn in H |- *. inversion H. reflexivity. }
  split; [exact Hobj|]. rewrite Hobj. repeat split.
Qed.

Lemma enemy_turn_spares_the_player_witness :
  exists s',
    Combat.executeEnemyTurn half
      (Combat.set_turn Combat.EnemyTurn 1 warriorVsGoblin) = (Ret tt, s') /\
    Combat.currentTurn s' = Combat.PlayerTurn /\
    Entity.hp (Combat.playerObject s') = Fin 160.
Proof.
  destruct (Combat.executeEnemyTurn half
              (Combat.set_turn Combat.EnemyTurn 1 warriorVsGoblin))
    as [o s'] eqn:E.
  destruct (enemy_turn_spares_the_player half
              (Combat.set_turn Combat.EnemyTurn 1 warriorVsGoblin) o s')
    as (_ & Hhp & _).
  - discriminate.
  - reflexivity.
  - split; [constructor|]. intros bossData phase H. discriminate H.
  - exact E.
  - exists s'. vm_compute in E. injection E as <- <-.
    split; [reflexivity|]. split; [reflexivity|]. rewrite Hhp. reflexivity.
Defined.

(** ** The entity factory *)


Lemma assoc_None_keys : forall {A} k (l : list (string * A)),
  assoc k l = None -> ~ In k (map fst l).
Proof.
  intros A k l. induction l as [|[k' v'] l IH]; cbn; [tauto|].
  destruct (String.eqb_spec k k') as [->|Hne]; [discriminate|].
  intros H [E|Hin]; [congruence|exact (IH H Hin)].
Qed.






(** One pass of the leveling loop keeps what the character is missing of
    its health and mana, and the skills of a character that has none
    locked. *)
Lemma unlock_if_reached_unlocked : forall level skills,
  Forall (fun skill => Skill.unlocked skill = true) skills ->
  map (Entities.unlock_if_reached level) skills = skills.
Proof.
  intros level skills H. induction H as [|skill skills Hu _ IH]; cbn;
    [reflexivity|].
  rewrite IH. unfold Entities.unlock_if_reached. rewrite Hu. reflexivity.
Qed.

Lemma levelUpWhileDue_inv : forall rnd fuel w t o w',
  assoc (Entities.className (Entities.subject w)) Entities.classTemplates
  = Some t ->
  Entities.levelUpWhileDue rnd fuel w = (o, w') ->
  let c := Entities.subject w in
  let c' := Entities.subject w' in
  (o = Ret tt \/ o = Timeout) /\
  Entities.className c' = Entities.className c /\
  (Entities.level c <= Entities.level c')%Z /\
  Entities.cursor w'
  = (Entities.cursor w
     + 4 * Z.to_nat (Entities.level c' - Entities.level c))%nat /\
  (Entities.maxHealth c' - Entities.hp c'
   = Entities.maxHealth c - Entities.hp c)%Z /\
  (Entities.maxMana c' - Entities.mana c'
   = Entities.maxMana c - Entities.mana c)%Z /\
  (Forall (fun skill => Skill.unlocked skill = true) (Entities.skills c) ->
   Entities.skills c' = Entities.skills c).
Proof.
  intros rnd fuel. induction fuel as [|fuel IH]; intros w t o w' Ht E;
    rewrite levelUpWhileDue_unfold in E;
    destruct (Entities.experience (Entities.subject w)
              >=? Entities.experienceToNext (Entities.subject w))%Z;
    try (injection E as <- <-; cbv zeta;
         repeat split; auto; try lia;
         rewrite Z.sub_diag; cbn; lia).
  destruct (levelUpCharacter_spec rnd w t Ht)
    as (res & w1 & E1 & Hcur & Hc & _ & Hl & _ & _ & _ & _ & _ & _ & _
        & _ & _ & Hhp & Hmana & _ & _ & _ & Hsk & _).
  unfold bind in E. rewrite E1 in E.
  assert (Ht1 : assoc (Entities.className (Entities.subject w1))
                  Entities.classTemplates = Some t)
    by (rewrite Hc; exact Ht).
  destruct (IH w1 t o w' Ht1 E) as (Ho & Hc' & Hl' & Hcur' & Hhp' & Hmana' & Hsk').
  cbv zeta. split; [exact Ho|]. split; [congruence|].
  split; [lia|]. split; [|split; [lia|split; [lia|]]].
  - rewrite Hcur', Hcur, Hl.
    replace (Entities.level (Entities.subject w')
             - Entities.level (Entities.subject w))%Z
      with (1 + (Entities.level (Entities.subject w')
                 - (Entities.level (Entities.subject w) + 1)))%Z by lia.
    rewrite Z2Nat.inj_add by lia. cbn. lia.
  - intro Hall.
    assert (Entities.skills (Entities.subject w1)
            = Entities.skills (Entities.subject w))
      by (rewrite Hsk; apply unlock_if_reached_unlocked; exact Hall).
    rewrite Hsk'; [assumption|]. congruence.
Qed.

(** X18.  However an experience grant to a character of a known class
    ends, with the loop done or out of fuel, it never throws, never lowers
    the level, draws four random numbers per level gained, leaves the
    health and the mana the character is missing as they were, and leaves
    the skills of a character with no locked skill as they were (so a
    character built by [createCharacter] never gains or loses a skill). *)
Theorem addExperience_keeps_wounds_and_skills :
  forall (rnd : nat -> Q) (fuel : nat) (experience : Z)
         (w w' : Entities.World) (t : Entities.ClassTemplate)
         (o : outcome unit),
    assoc (Entities.className (Entities.subject w)) Entities.classTemplates
    = Some t ->
    Entities.addExperienceToCharacter rnd fuel experience w = (o, w') ->
    let c := Entities.subject w in
    let c' := Entities.subject w' in
    (o = Ret tt \/ o = Timeout) /\
    Entities.className c' = Entities.className c /\
    (Entities.level c <= Entities.level c')%Z /\
    Entities.cursor w'
    = (Entities.cursor w
       + 4 * Z.to_nat (Entities.level c' - Entities.level c))%nat /\
    (Entities.maxHealth c' - Entities.hp c'
     = Entities.maxHealth c - Entities.hp c)%Z /\
    (Entities.maxMana c' - Entities.mana c'
     = Entities.maxMana c - Entities.mana c)%Z /\
    (Forall (fun skill => Skill.unlocked skill = true) (Entities.skills c) ->
     Entities.skills c' = Entities.skills c).
Proof.
  intros rnd fuel experience w w' t o Ht E.
  unfold Entities.addExperienceToCharacter, Entities.update in E.
  cbv beta iota delta [bind gets modify] in E.
  apply (levelUpWhileDue_inv rnd fuel _ t o w') in E; [|exact Ht].
  exact E.
Qed.

Lemma addExperience_keeps_wounds_and_skills_witness :
  exists c w',
    Entities.createCharacter "warrior" "order" = Ret c /\
    Entities.addExperienceToCharacter half 250 250
      {| Entities.subject := Entities.with_resources 160 45 100 45 c;
         Entities.cursor := 0 |} = (Ret tt, w') /\
    Entities.level (Entities.subject w') = 3%Z /\
    Entities.cursor w' = 8%nat /\
    (Entities.maxHealth (Entities.subject w')
     - Entities.hp (Entities.subject w') = 60)%Z /\
    Entities.skills (Entities.subject w') = Entities.skills c.
Proof.
  destruct (Entities.createCharacter "warrior" "order") as [c| |] eqn:Ec;
    try (vm_compute in Ec; discriminate).
  destruct (Entities.addExperienceToCharacter half 250 250
              {| Entities.subject := Entities.with_resources 160 45 100 45 c;
                 Entities.cursor := 0 |}) as [o w'] eqn:E.
  assert (Hc : Entities.className c = "warrior")
    by (vm_compute in Ec; injection Ec as <-; reflexivity).
  assert (Hsk : Forall (fun skill => Skill.unlocked skill = true)
                  (Entities.skills c))
    by (vm_compute in Ec; injection Ec as <-; repeat constructor).
  assert (Hh : (Entities.maxHealth c = 160)%Z)
    by (vm_compute in Ec; injection Ec as <-; reflexivity).
  destruct (assoc "warrior" Entities.classTemplates) as [t|] eqn:Et;
    [|vm_compute in Et; discriminate].
  destruct (addExperience_keeps_wounds_and_skills half 250 250
              {| Entities.subject := Entities.with_resources 160 45 100 45 c;
                 Entities.cursor := 0 |} w' t o)
    as (_ & _ & _ & Hcur & Hhp & _ & Hskills);
    [cbn; rewrite Hc; exact Et | exact E |].
  assert (Ho : o = Ret tt /\ Entities.level (Entities.subject w') = 3%Z).
  { vm_compute in Ec. injection Ec as <-. vm_compute in E.
    injection E as <- <-. split; reflexivity. }
  destruct Ho as [-> Hl].
  exists c, w'. split; [reflexivity|]. split; [exact E|].
  split; [exact Hl|].
  cbn [Entities.subject Entities.cursor Entities.with_resources
       Entities.level Entities.maxHealth Entities.hp Entities.skills] in *.
  split; [rewrite Hcur, Hl; vm_compute in Ec; injection Ec as <-; reflexivity|].
  split; [lia|]. apply Hskills. exact Hsk.
Defined.

(** ** Version comparison *)

Lemma lt_asym : forall a b : num, (a <? b)%js = true -> (b <? a)%js = false.
Proof.
  intros [|x] [|y]; cbn; try reflexivity; try discriminate.
  unfold JS.Qltb. intro H. apply negb_true_iff in H.
  apply negb_false_iff. apply Qle_bool_iff.
  apply Qle_bool_false in H. lra.
Qed.

Lemma compareFrom_flip : forall v1parts v2parts todo i,
  Persistence.compareFrom v2parts v1parts i todo
  = (- Persistence.compareFrom v1parts v2parts i todo)%Z.
Proof.
  intros a b todo. induction todo as [|todo IH]; intro i; cbn;
    [reflexivity|].
  unfold JS.gt.
  destruct (Persistence.part b i <? Persistence.part a i)%js eqn:E1;
    destruct (Persistence.part a i <? Persistence.part b i)%js eqn:E2;
    try reflexivity.
  - apply lt_asym in E1. congruence.
  - apply IH.
Qed.

(** X19.  [compareVersions] is antisymmetric: swapping the two versions
    negates the result (so a version never compares below or above
    itself). *)
Theorem compareVersions_antisymmetric :
  forall v1parts v2parts : list num,
    Persistence.compareVersions v2parts v1parts
    = (- Persistence.compareVersions v1parts v2parts)%Z /\
    Persistence.compareVersions v1parts v1parts = 0%Z.
Proof.
  intros a b.
  assert (H : forall x y,
             Persistence.compareVersions y x
             = (- Persistence.compareVersions x y)%Z).
  { intros x y. unfold Persistence.compareVersions.
    rewrite Nat.max_comm. apply compareFrom_flip. }
  split; [apply H|]. pose proof (H a a). lia.
Qed.

Lemma part_padded : forall parts pad i,
  Forall (fun x => JS.truthy x = false) pad ->
  Persistence.part (parts ++ pad) i = Persistence.part parts i.
Proof.
  intros parts pad i Hpad. unfold Persistence.part.
  destruct (Nat.lt_ge_cases i (List.length parts)) as [Hlt|Hge].
  - rewrite nth_error_app1 by exact Hlt. reflexivity.
  - rewrite nth_error_app2 by exact Hge.
    replace (nth_error parts i) with (@None num)
      by (symmetry; apply nth_error_None; exact Hge).
    destruct (nth_error pad (i - List.length parts)) as [x|] eqn:E;
      [|reflexivity].
    apply nth_error_In in E. rewrite Forall_forall in Hpad.
    unfold JS.or_else. rewrite (Hpad x E). reflexivity.
Qed.

Lemma compareFrom_ext : forall a a' b b' todo i,
  (forall j, Persistence.part a j = Persistence.part a' j) ->
  (forall j, Persistence.part b j = Persistence.part b' j) ->
  Persistence.compareFrom a b i todo = Persistence.compareFrom a' b' i todo.
Proof.
  intros a a' b b' todo. induction todo as [|todo IH]; intros i Ha Hb; cbn;
    [reflexivity|].
  rewrite (Ha i), (Hb i), (IH (S i) Ha Hb). reflexivity.
Qed.

Lemma part_beyond : forall parts i,
  (List.length parts <= i)%nat -> Persistence.part parts i = 0.
Proof.
  intros parts i H. unfold Persistence.part.
  replace (nth_error parts i) with (@None num)
    by (symmetry; apply nth_error_None; exact H).
  reflexivity.
Qed.

Lemma compareFrom_beyond : forall a b todo i,
  (List.length a <= i)%nat -> (List.length b <= i)%nat ->
  Persistence.compareFrom a b i todo = 0%Z.
Proof.
  intros a b todo. induction todo as [|todo IH]; intros i Ha Hb; cbn;
    [reflexivity|].
  rewrite (part_beyond a i Ha), (part_beyond b i Hb). cbn.
  apply IH; lia.
Qed.

Lemma compareFrom_more : forall a b todo i k,
  (Nat.max (List.length a) (List.length b) <= i + todo)%nat ->
  Persistence.compareFrom a b i (todo + k)
  = Persistence.compareFrom a b i todo.
Proof.
  intros a b todo. induction todo as [|todo IH]; intros i k H.
  - cbn [Nat.add Persistence.compareFrom].
    apply compareFrom_beyond; lia.
  - cbn [Nat.add Persistence.compareFrom].
    rewrite IH by lia. reflexivity.
Qed.

(** X20.  [compareVersions] ignores trailing parts that are zero or not a
    number: padding either version with such parts does not change the
    result. *)
Theorem compareVersions_ignores_trailing_zeros :
  forall v1parts v2parts pad1 pad2 : list num,
    Forall (fun x => JS.truthy x = false) pad1 ->
    Forall (fun x => JS.truthy x = false) pad2 ->
    Persistence.compareVersions (v1parts ++ pad1) (v2parts ++ pad2)
    = Persistence.compareVersions v1parts v2parts.
Proof.
  intros a b pad1 pad2 H1 H2. unfold Persistence.compareVersions.
  rewrite (compareFrom_ext (a ++ pad1) a (b ++ pad2) b)
    by (intro j; apply part_padded; assumption).
  rewrite !length_app.
  set (n := Nat.max (List.length a) (List.length b)).
  replace (Nat.max (List.length a + List.length pad1)
             (List.length b + List.length pad2))
    with (n + (Nat.max (List.length a + List.length pad1)
                 (List.length b + List.length pad2) - n))%nat
    by (unfold n; lia).
  apply compareFrom_more. unfold n. lia.
Qed.


Lemma compareVersions_ignores_trailing_zeros_witness :
  Persistence.compareVersions ([Fin 1; Fin 2] ++ [Fin 0; NaN])
    ([Fin 1; Fin 10] ++ [])
  = Persistence.compareVersions [Fin 1; Fin 2] [Fin 1; Fin 10] /\
  Persistence.compareVersions [Fin 1; Fin 2] [Fin 1; Fin 10] = (-1)%Z.
Proof.
  split; [|reflexivity].
  apply (compareVersions_ignores_trailing_zeros [Fin 1; Fin 2]
           [Fin 1; Fin 10] [Fin 0; NaN] []).
  - repeat constructor.
  - constructor.
Defined.

(** ** The meta-progression *)

Ltac ered :=
  cbv beta iota delta
    [bind gets modify ret throw when GameEngine.update
     GameEngine.updateBonuses GameEngine.buildingLevel].

Lemma updateGlobalBonuses_returns : forall s library forge altar,
  assoc "library" (GameEngine.buildings (GameEngine.metaProgression s))
  = Some library ->
  assoc "forge" (GameEngine.buildings (GameEngine.metaProgression s))
  = Some forge ->
  assoc "altar" (GameEngine.buildings (GameEngine.metaProgression s))
  = Some altar ->
  GameEngine.updateGlobalBonuses s
  = (Ret tt,
     GameEngine.set_metaProgression
       (GameEngine.set_globalBonuses
          {| GameEngine.xpMultiplier :=
               1.0 + inject_Z (GameEngine.level library - 1) * 0.1;
             GameEngine.goldMultiplier :=
               1.0 + inject_Z (GameEngine.level forge - 1) * 0.15;
             GameEngine.craftingSpeed :=
               GameEngine.craftingSpeed
                 (GameEngine.globalBonuses (GameEngine.metaProgression s));
             GameEngine.startingStats :=
               ((GameEngine.level altar - 1) * 2)%Z |}
          (GameEngine.metaProgression s)) s).
Proof.
  intros s library forge altar Hl Hf Ha.
  unfold GameEngine.updateGlobalBonuses. ered.
  rewrite Hl.
  cbn [GameEngine.metaProgression GameEngine.set_metaProgression
       GameEngine.buildings GameEngine.set_globalBonuses].
  rewrite Hf.
  cbn [GameEngine.metaProgression GameEngine.set_metaProgression
       GameEngine.buildings GameEngine.set_globalBonuses].
  rewrite Ha. reflexivity.
Qed.

Lemma updateGlobalBonuses_settles : forall s,
  hasCoreBuildings (GameEngine.metaProgression s) ->
  exists s',
    GameEngine.updateGlobalBonuses s = (Ret tt, s') /\
    settled (GameEngine.metaProgression s') /\
    besidesMeta s' = besidesMeta s /\
    GameEngine.echoes (GameEngine.metaProgression s')
    = GameEngine.echoes (GameEngine.metaProgression s) /\
    GameEngine.totalRuns (GameEngine.metaProgression s')
    = GameEngine.totalRuns (GameEngine.metaProgression s) /\
    GameEngine.totalVictories (GameEngine.metaProgression s')
    = GameEngine.totalVictories (GameEngine.metaProgression s) /\
    GameEngine.buildings (GameEngine.metaProgression s')
    = GameEngine.buildings (GameEngine.metaProgression s) /\
    GameEngine.factionReputations (GameEngine.metaProgression s')
    = GameEngine.factionReputations (GameEngine.metaProgression s).
Proof.
  intros s H.
  destruct (assoc "library"
              (GameEngine.buildings (GameEngine.metaProgression s)))
    as [library|] eqn:Hl;
    [|exfalso; apply (H "library"); [cbn; tauto|exact Hl]].
  destruct (assoc "forge"
              (GameEngine.buildings (GameEngine.metaProgression s)))
    as [forge|] eqn:Hf;
    [|exfalso; apply (H "forge"); [cbn; tauto|exact Hf]].
  destruct (assoc "altar"
              (GameEngine.buildings (GameEngine.metaProgression s)))
    as [altar|] eqn:Ha;
    [|exfalso; apply (H "altar"); [cbn; tauto|exact Ha]].
  eexists. split; [apply (updateGlobalBonuses_returns s _ _ _ Hl Hf Ha)|].
  split; [|repeat split; reflexivity].
  exists library, forge, altar.
  cbn [GameEngine.metaProgression GameEngine.set_metaProgression
       GameEngine.buildings GameEngine.set_globalBonuses
       GameEngine.globalBonuses GameEngine.xpMultiplier
       GameEngine.goldMultiplier GameEngine.startingStats].
  repeat split; try assumption; try reflexivity; ring.
Qed.

Lemma getBuildingUpgradeCost_found : forall buildingType s building,
  assoc buildingType (GameEngine.buildings (GameEngine.metaProgression s))
  = Some building ->
  GameEngine.getBuildingUpgradeCost buildingType s
  = (Ret (GameEngine.Finite (upgradeCost buildingType building)), s).
Proof.
  intros buildingType s building H.
  unfold GameEngine.getBuildingUpgradeCost, gets. rewrite H. reflexivity.
Qed.

Lemma getBuildingUpgradeCost_missing : forall buildingType s,
  assoc buildingType (GameEngine.buildings (GameEngine.metaProgression s))
  = None ->
  GameEngine.getBuildingUpgradeCost buildingType s
  = (Ret GameEngine.Infinity, s).
Proof.
  intros buildingType s H.
  unfold GameEngine.getBuildingUpgradeCost, gets. rewrite H. reflexivity.
Qed.

Lemma upgradeBuilding_unfold : forall buildingType s,
  GameEngine.upgradeBuilding buildingType s
  = match assoc buildingType
            (GameEngine.buildings (GameEngine.metaProgression s)) with
    | None => (Ret false, s)
    | Some building =>
        let c := upgradeCost buildingType building in
        if (GameEngine.echoes (GameEngine.metaProgression s) >=? c)%Z
        then bind GameEngine.updateGlobalBonuses (fun _ => ret true)
               (upgraded buildingType building c s)
        else (Ret false, s)
    end.
Proof.
  intros buildingType s.
  unfold GameEngine.upgradeBuilding.
  cbv beta iota delta [bind gets].
  destruct (assoc buildingType
              (GameEngine.buildings (GameEngine.metaProgression s)))
    as [building|] eqn:E; [|reflexivity].
  rewrite (getBuildingUpgradeCost_found buildingType s building E).
  cbv zeta.
  destruct (GameEngine.echoes (GameEngine.metaProgression s)
            >=? upgradeCost buildingType building)%Z; reflexivity.
Qed.

Lemma upgraded_hasCoreBuildings : forall buildingType building c s,
  hasCoreBuildings (GameEngine.metaProgression s) ->
  hasCoreBuildings
    (GameEngine.metaProgression (upgraded buildingType building c s)).
Proof.
  intros buildingType building c s H k Hk.
  cbn [upgraded GameEngine.metaProgression GameEngine.set_metaProgression
       GameEngine.buildings GameEngine.set_buildings].
  destruct (String.eqb_spec k buildingType) as [->|Hne].
  - rewrite assoc_mapSet_same. discriminate.
  - rewrite assoc_mapSet_other by exact Hne. apply H. exact Hk.
Qed.

(** The cost of an upgrade: positive, at least the base cost from level 1
    on, and half as much again, rounded down, with each level. *)
Lemma baseCost_bounds : forall buildingType,
  (100 <= match assoc buildingType GameEngine.baseCosts with
          | Some c => c
          | None => 100
          end <= 250)%Z.
Proof.
  intro k. unfold GameEngine.baseCosts. cbn [assoc].
  repeat match goal with
         | |- context [String.eqb ?a ?b] => destruct (String.eqb a b)
         end; lia.
Qed.

Lemma upgradeCost_nonneg : forall buildingType building,
  (0 <= upgradeCost buildingType building)%Z.
Proof.
  intros k b. unfold upgradeCost.
  pose proof (baseCost_bounds k) as Hb.
  set (base := match assoc k GameEngine.baseCosts with
               | Some c => c
               | None => 100%Z
               end) in *.
  change 0%Z with (Qfloor 0). apply Qfloor_resp_le.
  apply Qmult_le_0_compat.
  - change 0 with (inject_Z 0). rewrite <- Zle_Qle. lia.
  - apply Qpower_0_le. lra.
Qed.

Lemma upgradeCost_step : forall buildingType building,
  (1 <= GameEngine.level building)%Z ->
  let next := {| GameEngine.level := GameEngine.level building + 1;
                 GameEngine.experience := 0 |} in
  (100 <= upgradeCost buildingType building)%Z /\
  (upgradeCost buildingType building + 50
   <= upgradeCost buildingType next)%Z /\
  (3 * upgradeCost buildingType building - 1
   <= 2 * upgradeCost buildingType next)%Z /\
  (2 * upgradeCost buildingType next
   <= 3 * upgradeCost buildingType building + 2)%Z.
Proof.
  intros k b Hl next. unfold upgradeCost.
  pose proof (baseCost_bounds k) as Hb.
  set (base := match assoc k GameEngine.baseCosts with
               | Some c => c
               | None => 100%Z
               end) in *.
  cbn [next GameEngine.level].
  assert (Hp : 1 <= 1.5 ^ (GameEngine.level b - 1))
    by (apply Qpower_1_le; [lra|lia]).
  assert (Hn : 1.5 ^ (GameEngine.level b + 1 - 1)
               == 1.5 ^ (GameEngine.level b - 1) * 1.5).
  { replace (GameEngine.level b + 1 - 1)%Z
      with ((GameEngine.level b - 1) + 1)%Z by lia.
    rewrite Qpower_plus by lra. reflexivity. }
  set (p := 1.5 ^ (GameEngine.level b - 1)) in *.
  assert (Hbase : 100 <= inject_Z base)
    by (change 100 with (inject_Z 100); rewrite <- Zle_Qle; lia).
  set (x := inject_Z base * p).
  assert (Hx : 100 <= x) by (unfold x; nra).
  assert (Ex : Qfloor (inject_Z base * 1.5 ^ (GameEngine.level b + 1 - 1))
               = Qfloor (x * 1.5)).
  { apply Qfloor_comp. rewrite Hn. unfold x. ring. }
  rewrite Ex.
  pose proof (Qfloor_le x) as H1. pose proof (Qlt_floor x) as H2.
  pose proof (Qfloor_le (x * 1.5)) as H3.
  pose proof (Qlt_floor (x * 1.5)) as H4.
  rewrite inject_Z_plus in H2, H4. change (inject_Z 1) with 1 in H2, H4.
  set (c := Qfloor x) in *. set (c' := Qfloor (x * 1.5)) in *.
  repeat split;
    apply Z.lt_succ_r; unfold Z.succ, Z.sub; cbn [Z.opp]; rewrite Zlt_Qlt;
    repeat rewrite ?inject_Z_plus, ?inject_Z_mult;
    change (inject_Z 100) with 100; change (inject_Z 50) with 50;
    change (inject_Z 3) with 3; change (inject_Z 2) with 2;
    change (inject_Z (-1)) with (-1); change (inject_Z 1) with 1;
    lra.
Qed.

(** X21.  In an engine that has its library, forge and altar,
    [upgradeBuilding] goes through exactly when [canAffordUpgrade] says
    so.  It then takes the cost off the echoes, which stay non-negative,
    raises the level of that building by one and resets its experience,
    leaves the other buildings, the counters, the reputations and the run
    alone, and leaves the bonuses recomputed from the new levels.
    Otherwise, also for a building the engine does not have, it returns
    false and changes nothing. *)
Theorem upgradeBuilding_goes_through_iff_affordable :
  forall (buildingType : string) (s : GameEngine.t),
    hasCoreBuildings (GameEngine.metaProgression s) ->
    exists affordable : bool,
      GameEngine.canAffordUpgrade buildingType s = (Ret affordable, s) /\
      if affordable then
        exists building s',
          let m := GameEngine.metaProgression s in
          let m' := GameEngine.metaProgression s' in
          let c := upgradeCost buildingType building in
          assoc buildingType (GameEngine.buildings m) = Some building /\
          GameEngine.getBuildingUpgradeCost buildingType s
          = (Ret (GameEngine.Finite c), s) /\
          GameEngine.upgradeBuilding buildingType s = (Ret true, s') /\
          GameEngine.echoes m' = (GameEngine.echoes m - c)%Z /\
          (0 <= GameEngine.echoes m')%Z /\
          assoc buildingType (GameEngine.buildings m')
          = Some {| GameEngine.level := GameEngine.level building + 1;
                    GameEngine.experience := 0 |} /\
          (forall k, k <> buildingType ->
                     assoc k (GameEngine.buildings m')
                     = assoc k (GameEngine.buildings m)) /\
          settled m' /\
          GameEngine.totalRuns m' = GameEngine.totalRuns m /\
          GameEngine.totalVictories m' = GameEngine.totalVictories m /\
          GameEngine.factionReputations m' = GameEngine.factionReputations m /\
          besidesMeta s' = besidesMeta s
      else
        GameEngine.upgradeBuilding buildingType s = (Ret false, s).
Proof.
  intros buildingType s Hcore.
  unfold GameEngine.canAffordUpgrade. rewrite upgradeBuilding_unfold.
  destruct (assoc buildingType
              (GameEngine.buildings (GameEngine.metaProgression s)))
    as [building|] eqn:E.
  - cbv beta iota delta [bind gets ret].
    rewrite (getBuildingUpgradeCost_found buildingType s building E).
    cbv zeta. cbn [GameEngine.covers].
    destruct (Z.geb_spec (GameEngine.echoes (GameEngine.metaProgression s))
                (upgradeCost buildingType building)) as [Hge|Hlt].
    + exists true. split; [reflexivity|].
      destruct (updateGlobalBonuses_settles
                  (upgraded buildingType building
                     (upgradeCost buildingType building) s)
                  (upgraded_hasCoreBuildings _ _ _ _ Hcore))
        as (s' & Es & Hset & Hrest & He & Hr & Hv & Hb & Hf).
      exists building, s'. cbv zeta.
      split; [reflexivity|]. split; [reflexivity|].
      split; [unfold bind; rewrite Es; reflexivity|].
      cbn [upgraded GameEngine.metaProgression GameEngine.set_metaProgression
           GameEngine.buildings GameEngine.set_buildings
           GameEngine.echoes GameEngine.set_echoes GameEngine.totalRuns
           GameEngine.totalVictories GameEngine.factionReputations] in *.
      split; [exact He|].
      split; [pose proof (upgradeCost_nonneg buildingType building); lia|].
      split; [rewrite Hb; apply assoc_mapSet_same|].
      split; [intros k Hk; rewrite Hb; apply assoc_mapSet_other; exact Hk|].
      split; [exact Hset|].
      repeat split; assumption.
    + exists false. split; reflexivity.
  - cbv beta iota delta [bind gets ret].
    rewrite (getBuildingUpgradeCost_missing buildingType s E).
    exists false. split; reflexivity.
Qed.

Lemma upgradeBuilding_goes_through_iff_affordable_witness :
  exists s',
    GameEngine.upgradeBuilding "forge"
      (GameEngine.set_metaProgression
         (GameEngine.set_echoes 120
            (GameEngine.metaProgression GameEngine.fresh)) GameEngine.fresh)
    = (Ret true, s') /\
    GameEngine.echoes (GameEngine.metaProgression s') = 20%Z /\
    settled (GameEngine.metaProgression s').
Proof.
  destruct (upgradeBuilding_goes_through_iff_affordable "forge"
              (GameEngine.set_metaProgression
                 (GameEngine.set_echoes 120
                    (GameEngine.metaProgression GameEngine.fresh))
                 GameEngine.fresh))
    as (affordable & Ea & H).
  - intros k [<-|[<-|[<-|[]]]]; discriminate.
  - vm_compute in Ea. injection Ea as <-.
    destruct H as (building & s' & Eb & _ & Eu & He & _ & _ & _ & Hs & _).
    exists s'. split; [exact Eu|]. split; [|exact Hs].
    rewrite He. vm_compute in Eb. injection Eb as <-. reflexivity.
Defined.

Lemma updateGlobalBonuses_keeps_buildings : forall s,
  GameEngine.buildings
    (GameEngine.metaProgression (snd (GameEngine.updateGlobalBonuses s)))
  = GameEngine.buildings (GameEngine.metaProgression s).
Proof.
  intro s. unfold GameEngine.updateGlobalBonuses. ered.
  destruct (assoc "library"
              (GameEngine.buildings (GameEngine.metaProgression s)));
    [|reflexivity].
  cbn [GameEngine.metaProgression GameEngine.set_metaProgression
       GameEngine.buildings GameEngine.set_globalBonuses].
  destruct (assoc "forge"
              (GameEngine.buildings (GameEngine.metaProgression s)));
    [|reflexivity].
  cbn [GameEngine.metaProgression GameEngine.set_metaProgression
       GameEngine.buildings GameEngine.set_globalBonuses].
  destruct (assoc "altar"
              (GameEngine.buildings (GameEngine.metaProgression s)));
    reflexivity.
Qed.

(** What a call of [upgradeBuilding] that returned true has done to the
    buildings, the echoes and the counter of runs. *)
Lemma upgradeBuilding_true : forall buildingType s s',
  GameEngine.upgradeBuilding buildingType s = (Ret true, s') ->
  exists building,
    assoc buildingType (GameEngine.buildings (GameEngine.metaProgression s))
    = Some building /\
    (upgradeCost buildingType building
     <= GameEngine.echoes (GameEngine.metaProgression s))%Z /\
    GameEngine.buildings (GameEngine.metaProgression s')
    = Combat.mapSet buildingType
        {| GameEngine.level := GameEngine.level building + 1;
           GameEngine.experience := 0 |}
        (GameEngine.buildings (GameEngine.metaProgression s)) /\
    GameEngine.totalRuns (GameEngine.metaProgression s')
    = GameEngine.totalRuns (GameEngine.metaProgression s).
Proof.
  intros buildingType s s' E. rewrite upgradeBuilding_unfold in E.
  destruct (assoc buildingType
              (GameEngine.buildings (GameEngine.metaProgression s)))
    as [building|]; [|discriminate].
  cbv zeta in E.
  destruct (Z.geb_spec (GameEngine.echoes (GameEngine.metaProgression s))
              (upgradeCost buildingType building)) as [Hge|Hlt];
    [|discriminate].
  exists building. split; [reflexivity|]. split; [exact Hge|].
  pose proof (updateGlobalBonuses_keeps_buildings
                (upgraded buildingType building
                   (upgradeCost buildingType building) s)) as Hb.
  unfold bind in E.
  destruct (GameEngine.updateGlobalBonuses
              (upgraded buildingType building
                 (upgradeCost buildingType building) s))
    as [[[]| |] s1] eqn:Eu; try discriminate.
  injection E as <-. cbn [snd] in Hb. split; [exact Hb|].
  revert Eu. unfold GameEngine.updateGlobalBonuses. ered.
  cbn [upgraded GameEngine.metaProgression GameEngine.set_metaProgression
       GameEngine.buildings GameEngine.set_buildings
       GameEngine.set_globalBonuses].
  repeat match goal with
         | |- context [match assoc ?k ?l with _ => _ end] =>
             destruct (assoc k l);
             cbn [GameEngine.metaProgression GameEngine.set_metaProgression
                  GameEngine.buildings GameEngine.set_buildings
                  GameEngine.set_globalBonuses]
         end;
    intro Eu; try discriminate; injection Eu as <-; reflexivity.
Qed.

(** X22.  From level 1 on an upgrade costs at least 100 echoes, and the
    upgrade that follows one that went through costs half as much again,
    to the rounding: at least 50 echoes more. *)
Theorem upgrade_cost_grows_by_half :
  forall (buildingType : string) (s s' : GameEngine.t)
         (building : GameEngine.Building),
    plainKey buildingType ->
    assoc buildingType (GameEngine.buildings (GameEngine.metaProgression s))
    = Some building ->
    (1 <= GameEngine.level building)%Z ->
    GameEngine.upgradeBuilding buildingType s = (Ret true, s') ->
    exists c c' : Z,
      GameEngine.getBuildingUpgradeCost buildingType s
      = (Ret (GameEngine.Finite c), s) /\
      GameEngine.getBuildingUpgradeCost buildingType s'
      = (Ret (GameEngine.Finite c'), s') /\
      (100 <= c)%Z /\
      (c + 50 <= c')%Z /\
      (3 * c - 1 <= 2 * c' <= 3 * c + 2)%Z.
Proof.
  intros buildingType s s' building _ Hb Hl E.
  destruct (upgradeBuilding_true buildingType s s' E)
    as (building' & Hb' & _ & Hs' & _).
  rewrite Hb in Hb'. injection Hb' as <-.
  destruct (upgradeCost_step buildingType building Hl)
    as (H1 & H2 & H3 & H4).
  eexists _, _.
  split; [apply getBuildingUpgradeCost_found; exact Hb|].
  split; [apply getBuildingUpgradeCost_found; rewrite Hs';
          apply assoc_mapSet_same|].
  repeat split; assumption.
Qed.

Lemma upgrade_cost_grows_by_half_witness :
  exists s' c',
    GameEngine.upgradeBuilding "altar"
      (GameEngine.set_metaProgression
         (GameEngine.set_echoes 1000
            (GameEngine.metaProgression GameEngine.fresh)) GameEngine.fresh)
    = (Ret true, s') /\
    GameEngine.getBuildingUpgradeCost "altar" s'
    = (Ret (GameEngine.Finite c'), s') /\
    (250 <= c')%Z.
Proof.
  destruct (GameEngine.upgradeBuilding "altar"
              (GameEngine.set_metaProgression
                 (GameEngine.set_echoes 1000
                    (GameEngine.metaProgression GameEngine.fresh))
                 GameEngine.fresh)) as [o s'] eqn:E.
  assert (Ho : o = Ret true) by (vm_compute in E; congruence).
  subst o.
  destruct (upgrade_cost_grows_by_half "altar"
              (GameEngine.set_metaProgression
                 (GameEngine.set_echoes 1000
                    (GameEngine.metaProgression GameEngine.fresh))
                 GameEngine.fresh) s'
              {| GameEngine.level := 1; GameEngine.experience := 0 |})
    as (c & c' & Ec & Ec' & _ & H2 & _).
  - unfold plainKey, inheritedNames. cbn. intuition discriminate.
  - reflexivity.
  - cbn. lia.
  - exact E.
  - exists s', c'. split; [reflexivity|]. split; [exact Ec'|].
    vm_compute in Ec. injection Ec as <-. lia.
Defined.

(** ** The difficulty of a run *)







(** ** Boss scaling *)

Lemma scaled_grows : forall stat dn dr,
  (0 <= stat)%Z -> 0 <= dn -> 1 <= dr ->
  (MapGenerator.scaled stat dn
   <=? JS.floor (MapGenerator.scaled stat dn * Fin dr))%js = true.
Proof.
  intros stat dn dr Hs Hn Hr. unfold MapGenerator.scaled, JS.of_Z.
  cbn [JS.mul JS.floor JS.le]. unfold JS.of_Z.
  apply Qle_bool_iff. rewrite <- Zle_Qle.
  set (z := Qfloor (inject_Z stat * dn)).
  assert (Hz : (0 <= z)%Z).
  { unfold z. change 0%Z with (Qfloor 0). apply Qfloor_resp_le.
    apply Qmult_le_0_compat; [|exact Hn].
    change 0 with (inject_Z 0). rewrite <- Zle_Qle. exact Hs. }
  rewrite <- (Qfloor_Z z) at 1. apply Qfloor_resp_le.
  assert (0 <= inject_Z z)
    by (change 0 with (inject_Z 0); rewrite <- Zle_Qle; exact Hz).
  nra.
Qed.

Lemma max_le_l : forall x y : Q, (Fin x <=? JS.max (Fin x) (Fin y))%js = true.
Proof.
  intros x y. cbn [JS.max]. destruct (Qle_bool x y) eqn:E; cbn [JS.le].
  - exact E.
  - apply Qle_bool_iff. lra.
Qed.

Lemma bossTemplate_cases : forall bossType,
  let template :=
    match MapGenerator.lookup bossType MapGenerator.bossTemplates with
    | Some template => template
    | None => MapGenerator.forest_guardian
    end in
  exists name hp attack defense speed abilities,
    template = (name, hp, attack, defense, speed, abilities) /\
    (0 <= hp)%Z /\ (0 <= attack)%Z /\ (0 <= defense)%Z /\
    ~ In "enraged" abilities.
Proof.
  intros [k|]; cbn [MapGenerator.lookup];
    [unfold MapGenerator.bossTemplates; cbn [assoc];
     repeat match goal with
            | |- context [String.eqb k ?b] => destruct (String.eqb k b)
            end|];
    cbv zeta; unfold MapGenerator.forest_guardian;
    eexists _, _, _, _, _, _;
    (split; [reflexivity|]);
    (repeat split; try lia);
    cbn; intuition discriminate.
Qed.

(** X24.  A boss built by [generateBoss] for a node of non-negative
    difficulty and scaled by [scaleBoss] for a run of difficulty at least 1
    comes out at full health, with hp, attack, defense and level no lower
    than before and a level of at least 10, still a boss of the same type
    and still without [strength]; it is enraged exactly when the run
    difficulty is above 1.5. *)
Theorem scaleBoss_never_weakens_a_generated_boss :
  forall (bossType : option string) (nodeDifficulty runDifficulty : Q),
    (forall k, bossType = Some k -> plainKey k) ->
    0 <= nodeDifficulty ->
    1 <= runDifficulty ->
    let boss := MapGenerator.generateBoss bossType nodeDifficulty in
    let scaledBoss := scaleBoss boss (Fin runDifficulty) in
    Entity.hp scaledBoss = Entity.maxHp scaledBoss /\
    (Entity.hp boss <=? Entity.hp scaledBoss)%js = true /\
    (Entity.attack boss <=? Entity.attack scaledBoss)%js = true /\
    (Entity.defense boss <=? Entity.defense scaledBoss)%js = true /\
    (Entity.level boss <=? Entity.level scaledBoss)%js = true /\
    (10 <=? Entity.level boss)%js = true /\
    Entity.isBoss scaledBoss = true /\
    Entity.type scaledBoss = bossType /\
    Entity.strength scaledBoss = NaN /\
    (In "enraged" (Entity.abilities scaledBoss) <-> 1.5 < runDifficulty).
Proof.
  intros bossType dn dr _ Hn Hr boss scaledBoss.
  subst scaledBoss boss. unfold MapGenerator.generateBoss.
  destruct (bossTemplate_cases bossType)
    as (name & hp & attack & defense & speed & abilities & -> & Hh & Ha & Hd
        & Hab).
  unfold scaleBoss, Entity.enemy.
  cbn [Entity.hp Entity.maxHp Entity.attack Entity.defense Entity.level
       Entity.isBoss Entity.type Entity.strength Entity.abilities].
  split; [reflexivity|].
  split; [apply scaled_grows; assumption|].
  split; [apply scaled_grows; assumption|].
  split; [apply scaled_grows; assumption|].
  assert (Hlv : exists v, JS.max 10 (JS.floor (dn * 10)%Q) = Fin v /\ 10 <= v).
  { unfold lit. cbn [JS.floor JS.max]. unfold JS.of_Z.
    destruct (Qle_bool 10 (inject_Z (Qfloor (dn * 10)))) eqn:E.
    - apply Qle_bool_iff in E. eexists. split; [reflexivity|exact E].
    - eexists. split; [reflexivity|lra]. }
  destruct Hlv as (v & -> & Hv).
  cbn [JS.mul JS.floor]. unfold JS.of_Z.
  split; [apply max_le_l|].
  split; [apply Qle_bool_iff; exact Hv|].
  split; [reflexivity|]. split; [reflexivity|]. split; [reflexivity|].
  unfold JS.gt. cbn [JS.lt lit]. unfold JS.Qltb.
  destruct (Qle_bool dr 1.5) eqn:E; cbn [negb].
  - apply Qle_bool_iff in E. split; [intro H; contradiction|lra].
  - apply Qle_bool_false in E. split; [intros _; exact E|].
    intros _. apply in_or_app. right. left. reflexivity.
Qed.

Lemma scaleBoss_never_weakens_a_generated_boss_witness :
  let boss := MapGenerator.generateBoss (Some "frost_dragon") 1.5 in
  let scaledBoss := scaleBoss boss (Fin 1.6) in
  Entity.hp boss = 450 /\
  (Entity.hp boss <=? Entity.hp scaledBoss)%js = true /\
  In "enraged" (Entity.abilities scaledBoss).
Proof.
  destruct (scaleBoss_never_weakens_a_generated_boss (Some "frost_dragon")
              1.5 1.6) as (_ & Hhp & _ & _ & _ & _ & _ & _ & _ & He).
  - intros k E. injection E as <-. unfold plainKey, inheritedNames. cbn.
    intuition discriminate.
  - lra.
  - lra.
  - cbv zeta. split; [reflexivity|]. split; [exact Hhp|].
    apply He. lra.
Defined.

(** ** The rewards of a run *)

Lemma assoc_app_fresh : forall {A} k (v : A) l1 l2,
  ~ In k (map fst l1) -> assoc k (l1 ++ (k, v) :: l2) = Some v.
Proof.
  intros A k v l1 l2. induction l1 as [|[k0 v0] l1 IH]; cbn [app assoc map fst In].
  - intros _. rewrite String.eqb_refl. reflexivity.
  - intro H. destruct (String.eqb_spec k k0) as [->|_]; [tauto|].
    apply IH. tauto.
Qed.

Lemma mapSet_app_fresh : forall {A} k (v v' : A) l1 l2,
  ~ In k (map fst l1) ->
  Combat.mapSet k v' (l1 ++ (k, v) :: l2) = (l1 ++ (k, v') :: l2)%list.
Proof.
  intros A k v v' l1 l2.
  induction l1 as [|[k0 v0] l1 IH]; cbn [app Combat.mapSet map fst In].
  - intros _. rewrite String.eqb_refl. reflexivity.
  - intro H. destruct (String.eqb_spec k0 k) as [->|_]; [tauto|].
    rewrite IH by tauto. reflexivity.
Qed.

Lemma gainExperience_each : forall gain l2 l1 s,
  GameEngine.buildings (GameEngine.metaProgression s) = (l1 ++ l2)%list ->
  NoDup (map fst (l1 ++ l2)) ->
  forEach (map fst l2) (GameEngine.gainExperience gain) s
  = (Ret tt,
     GameEngine.set_metaProgression
       (GameEngine.set_buildings (l1 ++ map (credited gain) l2)
          (GameEngine.metaProgression s)) s).
Proof.
  intros gain l2. induction l2 as [|[k b] l2 IH]; intros l1 s Hb Hnd.
  - cbn [map forEach]. unfold ret. rewrite <- Hb.
    destruct s as [[] ? ? ? ?]. reflexivity.
  - cbn [map fst forEach]. unfold bind at 1.
    assert (Hk : ~ In k (map fst l1)).
    { intro Hin. rewrite map_app in Hnd. cbn [map fst] in Hnd.
      apply NoDup_remove_2 in Hnd. apply Hnd. apply in_or_app. left.
      exact Hin. }
    unfold GameEngine.gainExperience at 1. ered. rewrite Hb.
    rewrite (assoc_app_fresh k b l1 l2 Hk). ered.
    cbn [GameEngine.metaProgression GameEngine.set_metaProgression
         GameEngine.buildings GameEngine.set_buildings].
    rewrite Hb.
    rewrite (mapSet_app_fresh k b _ l1 l2 Hk).
    rewrite (IH (l1 ++ [credited gain (k, b)])%list).
    + cbn [GameEngine.metaProgression GameEngine.set_metaProgression].
      rewrite <- app_assoc. reflexivity.
    + cbn [GameEngine.metaProgression GameEngine.set_metaProgression
           GameEngine.buildings GameEngine.set_buildings].
      rewrite <- app_assoc. reflexivity.
    + rewrite <- app_assoc. cbn [app]. rewrite !map_app in *.
      cbn [map fst credited] in *. exact Hnd.
Qed.

(** X25.  [applyRunRewards] during a run, with buildings under distinct
    names: the echoes of the reward are added, every building gains 10
    experience for a victory and 5 for a defeat, and the faction of the run
    gains 25 or 10 reputation while the other factions keep theirs.  If the
    engine has no reputation entry for the faction of the run, the call
    throws a TypeError after the echoes and the building experience have
    been credited. *)
Theorem applyRunRewards_books_the_run :
  forall (rewards : GameEngine.RunRewards) (victory : bool)
         (s : GameEngine.t) (run : GameEngine.ActiveRun),
    GameEngine.activeRun s = Some run ->
    plainKey (GameEngine.faction run) ->
    NoDup (map fst (GameEngine.buildings (GameEngine.metaProgression s))) ->
    exists o s',
      GameEngine.applyRunRewards rewards victory s = (o, s') /\
      let m := GameEngine.metaProgression s in
      let m' := GameEngine.metaProgression s' in
      GameEngine.echoes m'
      = (GameEngine.echoes m + GameEngine.rewardEchoes rewards)%Z /\
      GameEngine.buildings m'
      = map (credited (if victory then 10 else 5)%Z) (GameEngine.buildings m) /\
      GameEngine.totalRuns m' = GameEngine.totalRuns m /\
      GameEngine.totalVictories m' = GameEngine.totalVictories m /\
      GameEngine.globalBonuses m' = GameEngine.globalBonuses m /\
      besidesMeta s' = besidesMeta s /\
      match assoc (GameEngine.faction run) (GameEngine.factionReputations m)
      with
      | Some standing =>
          o = Ret tt /\
          assoc (GameEngine.faction run) (GameEngine.factionReputations m')
          = Some {| GameEngine.reputation :=
                      (GameEngine.reputation standing
                       + (if victory then 25 else 10))%Z;
                    GameEngine.reputationLevel :=
                      GameEngine.reputationLevel standing |} /\
          forall k, k <> GameEngine.faction run ->
                    assoc k (GameEngine.factionReputations m')
                    = assoc k (GameEngine.factionReputations m)
      | None =>
          o = Throw TypeError /\
          GameEngine.factionReputations m' = GameEngine.factionReputations m
      end.
Proof.
  intros rewards victory s run Hrun _ Hnd.
  unfold GameEngine.applyRunRewards.
  cbv beta iota delta [bind gets modify GameEngine.update].
  cbn [GameEngine.metaProgression GameEngine.set_metaProgression
       GameEngine.buildings GameEngine.set_echoes].
  rewrite (gainExperience_each _
             (GameEngine.buildings (GameEngine.metaProgression s)) []);
    [|reflexivity|exact Hnd].
  cbn [app GameEngine.activeRun GameEngine.set_metaProgression].
  rewrite Hrun.
  cbn [GameEngine.metaProgression GameEngine.set_metaProgression
       GameEngine.factionReputations GameEngine.set_buildings
       GameEngine.set_echoes].
  destruct (assoc (GameEngine.faction run)
              (GameEngine.factionReputations (GameEngine.metaProgression s)))
    as [standing|] eqn:E.
  - eexists _, _. split; [reflexivity|]. cbv zeta.
    cbn [GameEngine.metaProgression GameEngine.set_metaProgression
         GameEngine.factionReputations GameEngine.set_factionReputations
         GameEngine.set_buildings GameEngine.set_echoes GameEngine.echoes
         GameEngine.buildings GameEngine.totalRuns GameEngine.totalVictories
         GameEngine.globalBonuses].
    repeat split.
    + destruct victory; apply assoc_mapSet_same.
    + intros k Hk. apply assoc_mapSet_other. exact Hk.
  - eexists _, _. split; [reflexivity|]. cbv zeta.
    repeat split.
Qed.

Lemma applyRunRewards_books_the_run_witness :
  exists run s',
    let s := GameEngine.set_activeRun (Some run) GameEngine.fresh in
    GameEngine.applyRunRewards
      {| GameEngine.rewardEchoes := 120; GameEngine.rewardItems := [];
         GameEngine.rewardResources := None |} true s
    = (Ret tt, s') /\
    GameEngine.echoes (GameEngine.metaProgression s') = 120%Z /\
    assoc "shadow" (GameEngine.factionReputations (GameEngine.metaProgression s'))
    = Some {| GameEngine.reputation := 25; GameEngine.reputationLevel := 1 |}.
Proof.
  destruct (Entities.createCharacter "rogue" "shadow") as [c| |] eqn:Ec;
    try (vm_compute in Ec; discriminate).
  set (run := {| GameEngine.id := 0; GameEngine.character := c;
                 GameEngine.faction := "shadow";
                 GameEngine.map :=
                   {| MapGenerator.id := 0; MapGenerator.run_regions := [];
                      MapGenerator.run_nodes := [];
                      MapGenerator.totalNodes := 0;
                      MapGenerator.estimatedDifficulty := NaN |};
                 GameEngine.currentNodeIndex := 0;
                 GameEngine.inventory := [];
                 GameEngine.resources := [];
                 GameEngine.runStats :=
                   {| GameEngine.enemiesDefeated := 0;
                      GameEngine.damageDealt := 0;
                      GameEngine.damageTaken := 0;
                      GameEngine.itemsFound := 0;
                      GameEngine.startTime := 0 |};
                 GameEngine.difficulty := 1 |}).
  destruct (applyRunRewards_books_the_run
              {| GameEngine.rewardEchoes := 120; GameEngine.rewardItems := [];
                 GameEngine.rewardResources := None |} true
              (GameEngine.set_activeRun (Some run) GameEngine.fresh) run)
    as (o & s' & E & He & _ & _ & _ & _ & _ & Hf).
  - reflexivity.
  - unfold plainKey, inheritedNames. cbn. intuition discriminate.
  - cbn. repeat constructor; cbn; intuition discriminate.
  - cbn in Hf. destruct Hf as (-> & Hrep & _).
    exists run, s'. cbv zeta. split; [exact E|]. split; [exact He|].
    exact Hrep.
Defined.

(** ** Starting a run, picking up resources *)

(** X26.  [startNewRun] never starts a run.  Whatever class and faction it
    is given it throws (for a class that exists, when
    [applyMetaProgressionBonuses] calls a method the character object does
    not have) and leaves the engine as it was: no active run is installed,
    the counter of runs is not raised, no map is generated and neither the
    clock nor the random source is read. *)
Theorem startNewRun_always_throws :
  forall (rnd : nat -> Q) (date : nat -> Z) (className factionName : string)
         (s : GameEngine.t),
    exists e : string,
      GameEngine.startNewRun rnd date className factionName s = (Throw e, s) /\
      (In className (map fst Entities.classTemplates) -> e = TypeError).
Proof.
  intros rnd date className factionName s.
  unfold GameEngine.startNewRun, try_catch, GameEngine.lift.
  unfold bind at 1.
  destruct (Entities.createCharacter className factionName)
    as [c|e|] eqn:Ec.
  - unfold bind at 1.
    unfold GameEngine.onCharacter, GameEngine.applyMetaProgressionBonuses.
    cbv beta iota delta [bind gets modify throw fst snd].
    exists TypeError. split; [reflexivity|]. intros _. reflexivity.
  - exists e. split; [reflexivity|]. intro Hin.
    unfold Entities.createCharacter in Ec.
    destruct (assoc className Entities.classTemplates) eqn:E;
      [discriminate|].
    exfalso. exact (assoc_None_keys _ _ E Hin).
  - unfold Entities.createCharacter in Ec.
    destruct (assoc className Entities.classTemplates); discriminate.
Qed.


Lemma calculateTimeBonus_runs : forall date s run,
  GameEngine.activeRun s = Some run ->
  exists timeBonus,
    GameEngine.calculateTimeBonus date s
    = (Ret timeBonus, GameEngine.set_clock (S (GameEngine.clock s)) s) /\
    (0 <= timeBonus)%Z /\
    (GameEngine.startTime (GameEngine.runStats run)
     <= date (GameEngine.clock s) -> timeBonus <= 30)%Z.
Proof.
  intros date s run Hrun. unfold GameEngine.calculateTimeBonus, GameEngine.now.
  cbv beta iota delta [bind gets ret]. rewrite Hrun.
  set (runTime := (date (GameEngine.clock s)
                   - GameEngine.startTime (GameEngine.runStats run))%Z).
  destruct (Z.ltb_spec runTime (30 * 60 * 1000)) as [Hlt|Hge].
  - eexists. split; [reflexivity|].
    assert (Hq : 0 < inject_Z (30 * 60 * 1000 - runTime))
      by (change 0 with (inject_Z 0); rewrite <- Zlt_Qlt; lia).
    split.
    + change 0%Z with (Qfloor 0). apply Qfloor_resp_le.
      set (x := inject_Z (30 * 60 * 1000 - runTime)) in *.
      assert (x / 1000 / 60 == x * (1 # 60000)) by (field).
      rewrite H. nra.
    + intro Hs. apply Z.lt_succ_r.
      change (Z.succ 30) with (Qfloor 31).
      assert (Hle : inject_Z (30 * 60 * 1000 - runTime) <= 1800000).
      { change 1800000 with (inject_Z 1800000). rewrite <- Zle_Qle.
        unfold runTime. lia. }
      set (x := inject_Z (30 * 60 * 1000 - runTime)) in *.
      assert (Hx : x / 1000 / 60 == x * (1 # 60000)) by (field).
      assert (Hb : x / 1000 / 60 <= 30) by (rewrite Hx; nra).
      apply Z.le_lt_trans with (m := Qfloor 30); [|reflexivity].
      apply Qfloor_resp_le. exact Hb.
  - exists 0%Z. split; [reflexivity|]. split; lia.
Qed.

(** X28.  During a run [calculateRunRewards] reads the clock once and
    changes nothing else.  With a non-negative difficulty, gold multiplier
    and count of defeated enemies the echoes of the reward are not
    negative, and a victory pays at least as much as a defeat at the same
    moment.  The reward carries the resources of the run and no items. *)
Theorem calculateRunRewards_victory_pays_more :
  forall (date : nat -> Z) (s : GameEngine.t) (run : GameEngine.ActiveRun),
    GameEngine.activeRun s = Some run ->
    0 <= GameEngine.difficulty run ->
    0 <= GameEngine.goldMultiplier
           (GameEngine.globalBonuses (GameEngine.metaProgression s)) ->
    (0 <= GameEngine.enemiesDefeated (GameEngine.runStats run))%Z ->
    exists won lost : GameEngine.RunRewards,
      let s' := GameEngine.set_clock (S (GameEngine.clock s)) s in
      GameEngine.calculateRunRewards date true s = (Ret won, s') /\
      GameEngine.calculateRunRewards date false s = (Ret lost, s') /\
      (0 <= GameEngine.rewardEchoes lost <= GameEngine.rewardEchoes won)%Z /\
      GameEngine.rewardItems won = [] /\
      GameEngine.rewardItems lost = [] /\
      GameEngine.rewardResources won = Some (GameEngine.resources run) /\
      GameEngine.rewardResources lost = Some (GameEngine.resources run).
Proof.
  intros date s run Hrun Hd Hg He.
  destruct (calculateTimeBonus_runs date s run Hrun)
    as (timeBonus & Et & Ht & _).
  unfold GameEngine.calculateRunRewards.
  cbv beta iota delta [bind gets ret]. rewrite Hrun, Et.
  cbn [GameEngine.metaProgression GameEngine.set_clock].
  eexists _, _. cbv zeta.
  split; [reflexivity|]. split; [reflexivity|].
  cbn [GameEngine.rewardEchoes GameEngine.rewardItems
       GameEngine.rewardResources GameEngine.generateRewardItems].
  split; [|repeat split].
  set (g := GameEngine.goldMultiplier
              (GameEngine.globalBonuses (GameEngine.metaProgression s))) in *.
  set (d := GameEngine.difficulty run) in *.
  set (n := GameEngine.enemiesDefeated (GameEngine.runStats run)) in *.
  assert (H20 : (0 <= Qfloor (inject_Z 20 * d))%Z).
  { change 0%Z with (Qfloor 0). apply Qfloor_resp_le.
    change (inject_Z 20) with 20. lra. }
  assert (H50 : (Qfloor (inject_Z 20 * d) <= Qfloor (inject_Z 50 * d))%Z).
  { apply Qfloor_resp_le. change (inject_Z 20) with 20.
    change (inject_Z 50) with 50. lra. }
  split.
  - change 0%Z with (Qfloor 0). apply Qfloor_resp_le.
    apply Qmult_le_0_compat; [|exact Hg].
    change 0 with (inject_Z 0). rewrite <- Zle_Qle. lia.
  - apply Qfloor_resp_le. apply Qmult_le_compat_r; [|exact Hg].
    rewrite <- Zle_Qle. lia.
Qed.

Lemma calculateRunRewards_victory_pays_more_witness :
  exists run won lost s',
    GameEngine.calculateRunRewards (fun _ => 600000%Z) true
      (GameEngine.set_activeRun (Some run) GameEngine.fresh) = (Ret won, s') /\
    GameEngine.calculateRunRewards (fun _ => 600000%Z) false
      (GameEngine.set_activeRun (Some run) GameEngine.fresh) = (Ret lost, s') /\
    (0 <= GameEngine.rewardEchoes lost <= GameEngine.rewardEchoes won)%Z /\
    GameEngine.rewardEchoes won = 135%Z.
Proof.
  destruct (Entities.createCharacter "rogue" "shadow") as [c| |] eqn:Ec;
    try (vm_compute in Ec; discriminate).
  set (run := {| GameEngine.id := 0; GameEngine.character := c;
                 GameEngine.faction := "shadow";
                 GameEngine.map :=
                   {| MapGenerator.id := 0; MapGenerator.run_regions := [];
                      MapGenerator.run_nodes := [];
                      MapGenerator.totalNodes := 0;
                      MapGenerator.estimatedDifficulty := NaN |};
                 GameEngine.currentNodeIndex := 0;
                 GameEngine.inventory := [];
                 GameEngine.resources := [];
                 GameEngine.runStats :=
                   {| GameEngine.enemiesDefeated := 3;
                      GameEngine.damageDealt := 0;
                      GameEngine.damageTaken := 0;
                      GameEngine.itemsFound := 0;
                      GameEngine.startTime := 0 |};
                 GameEngine.difficulty := 1 |}).
  destruct (calculateRunRewards_victory_pays_more (fun _ => 600000%Z)
              (GameEngine.set_activeRun (Some run) GameEngine.fresh) run)
    as (won & lost & Ew & El & Hle & _).
  - reflexivity.
  - cbn. lra.
  - cbn. lra.
  - cbn. lia.
  - exists run, won, lost. eexists. split; [exact Ew|]. split; [exact El|].
    split; [exact Hle|].
    vm_compute in Ew. injection Ew as <-. reflexivity.
Defined.
